(* ===== verification/_CoqProject ===== *)
-Q . S2P
Prelude.v
Int64.v
Micros.v
Word64.v
DataModel.v
Decimal.v
DecimalRef.v
DecimalWf.v
CString.v
Buffer.v
Heap.v
Host.v
Shell.v
ClockGettime.v
Builtin.v
Format.v
Run.v
Ownership.v
Separation.v
Usage.v
Trace.v
TranslationUnit.v
Prototypes.v
Loader.v
Contract.v
Repair.v
Tree.v
Session.v
Stopwatch.v
Visible.v
SessionSpec.v
