(* ===== verification/Prelude.v ===== *)
(** * timep: a verified model of the [clock_gettime] loadable builtin

    The repository is one C file, [src/LOADABLES/SRC/timep.c], a loadable
    builtin for the bash shell.  It registers one command, [clock_gettime
    [<VAR>]], which reads the CPU time of the calling process with the
    [clock_gettime(CLOCK_PROCESS_CPUTIME_ID, ...)] system call, converts the
    [struct timespec] to microseconds in an [int64_t], and either prints the
    decimal value on standard output or binds it to the shell variable
    [VAR].

    ** Parts of the program and the files that model them

    - [Prelude] (this file): the outcome monad in which the C functions
      are written ([Done] for a normal return with the new world, [Undef]
      for undefined behaviour), its notation in [timep_scope], the frame
      predicate [preserves], the tactics and the hint databases [timep] and
      [timep_rw] shared by the other files, and generic lemmas on
      truncating division and on options.
    - [Int64]: the arithmetic of [int64_t] / [long long]: the range, the
      two's complement reduction [I64.wrap], and the checked operations
      [I64.add], [I64.mul], [I64.div] that return [None] where C leaves the
      result undefined (signed overflow, division by zero).  Division is
      [Z.quot]: C99 truncates toward zero.
    - [Micros]: [struct timespec] and the conversion of line 85,
      [micros = ts.tv_sec * 1000000LL + ts.tv_nsec / 1000], both checked
      ([micros_of_timespec], [None] on overflow) and as the wrapped value a
      two's complement machine computes ([micros_wrap]).
    - [Word64]: line 85 on 64-bit machine words ([micros_word]), against
      the [word] interface of coqutil, for any implementation of it.
    - [DataModel]: line 85 with the C types of its operands ([time_t],
      [long], [long long], [int]) and the usual arithmetic conversions, for
      a platform given by the widths of [time_t] and [long]
      ([micros_at]).
    - [Decimal]: the [%lld] conversion used by [snprintf] (line 89) and
      [printf] (line 92): the digit loop with fuel, the sign, the bounded
      copy into [buf_micros[32]], and a reference parser for the round trip.
    - [DecimalRef]: the same text defined independently, as the Standard
      Library's decimal numeral of the integer, and the proof that the two
      agree.
    - [DecimalWf]: the digit loop without a bound ([digits_of]), by
      well-founded recursion on the magnitude.
    - [CString]: NUL-terminated strings as [string]s without a NUL
      character, [strcmp] (line 123) and the test [argv[1][0] != '\0']
      (line 72); suffixes of strings, for the symbol names of the loader.
    - [Buffer]: lines 88-90 on the bytes of the array: [buf_micros] as 32
      cells that hold whatever the stack held, the store of [snprintf]
      with its terminator ([line_89]) and the read of the C string by
      [bind_variable] ([bound_value]).
    - [Heap]: the blocks handed out by the allocator, as a finite map from
      addresses to [Live] or [Freed], with [xfree] as bash defines it (a
      null pointer is ignored, freeing a block twice is undefined).
    - [Host]: what the builtin consumes from the shell and the C library,
      as interfaces.  The class [Host] has the operations ([bind_variable],
      [builtin_error], [write_stdout], [sys_clock_gettime], [strerror],
      [host_xfree], [make_builtin_argv]) over an abstract world [W] with an
      observation [observe : W -> obs] (variables, standard output,
      diagnostics, heap, number of clock reads); [HostLaws] says what each
      operation does to the observation; [Registry] and [RegistryLaws] do
      the same for [add_builtin] and the table of builtins; [HostFrame f]
      says that the operations leave the part [f] of the world alone.  The
      theorems of [ClockGettime], [Builtin] and [Contract] are proved
      against these interfaces.
    - [Shell]: the concrete shell, a record with the variable table
      ([gmap string shell_var], with the readonly attribute), the bytes
      written to standard output, the diagnostics, the heap, the clock and
      the table of builtins, with the instances that discharge [HostLaws],
      [RegistryLaws] and [HostFrame]; on it the builtin runs by
      computation.
    - [ClockGettime]: [clock_gettime_main] (lines 66-101), the whole
      function with both arms of [#if defined(CLOCK_PROCESS_CPUTIME_ID)]
      (the flag [have_clock] selects the arm), composed of its guards and
      branches as the code composes them.
    - [Builtin]: [clock_gettime_doc], [clock_gettime_struct],
      [timep_builtin] (lines 116-132) and [setup_builtin_timep]
      (lines 134-137).
    - [Format]: the format strings of lines 68, 79, 89, 92, 97 and 126 as
      the source writes them ([FMT_68] ... [FMT_126]), read into literal
      characters and the directives [%s] and [%lld] ([parse_format]) and
      rendered for arguments that carry their C type ([render],
      [sprintf]); [arg_cast_long_long] is the cast of lines 89 and 92.
    - [Run]: the runs of [timep_builtin] as an inductive relation
      [run_path], one rule per path through lines 116-132 and 66-101 with
      the worlds it goes through, and the functions [expected_result] and
      [expected_obs] that give the status and the observation a run
      leaves.  These functions are specifications written by hand, not
      translations of the code: the theorems compare the code with
      them.
    - [Ownership]: [caller], the entry point with the release of line 130
      decided from the status of [clock_gettime_main]; [timep_builtin] is
      the caller that always releases.  [entry_with] and [dispatch_to]
      are lines 116-132 with the function called at line 124 as a
      parameter, and the class [Borrows] is what line 130 asks of that
      function; [main_without_release] is [clock_gettime_main] without
      lines 80 and 98.
    - [Separation]: the same obligation as ownership, in the separation
      logic of Iris.  The heap of [Heap] is the heap of [gen_heap]
      ([p ↦ Live], [p ↦ Freed]); [wp] is the weakest precondition of a
      run of the outcome monad, with a postcondition for the return and
      one for undefined behaviour; [borrows_sl] is the contract of the
      callee (given the block of [argv], it returns and gives it back);
      [wp_adequacy] reads a statement about the run off a weakest
      precondition.
    - [Usage]: the synopsis of line 108 read as a command name and its
      operands ([parse_synopsis]), and the numbers of arguments it
      describes ([accepts]); [legal_identifier] is the shell's test of
      the name of a variable, which the code does not apply.
    - [Trace]: a second host, built over any host, that performs each
      operation beneath and appends it to a list ([traced], with its
      [Host] and [HostLaws] instances), and the calls the source is
      expected to make on each path, in order, as a function written by
      hand ([expected_calls]).
    - [TranslationUnit]: lines 3-50 and the first line of every
      definition: the words of the build line that the comment of line 3
      documents ([build_line]), the feature
      macro of lines 6-8 ([define_gnu_source]), the headers of lines 11-42
      ([included]), the declarations at file scope with their linkage and
      the names each definition uses ([timep_c]); from them the test of
      line 76 ([have_clock_of]), the checks of the compiler
      ([well_formed]), the symbols the object shows ([exported]) and needs
      ([imports]).
    - [Prototypes]: the parameters of every declarator of the file
      ([prototypes], lines 45-50, and the declarators of lines 66, 116
      and 134) and the number of arguments of every call
      ([calls_of_main], [calls_of_entry], [calls_of_setup]), with the
      compiler's check of one against the other ([translates]) for the
      editions C17 and C23 of the language.
    - [Loader]: [enable -f timep.so NAME] as bash performs it: [dlopen],
      [dlsym] on the exported symbols of [timep_c], the symbols
      [NAME_struct] and [NAME_builtin_load], the descriptor entered in the
      table ([enable_f]).
    - [Contract]: the contract of the command as the specification states
      it (what is printed, assigned or reported, with which status), on an
      abstract state, and the refinement theorem that [timep_builtin]
      implements it up to the return from a clock failure.
    - [Repair]: [timep_builtin_repaired], the entry point around
      [main_without_release], compared with [timep_builtin] run for run
      ([release_left] relates two runs of which one has a release left
      to do).
    - [Tree]: lines 66-101 and 116-132 once more, as interaction trees
      over the events [hostE], one event per call of the C file
      ([clock_gettime_main_tree], [timep_builtin_tree]); handlers give
      the events their meaning in a world of a [Host] ([handle_host],
      and [handle_closed] where [printf] fails); [calls_of] lists the
      calls of a tree for given answers.
    - [Session]: a shell session as a step relation over the concrete
      shell (register the builtin or load it by name, let CPU time pass,
      invoke a command by name), its executable counterpart [exec], and
      the invariant of reachable states.
    - [SessionSpec]: the same session at the level of the specification,
      one function [spec_exec] over the abstract state of [Contract], and
      the abstraction [spec_of] from the sessions of [Session].
    - [Stopwatch]: the use the command is made for, two readings into
      two variables around a piece of work ([stopwatch]), run through the
      session.
    - [Visible]: what a script can tell apart, as an equivalence [≡] on
      observations, shells, outcomes and sessions: the variables, the two
      output channels and the allocated blocks, not the addresses of
      released blocks or the count of clock reads; with the [Proper]
      instances of the operations of the host, of the monad and of the
      session.

    ** What the theorems show

    - Bounds ([Int64], [Micros]): for a normalised timespec with
      [0 <= tv_sec <= 9223372036853] ([MAX_SAFE_SEC]) the conversion does
      not overflow, is non-negative, is monotone in the time read, and
      truncates the nanoseconds toward zero; [micros_overflow_example]
      exhibits the first second at which the product overflows.
      [DataModel] shows that the 64-bit arithmetic of [Micros] is what
      line 85 computes on every platform whose [long] has 32 to 64 bits
      ([micros_at_any_width]), and that with a 32-bit [time_t] the line
      cannot overflow ([micros_at_ilp32_defined]).  [Word64] says what
      the compiled code leaves in the register, where nothing is
      undefined and arithmetic wraps: for a normalized reading the
      register holds the nanoseconds divided by 1000, rounded down,
      exactly when that number is at most [2^63 - 1]
      ([micros_word_exact_iff]).
    - Round trips and bounds ([Decimal]): the digit loop ends within its
      fuel of 20 iterations, the text has at most 20 characters and so
      always fits [buf_micros[32]], parsing the text gives the number back,
      and the line printed for a non-negative value is a run of digits and
      a newline.  [DecimalRef] shows that the text is the numeral the
      Standard Library prints ([buf_micros_is_numeral]).  [DecimalWf]
      shows that the loop terminates without the fuel and that the twenty
      iterations compute what the unbounded loop computes
      ([buf_micros_unbounded]).  [Buffer] shows
      that the store stays inside the array whatever it held before, that
      the read ends at the terminator, and that what [bind_variable] reads
      is that text ([buf_micros_bytes]).
    - Formats ([Format]): the six format strings, formatted with the
      arguments the source passes, give the texts the other files write
      ([formats_of_timep_c]), a command name that contains a [%] included;
      without the cast of lines 89 and 92 the call is defined only where
      [long] is shorter than 64 bits ([cast_to_long_long_needed]).
    - Functional behaviour ([ClockGettime], [Builtin]): the result of every
      branch of [clock_gettime_main] and [timep_builtin], errors included:
      which status is returned, what is written where, what is left
      untouched.
    - Safety ([Builtin]): on the successful paths, on the usage error and
      for an unknown name the argument vector is freed exactly once; on the
      two failure paths that call [xfree(argv)] inside [clock_gettime_main]
      it is freed twice, which is undefined behaviour
      ([timep_builtin_double_free]); [timep_builtin_outcomes] shows that
      these and the overflow are the only ways a run can end.
    - Every run ([Run]): [timep_builtin_path] shows that a run is one of
      the six paths of [run_path]; [timep_builtin_observe] gives from it
      the status and the whole observation of every run, on every host, as
      functions of what the host showed before; hence two hosts that show
      the same are left showing the same
      ([timep_builtin_host_independent]), and what is computed on the
      shell of [Shell] holds of every host.
    - Ownership ([Ownership]): [status_does_not_tell_ownership] shows
      that the double free cannot be repaired in the caller: no decision
      taken from the status of [clock_gettime_main] releases [argv]
      exactly once on every path.  The entry point is proved against the
      obligation of its callee ([entry_with_releases_once]: a callee that
      returns with the heap as it found it has [argv] released once);
      [main_borrows_iff] shows that [clock_gettime_main] meets the
      obligation exactly where the clock exists and works, and
      [entry_without_release] that the function without lines 80 and 98
      meets it everywhere.  [Separation] weakens what is asked of the
      callee to what lines 116-132 use: [entry_with_local] shows that
      around any callee that returns the block it was given, whatever it
      does with memory of its own, the entry point returns, [argv] is
      released and every block that existed before is untouched;
      [with_scratch_not_borrows] is a callee that meets this contract
      and not the one of [Ownership]; [double_free_from_ownership]
      finds the double free of the source from the resources.
    - Order of calls ([Trace]): [timep_builtin_calls] gives, for every
      host and on every path, how the run ends and the exact sequence of
      calls it made: the clock is read once and before the value is
      emitted, not at all on a usage error; a diagnostic precedes the
      release of [argv]; the release of line 130 is the last call of a
      run that returns.
    - Refinement ([Contract]): [timep_builtin_refines_contract] is a
      functional refinement along the abstraction [abstract], on every
      path: the state the contract asks for is always reached, and the
      status is the contract's except that a clock failure ends in the
      double free; [timep_builtin_success_iff] says when the status is
      success.  [Repair] shows that deleting lines 80 and 98 is enough
      and changes nothing else: the changed entry point implements the
      contract for every response ([repaired_refines_contract]), runs
      exactly as the source wherever the source returns, and returns
      [EXECUTION_FAILURE] where the source releases [argv] a second time
      ([repair_conservative]).
    - Other hosts ([Tree]): a tree can be run by any handler.
      [printf_failure_unreported] runs the command where [printf] fails
      and finds the status [EXECUTION_SUCCESS] with nothing printed and
      nothing reported.  The lemma [timep_builtin_simulates] is not
      about the C file: it ties the trees to the functions of
      [Builtin], so that the tree under [handle_host] is the program
      the other theorems speak of.
    - Invariants ([Session]): by induction on the step relation, every
      reachable state of a shell with a working clock satisfies [inv]; no
      such session reaches undefined behaviour; the values printed are
      non-decreasing.  These sessions are closed: no event makes the
      system call fail or a variable readonly, so lines 78-81 are never
      run in them.  [session_clock_failure] opens them: from any
      reachable state, once the system call fails the next invocation
      with at most one argument crashes the shell.  Without the process
      clock the command crashes the session as well.
    - Simulation ([SessionSpec]): [session_refines_spec] carries the
      refinement of one call through whole sessions: on every sequence of
      events the session that runs the code and the session of the
      specification refuse together or end in corresponding states.
    - End to end ([Stopwatch]): [session_stopwatch] composes the
      session, the entry point, the conversion and the decimal text: the
      two variables read back as numbers whose difference is the CPU time
      used between the two commands, in microseconds, to within one.
    - Addresses ([Visible]): [timep_builtin_visible] shows that the
      address of [argv] reaches nothing a script can see: in worlds that
      differ only in the addresses of their blocks the command returns
      the same status and leaves worlds that again differ only so; hence
      the command, the registration, [enable -f] and a whole session are
      morphisms of [≡].  [assign_twice] shows that a second
      [clock_gettime VAR] at the same reading of the clock leaves what
      the first left.
    - Documentation ([Usage]): [usage_error_iff] shows that the synopsis
      of the descriptor and the test of line 67 describe the same
      argument lists.
    - Compilation and loading ([TranslationUnit], [Loader]): every name
      is declared before it is used ([timep_c_declared_before_use]); the
      object exports [clock_gettime_struct] and [setup_builtin_timep] and
      nothing else; the arm of line 76 that is compiled depends on the
      system alone ([have_clock_of_system]); [enable -f] loads exactly the
      name [clock_gettime], never calls [setup_builtin_timep] and does
      not need [add_builtin] ([enable_f_loads], [timep_c_add_builtin]);
      the command of line 3, with [-c], writes a file that [dlopen]
      refuses ([enable_file_build_line]).  [Prototypes] shows that every
      call passes a number of arguments that every declaration in scope
      accepts if the empty parameter list of line 46 is read as C17 reads
      it, and that under C23 the file is refused
      ([timep_c_translates_iff]).

    ** Bounds and fuel

    Integers are [Z] with the 64-bit range made explicit; the model is of
    an LP64 platform, where [time_t], [long] and [long long] are 64 bits,
    and [DataModel] proves that other widths give the same results.
    [fmt_fuel] is 20 because [2^64 < 10^20]: [digits_loop_fuel_enough]
    proves that more fuel never changes the result on that range, and
    [DecimalWf.digits_loop_wf] that on every magnitude below [10 ^ fuel]
    the loop with fuel is the loop defined by well-founded recursion.  The
    heap is a finite map, so allocation never fails for lack of
    addresses.  A session's clock is bounded by a parameter [limit]; the
    invariant needs [limit <= MAX_SAFE_SEC], about 292000 years of CPU
    time.  [TranslationUnit.reach] follows the names a definition uses
    to a depth of the number of declarations, nine;
    [timep_c_reach_fuel] proves that any greater depth reaches the same
    names.

    ** What is not modelled

    The shell itself (parsing, word splitting, pipelines, subshells) and
    the C library are outside the repository: the operations the builtin
    calls are modelled from their documented behaviour.  [builtin_error]
    records the message without the prefix the shell adds; standard
    output is unbuffered, and fails only under [Tree.handle_closed];
    [strerror] is a parameter.  Of
    the formats of [printf] only the directives the file uses are read
    ([%s], [%lld] and [%%]), without flags, width or precision.  The
    bytes of the argument strings are not laid out in memory: only the
    array [argv], which the builtin frees, is a heap block, and only
    [buf_micros] is an array of bytes.  Of the headers only the
    declarations of the functions the file calls are modelled, with the
    number of their parameters, not the types of the parameters and not
    the macros; of the compiler driver only the effect of [-c],
    [-shared] and [-D]; of the loader only the lookup of symbols and the
    entry in the table, not relocation, lazy binding or unloading.  The
    comments of lines 1-2, 44, 48 and 52-54 have no counterpart. *)

From Stdlib Require Import ZArith Lia List Bool.
Import ListNotations.

#[local] Open Scope Z_scope.

(** ** The outcome monad

    A C function of the builtin runs in a world [W] and either returns a
    value with the world it leaves, or runs into undefined behaviour of
    kind [U]; the world at that point is kept, for the theorems that say
    what had happened before. *)

Inductive outcome (W U A : Type) : Type :=
| Done (a : A) (w : W)
| Undef (u : U) (w : W).

Arguments Done {W U A} a w.
Arguments Undef {W U A} u w.

Definition M (W U A : Type) : Type := W -> outcome W U A.

Definition ret {W U A} (a : A) : M W U A := fun w => Done a w.

Definition bind {W U A B} (m : M W U A) (k : A -> M W U B) : M W U B :=
  fun w => match m w with
           | Done a w' => k a w'
           | Undef u w' => Undef u w'
           end.

Definition undef {W U A} (u : U) : M W U A := fun w => Undef u w.

Definition modify {W U} (f : W -> W) : M W U unit := fun w => Done tt (f w).

Definition gets {W U A} (f : W -> A) : M W U A := fun w => Done (f w) w.

(** A partial update of the world: [None] is undefined behaviour [u]. *)
Definition try_modify {W U} (u : U) (f : W -> option W) : M W U unit :=
  fun w => match f w with
           | Some w' => Done tt w'
           | None => Undef u w
           end.

(** A value C leaves undefined when it is [None]. *)
Definition defined {W U A} (u : U) (o : option A) : M W U A :=
  match o with
  | Some a => ret a
  | None => undef u
  end.

Definition is_done {W U A} (o : outcome W U A) : bool :=
  match o with Done _ _ => true | Undef _ _ => false end.

Definition world_of {W U A} (o : outcome W U A) : W :=
  match o with Done _ w => w | Undef _ w => w end.

Definition value_of {W U A} (o : outcome W U A) : option A :=
  match o with Done a _ => Some a | Undef _ _ => None end.

Declare Scope timep_scope.
Delimit Scope timep_scope with timep.

Notation "x <- m ;; k" := (bind m (fun x => k))
  (at level 100, m at next level, k at level 200, right associativity)
  : timep_scope.
Notation "m ;; k" := (bind m (fun _ => k))
  (at level 100, k at level 200, right associativity) : timep_scope.

(** ** Tactics and hints *)

Create HintDb timep discriminated.
Create Rewrite HintDb timep_rw.

(** [inv H]: inversion that cleans up after itself. *)
Ltac inv H := inversion H; subst; clear H.

(** [destr_match]: case analysis on the scrutinee of the first [match] or
    [if] of the goal, remembering the equation. *)
Ltac destr_match :=
  match goal with
  | |- context [match ?x with _ => _ end] =>
      let E := fresh "E" in destruct x eqn:E
  end.

(** [split_conj]: one goal per conjunct. *)
Ltac split_conj := repeat match goal with |- _ /\ _ => split end.

(** [run_M]: unfold the monad's combinators so that a run computes. *)
Ltac run_M :=
  cbv [bind ret undef modify gets try_modify defined] in *.

(** ** Monad laws *)

Section MonadLaws.
Context {W U : Type}.

Lemma bind_ret_l {A B} (a : A) (k : A -> M W U B) (w : W) :
  bind (ret a) k w = k a w.
Proof. reflexivity. Qed.

Lemma bind_ret_r {A} (m : M W U A) (w : W) : bind m ret w = m w.
Proof. unfold bind, ret. destruct (m w); reflexivity. Qed.

Lemma bind_assoc {A B C} (m : M W U A) (k : A -> M W U B)
  (h : B -> M W U C) (w : W) :
  bind (bind m k) h w = bind m (fun a => bind (k a) h) w.
Proof. unfold bind. destruct (m w); reflexivity. Qed.

Lemma bind_done {A B} (m : M W U A) (k : A -> M W U B) w a w' :
  m w = Done a w' -> bind m k w = k a w'.
Proof. unfold bind. intros ->. reflexivity. Qed.

Lemma bind_undef {A B} (m : M W U A) (k : A -> M W U B) w u w' :
  m w = Undef u w' -> bind m k w = Undef u w'.
Proof. unfold bind. intros ->. reflexivity. Qed.

(** A run that ends well went through a first part that ended well. *)
Lemma bind_done_inv {A B} (m : M W U A) (k : A -> M W U B) w b w2 :
  bind m k w = Done b w2 ->
  exists a w1, m w = Done a w1 /\ k a w1 = Done b w2.
Proof.
  unfold bind. destruct (m w) as [a w1|u w1]; [eauto | discriminate].
Qed.

End MonadLaws.

#[export] Hint Rewrite @bind_ret_l @bind_ret_r @bind_assoc : timep_rw.

(** ** Frames

    [preserves f m]: the computation [m] leaves the part [f] of the world
    as it found it, whether it ends well or not. *)

Section Preserves.
Context {W U X : Type} (f : W -> X).

Definition preserves {A} (m : M W U A) : Prop :=
  forall w, f (world_of (m w)) = f w.

Lemma preserves_ret {A} (a : A) : preserves (ret a).
Proof. intros w. reflexivity. Qed.

Lemma preserves_undef {A} (u : U) : preserves (@undef W U A u).
Proof. intros w. reflexivity. Qed.

Lemma preserves_bind {A B} (m : M W U A) (k : A -> M W U B) :
  preserves m -> (forall a, preserves (k a)) -> preserves (bind m k).
Proof.
  intros Hm Hk w. unfold bind. specialize (Hm w).
  destruct (m w) as [a w1|u w1]; simpl in *; [rewrite Hk|]; exact Hm.
Qed.

Lemma preserves_modify (g : W -> W) :
  (forall w, f (g w) = f w) -> preserves (@modify W U g).
Proof. intros Hg w. apply Hg. Qed.

Lemma preserves_try_modify (u : U) (g : W -> option W) :
  (forall w w', g w = Some w' -> f w' = f w) -> preserves (try_modify u g).
Proof.
  intros Hg w. unfold try_modify. destruct (g w) as [w'|] eqn:E; simpl; [eauto | reflexivity].
Qed.

Lemma preserves_defined {A} (u : U) (o : option A) : preserves (defined u o).
Proof. destruct o; [apply preserves_ret | apply preserves_undef]. Qed.

Lemma preserves_if {A} (b : bool) (m1 m2 : M W U A) :
  preserves m1 -> preserves m2 -> preserves (if b then m1 else m2).
Proof. destruct b; auto. Qed.

Lemma preserves_done {A} (m : M W U A) (w : W) (a : A) (w' : W) :
  preserves m -> m w = Done a w' -> f w' = f w.
Proof. intros Hm E. specialize (Hm w). rewrite E in Hm. exact Hm. Qed.

End Preserves.

#[export] Hint Resolve preserves_ret preserves_undef preserves_bind preserves_modify
  preserves_try_modify preserves_defined preserves_if : timep.

(** [solve_preserves]: a frame of a computation, from the frames of its
    parts in the hint database. *)
Ltac preserves_step :=
  match goal with
  | |- forall _, preserves _ _ => intro
  | |- preserves _ (if _ then _ else _) => apply preserves_if
  | |- preserves _ (match ?x with _ => _ end) => destruct x
  | |- preserves _ (bind _ _) => apply preserves_bind
  | |- preserves _ _ => solve [auto with timep]
  end.

Ltac solve_preserves := repeat preserves_step.

(** ** Truncating division

    C's [/] on signed integers is [Z.quot]; on the non-negative operands
    the conversion meets in practice it agrees with the floor division
    [Z.div]. *)

Lemma quot_nonneg_div (a b : Z) : 0 <= a -> 0 < b -> Z.quot a b = a / b.
Proof. intros Ha Hb. apply Z.quot_div_nonneg; lia. Qed.

Lemma quot_bounds (a b : Z) :
  0 <= a -> 0 < b -> b * Z.quot a b <= a < b * Z.quot a b + b.
Proof.
  intros Ha Hb. rewrite quot_nonneg_div by assumption.
  pose proof (Z.mul_div_le a b Hb). pose proof (Z.mul_succ_div_gt a b Hb). lia.
Qed.

(** A quotient is no larger in magnitude than its numerator. *)
Lemma quot_le_self (a b : Z) : 0 <= a -> 0 < b -> 0 <= Z.quot a b <= a.
Proof.
  intros Ha Hb. rewrite quot_nonneg_div by assumption. split.
  - apply Z.div_pos; assumption.
  - apply Z.div_le_upper_bound; [assumption | nia].
Qed.

Lemma quot_monotone (a a' b : Z) :
  0 <= a <= a' -> 0 < b -> Z.quot a b <= Z.quot a' b.
Proof.
  intros [Ha Haa] Hb. rewrite !quot_nonneg_div by lia.
  apply Z.div_le_mono; lia.
Qed.

Lemma quot_lt_upper (a b q : Z) :
  0 <= a < b * q -> 0 < b -> Z.quot a b < q.
Proof.
  intros [Ha Hlt] Hb. rewrite quot_nonneg_div by lia.
  apply Z.div_lt_upper_bound; lia.
Qed.

(** The quotient of a negative numerator is rounded up, not down: this is
    where C's division and the floor division part ways. *)
Lemma quot_opp_l (a b : Z) : b <> 0 -> Z.quot (- a) b = - Z.quot a b.
Proof. intros Hb. apply Z.quot_opp_l; assumption. Qed.

#[export] Hint Resolve quot_monotone quot_lt_upper : timep.

(** ** Options *)

Lemma option_eq_some_inv {A} (a b : A) : Some a = Some b -> a = b.
Proof. congruence. Qed.

Definition option_bind {A B} (o : option A) (k : A -> option B) : option B :=
  match o with Some a => k a | None => None end.

Lemma option_bind_some {A B} (o : option A) (k : A -> option B) b :
  option_bind o k = Some b <-> exists a, o = Some a /\ k a = Some b.
Proof.
  destruct o as [a|]; simpl; split.
  - eauto.
  - intros (a' & [= <-] & H). exact H.
  - discriminate.
  - intros (a' & [=] & _).
Qed.
