(* ===== verification/Int64.v ===== *)
(** * Int64: the arithmetic of [int64_t] and [long long]

    The conversion of [timep.c] is computed in 64-bit signed integers.  A
    value is a [Z] in [min_signed .. max_signed].  Each operation comes in
    two forms: the checked one, [None] where the C standard leaves the
    result undefined (overflow of a signed operation, division by zero),
    and the wrapped one, the two's complement value the machine produces.
    The theorems say when the two agree. *)

From Stdlib Require Import ZArith Lia Bool.
From S2P Require Import Prelude.

#[local] Open Scope Z_scope.

Module I64.

Definition bits : Z := 64.
Definition modulus : Z := 2 ^ 64.
Definition half_modulus : Z := 2 ^ 63.
Definition min_signed : Z := - 2 ^ 63.
Definition max_signed : Z := 2 ^ 63 - 1.

Definition in_range (z : Z) : Prop := min_signed <= z <= max_signed.

Definition in_rangeb (z : Z) : bool := (min_signed <=? z) && (z <=? max_signed).

(** Two's complement reduction to 64 bits. *)
Definition wrap (z : Z) : Z := (z + half_modulus) mod modulus - half_modulus.

(** A result that stays in range is defined; one that leaves it is not. *)
Definition checked (z : Z) : option Z := if in_rangeb z then Some z else None.

Definition add (x y : Z) : option Z := checked (x + y).
Definition sub (x y : Z) : option Z := checked (x - y).
Definition mul (x y : Z) : option Z := checked (x * y).

(** [x / y] in C: truncation toward zero, undefined for [y = 0] and for
    [INT64_MIN / -1]. *)
Definition div (x y : Z) : option Z :=
  if y =? 0 then None else checked (Z.quot x y).

Definition add_wrap (x y : Z) : Z := wrap (x + y).
Definition mul_wrap (x y : Z) : Z := wrap (x * y).
Definition div_wrap (x y : Z) : Z := wrap (Z.quot x y).

(** ** The range *)

Lemma in_rangeb_spec (z : Z) : reflect (in_range z) (in_rangeb z).
Proof.
  apply iff_reflect. unfold in_range, in_rangeb.
  rewrite andb_true_iff, !Z.leb_le. tauto.
Qed.

Lemma in_rangeb_true (z : Z) : in_rangeb z = true <-> in_range z.
Proof. destruct (in_rangeb_spec z); split; intros; [assumption|reflexivity|discriminate|contradiction]. Qed.

Lemma in_rangeb_false (z : Z) : in_rangeb z = false <-> ~ in_range z.
Proof. destruct (in_rangeb_spec z); split; intros; [discriminate|contradiction|assumption|reflexivity]. Qed.

Lemma in_range_bounds (z : Z) :
  in_range z <-> -9223372036854775808 <= z <= 9223372036854775807.
Proof. unfold in_range, min_signed, max_signed. lia. Qed.

Lemma modulus_eq : modulus = 18446744073709551616.
Proof. reflexivity. Qed.

Lemma half_modulus_eq : half_modulus = 9223372036854775808.
Proof. reflexivity. Qed.

(** ** Checked results *)

Lemma checked_some (z r : Z) : checked z = Some r <-> in_range z /\ r = z.
Proof.
  unfold checked. destruct (in_rangeb_spec z); split.
  - intros [= <-]. auto.
  - intros [_ ->]. reflexivity.
  - discriminate.
  - intros [H _]. contradiction.
Qed.

Lemma checked_none (z : Z) : checked z = None <-> ~ in_range z.
Proof.
  unfold checked. destruct (in_rangeb_spec z); split;
    intros; [discriminate|contradiction|assumption|reflexivity].
Qed.

Lemma checked_in_range (z : Z) : in_range z -> checked z = Some z.
Proof. intros H. apply checked_some. auto. Qed.

(** ** The wrapped value *)

Lemma wrap_range (z : Z) : in_range (wrap z).
Proof.
  unfold wrap, in_range, min_signed, max_signed, half_modulus, modulus.
  pose proof (Z.mod_pos_bound (z + 2 ^ 63) (2 ^ 64) eq_refl). lia.
Qed.

Lemma wrap_in_range (z : Z) : in_range z -> wrap z = z.
Proof.
  unfold wrap, in_range, min_signed, max_signed, half_modulus, modulus.
  intros H. rewrite Z.mod_small; lia.
Qed.

Lemma wrap_idem (z : Z) : wrap (wrap z) = wrap z.
Proof. apply wrap_in_range, wrap_range. Qed.

(** The wrapped value differs from the exact one by a multiple of 2^64. *)
Lemma wrap_congr (z : Z) : exists k, wrap z = z + k * modulus.
Proof.
  exists (- ((z + half_modulus) / modulus)). unfold wrap.
  pose proof (Z.div_mod (z + half_modulus) modulus ltac:(discriminate)). lia.
Qed.

(** Out of range, the wrapped value is not the exact one: this is the
    overflow the checked operations report. *)
Lemma wrap_changes (z : Z) : wrap z = z <-> in_range z.
Proof.
  split; [|apply wrap_in_range].
  intros H. rewrite <- H. apply wrap_range.
Qed.

Lemma wrap_add_l (x y : Z) : wrap (wrap x + y) = wrap (x + y).
Proof.
  destruct (wrap_congr x) as [k ->]. unfold wrap.
  replace (x + k * modulus + y + half_modulus)
    with (x + y + half_modulus + k * modulus) by lia.
  rewrite Z.mod_add by discriminate. reflexivity.
Qed.

(** Checked and wrapped operations agree wherever the checked one is
    defined. *)
Lemma checked_wrap (z r : Z) : checked z = Some r -> wrap z = r.
Proof. intros [H ->]%checked_some. apply wrap_in_range, H. Qed.

Lemma add_wrap_agree (x y r : Z) : add x y = Some r -> add_wrap x y = r.
Proof. apply checked_wrap. Qed.

Lemma mul_wrap_agree (x y r : Z) : mul x y = Some r -> mul_wrap x y = r.
Proof. apply checked_wrap. Qed.

Lemma div_wrap_agree (x y r : Z) : div x y = Some r -> div_wrap x y = r.
Proof. unfold div. destruct (y =? 0); [discriminate | apply checked_wrap]. Qed.

(** ** Division *)

Lemma div_some (x y r : Z) :
  div x y = Some r <-> y <> 0 /\ in_range (Z.quot x y) /\ r = Z.quot x y.
Proof.
  unfold div. destruct (Z.eqb_spec y 0) as [->|Hy].
  - split; [discriminate | intros [H _]; contradiction].
  - rewrite checked_some. tauto.
Qed.

(** A quotient by a positive divisor never leaves the range. *)
Lemma quot_in_range (x y : Z) : in_range x -> 0 < y -> in_range (Z.quot x y).
Proof.
  unfold in_range, min_signed, max_signed. intros Hx Hy.
  destruct (Z.le_gt_cases 0 x) as [Hx0|Hx0].
  - pose proof (quot_le_self x y Hx0 Hy). lia.
  - rewrite <- (Z.opp_involutive x), quot_opp_l by lia.
    pose proof (quot_le_self (- x) y ltac:(lia) Hy). lia.
Qed.

Lemma div_pos_defined (x y : Z) :
  in_range x -> 0 < y -> div x y = Some (Z.quot x y).
Proof.
  intros Hx Hy. apply div_some. split; [lia | split; [|reflexivity]].
  apply quot_in_range; assumption.
Qed.

End I64.

#[export] Hint Resolve I64.wrap_range I64.checked_in_range I64.quot_in_range
  I64.div_pos_defined : timep.
#[export] Hint Rewrite I64.wrap_idem I64.wrap_add_l : timep_rw.
