(* ===== verification/Micros.v ===== *)
(** * Micros: [struct timespec] and the conversion to microseconds

    Line 85 of [timep.c] computes
    [int64_t micros = ts.tv_sec * 1000000LL + ts.tv_nsec / 1000;].
    Both operands of [+] are 64-bit signed: [tv_sec * 1000000LL] is a
    [long long] product and [tv_nsec / 1000] a truncating quotient.  The
    checked conversion [micros_of_timespec] is [None] when one of the three
    operations overflows; [micros_wrap] is what a two's complement machine
    stores; [micros_exact] is the mathematical value the specification
    names ([seconds * 1_000_000 + nanoseconds / 1_000]). *)

From Stdlib Require Import ZArith Lia Bool.
From S2P Require Import Prelude Int64.

#[local] Open Scope Z_scope.

(** [struct timespec]: seconds and nanoseconds. *)
Record timespec : Type := mk_timespec { tv_sec : Z; tv_nsec : Z }.

Definition USEC_PER_SEC : Z := 1000000.
Definition NSEC_PER_USEC : Z := 1000.
Definition NSEC_PER_SEC : Z := 1000000000.

(** The kernel returns [0 <= tv_nsec < 10^9]. *)
Definition normalized (ts : timespec) : Prop := 0 <= tv_nsec ts < NSEC_PER_SEC.

Definition normalizedb (ts : timespec) : bool :=
  (0 <=? tv_nsec ts) && (tv_nsec ts <? NSEC_PER_SEC).

(** The time read, in nanoseconds. *)
Definition ts_nanos (ts : timespec) : Z := tv_sec ts * NSEC_PER_SEC + tv_nsec ts.

(** The lexicographic order of two readings. *)
Definition ts_le (a b : timespec) : Prop :=
  tv_sec a < tv_sec b \/ (tv_sec a = tv_sec b /\ tv_nsec a <= tv_nsec b).

Definition ts_leb (a b : timespec) : bool :=
  (tv_sec a <? tv_sec b) || ((tv_sec a =? tv_sec b) && (tv_nsec a <=? tv_nsec b)).

(** The value the specification names. *)
Definition micros_exact (ts : timespec) : Z :=
  tv_sec ts * USEC_PER_SEC + Z.quot (tv_nsec ts) NSEC_PER_USEC.

(** Line 85, with C's undefined results as [None]. *)
Definition micros_of_timespec (ts : timespec) : option Z :=
  option_bind (I64.mul (tv_sec ts) 1000000) (fun secs_us =>
  option_bind (I64.div (tv_nsec ts) 1000) (fun nsec_us =>
  I64.add secs_us nsec_us)).

(** Line 85, as a two's complement machine computes it. *)
Definition micros_wrap (ts : timespec) : Z :=
  I64.add_wrap (I64.mul_wrap (tv_sec ts) 1000000) (I64.div_wrap (tv_nsec ts) 1000).

(** The largest number of whole seconds every normalised reading of which
    converts without overflow. *)
Definition MAX_SAFE_SEC : Z := 9223372036853.

(** ** Readings *)

Lemma normalizedb_spec (ts : timespec) : normalizedb ts = true <-> normalized ts.
Proof.
  unfold normalizedb, normalized. rewrite andb_true_iff, Z.leb_le, Z.ltb_lt. tauto.
Qed.

Lemma ts_leb_spec (a b : timespec) : ts_leb a b = true <-> ts_le a b.
Proof.
  unfold ts_leb, ts_le.
  rewrite orb_true_iff, andb_true_iff, Z.ltb_lt, Z.eqb_eq, Z.leb_le. tauto.
Qed.

Lemma ts_le_nanos (a b : timespec) :
  normalized a -> normalized b -> (ts_le a b <-> ts_nanos a <= ts_nanos b).
Proof.
  unfold normalized, ts_le, ts_nanos, NSEC_PER_SEC. intros Ha Hb. split.
  - intros [H|[H1 H2]]; nia.
  - intros H. destruct (Z.lt_trichotomy (tv_sec a) (tv_sec b)) as [L|[E|G]];
      [left; exact L | right; split; [exact E | nia] | nia].
Qed.

Lemma ts_le_refl (a : timespec) : ts_le a a.
Proof. right. split; [reflexivity | apply Z.le_refl]. Qed.

Lemma ts_le_trans (a b c : timespec) : ts_le a b -> ts_le b c -> ts_le a c.
Proof. unfold ts_le. intros [H|[H1 H2]] [K|[K1 K2]]; [left|left|left|right]; lia. Qed.

(** ** The exact value *)

Lemma micros_exact_nonneg (ts : timespec) :
  normalized ts -> 0 <= tv_sec ts -> 0 <= micros_exact ts.
Proof.
  unfold normalized, micros_exact, USEC_PER_SEC, NSEC_PER_USEC, NSEC_PER_SEC.
  intros Hn Hs. pose proof (quot_le_self (tv_nsec ts) 1000 ltac:(lia) ltac:(lia)). nia.
Qed.

Lemma micros_exact_quot_bound (ts : timespec) :
  normalized ts -> 0 <= Z.quot (tv_nsec ts) 1000 < 1000000.
Proof.
  unfold normalized, NSEC_PER_SEC. intros Hn. split.
  - apply quot_le_self; lia.
  - apply quot_lt_upper; lia.
Qed.

(** The microseconds are the nanoseconds divided by 1000, rounded down. *)
Lemma micros_exact_floor (ts : timespec) :
  normalized ts ->
  1000 * micros_exact ts <= ts_nanos ts < 1000 * micros_exact ts + 1000.
Proof.
  unfold normalized, micros_exact, ts_nanos, USEC_PER_SEC, NSEC_PER_USEC, NSEC_PER_SEC.
  intros Hn. pose proof (quot_bounds (tv_nsec ts) 1000 ltac:(lia) ltac:(lia)). lia.
Qed.

Lemma micros_exact_eq_div (ts : timespec) :
  normalized ts -> micros_exact ts = ts_nanos ts / 1000.
Proof.
  intros Hn. pose proof (micros_exact_floor ts Hn).
  apply Z.div_unique with (r := ts_nanos ts - 1000 * micros_exact ts); lia.
Qed.

Lemma micros_exact_monotone (a b : timespec) :
  normalized a -> normalized b -> ts_le a b -> micros_exact a <= micros_exact b.
Proof.
  intros Ha Hb Hle. rewrite !micros_exact_eq_div by assumption.
  apply Z.div_le_mono; [lia | apply ts_le_nanos; assumption].
Qed.

(** ** The checked conversion *)

Lemma micros_of_timespec_some (ts : timespec) (m : Z) :
  micros_of_timespec ts = Some m <->
  I64.in_range (tv_sec ts * 1000000) /\
  I64.in_range (Z.quot (tv_nsec ts) 1000) /\
  I64.in_range (micros_exact ts) /\ m = micros_exact ts.
Proof.
  unfold micros_of_timespec, micros_exact, USEC_PER_SEC, NSEC_PER_USEC.
  rewrite option_bind_some. split.
  - intros (a & [Ha ->]%I64.checked_some & H).
    apply option_bind_some in H as (b & (_ & Hb & ->)%I64.div_some & [Hc ->]%I64.checked_some).
    auto.
  - intros (Ha & Hb & Hc & ->). exists (tv_sec ts * 1000000). split.
    + apply I64.checked_in_range, Ha.
    + apply option_bind_some. exists (Z.quot (tv_nsec ts) 1000). split.
      * apply I64.div_some. split; [discriminate | split; [exact Hb | reflexivity]].
      * apply I64.checked_in_range, Hc.
Qed.

Lemma micros_of_timespec_in_range (ts : timespec) (m : Z) :
  micros_of_timespec ts = Some m -> I64.in_range m.
Proof. intros (_ & _ & H & ->)%micros_of_timespec_some. exact H. Qed.

(** For a reading of the process clock (normalised, not before the start
    of the process) the conversion is defined exactly when the result
    fits. *)
Lemma micros_defined_iff (ts : timespec) :
  normalized ts -> 0 <= tv_sec ts ->
  (micros_of_timespec ts = Some (micros_exact ts) <-> micros_exact ts <= I64.max_signed).
Proof.
  intros Hn Hs. rewrite micros_of_timespec_some.
  pose proof (micros_exact_quot_bound ts Hn) as Hq.
  pose proof (micros_exact_nonneg ts Hn Hs) as H0.
  unfold I64.in_range, I64.min_signed, I64.max_signed, micros_exact,
    USEC_PER_SEC, NSEC_PER_USEC in *.
  split; [intros (_ & _ & H & _); lia | intros H; repeat split; lia].
Qed.

Lemma micros_safe_bound (ts : timespec) :
  normalized ts -> 0 <= tv_sec ts <= MAX_SAFE_SEC ->
  micros_exact ts <= I64.max_signed.
Proof.
  intros Hn Hs. pose proof (micros_exact_quot_bound ts Hn).
  unfold micros_exact, USEC_PER_SEC, NSEC_PER_USEC, MAX_SAFE_SEC, I64.max_signed in *. lia.
Qed.

Lemma micros_defined (ts : timespec) :
  normalized ts -> 0 <= tv_sec ts <= MAX_SAFE_SEC ->
  micros_of_timespec ts = Some (micros_exact ts).
Proof.
  intros Hn Hs. apply micros_defined_iff; [assumption | lia |].
  apply micros_safe_bound; assumption.
Qed.

(** ** The wrapped conversion *)

Lemma micros_wrap_eq (ts : timespec) :
  I64.in_range (Z.quot (tv_nsec ts) 1000) ->
  micros_wrap ts = I64.wrap (micros_exact ts).
Proof.
  intros Hq. unfold micros_wrap, I64.add_wrap, I64.mul_wrap, I64.div_wrap.
  rewrite (I64.wrap_in_range _ Hq), I64.wrap_add_l. reflexivity.
Qed.

Lemma micros_wrap_agree (ts : timespec) (m : Z) :
  micros_of_timespec ts = Some m -> micros_wrap ts = m.
Proof.
  intros (_ & Hq & Hm & ->)%micros_of_timespec_some.
  rewrite micros_wrap_eq by assumption. apply I64.wrap_in_range, Hm.
Qed.

#[export] Hint Resolve micros_defined micros_exact_nonneg micros_exact_monotone
  ts_le_refl : timep.

(** ** Properties *)

(** C5.  For every normalised reading with at most [MAX_SAFE_SEC] whole
    seconds, line 85 does not overflow: the checked conversion returns
    [tv_sec * 1000000 + tv_nsec / 1000], and that value is a non-negative
    64-bit signed integer. *)
Theorem micros_of_timespec_defined (ts : timespec) :
  normalized ts -> 0 <= tv_sec ts <= MAX_SAFE_SEC ->
  micros_of_timespec ts = Some (tv_sec ts * 1000000 + Z.quot (tv_nsec ts) 1000) /\
  0 <= tv_sec ts * 1000000 + Z.quot (tv_nsec ts) 1000 <= I64.max_signed.
Proof.
  intros Hn Hs. split; [apply (micros_defined ts Hn Hs) | split].
  - apply (micros_exact_nonneg ts Hn); lia.
  - apply (micros_safe_bound ts Hn Hs).
Qed.

Lemma micros_of_timespec_defined_witness :
  micros_of_timespec (mk_timespec 12 345678999) = Some 12345678 /\
  0 <= 12345678 <= I64.max_signed.
Proof.
  apply (micros_of_timespec_defined (mk_timespec 12 345678999)).
  - unfold normalized, NSEC_PER_SEC; simpl; lia.
  - unfold MAX_SAFE_SEC; simpl; lia.
Defined.

(** The checked conversion is defined exactly when the product, the
    quotient and the sum of line 85 all fit 64 bits, and then it is the
    value the specification names. *)
Theorem micros_of_timespec_spec (ts : timespec) (m : Z) :
  micros_of_timespec ts = Some m <->
  I64.in_range (tv_sec ts * 1000000) /\
  I64.in_range (Z.quot (tv_nsec ts) 1000) /\
  I64.in_range (micros_exact ts) /\ m = micros_exact ts.
Proof. apply micros_of_timespec_some. Qed.

(** Two readings of the process clock in order convert to
    microseconds in order: the conversion is monotone on normalised
    readings that do not overflow. *)
Theorem micros_monotone (a b : timespec) (ma mb : Z) :
  normalized a -> normalized b -> ts_le a b ->
  micros_of_timespec a = Some ma -> micros_of_timespec b = Some mb ->
  ma <= mb.
Proof.
  intros Ha Hb Hle (_ & _ & _ & ->)%micros_of_timespec_some
    (_ & _ & _ & ->)%micros_of_timespec_some.
  apply micros_exact_monotone; assumption.
Qed.

Lemma micros_monotone_witness : 1999999 <= 2000000.
Proof.
  apply (micros_monotone (mk_timespec 1 999999999) (mk_timespec 2 0)).
  - unfold normalized, NSEC_PER_SEC; simpl; lia.
  - unfold normalized, NSEC_PER_SEC; simpl; lia.
  - left; simpl; lia.
  - reflexivity.
  - reflexivity.
Defined.

(** C34.  The conversion truncates: the microseconds returned are the
    largest whole number of microseconds not above the time read. *)
Theorem micros_truncates (ts : timespec) (m : Z) :
  normalized ts -> micros_of_timespec ts = Some m ->
  1000 * m <= ts_nanos ts < 1000 * m + 1000.
Proof.
  intros Hn (_ & _ & _ & ->)%micros_of_timespec_some.
  apply micros_exact_floor, Hn.
Qed.

Lemma micros_truncates_witness :
  1000 * 12345678 <= ts_nanos (mk_timespec 12 345678999) < 1000 * 12345678 + 1000.
Proof.
  apply (micros_truncates (mk_timespec 12 345678999) 12345678).
  - unfold normalized, NSEC_PER_SEC; simpl; lia.
  - reflexivity.
Defined.

(** Where the checked conversion is defined, the two's complement
    computation stores the same value: the machine's result is the
    specified one whenever C defines it. *)
Theorem micros_wrap_correct (ts : timespec) (m : Z) :
  micros_of_timespec ts = Some m -> micros_wrap ts = m /\ I64.in_range m.
Proof.
  intros H. split; [apply micros_wrap_agree, H |].
  apply micros_of_timespec_some in H as (_ & _ & Hm & ->). exact Hm.
Qed.

Lemma micros_wrap_correct_witness :
  micros_wrap (mk_timespec 12 345678999) = 12345678 /\ I64.in_range 12345678.
Proof. apply (micros_wrap_correct (mk_timespec 12 345678999)). reflexivity. Defined.

(** One second past [9223372036854] the product of line 85 leaves the
    64-bit range: the checked conversion is undefined and the machine
    stores a negative number of microseconds. *)
Example micros_overflow_example :
  micros_of_timespec (mk_timespec 9223372036855 0) = None /\
  micros_wrap (mk_timespec 9223372036855 0) = -9223372036854551616 /\
  micros_of_timespec (mk_timespec 9223372036854 775807999) = Some I64.max_signed.
Proof. repeat split. Qed.
