(* ===== verification/Word64.v ===== *)
(** * Word64: line 85 on machine words

    [Int64] gives the arithmetic of [int64_t] twice: checked, with the
    results the C standard leaves undefined as [None], and wrapped, as a
    two's complement machine computes.  This file writes line 85 on
    machine words, with the operations [mul], [divs] and [add] of the
    [word] interface of coqutil, for any implementation of 64-bit words
    that satisfies [word.ok], and says when the register holds the
    time: exactly as long as the number of microseconds fits 63 bits
    ([micros_word_exact_iff]).  On the way line 85 on words is shown to
    compute [Micros.micros_wrap]. *)

From Stdlib Require Import ZArith Lia.
From coqutil Require Import Word.Interface Word.Properties Word.Naive.
From S2P Require Import Prelude Int64 Micros.

#[local] Open Scope Z_scope.

Section WithWord.
Context {word : word.word 64} {word_ok : word.ok word}.

(** Line 85 on registers: [ts.tv_sec * 1000000LL + ts.tv_nsec / 1000]. *)
Definition micros_word (sec nsec : word) : word :=
  word.add (word.mul sec (word.of_Z 1000000)) (word.divs nsec (word.of_Z 1000)).

(** Line 85 on the registers that hold a reading. *)
Definition micros_word_of (ts : timespec) : word :=
  micros_word (word.of_Z (tv_sec ts)) (word.of_Z (tv_nsec ts)).

(** ** The two accounts of wrapping *)

Lemma wrap_swrap (z : Z) : I64.wrap z = word.swrap (word := word) z.
Proof. reflexivity. Qed.

Lemma in_range_signed (z : Z) : I64.in_range z <-> - 2 ^ (64 - 1) <= z < 2 ^ (64 - 1).
Proof. unfold I64.in_range, I64.min_signed, I64.max_signed. lia. Qed.

(** A value in range is the signed value of its word. *)
Lemma signed_of_Z_in_range (z : Z) : I64.in_range z -> word.signed (word.of_Z z : word) = z.
Proof.
  intros Hz. rewrite word.signed_of_Z. apply word.swrap_inrange, in_range_signed, Hz.
Qed.

Lemma signed_add_wrap (x y : word) :
  word.signed (word.add x y) = I64.add_wrap (word.signed x) (word.signed y).
Proof. rewrite word.signed_add. reflexivity. Qed.

Lemma signed_mul_wrap (x y : word) :
  word.signed (word.mul x y) = I64.mul_wrap (word.signed x) (word.signed y).
Proof. rewrite word.signed_mul. reflexivity. Qed.

(** Division by a positive constant. *)
Lemma signed_div_wrap (x y : word) :
  0 < word.signed y ->
  word.signed (word.divs x y) = I64.div_wrap (word.signed x) (word.signed y).
Proof. intros Hy. rewrite word.signed_divs by lia. reflexivity. Qed.

(** ** Line 85 *)

(** On words line 85 computes the wrapped conversion of the model. *)
Lemma micros_word_signed (sec nsec : word) :
  word.signed (micros_word sec nsec)
  = micros_wrap (mk_timespec (word.signed sec) (word.signed nsec)).
Proof.
  unfold micros_word, micros_wrap. simpl.
  rewrite signed_add_wrap, signed_mul_wrap, signed_div_wrap;
    rewrite !signed_of_Z_in_range; try reflexivity;
    unfold I64.in_range, I64.min_signed, I64.max_signed; lia.
Qed.

(** ** Properties *)

(** The registers of a reading hold the wrapped conversion. *)
Lemma micros_word_of_signed (ts : timespec) :
  I64.in_range (tv_sec ts) -> I64.in_range (tv_nsec ts) ->
  word.signed (micros_word_of ts) = micros_wrap ts.
Proof.
  intros Hs Hn. unfold micros_word_of. rewrite micros_word_signed.
  rewrite !signed_of_Z_in_range by assumption. destruct ts; reflexivity.
Qed.

(** For a normalized reading of a non-negative time the registers hold
    the CPU time in microseconds, wrapped. *)
Lemma micros_word_of_nanos (ts : timespec) :
  normalized ts -> 0 <= tv_sec ts -> I64.in_range (tv_sec ts) ->
  word.signed (micros_word_of ts) = I64.wrap (ts_nanos ts / 1000) /\ 0 <= ts_nanos ts / 1000.
Proof.
  intros Hn Hs Hr. pose proof (micros_exact_quot_bound ts Hn) as Hq.
  rewrite <- micros_exact_eq_div by exact Hn. split; [|auto with timep].
  rewrite micros_word_of_signed, micros_wrap_eq; [reflexivity | | exact Hr |];
    unfold normalized, NSEC_PER_SEC, I64.in_range, I64.min_signed, I64.max_signed in *; lia.
Qed.

(** C29.  What the compiled code leaves in the register, and when it is
    the time.  Line 85 is computed on 64-bit words, where a product or a
    sum that does not fit wraps around.  For a normalized reading of a
    non-negative number of seconds the result, read as a signed number,
    is the CPU time in whole microseconds (the nanoseconds divided by
    1000, rounded down) exactly when that number is at most
    [2^63 - 1]; past it the register holds another number. *)
Theorem micros_word_exact_iff (ts : timespec) :
  normalized ts -> 0 <= tv_sec ts -> I64.in_range (tv_sec ts) ->
  word.signed (micros_word_of ts) = ts_nanos ts / 1000 <->
  ts_nanos ts / 1000 <= I64.max_signed.
Proof.
  intros Hn Hs Hr. destruct (micros_word_of_nanos ts Hn Hs Hr) as [-> Hm].
  rewrite I64.wrap_changes. unfold I64.in_range, I64.min_signed. lia.
Qed.

(** Past the bound of [Micros.micros_of_timespec_defined] the registers
    hold a value that is not the time: here a negative one. *)
Lemma micros_word_overflow :
  word.signed (micros_word (word.of_Z 9223372036855 : word) (word.of_Z 0))
  = -9223372036854551616.
Proof.
  rewrite micros_word_signed, !signed_of_Z_in_range;
    [reflexivity | | ]; unfold I64.in_range, I64.min_signed, I64.max_signed; lia.
Qed.

End WithWord.

(** ** The theorems at work *)

Lemma micros_word_exact_iff_witness :
  word.signed (micros_word_of (word := Naive.word64) (mk_timespec 12 345678999))
  = ts_nanos (mk_timespec 12 345678999) / 1000 <->
  ts_nanos (mk_timespec 12 345678999) / 1000 <= I64.max_signed.
Proof.
  apply (micros_word_exact_iff (word := Naive.word64) (mk_timespec 12 345678999));
    unfold normalized, NSEC_PER_SEC, I64.in_range, I64.min_signed, I64.max_signed;
    simpl; lia.
Defined.

(** The last reading that converts and the first that does not: the
    register follows the time up to [2^63 - 1] microseconds and is
    negative one microsecond later. *)
Example micros_word64_last :
  word.signed (micros_word_of (word := Naive.word64) (mk_timespec 9223372036854 775807999))
  = 9223372036854775807 /\
  word.signed (micros_word_of (word := Naive.word64) (mk_timespec 9223372036854 775808000))
  = -9223372036854775808.
Proof. split; vm_compute; reflexivity. Qed.

(** The concrete words compute. *)
Example micros_word64 :
  word.signed (micros_word (word.of_Z 12 : Naive.word64) (word.of_Z 345678999)) = 12345678.
Proof. vm_compute. reflexivity. Qed.
