(* ===== verification/DataModel.v ===== *)
(** * DataModel: line 85 at the widths of the platform

    [Micros] computes line 85 in 64-bit integers throughout, as on an
    LP64 platform.  The C source does not say so: [tv_sec] is a [time_t]
    and [tv_nsec] a [long], [1000000LL] is a [long long] and [1000] an
    [int], and the type in which each operation is done follows from the
    usual arithmetic conversions.  This file writes the expression with
    the types of its operands, for a platform given by the widths of
    [time_t] and [long], and shows that the choice does not matter:
    whenever the reading fits the fields of [struct timespec], the
    expression computes what [Micros.micros_of_timespec] computes, and
    with a 32-bit [time_t] it cannot overflow at all. *)

From Stdlib Require Import ZArith Lia Bool.
From S2P Require Import Prelude Int64 Micros.

#[local] Open Scope Z_scope.

(** A signed integer type, by its width in bits. *)
Record int_type : Type := IntType { it_bits : Z }.

Definition int_t : int_type := IntType 32.
Definition long_long_t : int_type := IntType 64.
Definition int64_t : int_type := IntType 64.

Definition min_int (it : int_type) : Z := - 2 ^ (it_bits it - 1).
Definition max_int (it : int_type) : Z := 2 ^ (it_bits it - 1) - 1.

Definition in_type (it : int_type) (z : Z) : Prop := min_int it <= z <= max_int it.

Definition in_typeb (it : int_type) (z : Z) : bool := (min_int it <=? z) && (z <=? max_int it).

(** The result of a signed operation: undefined when the type cannot
    hold it. *)
Definition checked_at (it : int_type) (z : Z) : option Z :=
  if in_typeb it z then Some z else None.

(** The usual arithmetic conversions of two signed operands: both are
    promoted to [int] at least, and the narrower is converted to the type
    of the wider. *)
Definition promote (it : int_type) : int_type :=
  if it_bits it <? it_bits int_t then int_t else it.

Definition common_type (a b : int_type) : int_type :=
  if it_bits (promote a) <? it_bits (promote b) then promote b else promote a.

Definition mul_c (ta tb : int_type) (x y : Z) : option Z := checked_at (common_type ta tb) (x * y).
Definition add_c (ta tb : int_type) (x y : Z) : option Z := checked_at (common_type ta tb) (x + y).
Definition div_c (ta tb : int_type) (x y : Z) : option Z :=
  if y =? 0 then None else checked_at (common_type ta tb) (Z.quot x y).

(** The widths of the two fields of [struct timespec]. *)
Record data_model : Type := mk_data_model { time_t : int_type; long_t : int_type }.

(** 64-bit Linux; 32-bit Linux; 32-bit Linux with a 64-bit [time_t]. *)
Definition LP64 : data_model := mk_data_model (IntType 64) (IntType 64).
Definition ILP32 : data_model := mk_data_model (IntType 32) (IntType 32).
Definition ILP32_TIME64 : data_model := mk_data_model (IntType 64) (IntType 32).

(** [long] has at least 32 bits; neither type is wider than
    [long long]. *)
Definition supported (dm : data_model) : Prop :=
  32 <= it_bits (long_t dm) <= 64 /\ 1 <= it_bits (time_t dm) <= 64.

(** The reading fits the fields that hold it. *)
Definition representable (dm : data_model) (ts : timespec) : Prop :=
  in_type (time_t dm) (tv_sec ts) /\ in_type (long_t dm) (tv_nsec ts).

(** Line 85 with the types of its operands: a [time_t] times a
    [long long], a [long] divided by an [int], a [long long] plus a
    [long]; the sum initialises an [int64_t]. *)
Definition micros_at (dm : data_model) (ts : timespec) : option Z :=
  option_bind (mul_c (time_t dm) long_long_t (tv_sec ts) 1000000) (fun secs_us =>
  option_bind (div_c (long_t dm) int_t (tv_nsec ts) 1000) (fun nsec_us =>
  option_bind (add_c long_long_t (long_t dm) secs_us nsec_us) (fun sum =>
  checked_at int64_t sum))).

(** ** Ranges *)

Lemma in_typeb_spec (it : int_type) (z : Z) : in_typeb it z = true <-> in_type it z.
Proof. unfold in_typeb, in_type. rewrite andb_true_iff, !Z.leb_le. tauto. Qed.

Lemma checked_at_some (it : int_type) (z r : Z) :
  checked_at it z = Some r <-> in_type it z /\ r = z.
Proof.
  unfold checked_at. pose proof (in_typeb_spec it z) as Hs.
  destruct (in_typeb it z); split.
  - intros [= <-]. split; [apply Hs|]; reflexivity.
  - intros [_ ->]. reflexivity.
  - discriminate.
  - intros [Hi _]. apply Hs in Hi. discriminate.
Qed.

Lemma checked_at_in_type (it : int_type) (z : Z) : in_type it z -> checked_at it z = Some z.
Proof. intros Hi. apply checked_at_some. auto. Qed.

(** A type of 64 bits is the range of [Int64]. *)
Lemma in_type_64 (z : Z) : in_type (IntType 64) z <-> I64.in_range z.
Proof. reflexivity. Qed.

Lemma checked_at_64 (z : Z) : checked_at (IntType 64) z = I64.checked z.
Proof. reflexivity. Qed.

Lemma half_range_pos (it : int_type) : 1 <= it_bits it -> 1 <= 2 ^ (it_bits it - 1).
Proof. intros Hb. change 1 with (2 ^ 0) at 1. apply Z.pow_le_mono_r; lia. Qed.

(** A narrower type holds fewer values. *)
Lemma in_type_mono (a b : int_type) (z : Z) :
  1 <= it_bits a <= it_bits b -> in_type a z -> in_type b z.
Proof.
  unfold in_type, min_int, max_int. intros Hb Hz.
  assert (2 ^ (it_bits a - 1) <= 2 ^ (it_bits b - 1)) by (apply Z.pow_le_mono_r; lia).
  lia.
Qed.

(** Dividing by a positive number does not leave the type. *)
Lemma quot_in_type (it : int_type) (x y : Z) :
  1 <= it_bits it -> in_type it x -> 0 < y -> in_type it (Z.quot x y).
Proof.
  unfold in_type, min_int, max_int. intros Hb Hx Hy.
  pose proof (half_range_pos it Hb).
  destruct (Z.le_gt_cases 0 x) as [Hx0|Hx0].
  - pose proof (quot_le_self x y Hx0 Hy). lia.
  - rewrite <- (Z.opp_involutive x), quot_opp_l by lia.
    pose proof (quot_le_self (- x) y ltac:(lia) Hy). lia.
Qed.

(** ** The types the conversions choose *)

Lemma common_type_long_long (a : int_type) :
  it_bits a <= 64 -> common_type a long_long_t = long_long_t.
Proof.
  intros Hb. unfold common_type, promote. simpl.
  destruct (it_bits a <? 32) eqn:E1; simpl; [reflexivity|].
  destruct (it_bits a <? 64) eqn:E2; [reflexivity|].
  apply Z.ltb_ge in E2. destruct a as [b]. unfold long_long_t. simpl in *. f_equal. lia.
Qed.

Lemma common_type_long_long_l (a : int_type) :
  it_bits a <= 64 -> common_type long_long_t a = long_long_t.
Proof.
  intros Hb. unfold common_type, promote. simpl.
  destruct (it_bits a <? 32) eqn:E1; simpl; [reflexivity|].
  destruct (64 <? it_bits a) eqn:E2; [apply Z.ltb_lt in E2; lia | reflexivity].
Qed.

Lemma common_type_int (a : int_type) : 32 <= it_bits a -> common_type a int_t = a.
Proof.
  intros Hb. unfold common_type, promote. simpl.
  destruct (it_bits a <? 32) eqn:E1; [apply Z.ltb_lt in E1; lia|].
  rewrite E1. reflexivity.
Qed.

(** ** The operations of line 85 *)

Lemma mul_c_time (dm : data_model) (x y : Z) :
  supported dm -> mul_c (time_t dm) long_long_t x y = I64.mul x y.
Proof. intros [_ Ht]. unfold mul_c. rewrite common_type_long_long by lia. reflexivity. Qed.

Lemma add_c_long (dm : data_model) (x y : Z) :
  supported dm -> add_c long_long_t (long_t dm) x y = I64.add x y.
Proof. intros [Hl _]. unfold add_c. rewrite common_type_long_long_l by lia. reflexivity. Qed.

Lemma div_c_long (dm : data_model) (x : Z) :
  supported dm -> in_type (long_t dm) x ->
  div_c (long_t dm) int_t x 1000 = Some (Z.quot x 1000) /\ I64.div x 1000 = Some (Z.quot x 1000).
Proof.
  intros [Hl _] Hx. unfold div_c. rewrite common_type_int by lia. simpl. split.
  - apply checked_at_in_type, quot_in_type; [lia | exact Hx | lia].
  - apply I64.div_pos_defined; [|lia].
    change (in_type (IntType 64) x). apply (in_type_mono (long_t dm)); [simpl; lia | exact Hx].
Qed.

(** The initialisation of [micros] changes nothing. *)
Lemma checked_at_int64 (x y : Z) :
  option_bind (I64.add x y) (checked_at int64_t) = I64.add x y.
Proof.
  unfold I64.add. destruct (I64.checked (x + y)) as [s|] eqn:E; [|reflexivity].
  simpl. apply I64.checked_some in E as [Hr ->]. apply checked_at_in_type, in_type_64, Hr.
Qed.

(** On every supported platform line 85 computes what it computes in
    64 bits. *)
Lemma micros_at_eq (dm : data_model) (ts : timespec) :
  supported dm -> representable dm ts -> micros_at dm ts = micros_of_timespec ts.
Proof.
  intros Hs [_ Hn]. unfold micros_at, micros_of_timespec.
  rewrite (mul_c_time dm _ _ Hs). destruct (I64.mul (tv_sec ts) 1000000); [|reflexivity].
  destruct (div_c_long dm (tv_nsec ts) Hs Hn) as [-> ->]. simpl.
  rewrite (add_c_long dm _ _ Hs). apply checked_at_int64.
Qed.

(** ** Properties *)

(** C28.  The widths of [time_t] and [long] do not matter.  On every
    platform where [long] has 32 to 64 bits and [time_t] at most 64,
    line 85, computed in the types the usual arithmetic conversions give
    its operations, is defined for the same readings as in 64-bit
    arithmetic and has the same value, for every reading that fits the
    fields of [struct timespec]. *)
Theorem micros_at_any_width (dm : data_model) (ts : timespec) :
  supported dm -> representable dm ts -> micros_at dm ts = micros_of_timespec ts.
Proof. apply micros_at_eq. Qed.

Lemma micros_at_any_width_witness :
  micros_at ILP32_TIME64 (mk_timespec 9223372036855 0) =
  micros_of_timespec (mk_timespec 9223372036855 0).
Proof.
  apply (micros_at_any_width ILP32_TIME64 (mk_timespec 9223372036855 0)).
  - unfold supported. simpl. lia.
  - unfold representable, in_type, min_int, max_int. simpl. lia.
Defined.

(** With a 32-bit [time_t] and a 32-bit [long] line 85 cannot
    overflow: for every reading the two fields can hold, normalised or
    not, the expression is defined and is
    [tv_sec * 1000000 + tv_nsec / 1000]. *)
Theorem micros_at_ilp32_defined (ts : timespec) :
  representable ILP32 ts -> micros_at ILP32 ts = Some (micros_exact ts).
Proof.
  intros Hr. rewrite micros_at_eq; [| unfold supported; simpl; lia | exact Hr].
  destruct Hr as [Hs Hn]. unfold in_type, min_int, max_int in Hs, Hn. simpl in Hs, Hn.
  assert (-2147483 <= Z.quot (tv_nsec ts) 1000 <= 2147483) as Hq.
  { destruct (Z.le_gt_cases 0 (tv_nsec ts)) as [H0|H0].
    - pose proof (quot_bounds (tv_nsec ts) 1000 H0 ltac:(lia)). lia.
    - pose proof (quot_bounds (- tv_nsec ts) 1000 ltac:(lia) ltac:(lia)) as Hb.
      rewrite quot_opp_l in Hb by lia. lia. }
  apply micros_of_timespec_some.
  unfold I64.in_range, I64.min_signed, I64.max_signed, micros_exact, USEC_PER_SEC,
    NSEC_PER_USEC. repeat split; lia.
Qed.

Lemma micros_at_ilp32_defined_witness :
  micros_at ILP32 (mk_timespec 2147483647 999999999) = Some 2147483647999999.
Proof.
  apply (micros_at_ilp32_defined (mk_timespec 2147483647 999999999)).
  unfold representable, in_type, min_int, max_int. simpl. lia.
Defined.
