(* ===== verification/Decimal.v ===== *)
(** * Decimal: the [%lld] conversion of [snprintf] and [printf]

    [timep.c] turns the microseconds into text twice: line 89 with
    [snprintf(buf_micros, sizeof(buf_micros), "%lld", micros)] into a
    32-byte buffer, and line 92 with [printf("%lld\n", micros)].  This
    file models the conversion the way a C library performs it: a loop
    that produces the last digit with [n % 10] and goes on with [n / 10]
    until nothing is left, a sign in front of the magnitude, and for
    [snprintf] a copy bounded by the size of the buffer.  The loop is
    structural on a fuel of [fmt_fuel] iterations, enough for every
    64-bit magnitude.  [parse_lld] is the reference reader used to state
    the round trip. *)

From Stdlib Require Import ZArith Lia Bool String Ascii.
From S2P Require Import Prelude Int64.

#[local] Open Scope string_scope.
#[local] Open Scope Z_scope.

(** ['0' + d] *)
Definition digit_char (d : Z) : ascii := ascii_of_N (Z.to_N (48 + d)).

(** The digit a character stands for, if it is one of ['0'..'9']. *)
Definition digit_value (c : ascii) : option Z :=
  let n := Z.of_N (N_of_ascii c) in
  if (48 <=? n) && (n <=? 57) then Some (n - 48) else None.

Definition is_digit (c : ascii) : bool :=
  match digit_value c with Some _ => true | None => false end.

Fixpoint all_digits (s : string) : bool :=
  match s with
  | EmptyString => true
  | String c s' => is_digit c && all_digits s'
  end.

(** [do { *--p = '0' + n % 10; n /= 10; } while (n != 0);] *)
Fixpoint digits_loop (fuel : nat) (n : Z) (acc : string) : string :=
  match fuel with
  | O => acc
  | S fuel' =>
      let acc' := String (digit_char (n mod 10)) acc in
      if n / 10 =? 0 then acc' else digits_loop fuel' (n / 10) acc'
  end.

(** Twenty iterations: [2^64 < 10^20]. *)
Definition fmt_fuel : nat := 20.

Definition fmt_unsigned (n : Z) : string := digits_loop fmt_fuel n "".

(** The [%lld] conversion: a minus sign and the magnitude, or the
    magnitude alone. *)
Definition fmt_lld (z : Z) : string :=
  if z <? 0 then String "-" (fmt_unsigned (- z)) else fmt_unsigned z.

(** [sizeof(buf_micros)], line 88. *)
Definition BUF_MICROS_SIZE : nat := 32.

(** [snprintf(buf, size, "%lld", z)]: at most [size - 1] characters are
    stored before the terminating NUL; the value returned is the length of
    the whole text. *)
Definition snprintf_lld (size : nat) (z : Z) : string * Z :=
  let s := fmt_lld z in
  (substring 0 (size - 1) s, Z.of_nat (String.length s)).

(** What the destination holds after line 89. *)
Definition buf_micros (micros : Z) : string :=
  fst (snprintf_lld BUF_MICROS_SIZE micros).

(** ["\n"] *)
Definition NEWLINE : string := String (ascii_of_N 10) "".

(** What line 92 writes to standard output. *)
Definition printf_lld_nl (micros : Z) : string := fmt_lld micros ++ NEWLINE.

(** The reference reader: digits, most significant first. *)
Fixpoint parse_digits (s : string) (acc : Z) : option Z :=
  match s with
  | EmptyString => Some acc
  | String c s' =>
      match digit_value c with
      | Some d => parse_digits s' (acc * 10 + d)
      | None => None
      end
  end.

(** An optional minus sign and at least one digit. *)
Definition parse_lld (s : string) : option Z :=
  match s with
  | EmptyString => None
  | String c s' =>
      if Ascii.eqb c "-" then
        match s' with
        | EmptyString => None
        | _ => option_map Z.opp (parse_digits s' 0)
        end
      else parse_digits s 0
  end.

(** ** Digits *)

Lemma digit_cases (d : Z) :
  0 <= d < 10 ->
  d = 0 \/ d = 1 \/ d = 2 \/ d = 3 \/ d = 4 \/ d = 5 \/ d = 6 \/ d = 7 \/ d = 8 \/ d = 9.
Proof. lia. Qed.

(** [on_digit]: prove a goal about a digit [d] by the ten cases. *)
Ltac on_digit H :=
  apply digit_cases in H;
  repeat (destruct H as [H|H]); subst; try reflexivity; try discriminate.

Lemma digit_value_char (d : Z) : 0 <= d < 10 -> digit_value (digit_char d) = Some d.
Proof. intros H. on_digit H. Qed.

Lemma is_digit_char (d : Z) : 0 <= d < 10 -> is_digit (digit_char d) = true.
Proof. intros H. unfold is_digit. rewrite digit_value_char by assumption. reflexivity. Qed.

Lemma digit_char_not_minus (d : Z) : 0 <= d < 10 -> Ascii.eqb (digit_char d) "-" = false.
Proof. intros H. on_digit H. Qed.

Lemma digit_char_zero_iff (d : Z) : 0 <= d < 10 -> (digit_char d = "0"%char <-> d = 0).
Proof.
  intros H. split; [|intros ->; reflexivity].
  intros E. assert (Hv : digit_value (digit_char d) = Some 0) by (rewrite E; reflexivity).
  rewrite digit_value_char in Hv by assumption. congruence.
Qed.

Lemma digit_value_range (c : ascii) (d : Z) : digit_value c = Some d -> 0 <= d < 10.
Proof.
  unfold digit_value. destruct (_ && _) eqn:E; [|discriminate].
  apply andb_true_iff in E as [H1%Z.leb_le H2%Z.leb_le]. intros [= <-]. lia.
Qed.

Lemma mod10_range (n : Z) : 0 <= n mod 10 < 10.
Proof. apply Z.mod_pos_bound. reflexivity. Qed.

#[export] Hint Resolve mod10_range digit_value_char is_digit_char : timep.

(** ** Strings *)

Lemma append_nil_r (s : string) : s ++ "" = s.
Proof. induction s as [|c s IH]; simpl; [reflexivity | rewrite IH; reflexivity]. Qed.

Lemma append_assoc (s t u : string) : (s ++ t) ++ u = s ++ (t ++ u).
Proof. induction s as [|c s IH]; simpl; [reflexivity | rewrite IH; reflexivity]. Qed.

Lemma length_append (s t : string) :
  String.length (s ++ t) = (String.length s + String.length t)%nat.
Proof. induction s as [|c s IH]; simpl; [reflexivity | rewrite IH; reflexivity]. Qed.

Lemma substring_all (s : string) (n : nat) :
  (String.length s <= n)%nat -> substring 0 n s = s.
Proof.
  revert n. induction s as [|c s IH]; intros [|n] H; simpl in *; try reflexivity; try lia.
  rewrite IH by lia. reflexivity.
Qed.

Lemma substring_length_le (s : string) (n : nat) :
  (String.length (substring 0 n s) <= n)%nat.
Proof.
  revert n. induction s as [|c s IH]; intros [|n]; simpl; try lia.
  specialize (IH n). lia.
Qed.

Lemma all_digits_append (s t : string) :
  all_digits (s ++ t) = all_digits s && all_digits t.
Proof.
  induction s as [|c s IH]; simpl; [reflexivity|].
  rewrite IH, andb_assoc. reflexivity.
Qed.

Lemma parse_digits_append (s t : string) (acc : Z) :
  parse_digits (s ++ t) acc = option_bind (parse_digits s acc) (parse_digits t).
Proof.
  revert acc. induction s as [|c s IH]; intros acc; simpl; [reflexivity|].
  destruct (digit_value c); [apply IH | reflexivity].
Qed.

(** ** The digit loop *)

(** The loop writes in front of what is already there. *)
Lemma digits_loop_acc (fuel : nat) (n : Z) (acc : string) :
  digits_loop fuel n acc = digits_loop fuel n "" ++ acc.
Proof.
  revert n acc. induction fuel as [|fuel IH]; intros n acc; simpl; [reflexivity|].
  destruct (n / 10 =? 0); [reflexivity|].
  rewrite IH, (IH _ (String _ "")), append_assoc. reflexivity.
Qed.

(** One iteration, read from the most significant digit. *)
Lemma digits_loop_step (fuel : nat) (n : Z) :
  digits_loop (S fuel) n "" =
  if n / 10 =? 0 then String (digit_char (n mod 10)) ""
  else digits_loop fuel (n / 10) "" ++ String (digit_char (n mod 10)) "".
Proof. simpl. destruct (n / 10 =? 0); [reflexivity | apply digits_loop_acc]. Qed.

Lemma div10_lt_pow (n : Z) (k : nat) :
  0 <= n < 10 ^ Z.of_nat (S k) -> 0 <= n / 10 < 10 ^ Z.of_nat k.
Proof.
  rewrite Nat2Z.inj_succ, Z.pow_succ_r by lia. intros [H0 H1]. split.
  - apply Z.div_pos; lia.
  - apply Z.div_lt_upper_bound; lia.
Qed.

Lemma div10_zero_small (n : Z) : 0 <= n -> n / 10 = 0 -> n mod 10 = n.
Proof. intros H0 E. pose proof (Z.div_mod n 10 ltac:(lia)). lia. Qed.

(** The digits spell the number: reading them back gives [n]. *)
Lemma digits_loop_parse (fuel : nat) (n : Z) :
  0 <= n < 10 ^ Z.of_nat fuel ->
  parse_digits (digits_loop fuel n "") 0 = Some n.
Proof.
  revert n. induction fuel as [|fuel IH]; intros n Hn.
  - simpl in *. f_equal. lia.
  - rewrite digits_loop_step. destruct (Z.eqb_spec (n / 10) 0) as [E|E].
    + simpl. rewrite digit_value_char by apply mod10_range.
      f_equal. simpl. apply div10_zero_small; lia.
    + rewrite parse_digits_append, IH by (apply div10_lt_pow, Hn). simpl.
      rewrite digit_value_char by apply mod10_range. f_equal.
      pose proof (Z.div_mod n 10 ltac:(lia)). lia.
Qed.

(** Every character produced is a digit. *)
Lemma digits_loop_all_digits (fuel : nat) (n : Z) :
  all_digits (digits_loop fuel n "") = true.
Proof.
  revert n. induction fuel as [|fuel IH]; intros n; [reflexivity|].
  rewrite digits_loop_step. destruct (n / 10 =? 0); simpl.
  - rewrite is_digit_char by apply mod10_range. reflexivity.
  - rewrite all_digits_append, IH. simpl.
    rewrite is_digit_char by apply mod10_range. reflexivity.
Qed.

(** A number below [10^k] is written with at most [k] digits, however
    much fuel is left. *)
Lemma digits_loop_length (fuel k : nat) (n : Z) :
  0 <= n < 10 ^ Z.of_nat (S k) ->
  (String.length (digits_loop fuel n "") <= S k)%nat.
Proof.
  revert k n. induction fuel as [|fuel IH]; intros k n Hn; [simpl; lia|].
  rewrite digits_loop_step. destruct (Z.eqb_spec (n / 10) 0) as [E|E]; [simpl; lia|].
  rewrite length_append. simpl. destruct k as [|k].
  - exfalso. apply E. apply Z.div_small. simpl in Hn. lia.
  - specialize (IH k (n / 10) (div10_lt_pow _ _ Hn)). lia.
Qed.

Lemma digits_loop_nonempty (fuel : nat) (n : Z) :
  (1 <= String.length (digits_loop (S fuel) n ""))%nat.
Proof.
  rewrite digits_loop_step. destruct (n / 10 =? 0); [simpl; lia|].
  rewrite length_append. simpl. lia.
Qed.

(** More fuel than the number has digits changes nothing: the loop has
    left through its exit test before the fuel runs out. *)
Lemma digits_loop_more_fuel (fuel extra : nat) (n : Z) (acc : string) :
  0 <= n < 10 ^ Z.of_nat (S fuel) ->
  digits_loop (S fuel + extra) n acc = digits_loop (S fuel) n acc.
Proof.
  revert n acc. induction fuel as [|fuel IH]; intros n acc Hn.
  - simpl. replace (n / 10) with 0 by (symmetry; apply Z.div_small; simpl in Hn; lia).
    reflexivity.
  - change (S (S fuel) + extra)%nat with (S (S fuel + extra)).
    cbn [digits_loop]. destruct (Z.eqb_spec (n / 10) 0) as [E|E]; [reflexivity|].
    apply IH, div10_lt_pow, Hn.
Qed.

(** The first digit is not a zero, except for the number zero. *)
Lemma digits_loop_head (fuel : nat) (n : Z) :
  0 < n < 10 ^ Z.of_nat fuel ->
  exists d s, digits_loop fuel n "" = String (digit_char d) s /\ 0 < d < 10.
Proof.
  revert n. induction fuel as [|fuel IH]; intros n Hn; [simpl in Hn; lia|].
  rewrite digits_loop_step. destruct (Z.eqb_spec (n / 10) 0) as [E|E].
  - exists (n mod 10), "". split; [reflexivity|].
    pose proof (mod10_range n). rewrite div10_zero_small in * by lia. lia.
  - destruct (IH (n / 10)) as (d & s & -> & Hd).
    + pose proof (div10_lt_pow n fuel ltac:(lia)). lia.
    + eexists d, _. split; [reflexivity | exact Hd].
Qed.

(** ** The conversion of a 64-bit integer *)

Lemma magnitude_bound (z : Z) : I64.in_range z -> 0 <= Z.abs z < 10 ^ Z.of_nat 19.
Proof. unfold I64.in_range, I64.min_signed, I64.max_signed. simpl. lia. Qed.

Lemma fmt_unsigned_parse (n : Z) :
  0 <= n < 10 ^ Z.of_nat 20 -> parse_digits (fmt_unsigned n) 0 = Some n.
Proof. apply (digits_loop_parse fmt_fuel). Qed.

Lemma fmt_unsigned_length (n : Z) (k : nat) :
  0 <= n < 10 ^ Z.of_nat (S k) ->
  (1 <= String.length (fmt_unsigned n) <= S k)%nat.
Proof.
  intros Hn. split; [apply digits_loop_nonempty | apply digits_loop_length, Hn].
Qed.

Lemma fmt_unsigned_all_digits (n : Z) : all_digits (fmt_unsigned n) = true.
Proof. apply digits_loop_all_digits. Qed.

Lemma fmt_unsigned_first (n : Z) :
  exists c s, fmt_unsigned n = String c s /\ is_digit c = true.
Proof.
  pose proof (digits_loop_nonempty 19 n) as Hl.
  pose proof (fmt_unsigned_all_digits n) as Hd. unfold fmt_unsigned, fmt_fuel in *.
  destruct (digits_loop 20 n "") as [|c s]; [simpl in Hl; lia|].
  exists c, s. split; [reflexivity|]. simpl in Hd. apply andb_true_iff in Hd. tauto.
Qed.

Lemma is_digit_not_minus (c : ascii) : is_digit c = true -> Ascii.eqb c "-" = false.
Proof.
  intros H. destruct (Ascii.eqb_spec c "-") as [->|]; [discriminate H | reflexivity].
Qed.

Lemma parse_lld_unsigned (n : Z) : parse_lld (fmt_unsigned n) = parse_digits (fmt_unsigned n) 0.
Proof.
  destruct (fmt_unsigned_first n) as (c & s & -> & Hc).
  simpl. rewrite (is_digit_not_minus c Hc). reflexivity.
Qed.

Lemma parse_lld_negative (n : Z) :
  parse_lld (String "-" (fmt_unsigned n)) = option_map Z.opp (parse_digits (fmt_unsigned n) 0).
Proof. destruct (fmt_unsigned_first n) as (c & s & -> & _). reflexivity. Qed.

Lemma fmt_lld_parse (z : Z) : I64.in_range z -> parse_lld (fmt_lld z) = Some z.
Proof.
  intros Hz. pose proof (magnitude_bound z Hz) as Hm. unfold fmt_lld.
  assert (10 ^ Z.of_nat 19 < 10 ^ Z.of_nat 20) by (simpl; lia).
  destruct (Z.ltb_spec z 0).
  - rewrite parse_lld_negative, fmt_unsigned_parse by lia. simpl. f_equal. lia.
  - rewrite parse_lld_unsigned, fmt_unsigned_parse by lia. reflexivity.
Qed.

Lemma fmt_lld_length (z : Z) :
  I64.in_range z -> (1 <= String.length (fmt_lld z) <= 20)%nat.
Proof.
  intros Hz. pose proof (magnitude_bound z Hz) as Hm. unfold fmt_lld.
  destruct (Z.ltb_spec z 0); simpl.
  - pose proof (fmt_unsigned_length (- z) 18 ltac:(lia)). lia.
  - pose proof (fmt_unsigned_length z 18 ltac:(lia)). lia.
Qed.

Lemma fmt_lld_nonneg_digits (z : Z) : 0 <= z -> all_digits (fmt_lld z) = true.
Proof.
  intros Hz. unfold fmt_lld. destruct (Z.ltb_spec z 0); [lia|].
  apply fmt_unsigned_all_digits.
Qed.

Lemma buf_micros_full (z : Z) : I64.in_range z -> buf_micros z = fmt_lld z.
Proof.
  intros Hz. unfold buf_micros, snprintf_lld, BUF_MICROS_SIZE. simpl fst.
  apply substring_all. pose proof (fmt_lld_length z Hz). simpl. lia.
Qed.

#[export] Hint Resolve fmt_lld_parse fmt_lld_length buf_micros_full
  fmt_lld_nonneg_digits : timep.

(** ** Properties *)

(** C11.  Round trip of the text emitted: for every 64-bit signed integer
    the text stored in [buf_micros] (lines 88-89) reads back as that
    integer, and the line printed (line 92) is that same text followed by
    a newline; the value assigned and the value printed are the same
    number. *)
Theorem emitted_text_roundtrip (z : Z) :
  I64.in_range z ->
  parse_lld (buf_micros z) = Some z /\ printf_lld_nl z = buf_micros z ++ NEWLINE.
Proof.
  intros Hz. rewrite buf_micros_full by exact Hz.
  split; [apply fmt_lld_parse, Hz | reflexivity].
Qed.

Lemma emitted_text_roundtrip_witness :
  parse_lld (buf_micros (-9223372036854775808)) = Some (-9223372036854775808) /\
  printf_lld_nl (-9223372036854775808) = buf_micros (-9223372036854775808) ++ NEWLINE.
Proof.
  apply (emitted_text_roundtrip (-9223372036854775808)).
  unfold I64.in_range, I64.min_signed, I64.max_signed. simpl. lia.
Defined.

(** C9.  The buffer of line 88 is large enough: the text of a 64-bit
    integer has between 1 and 20 characters, so [snprintf] with
    [sizeof(buf_micros) = 32] stores it whole and returns a length below
    the size of the buffer. *)
Theorem buf_micros_no_truncation (z : Z) :
  I64.in_range z ->
  buf_micros z = fmt_lld z /\
  1 <= snd (snprintf_lld BUF_MICROS_SIZE z) <= 20 /\
  snd (snprintf_lld BUF_MICROS_SIZE z) < Z.of_nat BUF_MICROS_SIZE.
Proof.
  intros Hz. pose proof (fmt_lld_length z Hz) as Hl.
  split; [apply buf_micros_full, Hz |].
  unfold snprintf_lld, BUF_MICROS_SIZE. simpl snd. lia.
Qed.

Lemma buf_micros_no_truncation_witness :
  buf_micros 9223372036854775807 = fmt_lld 9223372036854775807 /\
  1 <= snd (snprintf_lld BUF_MICROS_SIZE 9223372036854775807) <= 20 /\
  snd (snprintf_lld BUF_MICROS_SIZE 9223372036854775807) < Z.of_nat BUF_MICROS_SIZE.
Proof.
  apply (buf_micros_no_truncation 9223372036854775807).
  unfold I64.in_range, I64.min_signed, I64.max_signed. simpl. lia.
Defined.

(** The conversion terminates within its fuel: for every
    non-negative 64-bit value, running the digit loop with any larger fuel
    produces the text stored in [buf_micros], so the fuel of 20 never cuts
    the conversion of line 89 short. *)
Theorem digits_loop_fuel_enough (z : Z) (extra : nat) :
  0 <= z -> I64.in_range z ->
  digits_loop (fmt_fuel + extra) z "" = buf_micros z.
Proof.
  intros H0 Hz. pose proof (magnitude_bound z Hz) as Hm.
  rewrite buf_micros_full by exact Hz. unfold fmt_lld.
  destruct (Z.ltb_spec z 0); [lia|].
  apply (digits_loop_more_fuel 19). simpl in *. lia.
Qed.

Lemma digits_loop_fuel_enough_witness :
  digits_loop (fmt_fuel + 5) 9223372036854775807 "" = buf_micros 9223372036854775807.
Proof.
  apply (digits_loop_fuel_enough 9223372036854775807 5); [lia|].
  unfold I64.in_range, I64.min_signed, I64.max_signed. simpl. lia.
Defined.

(** The line printed for a non-negative value (line 92) is a
    non-empty run of decimal digits followed by a newline and nothing else
    (it matches [^[0-9]+$]), without a leading zero unless the value is
    zero. *)
Theorem printed_line_shape (z : Z) :
  0 <= z -> I64.in_range z ->
  exists text, printf_lld_nl z = text ++ NEWLINE /\
    all_digits text = true /\ (1 <= String.length text <= 20)%nat /\
    (0 < z -> exists d s, text = String (digit_char d) s /\ 0 < d < 10).
Proof.
  intros H0 Hz. exists (fmt_lld z). split; [reflexivity|].
  split; [apply fmt_lld_nonneg_digits, H0 |].
  split; [apply fmt_lld_length, Hz |]. intros Hpos.
  pose proof (magnitude_bound z Hz). unfold fmt_lld.
  destruct (Z.ltb_spec z 0); [lia|]. apply digits_loop_head. simpl in *. lia.
Qed.

Lemma printed_line_shape_witness :
  exists text, printf_lld_nl 1500000 = text ++ NEWLINE /\
    all_digits text = true /\ (1 <= String.length text <= 20)%nat /\
    (0 < 1500000 -> exists d s, text = String (digit_char d) s /\ 0 < d < 10).
Proof.
  apply (printed_line_shape 1500000); [lia|].
  unfold I64.in_range, I64.min_signed, I64.max_signed. simpl. lia.
Defined.
