(* ===== verification/DecimalRef.v ===== *)
(** * DecimalRef: the conversion against the Standard Library's printer

    [Decimal] models the [%lld] conversion as the loop a C library runs.
    This file compares it with an independent definition of the decimal
    numeral of an integer: the Standard Library's [Z.to_int], which
    computes the numeral from the binary representation, printed by
    [NilZero.string_of_int].  The two agree on every 64-bit integer, so the
    text the builtin emits is the decimal numeral of the value, with a
    minus sign for a negative one, without leading zeros. *)

From Stdlib Require Import ZArith Lia Bool String Ascii.
From Stdlib Require Import DecimalFacts DecimalPos DecimalString.
From S2P Require Import Prelude Int64 Decimal.

#[local] Open Scope string_scope.
#[local] Open Scope Z_scope.

(** The reference: the numeral of [z], as a string. *)
Definition ref_lld (z : Z) : string := NilZero.string_of_int (Z.to_int z).

(** ** Numerals and digit strings *)

Lemma is_digit_cases (c : ascii) :
  is_digit c = true ->
  (c = "0" \/ c = "1" \/ c = "2" \/ c = "3" \/ c = "4" \/
   c = "5" \/ c = "6" \/ c = "7" \/ c = "8" \/ c = "9")%char.
Proof.
  destruct c as [[|] [|] [|] [|] [|] [|] [|] [|]]; intros H;
    try discriminate H; tauto.
Qed.

(** A string of digits is the text of a numeral. *)
Lemma digits_numeral (s : string) :
  all_digits s = true -> exists d, NilEmpty.string_of_uint d = s.
Proof.
  induction s as [|c s IH]; simpl; [exists Init.Decimal.Nil; reflexivity|].
  intros [Hc Hs]%andb_true_iff. destruct (IH Hs) as [d <-].
  apply is_digit_cases in Hc.
  repeat (destruct Hc as [->|Hc]); [| | | | | | | | |subst c];
    [exists (Init.Decimal.D0 d) | exists (Init.Decimal.D1 d) | exists (Init.Decimal.D2 d)
    | exists (Init.Decimal.D3 d) | exists (Init.Decimal.D4 d) | exists (Init.Decimal.D5 d)
    | exists (Init.Decimal.D6 d) | exists (Init.Decimal.D7 d) | exists (Init.Decimal.D8 d)
    | exists (Init.Decimal.D9 d)]; reflexivity.
Qed.

(** Reading the text of a numeral computes its value, as [Pos.of_uint]
    does. *)
Lemma parse_digits_digit (k : Z) (s : string) (acc acc' : Z) :
  0 <= k < 10 -> acc' = acc * 10 + k ->
  parse_digits (String (digit_char k) s) acc = parse_digits s acc'.
Proof. intros Hk ->. simpl. rewrite digit_value_char by exact Hk. reflexivity. Qed.

Lemma parse_of_uint_acc (d : Init.Decimal.uint) (acc : positive) :
  parse_digits (NilEmpty.string_of_uint d) (Zpos acc) = Some (Zpos (Pos.of_uint_acc d acc)).
Proof.
  revert acc. induction d as [|d IH|d IH|d IH|d IH|d IH|d IH|d IH|d IH|d IH|d IH];
    intros acc; [reflexivity | cbn [NilEmpty.string_of_uint Pos.of_uint_acc]; rewrite <- IH ..];
    [apply (parse_digits_digit 0) | apply (parse_digits_digit 1) | apply (parse_digits_digit 2)
    | apply (parse_digits_digit 3) | apply (parse_digits_digit 4) | apply (parse_digits_digit 5)
    | apply (parse_digits_digit 6) | apply (parse_digits_digit 7) | apply (parse_digits_digit 8)
    | apply (parse_digits_digit 9)]; lia.
Qed.

Lemma parse_of_uint (d : Init.Decimal.uint) :
  parse_digits (NilEmpty.string_of_uint d) 0 = Some (Z.of_N (Pos.of_uint d)).
Proof.
  induction d as [|d IH|d IH|d IH|d IH|d IH|d IH|d IH|d IH|d IH|d IH];
    [reflexivity | exact IH | apply (parse_of_uint_acc d) ..].
Qed.

(** A numeral whose text starts with a digit other than 0 is
    normalised. *)
Lemma unorm_head (d : Init.Decimal.uint) (k : Z) (s : string) :
  NilEmpty.string_of_uint d = String (digit_char k) s -> 0 < k < 10 ->
  Init.Decimal.unorm d = d /\ d <> Init.Decimal.Nil.
Proof.
  intros Hd Hk. destruct d; try (split; [reflexivity | discriminate]).
  - discriminate Hd.
  - simpl in Hd. injection Hd as Hc _.
    assert (Hv : digit_value (digit_char k) = Some 0) by (rewrite <- Hc; reflexivity).
    rewrite digit_value_char in Hv by lia. injection Hv as ->. lia.
Qed.

Lemma string_of_uint_nonnil (d : Init.Decimal.uint) :
  d <> Init.Decimal.Nil -> NilZero.string_of_uint d = NilEmpty.string_of_uint d.
Proof. destruct d; [contradiction | reflexivity ..]. Qed.

(** ** The magnitude *)

Lemma fmt_unsigned_ref (n : Z) :
  0 <= n < 10 ^ Z.of_nat 20 ->
  fmt_unsigned n = NilZero.string_of_uint (N.to_uint (Z.to_N n)).
Proof.
  intros Hn. destruct (Z.eq_dec n 0) as [->|Hne]; [reflexivity|].
  destruct (digits_numeral (fmt_unsigned n) (fmt_unsigned_all_digits n)) as [d Hd].
  pose proof (fmt_unsigned_parse n Hn) as Hp.
  rewrite <- Hd, parse_of_uint in Hp. injection Hp as Hv.
  destruct (digits_loop_head fmt_fuel n) as (k & s & Hs & Hk); [simpl in *; lia|].
  fold (fmt_unsigned n) in Hs. rewrite <- Hd in Hs.
  destruct (unorm_head d k s Hs Hk) as [Hu Hnil].
  replace (Z.to_N n) with (Pos.of_uint d) by lia.
  rewrite Unsigned.to_of, Hu, string_of_uint_nonnil by exact Hnil. symmetry. exact Hd.
Qed.

Lemma fmt_lld_ref (z : Z) : I64.in_range z -> fmt_lld z = ref_lld z.
Proof.
  intros Hz. pose proof (magnitude_bound z Hz) as Hm.
  assert (10 ^ Z.of_nat 19 < 10 ^ Z.of_nat 20) by (simpl; lia).
  unfold fmt_lld, ref_lld. destruct z as [|p|p]; [reflexivity | |].
  - rewrite (proj2 (Z.ltb_ge _ _)) by lia. rewrite fmt_unsigned_ref by lia. reflexivity.
  - rewrite (proj2 (Z.ltb_lt _ _)) by lia. rewrite fmt_unsigned_ref by lia. reflexivity.
Qed.

(** ** Properties *)

(** The text emitted is the decimal numeral of the value: for
    every 64-bit integer the string stored in [buf_micros] (line 89) is the
    one the Standard Library prints for that integer, and the line printed
    (line 92) is that string followed by a newline.  The digit loop of the
    model and the library's conversion from binary are two independent
    definitions of the same text. *)
Theorem buf_micros_is_numeral (z : Z) :
  I64.in_range z ->
  buf_micros z = ref_lld z /\ printf_lld_nl z = ref_lld z ++ NEWLINE.
Proof.
  intros Hz. rewrite buf_micros_full by exact Hz. unfold printf_lld_nl.
  rewrite (fmt_lld_ref z Hz). split; reflexivity.
Qed.

Lemma buf_micros_is_numeral_witness :
  buf_micros (-9223372036854775808) = ref_lld (-9223372036854775808) /\
  printf_lld_nl (-9223372036854775808) = ref_lld (-9223372036854775808) ++ NEWLINE.
Proof.
  apply (buf_micros_is_numeral (-9223372036854775808)).
  unfold I64.in_range, I64.min_signed, I64.max_signed. simpl. lia.
Defined.
