(* ===== verification/DecimalWf.v ===== *)
(** * DecimalWf: the digit loop without a bound

    [Decimal.digits_loop] runs the loop of the [%lld] conversion on a
    fuel of twenty iterations.  The loop of a C library has no such
    bound: [do { *--p = '0' + n % 10; n /= 10; } while (n != 0);] runs on
    the unsigned magnitude until the quotient is zero.  [digits_of] is
    that loop, defined by well-founded recursion on the magnitude: it
    terminates because the quotient by ten of a number that is not below
    ten is smaller than the number.

    The theorems show that the fuel of [Decimal] is not a restriction:
    on every magnitude below [10 ^ fuel] the bounded loop computes what
    the unbounded one computes, so the text that line 89 stores and line
    92 prints is the text of the real loop for every [int64_t] value. *)

From Stdlib Require Import ZArith NArith Lia Bool String Ascii.
From Equations.Prop Require Import Equations.
From S2P Require Import Prelude Int64 Decimal.

#[local] Open Scope string_scope.

(** The loop on the unsigned magnitude [n], the digits found so far in
    [acc]. *)
Equations? digits_of (n : N) (acc : string) : string by wf (N.to_nat n) lt :=
  digits_of n acc with N.eq_dec (n / 10) 0 := {
    | left _ := String (digit_char (Z.of_N (n mod 10))) acc ;
    | right _ := digits_of (n / 10) (String (digit_char (Z.of_N (n mod 10))) acc) }.
Proof.
  assert (n / 10 < n)%N; [|lia].
  apply N.div_lt; [|reflexivity].
  destruct n; [|reflexivity].
  match goal with H : _ <> _ |- _ => contradiction H; reflexivity end.
Defined.

(** The [%lld] conversion with the unbounded loop. *)
Definition fmt_lld_wf (z : Z) : string :=
  if (z <? 0)%Z then String "-" (digits_of (Z.to_N (- z)) "") else digits_of (Z.to_N z) "".

#[local] Open Scope Z_scope.

(** ** The loop, one iteration at a time *)

Lemma digits_of_step (n : N) (acc : string) :
  digits_of n acc =
  if (n / 10 =? 0)%N then String (digit_char (Z.of_N (n mod 10))) acc
  else digits_of (n / 10) (String (digit_char (Z.of_N (n mod 10))) acc).
Proof.
  funelim (digits_of n acc); destruct (N.eqb_spec (n / 10) 0); congruence.
Qed.

(** The magnitude as the loop of [Decimal] sees it. *)
Lemma to_N_div_mod (n : Z) :
  0 <= n -> Z.to_N (n / 10) = (Z.to_N n / 10)%N /\ n mod 10 = Z.of_N (Z.to_N n mod 10).
Proof.
  intros Hn. split.
  - apply (Z2N.inj_div n 10); lia.
  - rewrite <- (Z2N.id (n mod 10)) at 1 by (apply Z.mod_pos_bound; lia).
    f_equal. apply (Z2N.inj_mod n 10); lia.
Qed.

(** The bounded loop is the unbounded one while the fuel lasts. *)
Lemma digits_loop_wf (fuel : nat) (n : Z) (acc : string) :
  0 <= n < 10 ^ Z.of_nat fuel -> (0 < fuel)%nat ->
  digits_loop fuel n acc = digits_of (Z.to_N n) acc.
Proof.
  revert n acc. induction fuel as [|fuel IH]; intros n acc Hn Hf; [lia|].
  destruct (to_N_div_mod n (proj1 Hn)) as [Hd Hm].
  rewrite digits_of_step. cbn [digits_loop]. rewrite <- Hd, <- Hm.
  assert (Hq : 0 <= n / 10) by (apply Z.div_pos; lia).
  destruct (Z.eqb_spec (n / 10) 0) as [E|E]; [rewrite E; reflexivity|].
  replace (Z.to_N (n / 10) =? 0)%N with false by (symmetry; apply N.eqb_neq; lia).
  rewrite Nat2Z.inj_succ, Z.pow_succ_r in Hn by lia.
  assert (Hlt : n / 10 < 10 ^ Z.of_nat fuel) by (apply Z.div_lt_upper_bound; lia).
  apply IH; [lia|]. destruct fuel; [change (10 ^ Z.of_nat 0) with 1 in Hlt; lia | lia].
Qed.

(** Every 64-bit magnitude is below [10 ^ fmt_fuel]. *)
Lemma magnitude_fits (z : Z) : I64.in_range z -> 0 <= Z.abs z < 10 ^ Z.of_nat fmt_fuel.
Proof.
  unfold I64.in_range, I64.min_signed, I64.max_signed, fmt_fuel. intros Hz.
  change (10 ^ Z.of_nat 20) with 100000000000000000000. lia.
Qed.

(** ** Properties *)

(** C35.  The digit loop terminates, and the fuel is enough.  The loop
    of the conversion, defined without a bound by well-founded recursion
    on the magnitude, computes for every [int64_t] value, negative ones
    included, the text that the twenty iterations of [Decimal] compute;
    so the text that line 89 stores in [buf_micros] is the whole text of
    the real conversion. *)
Theorem buf_micros_unbounded (micros : Z) :
  I64.in_range micros -> buf_micros micros = fmt_lld_wf micros.
Proof.
  intros Hr. pose proof (magnitude_fits micros Hr) as Hm.
  rewrite buf_micros_full by exact Hr. unfold fmt_lld, fmt_lld_wf, fmt_unsigned.
  destruct (Z.ltb_spec micros 0) as [Hneg|Hpos].
  - rewrite digits_loop_wf; [reflexivity | rewrite Z.abs_neq in Hm; lia | unfold fmt_fuel; lia].
  - rewrite digits_loop_wf; [reflexivity | rewrite Z.abs_eq in Hm; lia | unfold fmt_fuel; lia].
Qed.

(** ** The theorem at work *)

Lemma buf_micros_unbounded_witness :
  I64.in_range 1234567 /\ buf_micros 1234567 = fmt_lld_wf 1234567.
Proof.
  assert (H : I64.in_range 1234567) by (unfold I64.in_range, I64.min_signed, I64.max_signed; lia).
  split; [exact H | apply (buf_micros_unbounded 1234567 H)].
Defined.

Example digits_of_steps : digits_of 907 "" = "907".
Proof. do 3 (rewrite digits_of_step; cbn [N.div N.modulo N.eqb]); reflexivity. Qed.
