(* ===== verification/CString.v ===== *)
(** * CString: NUL-terminated strings, [strcmp], and the empty-argument test

    A [char *] of the program is modelled by the characters it points to.
    A C function reads them up to the first NUL, so the content a C
    function sees is [c_str s], and a [string] without a NUL character
    ([is_cstring]) stands for itself.  [strcmp] compares unsigned
    characters and stops at the first difference or at the terminator
    (line 123 tests its result against 0); [first_char] is [s[0]], the
    terminator for the empty string (line 72). *)

From Stdlib Require Import ZArith Lia Bool String Ascii.
From S2P Require Import Prelude.

#[local] Open Scope string_scope.
#[local] Open Scope Z_scope.

#[local] Arguments Ascii.eqb : simpl never.

(** ['\0'] *)
Definition NUL : ascii := Ascii.zero.

(** The value of a character as an [unsigned char]. *)
Definition char_code (c : ascii) : Z := Z.of_N (N_of_ascii c).

(** No NUL inside: the string is its own C content. *)
Fixpoint is_cstring (s : string) : bool :=
  match s with
  | EmptyString => true
  | String c s' => negb (Ascii.eqb c NUL) && is_cstring s'
  end.

(** The characters before the first NUL. *)
Fixpoint c_str (s : string) : string :=
  match s with
  | EmptyString => EmptyString
  | String c s' => if Ascii.eqb c NUL then EmptyString else String c (c_str s')
  end.

(** [s[0]]: the first character, or the terminator. *)
Definition first_char (s : string) : ascii :=
  match s with
  | EmptyString => NUL
  | String c _ => c
  end.

(** [strcmp(s, t)]: the difference of the first two characters that
    differ, as unsigned characters; 0 when the terminator is reached. *)
Fixpoint strcmp (s t : string) : Z :=
  match s, t with
  | EmptyString, EmptyString => 0
  | EmptyString, String b _ => - char_code b
  | String a _, EmptyString => char_code a
  | String a s', String b t' =>
      if Ascii.eqb a b
      then (if Ascii.eqb a NUL then 0 else strcmp s' t')
      else char_code a - char_code b
  end.

(** [strlen(s)] *)
Definition strlen (s : string) : Z := Z.of_nat (String.length (c_str s)).

(** The part of [s] before the suffix [suf], when [s] ends with it: the
    inverse of the [strcpy(p + strlen(p), suf)] by which a symbol name is
    built from a command name. *)
Fixpoint strip_suffix (suf s : string) : option string :=
  if String.eqb s suf then Some EmptyString
  else match s with
       | EmptyString => None
       | String c s' => option_map (String c) (strip_suffix suf s')
       end.

(** The last character of a string, or the terminator. *)
Fixpoint last_char (s : string) : ascii :=
  match s with
  | EmptyString => NUL
  | String c EmptyString => c
  | String _ s' => last_char s'
  end.

(** ** Characters *)

Lemma char_code_range (c : ascii) : 0 <= char_code c < 256.
Proof. unfold char_code. pose proof (N_ascii_bounded c). lia. Qed.

Lemma char_code_inj (a b : ascii) : char_code a = char_code b -> a = b.
Proof.
  unfold char_code. intros H%N2Z.inj.
  rewrite <- (ascii_N_embedding a), <- (ascii_N_embedding b), H. reflexivity.
Qed.

Lemma char_code_NUL (c : ascii) : char_code c = 0 <-> c = NUL.
Proof.
  split; [|intros ->; reflexivity].
  intros H. apply char_code_inj. rewrite H. reflexivity.
Qed.

Lemma char_code_pos (c : ascii) : c <> NUL -> 0 < char_code c.
Proof.
  intros Hc. pose proof (char_code_range c).
  assert (char_code c <> 0) by (rewrite char_code_NUL; exact Hc). lia.
Qed.

Lemma char_code_opp_NUL (c : ascii) : - char_code c = 0 <-> c = NUL.
Proof. rewrite <- char_code_NUL. lia. Qed.

Lemma char_code_diff (a b : ascii) : a <> b -> char_code a - char_code b <> 0.
Proof. intros Hab H. apply Hab, char_code_inj. lia. Qed.

(** ** Contents *)

Lemma c_str_cstring (s : string) : is_cstring s = true -> c_str s = s.
Proof.
  induction s as [|c s IH]; simpl; [reflexivity|].
  intros [Hc Hs]%andb_true_iff. apply negb_true_iff in Hc. rewrite Hc, IH by assumption.
  reflexivity.
Qed.

Lemma c_str_is_cstring (s : string) : is_cstring (c_str s) = true.
Proof.
  induction s as [|c s IH]; simpl; [reflexivity|].
  destruct (Ascii.eqb c NUL) eqn:E; simpl; [reflexivity|]. rewrite E, IH. reflexivity.
Qed.

Lemma c_str_idem (s : string) : c_str (c_str s) = c_str s.
Proof. apply c_str_cstring, c_str_is_cstring. Qed.

Lemma first_char_c_str (s : string) : first_char (c_str s) = first_char s.
Proof.
  destruct s as [|c s]; simpl; [reflexivity|].
  destruct (Ascii.eqb_spec c NUL) as [->|]; reflexivity.
Qed.

(** [s[0] != '\0'] says that the content is not empty. *)
Lemma first_char_NUL (s : string) : first_char s = NUL <-> c_str s = "".
Proof.
  destruct s as [|c s]; simpl; [tauto|].
  destruct (Ascii.eqb_spec c NUL) as [->|Hc]; [tauto|].
  split; [contradiction | discriminate].
Qed.

(** ** [strcmp] *)

Lemma strcmp_refl (s : string) : strcmp s s = 0.
Proof.
  induction s as [|c s IH]; simpl; [reflexivity|].
  rewrite Ascii.eqb_refl. destruct (Ascii.eqb c NUL); [reflexivity | exact IH].
Qed.

Lemma strcmp_antisym (s t : string) : strcmp t s = - strcmp s t.
Proof.
  revert t. induction s as [|a s IH]; intros [|b t]; simpl; try lia.
  rewrite (Ascii.eqb_sym b a). destruct (Ascii.eqb_spec a b) as [->|Hab]; [|lia].
  destruct (Ascii.eqb b NUL); [reflexivity | apply IH].
Qed.

(** [strcmp] only looks at the contents. *)
Lemma strcmp_c_str (s t : string) : strcmp (c_str s) (c_str t) = strcmp s t.
Proof.
  revert t. induction s as [|a s IH]; intros [|b t]; simpl; try reflexivity.
  - destruct (Ascii.eqb_spec b NUL) as [->|]; reflexivity.
  - destruct (Ascii.eqb_spec a NUL) as [->|]; reflexivity.
  - destruct (Ascii.eqb_spec a NUL) as [->|Ha], (Ascii.eqb_spec b NUL) as [->|Hb]; simpl.
    + reflexivity.
    + destruct (Ascii.eqb_spec NUL b) as [<-|]; [contradiction | reflexivity].
    + destruct (Ascii.eqb_spec a NUL) as [->|]; [contradiction|].
      change (char_code NUL) with 0. lia.
    + destruct (Ascii.eqb_spec a b) as [->|]; [|reflexivity].
      destruct (Ascii.eqb_spec b NUL); [contradiction | apply IH].
Qed.

Lemma strcmp_zero_c_str (s t : string) : strcmp s t = 0 <-> c_str s = c_str t.
Proof.
  revert t. induction s as [|a s IH]; intros [|b t]; simpl.
  - tauto.
  - rewrite char_code_opp_NUL.
    destruct (Ascii.eqb_spec b NUL); split; congruence.
  - rewrite char_code_NUL. destruct (Ascii.eqb_spec a NUL); split; congruence.
  - destruct (Ascii.eqb_spec a b) as [->|Hab].
    + destruct (Ascii.eqb_spec b NUL); [tauto|]. rewrite IH. split; congruence.
    + pose proof (char_code_diff a b Hab).
      destruct (Ascii.eqb_spec a NUL) as [->|], (Ascii.eqb_spec b NUL) as [->|];
        split; congruence.
Qed.

Lemma strcmp_zero_iff (s t : string) :
  is_cstring s = true -> is_cstring t = true -> (strcmp s t = 0 <-> s = t).
Proof.
  intros Hs Ht. rewrite strcmp_zero_c_str, !c_str_cstring by assumption. tauto.
Qed.

(** The sign of [strcmp] is the lexicographic order of the contents. *)
Lemma strcmp_sign (s t : string) :
  is_cstring s = true -> is_cstring t = true ->
  match String.compare s t with
  | Eq => strcmp s t = 0
  | Lt => strcmp s t < 0
  | Gt => strcmp s t > 0
  end.
Proof.
  revert t. induction s as [|a s IH]; intros [|b t]; simpl; try reflexivity.
  - intros _ [Hb _]%andb_true_iff. apply negb_true_iff, Ascii.eqb_neq in Hb.
    pose proof (char_code_pos b Hb). lia.
  - intros [Ha _]%andb_true_iff _. apply negb_true_iff, Ascii.eqb_neq in Ha.
    pose proof (char_code_pos a Ha). lia.
  - intros [Ha Hs]%andb_true_iff [Hb Ht]%andb_true_iff.
    apply negb_true_iff in Ha. unfold Ascii.compare.
    destruct (Ascii.eqb_spec a b) as [->|Hab].
    + rewrite N.compare_refl, Ha. apply IH; assumption.
    + pose proof (char_code_diff a b Hab) as Hd. unfold char_code in *.
      destruct (N.compare_spec (N_of_ascii a) (N_of_ascii b)); lia.
Qed.

(** ** Suffixes *)

Lemma length_of_append (s t : string) :
  String.length (s ++ t) = (String.length s + String.length t)%nat.
Proof. induction s as [|c s IH]; simpl; [reflexivity | rewrite IH; reflexivity]. Qed.

Lemma strip_suffix_append (suf p : string) : strip_suffix suf (p ++ suf) = Some p.
Proof.
  induction p as [|c p IH].
  - destruct suf; simpl; [reflexivity|]. rewrite Ascii.eqb_refl, String.eqb_refl. reflexivity.
  - cbn [append strip_suffix].
    destruct (String.eqb_spec (String c (p ++ suf)) suf) as [E|_]; [|rewrite IH; reflexivity].
    apply (f_equal String.length) in E. simpl in E. rewrite length_of_append in E. lia.
Qed.

Lemma strip_suffix_some (suf s p : string) : strip_suffix suf s = Some p -> s = (p ++ suf)%string.
Proof.
  revert p. induction s as [|c s IH]; intros p.
  - destruct suf; simpl; [intros [= <-]; reflexivity | discriminate].
  - cbn [strip_suffix]. destruct (String.eqb_spec (String c s) suf) as [<-|_].
    + intros [= <-]. reflexivity.
    + destruct (strip_suffix suf s) as [p'|]; [|discriminate].
      intros [= <-]. simpl. rewrite (IH p' eq_refl). reflexivity.
Qed.

(** A text ends as its last part ends. *)
Lemma last_char_append (s t : string) : t <> "" -> last_char (s ++ t) = last_char t.
Proof.
  intros Ht. induction s as [|c s IH]; [reflexivity|].
  cbn [append last_char]. rewrite IH.
  destruct (s ++ t) eqn:E; [|reflexivity]. destruct s; [contradiction | discriminate E].
Qed.

(** A string ends with [suf] in one way only. *)
Lemma append_inv_tail (suf p q : string) : (p ++ suf)%string = (q ++ suf)%string -> p = q.
Proof.
  intros E. apply (f_equal (strip_suffix suf)) in E.
  rewrite !strip_suffix_append in E. congruence.
Qed.

#[export] Hint Resolve strcmp_refl c_str_is_cstring : timep.
#[export] Hint Rewrite strcmp_refl c_str_idem first_char_c_str strcmp_c_str : timep_rw.

(** The test [strcmp(s, t) == 0] decides equality of C strings. *)
Lemma strcmp_eq_iff (s t : string) :
  is_cstring s = true -> is_cstring t = true ->
  ((strcmp s t =? 0) = true <-> s = t).
Proof. intros Hs Ht. rewrite Z.eqb_eq. apply strcmp_zero_iff; assumption. Qed.

(** [strcmp] orders C strings as the lexicographic order on unsigned
    characters does: its sign is the Standard Library's [String.compare]. *)
Lemma strcmp_matches_compare (s t : string) :
  is_cstring s = true -> is_cstring t = true ->
  Z.compare (strcmp s t) 0 = String.compare s t.
Proof.
  intros Hs Ht. pose proof (strcmp_sign s t Hs Ht) as H.
  destruct (String.compare s t); [rewrite H; reflexivity | |];
    [apply Z.compare_lt_iff | apply Z.compare_gt_iff]; lia.
Qed.
