(* ===== verification/Buffer.v ===== *)
(** * Buffer: [buf_micros] as an array of bytes

    Lines 88-90 of [timep.c] declare [char buf_micros[32]] without an
    initialiser, let [snprintf] write the text of the value into it, and
    hand the array to [bind_variable], which reads it as a C string.
    [Decimal] models the three lines by the text alone.  This file models
    the array: 32 cells that hold whatever the stack held, the bytes
    [snprintf] stores with the terminating NUL, and the read up to the
    terminator, which is undefined when it meets a cell that was never
    written or the end of the array.  The theorems show that the write
    stays inside the array, that the read ends at the terminator, and
    that what is read is the text of [Decimal.buf_micros]. *)

From Stdlib Require Import Ascii String.
From stdpp Require Import strings list.
From S2P Require Import Prelude Int64 Decimal CString.

#[local] Open Scope Z_scope.

(** A byte of memory: never written, or a character. *)
Inductive cell : Type :=
| Uninit
| Byte (c : ascii).

#[export] Instance cell_eq_dec : EqDecision cell.
Proof. solve_decision. Defined.

(** The characters of a text as cells. *)
Fixpoint cells_of (s : string) : list cell :=
  match s with
  | EmptyString => []
  | String c s' => Byte c :: cells_of s'
  end.

(** A store of [bytes] at the start of [buf]; [None] when it would
    write past the end of the array. *)
Definition store (bytes buf : list cell) : option (list cell) :=
  if (length bytes <=? length buf)%nat then Some (bytes ++ drop (length bytes) buf) else None.

(** [snprintf(buf, size, "%s", text)]: with [size] 0 nothing is stored;
    otherwise the first [size - 1] characters and a NUL.  The value
    returned is the length of the whole text. *)
Definition snprintf_bytes (size : nat) (text : string) (buf : list cell)
  : option (list cell) * Z :=
  (match size with
   | O => Some buf
   | S k => store (cells_of (substring 0 k text) ++ [Byte NUL]) buf
   end, Z.of_nat (String.length text)).

(** Lines 88-89 on the array as the stack holds it: the size passed is
    [sizeof(buf_micros)], the length of the array. *)
Definition line_89 (micros : Z) (stack : list cell) : option (list cell) * Z :=
  snprintf_bytes (length stack) (fmt_lld micros) stack.

(** The C string at the start of an array: the characters before the
    first NUL; [None] when a cell never written or the end of the array
    comes first. *)
Fixpoint read_cstring (buf : list cell) : option string :=
  match buf with
  | [] => None
  | Uninit :: _ => None
  | Byte c :: buf' => if Ascii.eqb c NUL then Some EmptyString else String c <$> read_cstring buf'
  end.

(** Line 90: the value [bind_variable] reads from the array. *)
Definition bound_value (micros : Z) (stack : list cell) : option string :=
  (line_89 micros stack).1 ≫= read_cstring.

(** ** Cells *)

Lemma length_cells_of (s : string) : length (cells_of s) = String.length s.
Proof. induction s as [|c s IH]; simpl; [reflexivity | rewrite IH; reflexivity]. Qed.

(** A text without a NUL, followed by one, is read back whole, whatever
    comes after. *)
Lemma read_cells_of (s : string) (rest : list cell) :
  is_cstring s = true -> read_cstring (cells_of s ++ Byte NUL :: rest) = Some s.
Proof.
  induction s as [|c s IH]; simpl; [reflexivity|].
  intros [Hc Hs]%andb_true_iff. apply negb_true_iff in Hc. rewrite Hc, IH by exact Hs.
  reflexivity.
Qed.

(** Without a terminator the read does not stop inside the text. *)
Lemma read_cells_unterminated (s : string) :
  is_cstring s = true -> read_cstring (cells_of s) = None.
Proof.
  induction s as [|c s IH]; simpl; [reflexivity|].
  intros [Hc Hs]%andb_true_iff. apply negb_true_iff in Hc. rewrite Hc, IH by exact Hs.
  reflexivity.
Qed.

Lemma store_some (bytes buf : list cell) :
  (length bytes <= length buf)%nat ->
  store bytes buf = Some (bytes ++ drop (length bytes) buf).
Proof. intros H. unfold store. apply Nat.leb_le in H. rewrite H. reflexivity. Qed.

Lemma store_none (bytes buf : list cell) :
  (length buf < length bytes)%nat -> store bytes buf = None.
Proof. intros H. unfold store. apply Nat.leb_gt in H. rewrite H. reflexivity. Qed.

(** A store changes the cells it writes and no other. *)
Lemma store_frame (bytes buf buf' : list cell) :
  store bytes buf = Some buf' ->
  length buf' = length buf /\ take (length bytes) buf' = bytes /\
  drop (length bytes) buf' = drop (length bytes) buf.
Proof.
  unfold store. destruct (Nat.leb_spec (length bytes) (length buf)) as [Hle|]; [|discriminate].
  intros [= <-]. split; [|split].
  - rewrite length_app, length_drop. lia.
  - rewrite take_app_length. reflexivity.
  - rewrite drop_app_length. reflexivity.
Qed.

(** ** Texts without NUL *)

Lemma is_digit_not_NUL (c : ascii) : is_digit c = true -> Ascii.eqb c NUL = false.
Proof.
  unfold is_digit, digit_value. intros H. destruct (Ascii.eqb_spec c NUL) as [->|]; [|reflexivity].
  discriminate H.
Qed.

Lemma all_digits_cstring (s : string) : all_digits s = true -> is_cstring s = true.
Proof.
  induction s as [|c s IH]; simpl; [reflexivity|].
  intros [Hc Hs]%andb_true_iff. rewrite (is_digit_not_NUL c Hc), IH by exact Hs. reflexivity.
Qed.

(** The [%lld] conversion produces no NUL. *)
Lemma fmt_lld_cstring (z : Z) : is_cstring (fmt_lld z) = true.
Proof.
  unfold fmt_lld. destruct (z <? 0); simpl;
    rewrite all_digits_cstring by apply fmt_unsigned_all_digits; reflexivity.
Qed.

Lemma substring_cstring (s : string) (k : nat) :
  is_cstring s = true -> is_cstring (substring 0 k s) = true.
Proof.
  revert k. induction s as [|c s IH]; intros [|k]; simpl; try reflexivity.
  intros [Hc Hs]%andb_true_iff. rewrite Hc, IH by exact Hs. reflexivity.
Qed.

Lemma substring_length_min (s : string) (k : nat) :
  String.length (substring 0 k s) = Nat.min k (String.length s).
Proof.
  revert k. induction s as [|c s IH]; intros [|k]; simpl; try reflexivity.
  rewrite IH. reflexivity.
Qed.

(** ** [snprintf] on the array *)

(** With room for [size] bytes, [snprintf] stays inside the array, and
    the array then holds the C string that [Decimal.snprintf_lld]
    describes. *)
Lemma snprintf_bytes_spec (size : nat) (z : Z) (buf : list cell) :
  (0 < size <= length buf)%nat ->
  exists buf', (snprintf_bytes size (fmt_lld z) buf).1 = Some buf' /\
    length buf' = length buf /\
    read_cstring buf' = Some (snprintf_lld size z).1 /\
    (snprintf_bytes size (fmt_lld z) buf).2 = (snprintf_lld size z).2 /\
    drop (S (String.length (snprintf_lld size z).1)) buf'
    = drop (S (String.length (snprintf_lld size z).1)) buf.
Proof.
  intros [Hpos Hle]. destruct size as [|k]; [lia|].
  pose proof (substring_length_le (fmt_lld z) k) as Hk.
  set (bytes := cells_of (substring 0 k (fmt_lld z)) ++ [Byte NUL]).
  assert (Hb : length bytes = S (String.length (substring 0 k (fmt_lld z)))).
  { unfold bytes. rewrite length_app, length_cells_of. simpl. lia. }
  destruct (store_frame bytes buf (bytes ++ drop (length bytes) buf)) as (Hl & _ & Hd);
    [apply store_some; lia|].
  exists (bytes ++ drop (length bytes) buf). cbn [snprintf_bytes fst snd]. fold bytes.
  split; [apply store_some; lia|]. split; [exact Hl|].
  unfold snprintf_lld. cbn [fst snd]. rewrite Nat.sub_1_r. cbn [Nat.pred].
  split; [|split; [reflexivity | rewrite <- Hb; exact Hd]].
  unfold bytes. rewrite <- app_assoc. cbn [app].
  apply read_cells_of, substring_cstring, fmt_lld_cstring.
Qed.

(** A size beyond the array is a write past its end as soon as the text
    is long enough. *)
Lemma snprintf_bytes_overflow (size : nat) (text : string) (buf : list cell) :
  (length buf < size)%nat -> (length buf <= String.length text)%nat ->
  (snprintf_bytes size text buf).1 = None.
Proof.
  intros Hs Ht. destruct size as [|k]; [lia|]. cbn [snprintf_bytes fst].
  apply store_none. rewrite length_app, length_cells_of, substring_length_min.
  simpl. lia.
Qed.

(** The array of line 88 before anything is stored in it. *)
Lemma line_89_spec (micros : Z) (stack : list cell) :
  length stack = BUF_MICROS_SIZE ->
  exists buf, (line_89 micros stack).1 = Some buf /\ length buf = BUF_MICROS_SIZE /\
    read_cstring buf = Some (buf_micros micros) /\
    (line_89 micros stack).2 = (snprintf_lld BUF_MICROS_SIZE micros).2 /\
    drop (S (String.length (buf_micros micros))) buf
    = drop (S (String.length (buf_micros micros))) stack.
Proof.
  intros Hs. unfold line_89, buf_micros. rewrite Hs.
  destruct (snprintf_bytes_spec BUF_MICROS_SIZE micros stack) as (buf & Hrun & Hl & Hr & Hv & Hd);
    [rewrite Hs; unfold BUF_MICROS_SIZE; lia|].
  exists buf. rewrite <- Hs at 2. auto.
Qed.

(** ** Properties *)

(** C10.  The array behind [buf_micros]: for every 64-bit value and
    whatever the 32 bytes of the stack held, [snprintf] writes inside the
    array and returns the length of the text, the array then holds a
    terminated C string, [bind_variable] reads from it the whole text of
    the value, the one [Decimal.buf_micros] stands for, and the bytes
    after the terminator are left as they were and never read. *)
Theorem buf_micros_bytes (micros : Z) (stack : list cell) :
  I64.in_range micros -> length stack = BUF_MICROS_SIZE ->
  exists buf, (line_89 micros stack).1 = Some buf /\
    length buf = BUF_MICROS_SIZE /\
    (line_89 micros stack).2 = Z.of_nat (String.length (fmt_lld micros)) /\
    read_cstring buf = Some (buf_micros micros) /\
    bound_value micros stack = Some (fmt_lld micros) /\
    drop (S (String.length (fmt_lld micros))) buf
    = drop (S (String.length (fmt_lld micros))) stack.
Proof.
  intros Hin Hs. destruct (line_89_spec micros stack Hs) as (buf & Hrun & Hl & Hr & Hv & Hd).
  rewrite buf_micros_full in Hd by exact Hin.
  exists buf. split; [exact Hrun|]. split; [exact Hl|]. split; [exact Hv|].
  split; [exact Hr|]. split; [|exact Hd].
  unfold bound_value. rewrite Hrun. cbn. rewrite Hr, buf_micros_full by exact Hin. reflexivity.
Qed.

Lemma buf_micros_bytes_witness :
  exists buf, (line_89 1500000 (replicate 32 Uninit)).1 = Some buf /\
    length buf = BUF_MICROS_SIZE /\
    (line_89 1500000 (replicate 32 Uninit)).2 = Z.of_nat (String.length (fmt_lld 1500000)) /\
    read_cstring buf = Some (buf_micros 1500000) /\
    bound_value 1500000 (replicate 32 Uninit) = Some (fmt_lld 1500000) /\
    drop (S (String.length (fmt_lld 1500000))) buf
    = drop (S (String.length (fmt_lld 1500000))) (replicate 32 Uninit).
Proof.
  apply (buf_micros_bytes 1500000 (replicate 32 Uninit)); [|reflexivity].
  unfold I64.in_range, I64.min_signed, I64.max_signed. lia.
Defined.
