(* ===== verification/Heap.v ===== *)
(** * Heap: the blocks of the allocator and [xfree]

    The builtin owns one heap block, the array [argv] that
    [make_builtin_argv] allocates and [xfree] releases.  The heap is a
    finite map from addresses to the state of the block that starts there:
    [Live] after allocation, [Freed] after release.  Releasing a block
    that is not live (freed already, or never allocated) is undefined
    behaviour: [heap_free] returns [None].  [xfree] is bash's wrapper,
    which ignores the null pointer. *)

From stdpp Require Import gmap.
From S2P Require Import Prelude.

#[local] Open Scope Z_scope.

Inductive block : Type := Live | Freed.

#[export] Instance block_eq_dec : EqDecision block.
Proof. solve_decision. Defined.

Abbreviation heap := (gmap Z block).

Definition NULL : Z := 0.

(** One past the largest address in use, and never [NULL]. *)
Definition next_addr (h : heap) : Z :=
  set_fold (fun k r => Z.max (1 + k) r) 1 (dom h).

(** [malloc]: a block at an address that was never handed out. *)
Definition heap_alloc (h : heap) : Z * heap :=
  let p := next_addr h in (p, <[p := Live]> h).

(** [free(p)] for [p != NULL]. *)
Definition heap_free (p : Z) (h : heap) : option heap :=
  match h !! p with
  | Some Live => Some (<[p := Freed]> h)
  | _ => None
  end.

(** [xfree(p)]: [if (p) free(p);] *)
Definition xfree (p : Z) (h : heap) : option heap :=
  if decide (p = NULL) then Some h else heap_free p h.

Definition is_live (h : heap) (p : Z) : bool := bool_decide (h !! p = Some Live).

(** The addresses of the blocks that are still allocated. *)
Definition live_blocks (h : heap) : gset Z :=
  dom (filter (fun kv => kv.2 = Live) h).

(** ** Fresh addresses *)

Lemma next_addr_above (h : heap) (p : Z) : p ∈ dom h -> p < next_addr h.
Proof.
  unfold next_addr.
  apply (set_fold_ind_L (fun r (X : gset Z) => p ∈ X -> p < r)); [set_solver|].
  intros k X r Hk IH [->%elem_of_singleton | Hp]%elem_of_union; [lia|].
  specialize (IH Hp). lia.
Qed.

Lemma next_addr_pos (h : heap) : 0 < next_addr h.
Proof.
  unfold next_addr.
  apply (set_fold_ind_L (fun r (_ : gset Z) => 0 < r)); [lia|]. intros. lia.
Qed.

Lemma next_addr_fresh (h : heap) : h !! next_addr h = None.
Proof.
  apply not_elem_of_dom. intros H%next_addr_above. lia.
Qed.

Lemma next_addr_not_null (h : heap) : next_addr h ≠ NULL.
Proof. pose proof (next_addr_pos h). unfold NULL. lia. Qed.

(** ** Live blocks *)

Lemma elem_of_live_blocks (h : heap) (p : Z) :
  p ∈ live_blocks h <-> h !! p = Some Live.
Proof.
  unfold live_blocks. rewrite elem_of_dom. split.
  - intros [b [Hb Hl]%map_lookup_filter_Some]. simpl in Hl. congruence.
  - intros Hp. exists Live. apply map_lookup_filter_Some. auto.
Qed.

Lemma is_live_spec (h : heap) (p : Z) : is_live h p = true <-> h !! p = Some Live.
Proof. unfold is_live. apply bool_decide_eq_true. Qed.

Lemma live_blocks_insert_live (h : heap) (p : Z) :
  live_blocks (<[p := Live]> h) = {[p]} ∪ live_blocks h.
Proof.
  apply set_eq. intros q. rewrite elem_of_union, elem_of_singleton, !elem_of_live_blocks.
  destruct (decide (p = q)) as [->|Hne].
  - rewrite lookup_insert_eq. tauto.
  - rewrite lookup_insert_ne by assumption. split; [auto | intros [?|?]; congruence].
Qed.

Lemma live_blocks_insert_freed (h : heap) (p : Z) :
  live_blocks (<[p := Freed]> h) = live_blocks h ∖ {[p]}.
Proof.
  apply set_eq. intros q.
  rewrite elem_of_difference, elem_of_singleton, !elem_of_live_blocks.
  destruct (decide (p = q)) as [->|Hne].
  - rewrite lookup_insert_eq. split; [discriminate | tauto].
  - rewrite lookup_insert_ne by assumption. split; [auto | tauto].
Qed.

(** ** Allocation *)

Lemma heap_alloc_spec (h : heap) (p : Z) (h' : heap) :
  heap_alloc h = (p, h') ->
  p ≠ NULL /\ h !! p = None /\ h' = <[p := Live]> h.
Proof.
  unfold heap_alloc. intros [= <- <-].
  split; [apply next_addr_not_null | split; [apply next_addr_fresh | reflexivity]].
Qed.

Lemma heap_alloc_live (h : heap) : (heap_alloc h).2 !! (heap_alloc h).1 = Some Live.
Proof. unfold heap_alloc. simpl. apply lookup_insert_eq. Qed.

Lemma heap_alloc_other (h : heap) (q : Z) :
  q ≠ (heap_alloc h).1 -> (heap_alloc h).2 !! q = h !! q.
Proof. unfold heap_alloc. simpl. intros Hq. apply lookup_insert_ne. congruence. Qed.

Lemma live_blocks_alloc (h : heap) :
  live_blocks (heap_alloc h).2 = {[(heap_alloc h).1]} ∪ live_blocks h.
Proof. apply live_blocks_insert_live. Qed.

(** ** Release *)

Lemma heap_free_some (p : Z) (h h' : heap) :
  heap_free p h = Some h' <-> h !! p = Some Live /\ h' = <[p := Freed]> h.
Proof.
  unfold heap_free. destruct (h !! p) as [[]|].
  - split; [intros [= <-]; auto | intros [_ ->]; reflexivity].
  - split; [discriminate | intros [[=] _]].
  - split; [discriminate | intros [[=] _]].
Qed.

Lemma heap_free_none (p : Z) (h : heap) :
  heap_free p h = None <-> h !! p ≠ Some Live.
Proof. unfold heap_free. destruct (h !! p) as [[]|]; split; congruence. Qed.

Lemma xfree_null (h : heap) : xfree NULL h = Some h.
Proof. reflexivity. Qed.

Lemma xfree_some (p : Z) (h h' : heap) :
  xfree p h = Some h' <->
  (p = NULL /\ h' = h) \/ (p ≠ NULL /\ h !! p = Some Live /\ h' = <[p := Freed]> h).
Proof.
  unfold xfree. destruct (decide (p = NULL)) as [->|Hp].
  - split; [intros [= <-]; auto | intros [[_ ->]|[H _]]; [reflexivity | contradiction]].
  - rewrite heap_free_some. split; [auto | intros [[H _]|[_ H]]; [contradiction | exact H]].
Qed.

Lemma xfree_live (p : Z) (h : heap) :
  p ≠ NULL -> h !! p = Some Live -> xfree p h = Some (<[p := Freed]> h).
Proof. intros Hp Hl. apply xfree_some. auto. Qed.

(** A block cannot be released twice. *)
Lemma xfree_freed (p : Z) (h : heap) :
  p ≠ NULL -> h !! p = Some Freed -> xfree p h = None.
Proof.
  intros Hp Hf. unfold xfree. rewrite decide_False by assumption.
  apply heap_free_none. congruence.
Qed.

Lemma xfree_twice (p : Z) (h h' : heap) :
  p ≠ NULL -> xfree p h = Some h' -> xfree p h' = None.
Proof.
  intros Hp Hx. apply xfree_some in Hx as [[Hn _]|(_ & _ & ->)]; [contradiction|].
  apply xfree_freed; [assumption | apply lookup_insert_eq].
Qed.

(** Allocating a block and releasing it leaves the same live blocks. *)
Lemma xfree_alloc (h : heap) :
  exists h', xfree (heap_alloc h).1 (heap_alloc h).2 = Some h' /\
             live_blocks h' = live_blocks h /\
             h' !! (heap_alloc h).1 = Some Freed.
Proof.
  eexists. split; [apply xfree_live; [apply next_addr_not_null | apply heap_alloc_live] |].
  split; [|apply lookup_insert_eq].
  rewrite live_blocks_insert_freed, live_blocks_alloc.
  assert ((heap_alloc h).1 ∉ live_blocks h); [|set_solver].
  rewrite elem_of_live_blocks. unfold heap_alloc. simpl. rewrite next_addr_fresh. discriminate.
Qed.

#[export] Hint Resolve next_addr_not_null next_addr_fresh heap_alloc_live
  xfree_twice xfree_freed xfree_live : timep.
