(* ===== verification/Host.v ===== *)
(** * Host: what the builtin consumes from the shell

    [timep.c] calls into bash and the C library for everything it does to
    the outside: [make_builtin_argv], [builtin_error], [bind_variable],
    [xfree], [printf], [clock_gettime], [strerror].  This file states that
    interface.

    - [obs] is what can be observed of a shell: the variable table, the
      bytes written to standard output, the diagnostics, the heap, and how
      often the process clock was read.
    - [obs_bind_variable], [obs_builtin_error], ... say what each
      operation does to the observation.
    - The class [Host] lists the operations on a world [W]; the class
      [HostLaws] says that each operation acts on [observe w] as its
      [obs_] counterpart does.  The builtin is written and verified
      against these two classes; [Shell] provides the instance.
    - [Registry] and [RegistryLaws] are the table of builtins with
      [add_builtin]; [HostFrame f] says that no operation touches the part
      [f] of the world. *)

From stdpp Require Import gmap strings list.
From S2P Require Import Prelude Micros Heap.

#[local] Open Scope Z_scope.

(** The ways the builtin can leave defined behaviour. *)
Inductive ub : Type :=
| DoubleFree (p : Z)        (* [free] of a block that is not live *)
| ReadOutOfBounds (i : nat) (* [argv[i]] past the end of the array *)
| SignedOverflow.           (* overflow of an [int64_t] operation *)

#[export] Instance ub_eq_dec : EqDecision ub.
Proof. solve_decision. Defined.

(** The result of [clock_gettime(CLOCK_PROCESS_CPUTIME_ID, &ts)]: 0 and the
    time stored in [ts], or -1 and a value of [errno]. *)
Inductive clock_result : Type :=
| ClockOk (ts : timespec)
| ClockErr (errno : Z).

(** A shell variable: its value and the readonly attribute. *)
Record shell_var : Type := mk_var { var_value : string; var_readonly : bool }.

#[export] Instance shell_var_eq_dec : EqDecision shell_var.
Proof. solve_decision. Defined.

(** [char **argv]: the address of the array and the strings its entries
    point to. *)
Record argv_t : Type := mk_argv { argv_ptr : Z; argv_words : list string }.

(** [struct builtin] of bash's [builtins.h].  The function pointer is
    represented by the symbol it points to. *)
Record builtin : Type := mk_builtin {
  b_name : string;
  b_function : string;
  b_flags : Z;
  b_long_doc : list string;
  b_short_doc : string;
  b_handle : Z
}.

#[export] Instance builtin_eq_dec : EqDecision builtin.
Proof. solve_decision. Defined.

Record obs : Type := mk_obs {
  o_vars : gmap string shell_var;
  o_stdout : string;
  o_stderr : list string;
  o_heap : gmap Z block;
  o_clock_reads : nat
}.

Definition set_vars (f : gmap string shell_var -> gmap string shell_var) (o : obs) : obs :=
  mk_obs (f (o_vars o)) (o_stdout o) (o_stderr o) (o_heap o) (o_clock_reads o).
Definition set_stdout (f : string -> string) (o : obs) : obs :=
  mk_obs (o_vars o) (f (o_stdout o)) (o_stderr o) (o_heap o) (o_clock_reads o).
Definition set_stderr (f : list string -> list string) (o : obs) : obs :=
  mk_obs (o_vars o) (o_stdout o) (f (o_stderr o)) (o_heap o) (o_clock_reads o).
Definition set_heap (f : gmap Z block -> gmap Z block) (o : obs) : obs :=
  mk_obs (o_vars o) (o_stdout o) (o_stderr o) (f (o_heap o)) (o_clock_reads o).
Definition set_clock_reads (f : nat -> nat) (o : obs) : obs :=
  mk_obs (o_vars o) (o_stdout o) (o_stderr o) (o_heap o) (f (o_clock_reads o)).

(** The value of a variable, if it is set. *)
Definition var_lookup (o : obs) (name : string) : option string :=
  var_value <$> o_vars o !! name.

Definition is_readonly (o : obs) (name : string) : bool :=
  match o_vars o !! name with
  | Some v => var_readonly v
  | None => false
  end.

(** [builtin_error(msg)]: one line on the diagnostic channel. *)
Definition obs_builtin_error (msg : string) (o : obs) : obs :=
  set_stderr (fun e => e ++ [msg]) o.

(** [bind_variable(name, value, 0)]: the variable is created or
    overwritten, except that a readonly variable is left as it is and the
    attempt is reported. *)
Definition obs_bind_variable (name value : string) (o : obs) : obs :=
  if is_readonly o name
  then obs_builtin_error (name +:+ ": readonly variable") o
  else set_vars (insert name (mk_var value false)) o.

(** [printf]: bytes appended to standard output. *)
Definition obs_write_stdout (s : string) (o : obs) : obs :=
  set_stdout (fun out => out +:+ s) o.

Definition obs_clock_read (o : obs) : obs := set_clock_reads S o.

Definition obs_xfree (p : Z) (o : obs) : option obs :=
  (fun h => set_heap (fun _ => h) o) <$> xfree p (o_heap o).

(** The observation after [xfree] of a live block. *)
Definition obs_release (p : Z) (o : obs) : obs := set_heap (insert p Freed) o.

(** The array allocated by [make_builtin_argv]. *)
Definition obs_alloc (o : obs) : Z * obs :=
  ((heap_alloc (o_heap o)).1, set_heap (fun h => (heap_alloc h).2) o).

Class Host (W : Type) : Type := {
  observe : W -> obs;
  (** what the next read of the process clock returns *)
  next_clock : W -> clock_result;
  (** [this_command_name]: the name the running builtin was invoked by *)
  this_command_name : W -> string;
  (** [strerror] *)
  strerror : Z -> string;
  bind_variable : string -> string -> W -> W;
  builtin_error : string -> W -> W;
  write_stdout : string -> W -> W;
  sys_clock_gettime : W -> clock_result * W;
  host_xfree : Z -> W -> option W;
  (** [make_builtin_argv(list, &argc)]: [argc], [argv] and the new world *)
  make_builtin_argv : list string -> W -> (Z * argv_t) * W
}.

Class HostLaws (W : Type) `{Host W} : Prop := {
  observe_bind_variable name value w :
    observe (bind_variable name value w) = obs_bind_variable name value (observe w);
  observe_builtin_error msg w :
    observe (builtin_error msg w) = obs_builtin_error msg (observe w);
  observe_write_stdout s w :
    observe (write_stdout s w) = obs_write_stdout s (observe w);
  sys_clock_gettime_result w : (sys_clock_gettime w).1 = next_clock w;
  observe_sys_clock_gettime w :
    observe (sys_clock_gettime w).2 = obs_clock_read (observe w);
  observe_host_xfree p w :
    observe <$> host_xfree p w = obs_xfree p (observe w);
  make_builtin_argv_argc ws w :
    (make_builtin_argv ws w).1.1 = 1 + Z.of_nat (length ws);
  make_builtin_argv_words ws w :
    argv_words (make_builtin_argv ws w).1.2 = this_command_name w :: ws;
  observe_make_builtin_argv ws w :
    (argv_ptr (make_builtin_argv ws w).1.2, observe (make_builtin_argv ws w).2)
    = obs_alloc (observe w);
  next_clock_make_builtin_argv ws w :
    next_clock (make_builtin_argv ws w).2 = next_clock w
}.

(** The table of builtins: registration and lookup by name. *)
Class Registry (W : Type) : Type := {
  add_builtin : builtin -> Z -> W -> W;
  find_builtin : string -> W -> option builtin
}.

Class RegistryLaws (W : Type) `{Host W} `{Registry W} : Prop := {
  find_add_same b keep w : find_builtin (b_name b) (add_builtin b keep w) = Some b;
  find_add_other b keep name w :
    name ≠ b_name b -> find_builtin name (add_builtin b keep w) = find_builtin name w;
  observe_add_builtin b keep w : observe (add_builtin b keep w) = observe w;
  next_clock_add_builtin b keep w : next_clock (add_builtin b keep w) = next_clock w
}.

(** A part [f] of the world that no operation of the host touches: what
    the shell keeps for itself while a builtin runs. *)
Class HostFrame {W X : Type} `{Host W} (f : W -> X) : Prop := {
  frame_bind_variable name value w : f (bind_variable name value w) = f w;
  frame_builtin_error msg w : f (builtin_error msg w) = f w;
  frame_write_stdout s w : f (write_stdout s w) = f w;
  frame_sys_clock_gettime w : f (sys_clock_gettime w).2 = f w;
  frame_host_xfree p w w' : host_xfree p w = Some w' -> f w' = f w;
  frame_make_builtin_argv ws w : f (make_builtin_argv ws w).2 = f w
}.

(** ** The operations in the outcome monad *)

Section HostMonad.
Context {W : Type} `{Host W}.

Definition do_builtin_error (msg : string) : M W ub unit := modify (builtin_error msg).
Definition do_bind_variable (name value : string) : M W ub unit :=
  modify (bind_variable name value).
Definition do_write_stdout (s : string) : M W ub unit := modify (write_stdout s).
Definition do_clock_gettime : M W ub clock_result :=
  fun w => Done (sys_clock_gettime w).1 (sys_clock_gettime w).2.
Definition do_xfree (p : Z) : M W ub unit := try_modify (DoubleFree p) (host_xfree p).
Definition do_make_builtin_argv (ws : list string) : M W ub (Z * argv_t) :=
  fun w => Done (make_builtin_argv ws w).1 (make_builtin_argv ws w).2.

(** [argv[i]]: reading past the array is undefined. *)
Definition argv_get (argv : argv_t) (i : nat) : M W ub string :=
  defined (ReadOutOfBounds i) (argv_words argv !! i).

End HostMonad.

(** ** Observations *)

Lemma obs_eq (o o' : obs) :
  o_vars o = o_vars o' -> o_stdout o = o_stdout o' -> o_stderr o = o_stderr o' ->
  o_heap o = o_heap o' -> o_clock_reads o = o_clock_reads o' -> o = o'.
Proof. destruct o, o'. simpl. intros. subst. reflexivity. Qed.

Lemma is_readonly_spec (o : obs) (name : string) :
  is_readonly o name = true <-> exists v, o_vars o !! name = Some (mk_var v true).
Proof.
  unfold is_readonly. destruct (o_vars o !! name) as [[v r]|]; simpl.
  - split; [intros ->; eauto | intros [v' [= _ <-]]; reflexivity].
  - split; [discriminate | intros [v' [=]]].
Qed.

Lemma obs_bind_variable_writable (name value : string) (o : obs) :
  is_readonly o name = false ->
  obs_bind_variable name value o = set_vars (insert name (mk_var value false)) o.
Proof. unfold obs_bind_variable. intros ->. reflexivity. Qed.

Lemma obs_bind_variable_readonly (name value : string) (o : obs) :
  is_readonly o name = true ->
  obs_bind_variable name value o = obs_builtin_error (name +:+ ": readonly variable") o.
Proof. unfold obs_bind_variable. intros ->. reflexivity. Qed.

Lemma var_lookup_bind_same (name value : string) (o : obs) :
  is_readonly o name = false ->
  var_lookup (obs_bind_variable name value o) name = Some value.
Proof.
  intros Hr. rewrite obs_bind_variable_writable by assumption.
  unfold var_lookup. simpl. rewrite lookup_insert_eq. reflexivity.
Qed.

Lemma var_lookup_bind_other (name other value : string) (o : obs) :
  name ≠ other ->
  var_lookup (obs_bind_variable name value o) other = var_lookup o other.
Proof.
  intros Hne. unfold obs_bind_variable, var_lookup.
  destruct (is_readonly o name); simpl; [reflexivity|].
  rewrite lookup_insert_ne by assumption. reflexivity.
Qed.

Lemma var_lookup_bind_readonly (name value : string) (o : obs) :
  is_readonly o name = true ->
  var_lookup (obs_bind_variable name value o) name = var_lookup o name.
Proof. intros Hr. rewrite obs_bind_variable_readonly by assumption. reflexivity. Qed.

Lemma var_lookup_release (p : Z) (o : obs) (name : string) :
  var_lookup (obs_release p o) name = var_lookup o name.
Proof. reflexivity. Qed.

(** Binding a variable writes nothing to standard output and frees
    nothing. *)
Lemma obs_bind_variable_frame (name value : string) (o : obs) :
  o_stdout (obs_bind_variable name value o) = o_stdout o /\
  o_heap (obs_bind_variable name value o) = o_heap o /\
  o_clock_reads (obs_bind_variable name value o) = o_clock_reads o.
Proof. unfold obs_bind_variable. destruct (is_readonly o name); auto. Qed.

Lemma obs_xfree_some (p : Z) (o o' : obs) :
  obs_xfree p o = Some o' <->
  exists h', xfree p (o_heap o) = Some h' /\ o' = set_heap (fun _ => h') o.
Proof.
  unfold obs_xfree. destruct (xfree p (o_heap o)) as [h'|]; simpl.
  - split; [intros [= <-]; eauto | intros (h & [= <-] & ->); reflexivity].
  - split; [discriminate | intros (h & [=] & _)].
Qed.

Lemma obs_xfree_none (p : Z) (o : obs) :
  obs_xfree p o = None <-> xfree p (o_heap o) = None.
Proof. unfold obs_xfree. destruct (xfree p (o_heap o)); simpl; split; congruence. Qed.

Lemma obs_alloc_ptr (o : obs) : (obs_alloc o).1 ≠ NULL.
Proof. apply next_addr_not_null. Qed.

Lemma obs_alloc_live (o : obs) : o_heap (obs_alloc o).2 !! (obs_alloc o).1 = Some Live.
Proof. apply heap_alloc_live. Qed.

(** The array of [make_builtin_argv] is released by one [xfree], and by
    one only. *)
Lemma obs_xfree_alloc (o : obs) :
  exists o', obs_xfree (obs_alloc o).1 (obs_alloc o).2 = Some o' /\
             live_blocks (o_heap o') = live_blocks (o_heap o) /\
             obs_xfree (obs_alloc o).1 o' = None.
Proof.
  destruct (xfree_alloc (o_heap o)) as (h' & Hx & Hl & Hf).
  exists (set_heap (fun _ => h') (obs_alloc o).2). split; [|split].
  - apply obs_xfree_some. eauto.
  - exact Hl.
  - apply obs_xfree_none. simpl. apply xfree_freed; [apply next_addr_not_null | exact Hf].
Qed.

(** ** Frames of the operations *)

Section HostFrames.
Context {W X : Type} `{Host W} (f : W -> X) `{!HostFrame f}.

Lemma preserves_do_builtin_error (msg : string) : preserves f (do_builtin_error msg).
Proof. apply preserves_modify, frame_builtin_error. Qed.

Lemma preserves_do_bind_variable (name value : string) :
  preserves f (do_bind_variable name value).
Proof. apply preserves_modify, frame_bind_variable. Qed.

Lemma preserves_do_write_stdout (s : string) : preserves f (do_write_stdout s).
Proof. apply preserves_modify, frame_write_stdout. Qed.

Lemma preserves_do_clock_gettime : preserves f do_clock_gettime.
Proof. intros w. apply frame_sys_clock_gettime. Qed.

Lemma preserves_do_xfree (p : Z) : preserves f (do_xfree p).
Proof. apply preserves_try_modify, frame_host_xfree. Qed.

Lemma preserves_do_make_builtin_argv (ws : list string) :
  preserves f (do_make_builtin_argv ws).
Proof. intros w. apply frame_make_builtin_argv. Qed.

Lemma preserves_argv_get (argv : argv_t) (i : nat) : preserves f (argv_get argv i).
Proof. apply preserves_defined. Qed.

End HostFrames.

#[export] Hint Resolve preserves_do_builtin_error preserves_do_bind_variable
  preserves_do_write_stdout preserves_do_clock_gettime preserves_do_xfree
  preserves_do_make_builtin_argv preserves_argv_get : timep.

#[export] Hint Rewrite @observe_bind_variable @observe_builtin_error
  @observe_write_stdout @sys_clock_gettime_result @observe_sys_clock_gettime
  @make_builtin_argv_argc @make_builtin_argv_words @next_clock_make_builtin_argv
  using (typeclasses eauto) : timep_rw.
