(* ===== verification/Shell.v ===== *)
(** * Shell: a concrete host

    The shell the builtin runs in, as a record: the variable table, the
    bytes written to standard output, the diagnostics, the heap, the CPU
    time the process has used and whether its clock can be read, the name
    of the running command and the table of builtins.  The record is an
    instance of [Host], and [shell_laws] proves [HostLaws] for it, so every
    theorem proved against the interface holds of this shell, and the
    builtin can be run on it by computation. *)

From stdpp Require Import gmap strings list.
From S2P Require Import Prelude Int64 Micros Decimal Heap Host.

#[local] Open Scope Z_scope.

Record shell : Type := mk_shell {
  sh_vars : gmap string shell_var;
  sh_stdout : string;
  sh_stderr : list string;
  sh_heap : gmap Z block;
  sh_clock_reads : nat;
  (** CPU time used by the process so far *)
  sh_cputime : timespec;
  (** [Some e] when reading the process clock fails with [errno = e] *)
  sh_clock_errno : option Z;
  sh_command : string;
  sh_builtins : list builtin
}.

Definition shell_observe (s : shell) : obs :=
  mk_obs (sh_vars s) (sh_stdout s) (sh_stderr s) (sh_heap s) (sh_clock_reads s).

(** The shell with its observable part replaced. *)
Definition shell_with (s : shell) (o : obs) : shell :=
  mk_shell (o_vars o) (o_stdout o) (o_stderr o) (o_heap o) (o_clock_reads o)
    (sh_cputime s) (sh_clock_errno s) (sh_command s) (sh_builtins s).

Definition shell_next_clock (s : shell) : clock_result :=
  match sh_clock_errno s with
  | Some e => ClockErr e
  | None => ClockOk (sh_cputime s)
  end.

Definition EPERM : Z := 1.
Definition EFAULT : Z := 14.
Definition EINVAL : Z := 22.

Definition shell_strerror (e : Z) : string :=
  if decide (e = EPERM) then "Operation not permitted"
  else if decide (e = EFAULT) then "Bad address"
  else if decide (e = EINVAL) then "Invalid argument"
  else "Unknown error " +:+ fmt_lld e.

Definition shell_xfree (p : Z) (s : shell) : option shell :=
  shell_with s <$> obs_xfree p (shell_observe s).

Definition shell_make_builtin_argv (ws : list string) (s : shell) : (Z * argv_t) * shell :=
  let a := obs_alloc (shell_observe s) in
  ((1 + Z.of_nat (length ws), mk_argv a.1 (sh_command s :: ws)), shell_with s a.2).

#[export] Instance shell_host : Host shell := {|
  observe := shell_observe;
  next_clock := shell_next_clock;
  this_command_name := sh_command;
  strerror := shell_strerror;
  bind_variable name value s := shell_with s (obs_bind_variable name value (shell_observe s));
  builtin_error msg s := shell_with s (obs_builtin_error msg (shell_observe s));
  write_stdout str s := shell_with s (obs_write_stdout str (shell_observe s));
  sys_clock_gettime s := (shell_next_clock s, shell_with s (obs_clock_read (shell_observe s)));
  host_xfree := shell_xfree;
  make_builtin_argv := shell_make_builtin_argv
|}.

(** A shell that has run nothing yet. *)
Definition initial_shell : shell :=
  mk_shell ∅ "" [] ∅ 0 (mk_timespec 0 0) None "" [].

(** The time passes: the process has used [ts] of CPU time. *)
Definition set_cputime (ts : timespec) (s : shell) : shell :=
  mk_shell (sh_vars s) (sh_stdout s) (sh_stderr s) (sh_heap s) (sh_clock_reads s)
    ts (sh_clock_errno s) (sh_command s) (sh_builtins s).

Definition set_clock_errno (e : option Z) (s : shell) : shell :=
  mk_shell (sh_vars s) (sh_stdout s) (sh_stderr s) (sh_heap s) (sh_clock_reads s)
    (sh_cputime s) e (sh_command s) (sh_builtins s).

Definition set_command (name : string) (s : shell) : shell :=
  mk_shell (sh_vars s) (sh_stdout s) (sh_stderr s) (sh_heap s) (sh_clock_reads s)
    (sh_cputime s) (sh_clock_errno s) name (sh_builtins s).

Definition set_builtins (f : list builtin -> list builtin) (s : shell) : shell :=
  mk_shell (sh_vars s) (sh_stdout s) (sh_stderr s) (sh_heap s) (sh_clock_reads s)
    (sh_cputime s) (sh_clock_errno s) (sh_command s) (f (sh_builtins s)).

Definition set_var (name : string) (v : shell_var) (s : shell) : shell :=
  shell_with s (set_vars (insert name v) (shell_observe s)).

(** The first entry of the table with the given name: a later
    registration shadows an earlier one. *)
Definition shell_find_builtin (name : string) (s : shell) : option builtin :=
  find (fun b => bool_decide (b_name b = name)) (sh_builtins s).

#[export] Instance shell_registry : Registry shell := {|
  add_builtin b keep s := set_builtins (cons b) s;
  find_builtin := shell_find_builtin
|}.

(** What the shell keeps to itself while a builtin runs. *)
Definition shell_env (s : shell) : timespec * option Z * string * list builtin :=
  (sh_cputime s, sh_clock_errno s, sh_command s, sh_builtins s).

(** ** The shell satisfies the interface *)

Lemma shell_observe_with (s : shell) (o : obs) : shell_observe (shell_with s o) = o.
Proof. destruct o. reflexivity. Qed.

Lemma shell_with_observe (s : shell) : shell_with s (shell_observe s) = s.
Proof. destruct s. reflexivity. Qed.

Lemma shell_next_clock_with (s : shell) (o : obs) :
  shell_next_clock (shell_with s o) = shell_next_clock s.
Proof. reflexivity. Qed.

Lemma shell_command_with (s : shell) (o : obs) : sh_command (shell_with s o) = sh_command s.
Proof. reflexivity. Qed.

#[export] Instance shell_laws : HostLaws shell.
Proof.
  split; intros; cbn [observe bind_variable builtin_error write_stdout
    sys_clock_gettime host_xfree make_builtin_argv next_clock this_command_name
    shell_host fst snd]; rewrite ?shell_observe_with; try reflexivity.
  unfold shell_xfree. destruct (obs_xfree p (shell_observe w)) as [o|]; simpl;
    [rewrite shell_observe_with|]; reflexivity.
Qed.

#[export] Instance shell_registry_laws : RegistryLaws shell.
Proof.
  split; intros; try reflexivity.
  - cbn. unfold shell_find_builtin. simpl. rewrite bool_decide_eq_true_2; reflexivity.
  - cbn. unfold shell_find_builtin. simpl. rewrite bool_decide_eq_false_2; [reflexivity | congruence].
Qed.

Lemma shell_env_with (s : shell) (o : obs) : shell_env (shell_with s o) = shell_env s.
Proof. reflexivity. Qed.

#[export] Instance shell_frame : HostFrame shell_env.
Proof.
  split; intros; try reflexivity.
  cbn [host_xfree shell_host] in *. unfold shell_xfree in *.
  destruct (obs_xfree p (shell_observe w)) as [o|]; simplify_eq/=. reflexivity.
Qed.

(** A shell is its observation and its own state. *)
Lemma shell_eq (s s' : shell) :
  shell_observe s = shell_observe s' -> shell_env s = shell_env s' -> s = s'.
Proof. destruct s, s'. unfold shell_observe, shell_env. simpl. intros [= -> -> -> -> ->] [= -> -> -> ->]. reflexivity. Qed.

(** Time and the state of the clock are not observations of the builtin's
    effects: changing them changes nothing else. *)
Lemma shell_observe_set_cputime (ts : timespec) (s : shell) :
  shell_observe (set_cputime ts s) = shell_observe s.
Proof. reflexivity. Qed.

Lemma shell_next_clock_set_cputime (ts : timespec) (s : shell) :
  sh_clock_errno s = None -> shell_next_clock (set_cputime ts s) = ClockOk ts.
Proof. unfold shell_next_clock. simpl. intros ->. reflexivity. Qed.

#[export] Hint Rewrite shell_observe_with shell_with_observe : timep_rw.
