(* ===== verification/ClockGettime.v ===== *)
(** * ClockGettime: [clock_gettime_main]

    The function of lines 66-101 of [timep.c], written in the outcome
    monad against the [Host] interface and composed as the code composes
    it: the guard on [argc], the choice of [varname], then either the arm
    of [#if defined(CLOCK_PROCESS_CPUTIME_ID)] (read the clock, report a
    failure or convert and emit) or the arm of [#else].  The flag
    [have_clock] says which arm was compiled.

    The theorems give the outcome of every branch, first as the world the
    function returns and then as its effect on the observation. *)

From stdpp Require Import gmap strings list.
From S2P Require Import Prelude Int64 Micros Decimal CString Heap Host Shell.

#[local] Open Scope Z_scope.
#[local] Open Scope timep_scope.

(** [EXECUTION_SUCCESS] and [EXECUTION_FAILURE] of bash's [shell.h]. *)
Definition EXECUTION_SUCCESS : Z := 0.
Definition EXECUTION_FAILURE : Z := 1.

Definition MSG_TOO_MANY : string := "clock_gettime: too many arguments".
Definition MSG_FAILED : string := "clock_gettime failed: ".
Definition MSG_UNSUPPORTED : string := "clock_gettime is not supported on this system.".

(** Line 72: [argv[1][0] != '\0']. *)
Definition arg_nonempty (a : string) : bool := negb (Ascii.eqb (first_char a) NUL).

(** Lines 71-74 as a function of the argument vector: the variable to
    assign, or [None] for the null pointer. *)
Definition varname_of (argc : Z) (argv : argv_t) : option string :=
  if argc =? 2 then
    match argv_words argv !! 1%nat with
    | Some a => if arg_nonempty a then Some a else None
    | None => None
    end
  else None.

(** The effect of lines 87-93 on the observation. *)
Definition obs_emit (varname : option string) (micros : Z) (o : obs) : obs :=
  match varname with
  | Some name => obs_bind_variable name (buf_micros micros) o
  | None => obs_write_stdout (printf_lld_nl micros) o
  end.

(** [argc] counts the entries of [argv]. *)
Definition argv_ok (argc : Z) (argv : argv_t) : Prop :=
  Z.of_nat (length (argv_words argv)) = argc.

Section ClockGettime.
Context {W : Type} `{HostLaws W}.

(** Lines 71-74. *)
Definition select_varname (argc : Z) (argv : argv_t) : M W ub (option string) :=
  if argc =? 2 then
    a <- argv_get argv 1 ;;
    if arg_nonempty a then ret (Some a) else ret None
  else ret None.

(** Lines 87-93: assign the text to [varname], or print it. *)
Definition emit_micros (varname : option string) (micros : Z) : M W ub unit :=
  match varname with
  | Some name => do_bind_variable name (buf_micros micros)
  | None => do_write_stdout (printf_lld_nl micros)
  end.

(** Lines 78-82: the system call failed. *)
Definition clock_failed (argv : argv_t) (errno : Z) : M W ub Z :=
  do_builtin_error (MSG_FAILED +:+ strerror errno) ;;
  do_xfree (argv_ptr argv) ;;
  ret EXECUTION_FAILURE.

(** Lines 77-94, the arm compiled when the process clock exists. *)
Definition read_and_emit (argv : argv_t) (varname : option string) : M W ub Z :=
  r <- do_clock_gettime ;;
  match r with
  | ClockErr errno => clock_failed argv errno
  | ClockOk ts =>
      micros <- defined SignedOverflow (micros_of_timespec ts) ;;
      emit_micros varname micros ;;
      ret EXECUTION_SUCCESS
  end.

(** Lines 97-99, the arm compiled when it does not. *)
Definition unsupported (argv : argv_t) : M W ub Z :=
  do_builtin_error MSG_UNSUPPORTED ;;
  do_xfree (argv_ptr argv) ;;
  ret EXECUTION_FAILURE.

(** Lines 66-101. *)
Definition clock_gettime_main (have_clock : bool) (argc : Z) (argv : argv_t) : M W ub Z :=
  if 2 <? argc then
    do_builtin_error MSG_TOO_MANY ;;
    ret EXECUTION_FAILURE
  else
    varname <- select_varname argc argv ;;
    if have_clock then read_and_emit argv varname else unsupported argv.

(** The outcomes [clock_gettime_main] can have: a status that is
    [EXECUTION_SUCCESS] or [EXECUTION_FAILURE], an overflow, or a release
    of a block that is not live.  [argv] is never read out of bounds. *)
Inductive main_outcome (argv : argv_t) : outcome W ub Z -> Prop :=
| mo_success w : main_outcome argv (Done EXECUTION_SUCCESS w)
| mo_failure w : main_outcome argv (Done EXECUTION_FAILURE w)
| mo_overflow w : main_outcome argv (Undef SignedOverflow w)
| mo_double_free w : main_outcome argv (Undef (DoubleFree (argv_ptr argv)) w).

(** ** Running the pieces *)

Lemma select_varname_run (argc : Z) (argv : argv_t) (w : W) :
  argv_ok argc argv -> select_varname argc argv w = Done (varname_of argc argv) w.
Proof.
  unfold argv_ok, select_varname, varname_of, argv_get. intros Hok.
  destruct (Z.eqb_spec argc 2) as [->|]; [|reflexivity].
  destruct (argv_words argv) as [|a0 [|a1 l]]; simpl in *; try lia.
  run_M. destruct (arg_nonempty a1); reflexivity.
Qed.

(** Without an argument there is nothing to read of [argv]. *)
Lemma select_varname_no_arg (argc : Z) (argv : argv_t) (w : W) :
  argc <> 2 -> select_varname argc argv w = Done None w.
Proof.
  unfold select_varname. intros Hne.
  destruct (Z.eqb_spec argc 2); [contradiction | reflexivity].
Qed.

Lemma emit_micros_run (varname : option string) (micros : Z) (w : W) :
  emit_micros varname micros w =
  Done tt match varname with
          | Some name => bind_variable name (buf_micros micros) w
          | None => write_stdout (printf_lld_nl micros) w
          end.
Proof. destruct varname; reflexivity. Qed.

Lemma emit_micros_observe (varname : option string) (micros : Z) (w : W) :
  observe (world_of (emit_micros varname micros w)) = obs_emit varname micros (observe w).
Proof.
  rewrite emit_micros_run. destruct varname; simpl;
    [apply observe_bind_variable | apply observe_write_stdout].
Qed.

(** The release of [argv] inside a failure arm. *)
Lemma do_xfree_run (p : Z) (w : W) :
  do_xfree p w = match host_xfree p w with
                 | Some w' => Done tt w'
                 | None => Undef (DoubleFree p) w
                 end.
Proof. reflexivity. Qed.

Lemma do_xfree_done (p : Z) (w w' : W) :
  do_xfree p w = Done tt w' -> obs_xfree p (observe w) = Some (observe w').
Proof.
  rewrite do_xfree_run, <- observe_host_xfree.
  destruct (host_xfree p w); [intros [= <-]; reflexivity | discriminate].
Qed.

Lemma do_xfree_undef (p : Z) (w : W) :
  obs_xfree p (observe w) = None -> do_xfree p w = Undef (DoubleFree p) w.
Proof.
  rewrite do_xfree_run, <- observe_host_xfree.
  destruct (host_xfree p w); [discriminate | reflexivity].
Qed.

Lemma do_xfree_some (p : Z) (w : W) (o' : obs) :
  obs_xfree p (observe w) = Some o' ->
  exists w', do_xfree p w = Done tt w' /\ observe w' = o'.
Proof.
  rewrite do_xfree_run, <- observe_host_xfree.
  destruct (host_xfree p w) as [w'|]; [intros [= <-]; eauto | discriminate].
Qed.

(** A failure arm reports and releases [argv]: the outcome depends on
    whether the block is live. *)
Lemma fail_arm_run (msg : string) (argv : argv_t) (w : W) :
  (do_builtin_error msg ;; do_xfree (argv_ptr argv) ;; ret EXECUTION_FAILURE) w =
  match host_xfree (argv_ptr argv) (builtin_error msg w) with
  | Some w' => Done EXECUTION_FAILURE w'
  | None => Undef (DoubleFree (argv_ptr argv)) (builtin_error msg w)
  end.
Proof.
  unfold do_builtin_error, do_xfree. run_M.
  destruct (host_xfree _ _); reflexivity.
Qed.

Lemma read_and_emit_ok (argv : argv_t) (varname : option string) (w : W)
  (ts : timespec) (micros : Z) :
  next_clock w = ClockOk ts -> micros_of_timespec ts = Some micros ->
  read_and_emit argv varname w =
  Done EXECUTION_SUCCESS (world_of (emit_micros varname micros (sys_clock_gettime w).2)).
Proof.
  intros Hc Hm. unfold read_and_emit, do_clock_gettime. run_M.
  rewrite sys_clock_gettime_result, Hc, Hm, emit_micros_run. reflexivity.
Qed.

Lemma read_and_emit_overflow (argv : argv_t) (varname : option string) (w : W)
  (ts : timespec) :
  next_clock w = ClockOk ts -> micros_of_timespec ts = None ->
  read_and_emit argv varname w = Undef SignedOverflow (sys_clock_gettime w).2.
Proof.
  intros Hc Hm. unfold read_and_emit, do_clock_gettime. run_M.
  rewrite sys_clock_gettime_result, Hc, Hm. reflexivity.
Qed.

Lemma read_and_emit_err (argv : argv_t) (varname : option string) (w : W) (errno : Z) :
  next_clock w = ClockErr errno ->
  read_and_emit argv varname w = clock_failed argv errno (sys_clock_gettime w).2.
Proof.
  intros Hc. unfold read_and_emit, do_clock_gettime. run_M.
  rewrite sys_clock_gettime_result, Hc. reflexivity.
Qed.

Lemma main_too_many (have_clock : bool) (argc : Z) (argv : argv_t) (w : W) :
  2 < argc ->
  clock_gettime_main have_clock argc argv w =
  Done EXECUTION_FAILURE (builtin_error MSG_TOO_MANY w).
Proof.
  intros Hgt. unfold clock_gettime_main.
  destruct (Z.ltb_spec 2 argc); [reflexivity | lia].
Qed.

Lemma main_proceeds (have_clock : bool) (argc : Z) (argv : argv_t) (w : W) :
  argc <= 2 -> argv_ok argc argv ->
  clock_gettime_main have_clock argc argv w =
  if have_clock then read_and_emit argv (varname_of argc argv) w else unsupported argv w.
Proof.
  intros Hle Hok. unfold clock_gettime_main.
  destruct (Z.ltb_spec 2 argc); [lia|].
  unfold bind at 1. rewrite select_varname_run by assumption.
  destruct have_clock; reflexivity.
Qed.

(** The successful run, on the observation: one read of the clock, then
    the emission. *)
Lemma main_success_observe (argc : Z) (argv : argv_t) (w : W) (ts : timespec) (micros : Z) :
  argc <= 2 -> argv_ok argc argv ->
  next_clock w = ClockOk ts -> micros_of_timespec ts = Some micros ->
  exists w', clock_gettime_main true argc argv w = Done EXECUTION_SUCCESS w' /\
    observe w' = obs_emit (varname_of argc argv) micros (obs_clock_read (observe w)).
Proof.
  intros Hle Hok Hc Hm. rewrite main_proceeds by assumption.
  rewrite (read_and_emit_ok _ _ _ ts micros) by assumption.
  eexists. split; [reflexivity|].
  rewrite emit_micros_observe, observe_sys_clock_gettime. reflexivity.
Qed.

(** A failure arm entered with [argv] live: the diagnostic is written and
    the block is released. *)
Lemma fail_arm_live (msg : string) (argv : argv_t) (w : W) :
  argv_ptr argv ≠ NULL -> o_heap (observe w) !! argv_ptr argv = Some Live ->
  exists w',
    (do_builtin_error msg ;; do_xfree (argv_ptr argv) ;; ret EXECUTION_FAILURE) w
      = Done EXECUTION_FAILURE w' /\
    observe w' = set_heap (insert (argv_ptr argv) Freed) (obs_builtin_error msg (observe w)).
Proof.
  intros Hp Hl. rewrite fail_arm_run.
  pose proof (observe_host_xfree (argv_ptr argv) (builtin_error msg w)) as Hx.
  rewrite observe_builtin_error in Hx. unfold obs_xfree in Hx. simpl in Hx.
  rewrite (xfree_live _ _ Hp Hl) in Hx. simpl in Hx.
  destruct (host_xfree _ _) as [w'|]; [|discriminate].
  exists w'. split; [reflexivity|]. simpl in Hx. injection Hx as ->. reflexivity.
Qed.

(** The two failure arms with [argv] live, on the observation. *)
Lemma main_clock_failure_observe (argc : Z) (argv : argv_t) (w : W) (errno : Z) :
  argc <= 2 -> argv_ok argc argv -> next_clock w = ClockErr errno ->
  argv_ptr argv ≠ NULL -> o_heap (observe w) !! argv_ptr argv = Some Live ->
  exists w', clock_gettime_main true argc argv w = Done EXECUTION_FAILURE w' /\
    observe w' = obs_release (argv_ptr argv)
      (obs_builtin_error (MSG_FAILED +:+ strerror errno) (obs_clock_read (observe w))).
Proof.
  intros Hle Hok Hc Hp Hl.
  rewrite main_proceeds, (read_and_emit_err _ _ _ errno) by assumption.
  destruct (fail_arm_live (MSG_FAILED +:+ strerror errno) argv (sys_clock_gettime w).2)
    as (w' & Hrun & Ho); [assumption | rewrite observe_sys_clock_gettime; exact Hl |].
  exists w'. split; [exact Hrun|]. rewrite Ho, observe_sys_clock_gettime. reflexivity.
Qed.

Lemma main_unsupported_observe (argc : Z) (argv : argv_t) (w : W) :
  argc <= 2 -> argv_ok argc argv ->
  argv_ptr argv ≠ NULL -> o_heap (observe w) !! argv_ptr argv = Some Live ->
  exists w', clock_gettime_main false argc argv w = Done EXECUTION_FAILURE w' /\
    observe w' = obs_release (argv_ptr argv) (obs_builtin_error MSG_UNSUPPORTED (observe w)).
Proof.
  intros Hle Hok Hp Hl. rewrite main_proceeds by assumption.
  apply fail_arm_live; assumption.
Qed.

(** The shell's own state is not touched by the function. *)
Lemma clock_gettime_main_preserves {X : Type} (f : W -> X) `{!HostFrame f}
  (have_clock : bool) (argc : Z) (argv : argv_t) :
  preserves f (clock_gettime_main have_clock argc argv).
Proof.
  unfold clock_gettime_main, select_varname, read_and_emit, clock_failed, unsupported,
    emit_micros.
  solve_preserves.
Qed.

Lemma fail_arm_outcome (msg : string) (argv : argv_t) (w : W) :
  main_outcome argv
    ((do_builtin_error msg ;; do_xfree (argv_ptr argv) ;; ret EXECUTION_FAILURE) w).
Proof. rewrite fail_arm_run. destruct (host_xfree _ _); constructor. Qed.

Lemma read_and_emit_outcome (argv : argv_t) (varname : option string) (w : W) :
  main_outcome argv (read_and_emit argv varname w).
Proof.
  destruct (next_clock w) as [ts|errno] eqn:Hc.
  - destruct (micros_of_timespec ts) as [m|] eqn:Hm.
    + rewrite (read_and_emit_ok _ _ _ ts m) by assumption. constructor.
    + rewrite (read_and_emit_overflow _ _ _ ts) by assumption. constructor.
  - rewrite (read_and_emit_err _ _ _ errno) by assumption. apply fail_arm_outcome.
Qed.

Lemma main_outcome_classified (have_clock : bool) (argc : Z) (argv : argv_t) (w : W) :
  argv_ok argc argv -> main_outcome argv (clock_gettime_main have_clock argc argv w).
Proof.
  intros Hok. destruct (Z.lt_ge_cases 2 argc) as [Hgt|Hle].
  - rewrite main_too_many by assumption. constructor.
  - rewrite main_proceeds by (assumption || lia).
    destruct have_clock; [apply read_and_emit_outcome | apply fail_arm_outcome].
Qed.

(** ** Properties *)

(** Usage error (lines 67-70): with more than one argument
    ([argc > 2]) [clock_gettime_main] returns [EXECUTION_FAILURE], writes
    the diagnostic "clock_gettime: too many arguments", and does nothing
    else: the clock is not read, nothing is printed, no variable is bound
    and [argv] is not released. *)
Theorem clock_gettime_main_usage_error (have_clock : bool) (argc : Z) (argv : argv_t) (w : W) :
  2 < argc ->
  exists w', clock_gettime_main have_clock argc argv w = Done EXECUTION_FAILURE w' /\
    o_stderr (observe w') = o_stderr (observe w) ++ [MSG_TOO_MANY] /\
    o_clock_reads (observe w') = o_clock_reads (observe w) /\
    o_stdout (observe w') = o_stdout (observe w) /\
    o_vars (observe w') = o_vars (observe w) /\
    o_heap (observe w') = o_heap (observe w).
Proof.
  intros Hgt. rewrite main_too_many by assumption. eexists. split; [reflexivity|].
  rewrite observe_builtin_error. repeat split.
Qed.

(** Printing (line 92): with no argument, or with one empty
    argument, a successful read of the clock appends the decimal text of
    the microseconds and a newline to standard output, returns
    [EXECUTION_SUCCESS], reads the clock once, and leaves the variables and
    the diagnostics as they were. *)
Theorem clock_gettime_main_prints (argc : Z) (argv : argv_t) (w : W)
  (ts : timespec) (micros : Z) :
  argc <= 2 -> argv_ok argc argv -> varname_of argc argv = None ->
  next_clock w = ClockOk ts -> micros_of_timespec ts = Some micros ->
  exists w', clock_gettime_main true argc argv w = Done EXECUTION_SUCCESS w' /\
    o_stdout (observe w') = o_stdout (observe w) +:+ fmt_lld micros +:+ NEWLINE /\
    o_vars (observe w') = o_vars (observe w) /\
    o_stderr (observe w') = o_stderr (observe w) /\
    o_clock_reads (observe w') = S (o_clock_reads (observe w)).
Proof.
  intros Hle Hok Hv Hc Hm.
  destruct (main_success_observe argc argv w ts micros) as (w' & Hrun & Ho); try assumption.
  exists w'. split; [exact Hrun|]. rewrite Ho, Hv. repeat split.
Qed.

(** Assignment (lines 88-90): with one non-empty argument naming a
    variable that is not readonly, a successful read of the clock binds
    that variable to the decimal text of the microseconds, untruncated,
    prints nothing, and leaves every other variable as it was. *)
Theorem clock_gettime_main_assigns (argc : Z) (argv : argv_t) (w : W)
  (ts : timespec) (micros : Z) (name : string) :
  argc <= 2 -> argv_ok argc argv -> varname_of argc argv = Some name ->
  next_clock w = ClockOk ts -> micros_of_timespec ts = Some micros ->
  is_readonly (observe w) name = false ->
  exists w', clock_gettime_main true argc argv w = Done EXECUTION_SUCCESS w' /\
    var_lookup (observe w') name = Some (fmt_lld micros) /\
    (forall other, name ≠ other -> var_lookup (observe w') other = var_lookup (observe w) other) /\
    o_stdout (observe w') = o_stdout (observe w) /\
    o_stderr (observe w') = o_stderr (observe w).
Proof.
  intros Hle Hok Hv Hc Hm Hr.
  destruct (main_success_observe argc argv w ts micros) as (w' & Hrun & Ho); try assumption.
  exists w'. split; [exact Hrun|]. rewrite Ho, Hv. simpl.
  rewrite buf_micros_full by (apply (micros_of_timespec_in_range ts), Hm).
  split; [apply var_lookup_bind_same; exact Hr|].
  split; [intros other Hne; rewrite var_lookup_bind_other by exact Hne; reflexivity|].
  rewrite obs_bind_variable_writable by exact Hr. split; reflexivity.
Qed.

(** C27.  A readonly variable is not assigned, and the status does not
    say so: when the argument names a readonly variable,
    [clock_gettime_main] still returns [EXECUTION_SUCCESS], the variable
    keeps its value, and the only trace is bash's "readonly variable"
    diagnostic. *)
Theorem clock_gettime_main_readonly (argc : Z) (argv : argv_t) (w : W)
  (ts : timespec) (micros : Z) (name : string) :
  argc <= 2 -> argv_ok argc argv -> varname_of argc argv = Some name ->
  next_clock w = ClockOk ts -> micros_of_timespec ts = Some micros ->
  is_readonly (observe w) name = true ->
  exists w', clock_gettime_main true argc argv w = Done EXECUTION_SUCCESS w' /\
    var_lookup (observe w') name = var_lookup (observe w) name /\
    o_stderr (observe w') = o_stderr (observe w) ++ [name +:+ ": readonly variable"] /\
    o_stdout (observe w') = o_stdout (observe w).
Proof.
  intros Hle Hok Hv Hc Hm Hr.
  destruct (main_success_observe argc argv w ts micros) as (w' & Hrun & Ho); try assumption.
  exists w'. split; [exact Hrun|]. rewrite Ho, Hv. simpl.
  rewrite obs_bind_variable_readonly by exact Hr. repeat split.
Qed.

(** Failure of the system call (lines 78-82): the diagnostic
    "clock_gettime failed: " followed by the text of [errno] is written,
    [EXECUTION_FAILURE] is returned, nothing is printed or assigned, and
    [argv] has been released inside [clock_gettime_main]. *)
Theorem clock_gettime_main_clock_failure (argc : Z) (argv : argv_t) (w : W) (errno : Z) :
  argc <= 2 -> argv_ok argc argv -> next_clock w = ClockErr errno ->
  argv_ptr argv ≠ NULL -> o_heap (observe w) !! argv_ptr argv = Some Live ->
  exists w', clock_gettime_main true argc argv w = Done EXECUTION_FAILURE w' /\
    o_stderr (observe w') = o_stderr (observe w) ++ [MSG_FAILED +:+ strerror errno] /\
    o_heap (observe w') !! argv_ptr argv = Some Freed /\
    o_stdout (observe w') = o_stdout (observe w) /\
    o_vars (observe w') = o_vars (observe w).
Proof.
  intros Hle Hok Hc Hp Hl.
  rewrite main_proceeds, (read_and_emit_err _ _ _ errno) by assumption.
  destruct (fail_arm_live (MSG_FAILED +:+ strerror errno) argv (sys_clock_gettime w).2)
    as (w' & Hrun & Ho); [assumption | rewrite observe_sys_clock_gettime; exact Hl |].
  exists w'. split; [exact Hrun|]. rewrite Ho, observe_sys_clock_gettime. simpl.
  rewrite lookup_insert_eq. repeat split.
Qed.

(** Without a process clock (lines 96-99, the [#else] arm): the
    diagnostic "clock_gettime is not supported on this system." is
    written, [EXECUTION_FAILURE] is returned, the clock is not read,
    nothing is printed or assigned, and [argv] has been released. *)
Theorem clock_gettime_main_unsupported (argc : Z) (argv : argv_t) (w : W) :
  argc <= 2 -> argv_ok argc argv ->
  argv_ptr argv ≠ NULL -> o_heap (observe w) !! argv_ptr argv = Some Live ->
  exists w', clock_gettime_main false argc argv w = Done EXECUTION_FAILURE w' /\
    o_stderr (observe w') = o_stderr (observe w) ++ [MSG_UNSUPPORTED] /\
    o_heap (observe w') !! argv_ptr argv = Some Freed /\
    o_clock_reads (observe w') = o_clock_reads (observe w) /\
    o_stdout (observe w') = o_stdout (observe w) /\
    o_vars (observe w') = o_vars (observe w).
Proof.
  intros Hle Hok Hp Hl. rewrite main_proceeds by assumption.
  destruct (fail_arm_live MSG_UNSUPPORTED argv w Hp Hl) as (w' & Hrun & Ho).
  exists w'. split; [exact Hrun|]. rewrite Ho. simpl.
  rewrite lookup_insert_eq. repeat split.
Qed.

(** C26.  Overflow (line 85): when the time read does not convert within
    64 bits, the behaviour of [clock_gettime_main] is undefined (signed
    overflow).  At that point the clock has been read once and nothing
    else has happened: nothing is printed, assigned or reported, and
    the heap is as it was. *)
Theorem clock_gettime_main_overflow (argc : Z) (argv : argv_t) (w : W) (ts : timespec) :
  argc <= 2 -> argv_ok argc argv ->
  next_clock w = ClockOk ts -> micros_of_timespec ts = None ->
  exists w', clock_gettime_main true argc argv w = Undef SignedOverflow w' /\
    o_stdout (observe w') = o_stdout (observe w) /\
    o_vars (observe w') = o_vars (observe w) /\
    o_stderr (observe w') = o_stderr (observe w) /\
    o_heap (observe w') = o_heap (observe w) /\
    o_clock_reads (observe w') = S (o_clock_reads (observe w)).
Proof.
  intros Hle Hok Hc Hm. rewrite main_proceeds, (read_and_emit_overflow _ _ _ ts) by assumption.
  eexists. split; [reflexivity|]. rewrite observe_sys_clock_gettime. repeat split.
Qed.

(** C33.  An empty argument is no argument: [clock_gettime ""] runs
    exactly as [clock_gettime] does, in every world and in both
    configurations. *)
Theorem clock_gettime_main_empty_arg (have_clock : bool) (p : Z) (cmd : string) (w : W) :
  clock_gettime_main have_clock 2 (mk_argv p [cmd; ""]) w =
  clock_gettime_main have_clock 1 (mk_argv p [cmd]) w.
Proof. destruct have_clock; reflexivity. Qed.

End ClockGettime.

#[export] Hint Rewrite @emit_micros_observe @select_varname_run
  using (first [typeclasses eauto | assumption]) : timep_rw.

(** ** The theorems at work on the concrete shell

    A shell whose process has used 1.5 s of CPU time, the same shell with
    a readonly variable [RO], and the worlds and argument vectors that
    [make_builtin_argv] builds from them. *)

Definition demo_shell : shell :=
  set_command "clock_gettime" (set_cputime (mk_timespec 1 500000000) initial_shell).
Definition demo_readonly : shell := set_var "RO" (mk_var "fixed" true) demo_shell.
Definition demo_argv (ws : list string) : argv_t := (make_builtin_argv ws demo_shell).1.2.
Definition demo_world (ws : list string) : shell := (make_builtin_argv ws demo_shell).2.
Definition demo_failing (ws : list string) : shell :=
  set_clock_errno (Some EINVAL) (demo_world ws).

Lemma clock_gettime_main_usage_error_witness :
  exists w', clock_gettime_main true 3 (demo_argv ["a"; "b"]) (demo_world ["a"; "b"])
      = Done EXECUTION_FAILURE w' /\
    o_stderr (observe w') = o_stderr (observe (demo_world ["a"; "b"])) ++ [MSG_TOO_MANY] /\
    o_clock_reads (observe w') = o_clock_reads (observe (demo_world ["a"; "b"])) /\
    o_stdout (observe w') = o_stdout (observe (demo_world ["a"; "b"])) /\
    o_vars (observe w') = o_vars (observe (demo_world ["a"; "b"])) /\
    o_heap (observe w') = o_heap (observe (demo_world ["a"; "b"])).
Proof. apply (clock_gettime_main_usage_error true 3). lia. Defined.

Lemma clock_gettime_main_prints_witness :
  exists w', clock_gettime_main true 1 (demo_argv []) (demo_world []) = Done EXECUTION_SUCCESS w' /\
    o_stdout (observe w') = o_stdout (observe (demo_world [])) +:+ fmt_lld 1500000 +:+ NEWLINE /\
    o_vars (observe w') = o_vars (observe (demo_world [])) /\
    o_stderr (observe w') = o_stderr (observe (demo_world [])) /\
    o_clock_reads (observe w') = S (o_clock_reads (observe (demo_world []))).
Proof.
  apply (clock_gettime_main_prints 1 (demo_argv []) (demo_world []) (mk_timespec 1 500000000));
    [lia | reflexivity | reflexivity | reflexivity | reflexivity].
Defined.

Lemma clock_gettime_main_assigns_witness :
  exists w', clock_gettime_main true 2 (demo_argv ["T0"]) (demo_world ["T0"])
      = Done EXECUTION_SUCCESS w' /\
    var_lookup (observe w') "T0" = Some (fmt_lld 1500000) /\
    (forall other, "T0" ≠ other ->
      var_lookup (observe w') other = var_lookup (observe (demo_world ["T0"])) other) /\
    o_stdout (observe w') = o_stdout (observe (demo_world ["T0"])) /\
    o_stderr (observe w') = o_stderr (observe (demo_world ["T0"])).
Proof.
  apply (clock_gettime_main_assigns 2 (demo_argv ["T0"]) (demo_world ["T0"])
           (mk_timespec 1 500000000));
    [lia | reflexivity | reflexivity | reflexivity | reflexivity | reflexivity].
Defined.

Lemma clock_gettime_main_readonly_witness :
  exists w', clock_gettime_main true 2 (mk_argv 1 ["clock_gettime"; "RO"]) demo_readonly
      = Done EXECUTION_SUCCESS w' /\
    var_lookup (observe w') "RO" = var_lookup (observe demo_readonly) "RO" /\
    o_stderr (observe w') = o_stderr (observe demo_readonly) ++ ["RO" +:+ ": readonly variable"] /\
    o_stdout (observe w') = o_stdout (observe demo_readonly).
Proof.
  apply (clock_gettime_main_readonly 2 (mk_argv 1 ["clock_gettime"; "RO"]) demo_readonly
           (mk_timespec 1 500000000) 1500000);
    [lia | reflexivity | reflexivity | reflexivity | reflexivity | reflexivity].
Defined.

Lemma clock_gettime_main_clock_failure_witness :
  exists w', clock_gettime_main true 1 (demo_argv []) (demo_failing []) = Done EXECUTION_FAILURE w' /\
    o_stderr (observe w') = o_stderr (observe (demo_failing [])) ++ [MSG_FAILED +:+ strerror EINVAL] /\
    o_heap (observe w') !! argv_ptr (demo_argv []) = Some Freed /\
    o_stdout (observe w') = o_stdout (observe (demo_failing [])) /\
    o_vars (observe w') = o_vars (observe (demo_failing [])).
Proof.
  apply (clock_gettime_main_clock_failure 1 (demo_argv []) (demo_failing []) EINVAL);
    [lia | reflexivity | reflexivity | discriminate | reflexivity].
Defined.

Lemma clock_gettime_main_unsupported_witness :
  exists w', clock_gettime_main false 1 (demo_argv []) (demo_world []) = Done EXECUTION_FAILURE w' /\
    o_stderr (observe w') = o_stderr (observe (demo_world [])) ++ [MSG_UNSUPPORTED] /\
    o_heap (observe w') !! argv_ptr (demo_argv []) = Some Freed /\
    o_clock_reads (observe w') = o_clock_reads (observe (demo_world [])) /\
    o_stdout (observe w') = o_stdout (observe (demo_world [])) /\
    o_vars (observe w') = o_vars (observe (demo_world [])).
Proof.
  apply (clock_gettime_main_unsupported 1 (demo_argv []) (demo_world []));
    [lia | reflexivity | discriminate | reflexivity].
Defined.

Lemma clock_gettime_main_overflow_witness :
  exists w', clock_gettime_main true 1 (mk_argv 1 ["clock_gettime"])
      (set_cputime (mk_timespec 9223372036855 0) demo_shell) = Undef SignedOverflow w' /\
    o_stdout (observe w') = o_stdout (observe (set_cputime (mk_timespec 9223372036855 0) demo_shell)) /\
    o_vars (observe w') = o_vars (observe (set_cputime (mk_timespec 9223372036855 0) demo_shell)) /\
    o_stderr (observe w') = o_stderr (observe (set_cputime (mk_timespec 9223372036855 0) demo_shell)) /\
    o_heap (observe w') = o_heap (observe (set_cputime (mk_timespec 9223372036855 0) demo_shell)) /\
    o_clock_reads (observe w')
    = S (o_clock_reads (observe (set_cputime (mk_timespec 9223372036855 0) demo_shell))).
Proof.
  apply (clock_gettime_main_overflow 1 (mk_argv 1 ["clock_gettime"]) _
           (mk_timespec 9223372036855 0)); [lia | reflexivity | reflexivity | reflexivity].
Defined.
