(* ===== verification/Builtin.v ===== *)
(** * Builtin: [timep_builtin], its descriptor and its registration

    Lines 56-64 and 103-137 of [timep.c]: the documentation strings, the
    [struct builtin] that bash reads when the shared object is loaded, the
    entry point [timep_builtin] that builds [argv], dispatches on
    [argv[0]] and releases [argv], and [setup_builtin_timep], which
    registers the descriptor.

    The theorems follow the entry point through every path: what the
    command does when it is called as [clock_gettime], what it does under
    any other name, that [argv] is released exactly once on the paths that
    succeed or fail on usage, and that it is released twice (undefined
    behaviour) on the two failure paths of [clock_gettime_main] that call
    [xfree(argv)] themselves. *)

From stdpp Require Import gmap strings list.
From S2P Require Import Prelude Int64 Micros Decimal CString Heap Host Shell ClockGettime.

#[local] Open Scope Z_scope.
#[local] Open Scope timep_scope.

(** Lines 56-64; the terminating [NULL] is the end of the list. *)
Definition clock_gettime_doc : list string := [
  "";
  "USAGE: clock_gettime [<VAR>]";
  "";
  "Return high-resolution CPU time used by the current process.";
  "If an argument is passed, use it as the name of a Bash variable to assign the result.";
  "Otherwise, prints the result to stdout."
].

(** [BUILTIN_ENABLED] of bash's [builtins.h]. *)
Definition BUILTIN_ENABLED : Z := 1.

(** The name of the command, as line 123 compares it. *)
Definition CMD_NAME : string := "clock_gettime".

(** Lines 103-110. *)
Definition clock_gettime_struct : builtin :=
  mk_builtin "clock_gettime" "timep_builtin" BUILTIN_ENABLED clock_gettime_doc
    "clock_gettime [<VAR>]" 0.

(** Line 126: ["timep: unknown command '%s'"]. *)
Definition msg_unknown (sub : string) : string := "timep: unknown command '" +:+ sub +:+ "'".

(** Line 123: [strcmp(sub, "clock_gettime") == 0]. *)
Definition is_clock_gettime (sub : string) : bool := strcmp sub CMD_NAME =? 0.

(** The variable the words of a command ask to assign (lines 71-74, seen
    from the caller). *)
Definition target_of (ws : list string) : option string :=
  match ws with
  | [a] => if arg_nonempty a then Some a else None
  | _ => None
  end.

Section Builtin.
Context {W : Type} `{HostLaws W}.

(** Lines 123-128: the dispatch on [argv[0]]. *)
Definition dispatch (have_clock : bool) (sub : string) (argc : Z) (argv : argv_t) : M W ub Z :=
  if is_clock_gettime sub then clock_gettime_main have_clock argc argv
  else (do_builtin_error (msg_unknown sub) ;; ret EXECUTION_FAILURE).

(** Lines 116-132. *)
Definition timep_builtin (have_clock : bool) (list : list string) : M W ub Z :=
  r <- do_make_builtin_argv list ;;
  let argc := r.1 in
  let argv := r.2 in
  sub <- argv_get argv 0 ;;
  ret_ <- dispatch have_clock sub argc argv ;;
  do_xfree (argv_ptr argv) ;;
  ret ret_.

(** Lines 134-137. *)
Definition setup_builtin_timep `{Registry W} : M W ub Z :=
  modify (add_builtin clock_gettime_struct 1) ;;
  ret 0.

(** ** What [make_builtin_argv] hands over *)

Definition call_argc (ws : list string) : Z := 1 + Z.of_nat (length ws).
Definition call_argv (ws : list string) (w : W) : argv_t := (make_builtin_argv ws w).1.2.
Definition call_world (ws : list string) (w : W) : W := (make_builtin_argv ws w).2.
Definition call_ptr (w : W) : Z := (obs_alloc (observe w)).1.

Lemma call_argv_ptr (ws : list string) (w : W) : argv_ptr (call_argv ws w) = call_ptr w.
Proof.
  pose proof (observe_make_builtin_argv ws w) as E.
  unfold call_argv, call_ptr. rewrite <- E. reflexivity.
Qed.

Lemma call_world_observe (ws : list string) (w : W) :
  observe (call_world ws w) = (obs_alloc (observe w)).2.
Proof.
  pose proof (observe_make_builtin_argv ws w) as E.
  unfold call_world. rewrite <- E. reflexivity.
Qed.

Lemma call_argv_words (ws : list string) (w : W) :
  argv_words (call_argv ws w) = this_command_name w :: ws.
Proof. apply make_builtin_argv_words. Qed.

Lemma call_argv_ok (ws : list string) (w : W) : argv_ok (call_argc ws) (call_argv ws w).
Proof. unfold argv_ok, call_argc. rewrite call_argv_words. simpl. lia. Qed.

Lemma call_ptr_not_null (w : W) : call_ptr w ≠ NULL.
Proof. apply obs_alloc_ptr. Qed.

Lemma call_world_live (ws : list string) (w : W) :
  o_heap (observe (call_world ws w)) !! call_ptr w = Some Live.
Proof. rewrite call_world_observe. apply obs_alloc_live. Qed.

Lemma call_world_next_clock (ws : list string) (w : W) :
  next_clock (call_world ws w) = next_clock w.
Proof. apply next_clock_make_builtin_argv. Qed.

Lemma call_world_frame (ws : list string) (w : W) :
  o_stdout (observe (call_world ws w)) = o_stdout (observe w) /\
  o_stderr (observe (call_world ws w)) = o_stderr (observe w) /\
  o_vars (observe (call_world ws w)) = o_vars (observe w) /\
  o_clock_reads (observe (call_world ws w)) = o_clock_reads (observe w).
Proof. rewrite call_world_observe. repeat split. Qed.

(** The variable chosen by lines 71-74, from the words of the command. *)
Lemma call_varname (ws : list string) (w : W) :
  varname_of (call_argc ws) (call_argv ws w) = target_of ws.
Proof.
  unfold varname_of, call_argc, target_of. rewrite call_argv_words.
  destruct ws as [|a [|b l]]; [reflexivity | reflexivity |].
  assert (Hne : (1 + Z.of_nat (length (a :: b :: l)) =? 2) = false)
    by (apply Z.eqb_neq; simpl length; lia).
  rewrite Hne. reflexivity.
Qed.

(** ** Running the entry point *)

(** [timep_builtin] is [dispatch] between [make_builtin_argv] and
    [xfree]. *)
Lemma timep_builtin_run (have_clock : bool) (ws : list string) (w : W) :
  timep_builtin have_clock ws w =
  (ret_ <- dispatch have_clock (this_command_name w) (call_argc ws) (call_argv ws w) ;;
   do_xfree (call_ptr w) ;; ret ret_) (call_world ws w).
Proof.
  unfold timep_builtin, do_make_builtin_argv, argv_get.
  unfold bind at 1. cbn beta iota zeta.
  rewrite make_builtin_argv_argc. fold (call_argv ws w) (call_world ws w) (call_argc ws).
  rewrite call_argv_words, call_argv_ptr. reflexivity.
Qed.

(** The final [xfree], when [argv] is still live. *)
Lemma release_live (r : Z) (p : Z) (w : W) :
  p ≠ NULL -> o_heap (observe w) !! p = Some Live ->
  exists w', (do_xfree p ;; ret r) w = Done r w' /\ observe w' = obs_release p (observe w).
Proof.
  intros Hp Hl.
  destruct (do_xfree_some p w (obs_release p (observe w))) as (w' & Hrun & Ho).
  - unfold obs_xfree. rewrite (xfree_live _ _ Hp Hl). reflexivity.
  - exists w'. split; [|exact Ho]. unfold bind. rewrite Hrun. reflexivity.
Qed.

(** The final [xfree], when [argv] was released before. *)
Lemma release_freed (r : Z) (p : Z) (w : W) :
  p ≠ NULL -> o_heap (observe w) !! p = Some Freed ->
  (do_xfree p ;; ret r) w = Undef (DoubleFree p) w.
Proof.
  intros Hp Hf. unfold bind. rewrite do_xfree_undef; [reflexivity|].
  apply obs_xfree_none, xfree_freed; assumption.
Qed.

(** Releasing the array allocated for the call restores the live
    blocks of the caller. *)
Lemma live_blocks_release (w : W) (o : obs) :
  o_heap o = o_heap (obs_alloc (observe w)).2 ->
  live_blocks (o_heap (obs_release (call_ptr w) o)) = live_blocks (o_heap (observe w)).
Proof.
  intros Ho. destruct (xfree_alloc (o_heap (observe w))) as (h' & Hx & Hl & _).
  rewrite <- Hl. f_equal. simpl. rewrite Ho.
  apply xfree_some in Hx as [[Hn _]|(_ & _ & ->)]; [|reflexivity].
  contradiction (next_addr_not_null _ Hn).
Qed.

Lemma obs_emit_heap (v : option string) (m : Z) (o : obs) : o_heap (obs_emit v m o) = o_heap o.
Proof. destruct v; simpl; [apply obs_bind_variable_frame | reflexivity]. Qed.

Lemma dispatch_known (have_clock : bool) (argc : Z) (argv : argv_t) (w : W) :
  dispatch have_clock CMD_NAME argc argv w = clock_gettime_main have_clock argc argv w.
Proof. reflexivity. Qed.

Lemma dispatch_unknown (have_clock : bool) (sub : string) (argc : Z) (argv : argv_t) (w : W) :
  is_clock_gettime sub = false ->
  dispatch have_clock sub argc argv w = Done EXECUTION_FAILURE (builtin_error (msg_unknown sub) w).
Proof. unfold dispatch. intros ->. reflexivity. Qed.

(** A run of [dispatch] that returns with [argv] live, followed by the
    release. *)
Lemma timep_builtin_done (have_clock : bool) (ws : list string) (w w2 : W) (r : Z) :
  dispatch have_clock (this_command_name w) (call_argc ws) (call_argv ws w) (call_world ws w)
    = Done r w2 ->
  o_heap (observe w2) = o_heap (observe (call_world ws w)) ->
  exists w', timep_builtin have_clock ws w = Done r w' /\
    observe w' = obs_release (call_ptr w) (observe w2) /\
    live_blocks (o_heap (observe w')) = live_blocks (o_heap (observe w)).
Proof.
  intros Hd Hh. rewrite timep_builtin_run. unfold bind at 1. rewrite Hd.
  destruct (release_live r (call_ptr w) w2) as (w' & Hrun & Ho).
  - apply call_ptr_not_null.
  - rewrite Hh. apply call_world_live.
  - exists w'. split; [exact Hrun|]. split; [exact Ho|].
    rewrite Ho. apply live_blocks_release. rewrite Hh, call_world_observe. reflexivity.
Qed.

(** A run of [dispatch] that returns with [argv] released already. *)
Lemma timep_builtin_freed (have_clock : bool) (ws : list string) (w w2 : W) (r : Z) :
  dispatch have_clock (this_command_name w) (call_argc ws) (call_argv ws w) (call_world ws w)
    = Done r w2 ->
  o_heap (observe w2) !! call_ptr w = Some Freed ->
  timep_builtin have_clock ws w = Undef (DoubleFree (call_ptr w)) w2.
Proof.
  intros Hd Hf. rewrite timep_builtin_run. unfold bind at 1. rewrite Hd.
  apply release_freed; [apply call_ptr_not_null | exact Hf].
Qed.

(** The command called by its name, with at most one argument and a
    clock that can be read: the whole run on the observation. *)
Lemma timep_builtin_success_observe (ws : list string) (w : W) (ts : timespec) (micros : Z) :
  this_command_name w = CMD_NAME -> (length ws <= 1)%nat ->
  next_clock w = ClockOk ts -> micros_of_timespec ts = Some micros ->
  exists w', timep_builtin true ws w = Done EXECUTION_SUCCESS w' /\
    observe w' = obs_release (call_ptr w)
      (obs_emit (target_of ws) micros (obs_clock_read (obs_alloc (observe w)).2)) /\
    live_blocks (o_heap (observe w')) = live_blocks (o_heap (observe w)).
Proof.
  intros Hn Hlen Hc Hm.
  destruct (main_success_observe (call_argc ws) (call_argv ws w) (call_world ws w) ts micros)
    as (w2 & Hrun & Ho);
    [unfold call_argc; lia | apply call_argv_ok | rewrite call_world_next_clock; exact Hc
    | exact Hm |].
  rewrite call_varname, call_world_observe in Ho.
  destruct (timep_builtin_done true ws w w2 EXECUTION_SUCCESS) as (w' & Hrun' & Ho' & Hl).
  - rewrite Hn, dispatch_known. exact Hrun.
  - rewrite Ho, obs_emit_heap, call_world_observe. reflexivity.
  - exists w'. rewrite Ho', Ho in *. auto.
Qed.

(** The two failure arms of [clock_gettime_main], seen from the entry
    point: [dispatch] returns with [argv] released. *)
Lemma dispatch_fail_arm (have_clock : bool) (ws : list string) (w : W) :
  this_command_name w = CMD_NAME -> (length ws <= 1)%nat ->
  have_clock = false \/ (exists errno, next_clock w = ClockErr errno) ->
  exists w2 o,
    dispatch have_clock (this_command_name w) (call_argc ws) (call_argv ws w) (call_world ws w)
      = Done EXECUTION_FAILURE w2 /\
    observe w2 = obs_release (call_ptr w) o /\
    o_stdout o = o_stdout (observe w) /\ o_vars o = o_vars (observe w) /\
    exists msg, o_stderr o = o_stderr (observe w) ++ [msg] /\
      (have_clock = false -> msg = MSG_UNSUPPORTED) /\
      (forall errno, have_clock = true -> next_clock w = ClockErr errno ->
         msg = MSG_FAILED +:+ strerror errno).
Proof.
  intros Hn Hlen Hcase. rewrite Hn, dispatch_known.
  assert (Hle : call_argc ws <= 2) by (unfold call_argc; lia).
  pose proof (call_argv_ok ws w) as Hok. pose proof (call_world_live ws w) as Hl.
  pose proof (call_ptr_not_null w) as Hp. rewrite <- (call_argv_ptr ws w) in Hl, Hp.
  destruct have_clock.
  - destruct Hcase as [[=]|[errno Hc]].
    destruct (main_clock_failure_observe _ _ (call_world ws w) errno Hle Hok) as (w2 & Hrun & Ho);
      [rewrite call_world_next_clock; exact Hc | exact Hp | exact Hl |].
    rewrite call_argv_ptr, call_world_observe in Ho.
    exists w2. eexists. split; [exact Hrun|]. split; [exact Ho|]. repeat split.
    eexists. split; [reflexivity|]. split; [discriminate|].
    intros e _ He. rewrite Hc in He. injection He as <-. reflexivity.
  - destruct (main_unsupported_observe _ _ (call_world ws w) Hle Hok Hp Hl) as (w2 & Hrun & Ho).
    rewrite call_argv_ptr, call_world_observe in Ho.
    exists w2. eexists. split; [exact Hrun|]. split; [exact Ho|]. repeat split.
    eexists. split; [reflexivity|]. split; [reflexivity | discriminate].
Qed.

(** The shell's own state is not touched by the entry point. *)
Lemma timep_builtin_preserves {X : Type} (f : W -> X) `{!HostFrame f}
  (have_clock : bool) (ws : list string) :
  preserves f (timep_builtin have_clock ws).
Proof.
  pose proof (clock_gettime_main_preserves f have_clock) as Hmain.
  unfold timep_builtin, dispatch. solve_preserves.
Qed.

(** The four ways a call under the command's own name can go, each as an
    equation on the run. *)
Lemma timep_builtin_usage_observe (have_clock : bool) (ws : list string) (w : W) :
  this_command_name w = CMD_NAME -> (2 <= length ws)%nat ->
  exists w', timep_builtin have_clock ws w = Done EXECUTION_FAILURE w' /\
    observe w' = obs_release (call_ptr w)
      (obs_builtin_error MSG_TOO_MANY (obs_alloc (observe w)).2) /\
    live_blocks (o_heap (observe w')) = live_blocks (o_heap (observe w)).
Proof.
  intros Hn Hlen.
  destruct (timep_builtin_done have_clock ws w (builtin_error MSG_TOO_MANY (call_world ws w))
              EXECUTION_FAILURE) as (w' & Hrun & Ho & Hl).
  - rewrite Hn, dispatch_known. apply main_too_many. unfold call_argc. lia.
  - rewrite observe_builtin_error. reflexivity.
  - exists w'. split; [exact Hrun|]. split; [|exact Hl].
    rewrite Ho, observe_builtin_error, call_world_observe. reflexivity.
Qed.

Lemma timep_builtin_fail_run (have_clock : bool) (ws : list string) (w : W) :
  this_command_name w = CMD_NAME -> (length ws <= 1)%nat ->
  have_clock = false \/ (exists errno, next_clock w = ClockErr errno) ->
  exists w2 o, timep_builtin have_clock ws w = Undef (DoubleFree (call_ptr w)) w2 /\
    observe w2 = obs_release (call_ptr w) o /\
    o_stdout o = o_stdout (observe w) /\ o_vars o = o_vars (observe w) /\
    exists msg, o_stderr o = o_stderr (observe w) ++ [msg] /\
      (have_clock = false -> msg = MSG_UNSUPPORTED) /\
      (forall errno, have_clock = true -> next_clock w = ClockErr errno ->
         msg = MSG_FAILED +:+ strerror errno).
Proof.
  intros Hn Hlen Hcase.
  destruct (dispatch_fail_arm have_clock ws w Hn Hlen Hcase) as (w2 & o & Hd & Ho & Hrest).
  exists w2, o. split; [|auto].
  apply (timep_builtin_freed _ _ _ _ _ Hd). rewrite Ho. apply lookup_insert_eq.
Qed.

Lemma timep_builtin_overflow_run (ws : list string) (w : W) (ts : timespec) :
  this_command_name w = CMD_NAME -> (length ws <= 1)%nat ->
  next_clock w = ClockOk ts -> micros_of_timespec ts = None ->
  exists w2, timep_builtin true ws w = Undef SignedOverflow w2.
Proof.
  intros Hn Hlen Hc Hm. rewrite timep_builtin_run, Hn. unfold bind at 1.
  rewrite dispatch_known, main_proceeds by (unfold call_argc; lia || apply call_argv_ok).
  rewrite (read_and_emit_overflow _ _ _ ts)
    by (rewrite ?call_world_next_clock; assumption).
  eauto.
Qed.

(** ** Properties *)

(** C1.  Double release of [argv]: when the command is called by its
    name with at most one argument and the clock cannot be read (the
    system call fails, or the process clock does not exist on the
    platform), [clock_gettime_main] releases [argv] and [timep_builtin]
    releases it again on line 130: the second [xfree] acts on a block that
    is no longer live, which is undefined behaviour.  The diagnostic has
    been written by then; nothing was printed or assigned. *)
Theorem timep_builtin_double_free (have_clock : bool) (ws : list string) (w : W) :
  this_command_name w = CMD_NAME -> (length ws <= 1)%nat ->
  have_clock = false \/ (exists errno, next_clock w = ClockErr errno) ->
  exists w2, timep_builtin have_clock ws w = Undef (DoubleFree (call_ptr w)) w2 /\
    o_heap (observe w2) !! call_ptr w = Some Freed /\
    o_stdout (observe w2) = o_stdout (observe w) /\
    o_vars (observe w2) = o_vars (observe w) /\
    exists msg, o_stderr (observe w2) = o_stderr (observe w) ++ [msg].
Proof.
  intros Hn Hlen Hcase.
  destruct (timep_builtin_fail_run have_clock ws w Hn Hlen Hcase)
    as (w2 & o & Hrun & Ho & Hout & Hvars & msg & Herr & _).
  exists w2. split; [exact Hrun|]. rewrite Ho.
  split; [apply lookup_insert_eq|]. simpl.
  split; [exact Hout|]. split; [exact Hvars|]. exists msg. exact Herr.
Qed.

(** C2.  [clock_gettime] with no argument, or with an empty one: the
    command prints the CPU time in microseconds as one decimal line,
    returns [EXECUTION_SUCCESS], binds no variable, writes no diagnostic,
    reads the clock once, and releases [argv] exactly once, so that the
    live blocks of the heap are those of before the call. *)
Theorem timep_builtin_prints (ws : list string) (w : W) (ts : timespec) (micros : Z) :
  this_command_name w = CMD_NAME -> (length ws <= 1)%nat -> target_of ws = None ->
  next_clock w = ClockOk ts -> micros_of_timespec ts = Some micros ->
  exists w', timep_builtin true ws w = Done EXECUTION_SUCCESS w' /\
    o_stdout (observe w') = o_stdout (observe w) +:+ fmt_lld micros +:+ NEWLINE /\
    o_vars (observe w') = o_vars (observe w) /\
    o_stderr (observe w') = o_stderr (observe w) /\
    o_clock_reads (observe w') = S (o_clock_reads (observe w)) /\
    live_blocks (o_heap (observe w')) = live_blocks (o_heap (observe w)).
Proof.
  intros Hn Hlen Ht Hc Hm.
  destruct (timep_builtin_success_observe ws w ts micros Hn Hlen Hc Hm) as (w' & Hrun & Ho & Hl).
  exists w'. split; [exact Hrun|].
  split_conj; [.. | exact Hl]; rewrite Ho, Ht; reflexivity.
Qed.

(** C3.  [clock_gettime VAR] with a non-empty [VAR] that is not
    readonly: the command binds [VAR] to the decimal text of the
    microseconds, prints nothing, leaves the other variables alone,
    returns [EXECUTION_SUCCESS] and releases [argv] exactly once. *)
Theorem timep_builtin_assigns (ws : list string) (w : W) (ts : timespec) (micros : Z)
  (name : string) :
  this_command_name w = CMD_NAME -> target_of ws = Some name ->
  next_clock w = ClockOk ts -> micros_of_timespec ts = Some micros ->
  is_readonly (observe w) name = false ->
  exists w', timep_builtin true ws w = Done EXECUTION_SUCCESS w' /\
    var_lookup (observe w') name = Some (fmt_lld micros) /\
    (forall other, name ≠ other -> var_lookup (observe w') other = var_lookup (observe w) other) /\
    o_stdout (observe w') = o_stdout (observe w) /\
    o_stderr (observe w') = o_stderr (observe w) /\
    live_blocks (o_heap (observe w')) = live_blocks (o_heap (observe w)).
Proof.
  intros Hn Ht Hc Hm Hr.
  assert (Hlen : (length ws <= 1)%nat) by (destruct ws as [|a [|b l]]; simpl in *; [lia | lia | discriminate]).
  destruct (timep_builtin_success_observe ws w ts micros Hn Hlen Hc Hm) as (w' & Hrun & Ho & Hl).
  exists w'. split; [exact Hrun|].
  split_conj; [.. | exact Hl]; rewrite Ho, Ht; cbn [obs_emit];
    rewrite buf_micros_full by (apply (micros_of_timespec_in_range ts), Hm).
  - rewrite var_lookup_release. apply var_lookup_bind_same; exact Hr.
  - intros other Hne.
    rewrite var_lookup_release, var_lookup_bind_other by exact Hne. reflexivity.
  - rewrite obs_bind_variable_writable by exact Hr. reflexivity.
  - rewrite obs_bind_variable_writable by exact Hr. reflexivity.
Qed.

(** C4.  [clock_gettime a b ...]: with two or more arguments the command
    fails with [EXECUTION_FAILURE] and the diagnostic "clock_gettime: too
    many arguments", whatever the state of the clock and in both
    configurations; nothing is printed, no variable is bound, the clock is
    not read and [argv] is released exactly once. *)
Theorem timep_builtin_too_many_arguments (have_clock : bool) (ws : list string) (w : W) :
  this_command_name w = CMD_NAME -> (2 <= length ws)%nat ->
  exists w', timep_builtin have_clock ws w = Done EXECUTION_FAILURE w' /\
    o_stderr (observe w') = o_stderr (observe w) ++ [MSG_TOO_MANY] /\
    o_stdout (observe w') = o_stdout (observe w) /\
    o_vars (observe w') = o_vars (observe w) /\
    o_clock_reads (observe w') = o_clock_reads (observe w) /\
    live_blocks (o_heap (observe w')) = live_blocks (o_heap (observe w)).
Proof.
  intros Hn Hlen.
  destruct (timep_builtin_usage_observe have_clock ws w Hn Hlen) as (w' & Hrun & Ho & Hl).
  exists w'. split; [exact Hrun|].
  split_conj; [.. | exact Hl]; rewrite Ho; reflexivity.
Qed.

(** Called under any other name, [timep_builtin] fails with
    [EXECUTION_FAILURE] and the diagnostic "timep: unknown command
    '<name>'"; nothing else happens and [argv] is released exactly once. *)
Theorem timep_builtin_unknown_command (have_clock : bool) (ws : list string) (w : W) :
  is_clock_gettime (this_command_name w) = false ->
  exists w', timep_builtin have_clock ws w = Done EXECUTION_FAILURE w' /\
    o_stderr (observe w') = o_stderr (observe w) ++ [msg_unknown (this_command_name w)] /\
    o_stdout (observe w') = o_stdout (observe w) /\
    o_vars (observe w') = o_vars (observe w) /\
    o_clock_reads (observe w') = o_clock_reads (observe w) /\
    live_blocks (o_heap (observe w')) = live_blocks (o_heap (observe w)).
Proof.
  intros Hn.
  destruct (timep_builtin_done have_clock ws w
              (builtin_error (msg_unknown (this_command_name w)) (call_world ws w))
              EXECUTION_FAILURE) as (w' & Hrun & Ho & Hl).
  - apply dispatch_unknown, Hn.
  - rewrite observe_builtin_error. reflexivity.
  - exists w'. split; [exact Hrun|].
    split_conj; [.. | exact Hl];
      rewrite Ho, observe_builtin_error, call_world_observe; reflexivity.
Qed.

(** Every run of [timep_builtin] ends in one of four ways: it
    returns [EXECUTION_SUCCESS], it returns [EXECUTION_FAILURE], the
    conversion overflows, or [argv] is released twice.  In particular
    [argv] is never read past its end, and no other status is returned. *)
Theorem timep_builtin_outcomes (have_clock : bool) (ws : list string) (w : W) :
  match timep_builtin have_clock ws w with
  | Done r _ => r = EXECUTION_SUCCESS \/ r = EXECUTION_FAILURE
  | Undef u _ => u = SignedOverflow \/ u = DoubleFree (call_ptr w)
  end.
Proof.
  rewrite timep_builtin_run. unfold bind at 1.
  assert (Hd : main_outcome (call_argv ws w)
                 (dispatch have_clock (this_command_name w) (call_argc ws)
                    (call_argv ws w) (call_world ws w))).
  { unfold dispatch. destruct (is_clock_gettime _);
      [apply main_outcome_classified, call_argv_ok | constructor]. }
  inversion Hd as [w2 E|w2 E|w2 E|w2 E]; [| | auto | rewrite call_argv_ptr; auto];
    unfold bind; rewrite do_xfree_run; destruct (host_xfree _ _); simpl; auto.
Qed.

(** The name test of line 123: for a C string [sub] (no NUL
    inside) [strcmp(sub, "clock_gettime") == 0] holds if and only if [sub]
    is the string "clock_gettime"; a name that differs in case, is a
    prefix or has a suffix is an unknown command. *)
Theorem is_clock_gettime_iff (sub : string) :
  is_cstring sub = true -> (is_clock_gettime sub = true <-> sub = CMD_NAME).
Proof. intros Hs. apply strcmp_eq_iff; [exact Hs | reflexivity]. Qed.

End Builtin.

(** ** The theorems at work on the concrete shell *)

Lemma timep_builtin_double_free_witness :
  exists w2, timep_builtin true [] (set_clock_errno (Some EINVAL) demo_shell)
      = Undef (DoubleFree (call_ptr (set_clock_errno (Some EINVAL) demo_shell))) w2 /\
    o_heap (observe w2) !! call_ptr (set_clock_errno (Some EINVAL) demo_shell) = Some Freed /\
    o_stdout (observe w2) = o_stdout (observe (set_clock_errno (Some EINVAL) demo_shell)) /\
    o_vars (observe w2) = o_vars (observe (set_clock_errno (Some EINVAL) demo_shell)) /\
    exists msg, o_stderr (observe w2)
      = o_stderr (observe (set_clock_errno (Some EINVAL) demo_shell)) ++ [msg].
Proof.
  apply (timep_builtin_double_free true [] (set_clock_errno (Some EINVAL) demo_shell));
    [reflexivity | simpl; lia | right; exists EINVAL; reflexivity].
Defined.

Lemma timep_builtin_prints_witness :
  exists w', timep_builtin true [] demo_shell = Done EXECUTION_SUCCESS w' /\
    o_stdout (observe w') = o_stdout (observe demo_shell) +:+ fmt_lld 1500000 +:+ NEWLINE /\
    o_vars (observe w') = o_vars (observe demo_shell) /\
    o_stderr (observe w') = o_stderr (observe demo_shell) /\
    o_clock_reads (observe w') = S (o_clock_reads (observe demo_shell)) /\
    live_blocks (o_heap (observe w')) = live_blocks (o_heap (observe demo_shell)).
Proof.
  apply (timep_builtin_prints [] demo_shell (mk_timespec 1 500000000) 1500000);
    [reflexivity | simpl; lia | reflexivity | reflexivity | reflexivity].
Defined.

Lemma timep_builtin_assigns_witness :
  exists w', timep_builtin true ["T0"] demo_shell = Done EXECUTION_SUCCESS w' /\
    var_lookup (observe w') "T0" = Some (fmt_lld 1500000) /\
    (forall other, "T0" ≠ other -> var_lookup (observe w') other = var_lookup (observe demo_shell) other) /\
    o_stdout (observe w') = o_stdout (observe demo_shell) /\
    o_stderr (observe w') = o_stderr (observe demo_shell) /\
    live_blocks (o_heap (observe w')) = live_blocks (o_heap (observe demo_shell)).
Proof.
  apply (timep_builtin_assigns ["T0"] demo_shell (mk_timespec 1 500000000) 1500000 "T0");
    reflexivity.
Defined.

Lemma timep_builtin_too_many_arguments_witness :
  exists w', timep_builtin true ["a"; "b"] demo_shell = Done EXECUTION_FAILURE w' /\
    o_stderr (observe w') = o_stderr (observe demo_shell) ++ [MSG_TOO_MANY] /\
    o_stdout (observe w') = o_stdout (observe demo_shell) /\
    o_vars (observe w') = o_vars (observe demo_shell) /\
    o_clock_reads (observe w') = o_clock_reads (observe demo_shell) /\
    live_blocks (o_heap (observe w')) = live_blocks (o_heap (observe demo_shell)).
Proof.
  apply (timep_builtin_too_many_arguments true ["a"; "b"] demo_shell);
    [reflexivity | simpl; lia].
Defined.

Lemma is_clock_gettime_iff_witness :
  is_clock_gettime "clock_gettime2" = true <-> "clock_gettime2" = CMD_NAME.
Proof. apply (is_clock_gettime_iff "clock_gettime2"). reflexivity. Defined.

Lemma timep_builtin_unknown_command_witness :
  exists w', timep_builtin true [] (set_command "timep" demo_shell) = Done EXECUTION_FAILURE w' /\
    o_stderr (observe w') = o_stderr (observe (set_command "timep" demo_shell))
      ++ [msg_unknown (this_command_name (set_command "timep" demo_shell))] /\
    o_stdout (observe w') = o_stdout (observe (set_command "timep" demo_shell)) /\
    o_vars (observe w') = o_vars (observe (set_command "timep" demo_shell)) /\
    o_clock_reads (observe w') = o_clock_reads (observe (set_command "timep" demo_shell)) /\
    live_blocks (o_heap (observe w')) = live_blocks (o_heap (observe (set_command "timep" demo_shell))).
Proof. apply (timep_builtin_unknown_command true [] (set_command "timep" demo_shell)). reflexivity. Defined.

Lemma timep_builtin_outcomes_witness :
  match timep_builtin true ["T0"] demo_shell with
  | Done r _ => r = EXECUTION_SUCCESS \/ r = EXECUTION_FAILURE
  | Undef u _ => u = SignedOverflow \/ u = DoubleFree (call_ptr demo_shell)
  end.
Proof. apply (timep_builtin_outcomes true ["T0"] demo_shell). Defined.
