(* ===== verification/Format.v ===== *)
(** * Format: the format strings of [timep.c]

    Six calls of the file take a format: [builtin_error] at lines 68,
    79, 97 and 126, [snprintf] at line 89 and [printf] at line 92.  The
    other files model what these calls write by constants and functions
    of their own ([MSG_FAILED +:+ strerror errno], [msg_unknown sub],
    [buf_micros], [printf_lld_nl]).  This file takes the format strings
    as the source writes them, reads them the way [printf] does (a
    directive starts at [%]; the file uses [%s] and [%lld]), and shows
    that formatting the arguments the source passes gives exactly those
    texts.

    A directive consumes one argument of the type it names: [%s] a
    pointer to a string, [%lld] a [long long].  An argument of any other
    type, or a missing one, is undefined behaviour (C17 7.21.6.1p2 and
    p9), and [sprintf] is [None].  The casts [(long long) micros] of
    lines 89 and 92 make the argument a [long long] on the platforms
    whose [int64_t] is [long]. *)

From Stdlib Require Import Ascii String.
From stdpp Require Import gmap strings list.
From S2P Require Import Prelude Int64 Micros DataModel Decimal CString Heap Host Shell.
From S2P Require Import ClockGettime Builtin.

#[local] Open Scope Z_scope.

(** An argument of a variadic call, with the type it is passed at. *)
Inductive c_arg : Type :=
| ArgString (s : string)
| ArgLong (z : Z)
| ArgLongLong (z : Z).

(** A piece of a format: a character written as it is, or a
    directive. *)
Inductive directive : Type :=
| Lit (c : ascii)
| DirString
| DirLongLong.

(** The formats of the file. *)
Definition FMT_68 : string := "clock_gettime: too many arguments".
Definition FMT_79 : string := "clock_gettime failed: %s".
Definition FMT_89 : string := "%lld".
Definition FMT_92 : string := "%lld" +:+ NEWLINE.
Definition FMT_97 : string := "clock_gettime is not supported on this system.".
Definition FMT_126 : string := "timep: unknown command '%s'".

(** The directives of a format; [None] for a directive the file does
    not use. *)
Fixpoint parse_format (fmt : string) : option (list directive) :=
  match fmt with
  | EmptyString => Some []
  | String c rest =>
      if Ascii.eqb c "%" then
        match rest with
        | String d1 r1 =>
            if Ascii.eqb d1 "%" then cons (Lit "%") <$> parse_format r1
            else if Ascii.eqb d1 "s" then cons DirString <$> parse_format r1
            else if Ascii.eqb d1 "l" then
              match r1 with
              | String d2 (String d3 r3) =>
                  if Ascii.eqb d2 "l" && Ascii.eqb d3 "d"
                  then cons DirLongLong <$> parse_format r3
                  else None
              | _ => None
              end
            else None
        | EmptyString => None
        end
      else cons (Lit c) <$> parse_format rest
  end.

(** The text of the directives for the arguments; arguments that are
    left over are ignored. *)
Fixpoint render (ds : list directive) (args : list c_arg) : option string :=
  match ds with
  | [] => Some ""
  | Lit c :: ds' => String c <$> render ds' args
  | DirString :: ds' =>
      match args with
      | ArgString s :: args' => String.append s <$> render ds' args'
      | _ => None
      end
  | DirLongLong :: ds' =>
      match args with
      | ArgLongLong z :: args' => String.append (fmt_lld z) <$> render ds' args'
      | _ => None
      end
  end.

(** What a call writes. *)
Definition sprintf (fmt : string) (args : list c_arg) : option string :=
  match parse_format fmt with
  | Some ds => render ds args
  | None => None
  end.

(** An [int64_t] passed as it is: a [long] where [long] has 64 bits, a
    [long long] elsewhere. *)
Definition arg_int64 (dm : data_model) (z : Z) : c_arg :=
  if it_bits (long_t dm) =? 64 then ArgLong z else ArgLongLong z.

(** [(long long) micros], lines 89 and 92. *)
Definition arg_cast_long_long (z : Z) : c_arg := ArgLongLong z.

(** ** Literal text *)

(** A text without [%] is its own format. *)
Fixpoint plain (s : string) : bool :=
  match s with
  | EmptyString => true
  | String c s' => negb (Ascii.eqb c "%") && plain s'
  end.

Lemma parse_plain (s : string) :
  plain s = true -> parse_format s = Some (Lit <$> list_ascii_of_string s).
Proof.
  induction s as [|c s IH]; [reflexivity|]. simpl.
  destruct (Ascii.eqb c "%"); [discriminate|]. intros Hp. rewrite (IH Hp). reflexivity.
Qed.

Lemma render_lits (s : string) (ds : list directive) (args : list c_arg) :
  render ((Lit <$> list_ascii_of_string s) ++ ds) args = String.append s <$> render ds args.
Proof.
  induction s as [|c s IH]; [simpl; destruct (render ds args); reflexivity|].
  change (render (Lit c :: ((Lit <$> list_ascii_of_string s) ++ ds)) args
          = String.append (String c s) <$> render ds args).
  cbn [render]. rewrite IH. destruct (render ds args); reflexivity.
Qed.

Lemma render_plain (s : string) (args : list c_arg) :
  render (Lit <$> list_ascii_of_string s) args = Some s.
Proof.
  rewrite <- (app_nil_r (Lit <$> _)), render_lits. simpl. rewrite append_nil_r. reflexivity.
Qed.

Lemma sprintf_plain (s : string) (args : list c_arg) : plain s = true -> sprintf s args = Some s.
Proof.
  intros Hp. unfold sprintf. rewrite (parse_plain s Hp). apply render_plain.
Qed.

(** A format is read piece by piece: literal text, then the rest. *)
Lemma parse_format_app (s t : string) (ds : list directive) :
  plain s = true -> parse_format t = Some ds ->
  parse_format (s +:+ t) = Some ((Lit <$> list_ascii_of_string s) ++ ds).
Proof.
  intros Hp Ht. induction s as [|c s IH]; [exact Ht|]. simpl in *.
  destruct (Ascii.eqb c "%"); [discriminate|]. rewrite (IH Hp). reflexivity.
Qed.

Lemma parse_dir_string (t : string) :
  parse_format ("%s" +:+ t) = cons DirString <$> parse_format t.
Proof. reflexivity. Qed.

Lemma parse_dir_long_long (t : string) :
  parse_format ("%lld" +:+ t) = cons DirLongLong <$> parse_format t.
Proof. reflexivity. Qed.

(** Literal text, one [%s], literal text. *)
Lemma sprintf_string (pre post e : string) :
  plain pre = true -> plain post = true ->
  sprintf (pre +:+ "%s" +:+ post) [ArgString e] = Some (pre +:+ e +:+ post).
Proof.
  intros Hpre Hpost. unfold sprintf.
  rewrite (parse_format_app pre _ (DirString :: (Lit <$> list_ascii_of_string post)) Hpre)
    by (rewrite parse_dir_string, (parse_plain post Hpost); reflexivity).
  rewrite render_lits. cbn [render].
  rewrite render_plain. reflexivity.
Qed.

(** Literal text after one [%lld]. *)
Lemma sprintf_long_long (post : string) (z : Z) :
  plain post = true -> sprintf ("%lld" +:+ post) [ArgLongLong z] = Some (fmt_lld z +:+ post).
Proof.
  intros Hpost. unfold sprintf. rewrite parse_dir_long_long, (parse_plain post Hpost).
  cbn [fmap option_fmap option_map render].
  rewrite render_plain. reflexivity.
Qed.

(** ** Properties *)

(** C36.  The format strings of the source give the texts of the model.
    Formatting the arguments the source passes with the formats of
    lines 68, 79, 89, 92, 97 and 126 gives the diagnostics
    [MSG_TOO_MANY], [MSG_FAILED] followed by the error text,
    [MSG_UNSUPPORTED] and [msg_unknown], the text of [%lld] that
    [buf_micros] holds and the line [printf_lld_nl], for every value,
    every error text and every command name, whatever characters these
    contain. *)
Theorem formats_of_timep_c (micros : Z) (errtext sub : string) :
  sprintf FMT_68 [] = Some MSG_TOO_MANY /\
  sprintf FMT_79 [ArgString errtext] = Some (MSG_FAILED +:+ errtext) /\
  sprintf FMT_89 [arg_cast_long_long micros] = Some (fmt_lld micros) /\
  sprintf FMT_92 [arg_cast_long_long micros] = Some (printf_lld_nl micros) /\
  sprintf FMT_97 [] = Some MSG_UNSUPPORTED /\
  sprintf FMT_126 [ArgString sub] = Some (msg_unknown sub).
Proof.
  split_conj.
  - apply sprintf_plain. reflexivity.
  - rewrite <- (append_nil_r errtext) at 2.
    apply (sprintf_string "clock_gettime failed: " "" errtext); reflexivity.
  - rewrite <- (append_nil_r (fmt_lld micros)). apply (sprintf_long_long "" micros). reflexivity.
  - apply (sprintf_long_long NEWLINE micros). reflexivity.
  - apply sprintf_plain. reflexivity.
  - apply (sprintf_string "timep: unknown command '" "'" sub); reflexivity.
Qed.

(** The casts of lines 89 and 92 are needed.  An [int64_t] passed
    to [%lld] as it is has the type the directive asks for exactly on
    the platforms whose [long] is shorter than 64 bits; where [int64_t]
    is [long] the call is undefined without the cast, and defined with
    it on every platform. *)
Theorem cast_to_long_long_needed (dm : data_model) (micros : Z) :
  supported dm ->
  (sprintf FMT_92 [arg_int64 dm micros] = Some (printf_lld_nl micros)
   <-> it_bits (long_t dm) < 64) /\
  sprintf FMT_92 [arg_cast_long_long micros] = Some (printf_lld_nl micros).
Proof.
  intros Hs. split; [|apply (sprintf_long_long NEWLINE micros); reflexivity].
  unfold arg_int64. destruct (Z.eqb_spec (it_bits (long_t dm)) 64) as [E|E].
  - rewrite E. split; [discriminate | lia].
  - split; [intros _; destruct Hs as [Hl _]; lia|].
    intros _. apply (sprintf_long_long NEWLINE micros). reflexivity.
Qed.

(** ** The theorems at work *)

Lemma cast_to_long_long_needed_witness :
  (sprintf FMT_92 [arg_int64 LP64 42] = Some (printf_lld_nl 42) <-> it_bits (long_t LP64) < 64) /\
  sprintf FMT_92 [arg_cast_long_long 42] = Some (printf_lld_nl 42).
Proof. apply (cast_to_long_long_needed LP64 42). vm_compute. intuition discriminate. Defined.

(** A name with a [%] in it is written as it is: it is an argument, not
    a format. *)
Example unknown_with_percent :
  sprintf FMT_126 [ArgString "100%s"] = Some "timep: unknown command '100%s'".
Proof. reflexivity. Qed.

Example missing_argument : sprintf FMT_79 [] = None.
Proof. reflexivity. Qed.
