(* ===== verification/Run.v ===== *)
(** * Run: every run of [timep_builtin], on every host

    [Builtin] gives the result of each branch under the hypotheses that
    select it.  This file puts the branches together.  [run_path] is the
    list of the runs the entry point can make, one rule per path through
    lines 116-132 and 66-101, each with the worlds it goes through given
    by the operations of the host; [timep_builtin_path] shows that a run
    is always one of them.

    From the rules follow the status and the observation a run leaves as
    functions of what the host showed before ([expected_result],
    [expected_obs]), and from these that two hosts which show the same
    are left showing the same: the builtin cannot tell them apart. *)

From stdpp Require Import gmap strings list.
From S2P Require Import Prelude Int64 Micros Decimal CString Heap Host Shell ClockGettime Builtin.

#[local] Open Scope Z_scope.
#[local] Open Scope timep_scope.

(** What a run leaves: the status returned, or the undefined behaviour
    met. *)
Definition result_of {W A : Type} (o : outcome W ub A) : A + ub :=
  match o with
  | Done a _ => inl a
  | Undef u _ => inr u
  end.

(** How [clock_gettime_main] ends: the return statements of lines 69,
    81, 94 and 99, and the overflow of line 85. *)
Definition main_result (have_clock : bool) (ws : list string) (c : clock_result) : Z + ub :=
  if decide (2 <= length ws)%nat then inl EXECUTION_FAILURE
  else if have_clock then
    match c with
    | ClockErr _ => inl EXECUTION_FAILURE
    | ClockOk ts =>
        match micros_of_timespec ts with
        | Some _ => inl EXECUTION_SUCCESS
        | None => inr SignedOverflow
        end
    end
  else inl EXECUTION_FAILURE.

(** Whether [clock_gettime_main] has released [argv] (lines 80 and 98). *)
Definition main_releases (have_clock : bool) (ws : list string) (c : clock_result) : bool :=
  if decide (2 <= length ws)%nat then false
  else if have_clock then
    match c with
    | ClockErr _ => true
    | ClockOk _ => false
    end
  else true.

(** How [timep_builtin] ends, for the name the command was invoked by:
    with the status of line 124 or 126, unless [argv] is released a
    second time at line 130. *)
Definition expected_result (have_clock : bool) (name : string) (ws : list string)
  (c : clock_result) (p : Z) : Z + ub :=
  if is_clock_gettime name then
    match main_result have_clock ws c with
    | inl status => if main_releases have_clock ws c then inr (DoubleFree p) else inl status
    | inr u => inr u
    end
  else inl EXECUTION_FAILURE.

(** What [clock_gettime_main] does to the observation [o] it is entered
    with, lines 66-101, [argv] being the block at [p]. *)
Definition main_obs (have_clock : bool) (ws : list string) (c : clock_result)
  (errtext : Z -> string) (p : Z) (o : obs) : obs :=
  if decide (2 <= length ws)%nat then obs_builtin_error MSG_TOO_MANY o
  else if have_clock then
    match c with
    | ClockErr errno =>
        obs_release p (obs_builtin_error (MSG_FAILED +:+ errtext errno) (obs_clock_read o))
    | ClockOk ts =>
        match micros_of_timespec ts with
        | Some micros => obs_emit (target_of ws) micros (obs_clock_read o)
        | None => obs_clock_read o
        end
    end
  else obs_release p (obs_builtin_error MSG_UNSUPPORTED o).

(** What [timep_builtin] does to the observation, lines 116-132: the
    allocation of [argv], the effect of [clock_gettime_main] or the
    diagnostic of line 126, and the release of line 130 when the run
    returns. *)
Definition expected_obs (have_clock : bool) (name : string) (ws : list string)
  (c : clock_result) (errtext : Z -> string) (o : obs) : obs :=
  let p := (obs_alloc o).1 in
  let o2 :=
    if is_clock_gettime name then main_obs have_clock ws c errtext p (obs_alloc o).2
    else obs_builtin_error (msg_unknown name) (obs_alloc o).2 in
  match expected_result have_clock name ws c p with
  | inl _ => obs_release p o2
  | inr _ => o2
  end.

(** The diagnostics of [clock_gettime_main]: those of lines 68, 79 and
    97, and the shell's own when line 90 names a readonly variable. *)
Definition main_diagnostics (have_clock : bool) (ws : list string)
  (c : clock_result) (errtext : Z -> string) (o : obs) : list string :=
  if decide (2 <= length ws)%nat then [MSG_TOO_MANY]
  else if have_clock then
    match c with
    | ClockErr errno => [MSG_FAILED +:+ errtext errno]
    | ClockOk ts =>
        match micros_of_timespec ts, target_of ws with
        | Some _, Some v => if is_readonly o v then [v +:+ ": readonly variable"] else []
        | _, _ => []
        end
    end
  else [MSG_UNSUPPORTED].

(** The diagnostics of [timep_builtin]: those of [clock_gettime_main],
    or that of line 126. *)
Definition diagnostics (have_clock : bool) (name : string) (ws : list string)
  (c : clock_result) (errtext : Z -> string) (o : obs) : list string :=
  if is_clock_gettime name then main_diagnostics have_clock ws c errtext o
  else [msg_unknown name].

(** What [clock_gettime_main] prints: the line of line 92, when it is
    reached. *)
Definition main_printed (have_clock : bool) (ws : list string) (c : clock_result) : string :=
  if decide (2 <= length ws)%nat then ""
  else if have_clock then
    match c with
    | ClockErr _ => ""
    | ClockOk ts =>
        match micros_of_timespec ts, target_of ws with
        | Some micros, None => printf_lld_nl micros
        | _, _ => ""
        end
    end
  else "".

(** What [timep_builtin] prints. *)
Definition printed_text (have_clock : bool) (name : string) (ws : list string)
  (c : clock_result) : string :=
  if is_clock_gettime name then main_printed have_clock ws c else "".

(** [path_cases]: in the conclusion, take the branch the hypotheses of a
    path select. *)
Ltac path_cases :=
  subst;
  repeat match goal with
         | H : is_clock_gettime _ = _ |- _ => rewrite H
         | H : next_clock _ = _ |- _ => rewrite H
         | H : micros_of_timespec _ = _ |- _ => rewrite H
         | |- context [decide ?P] => destruct (decide P); [|]; try contradiction
         end.

Section Run.
Context {W : Type} `{HostLaws W}.

(** [xfree(p)] takes [w] to [w'] and the block was live. *)
Definition released (p : Z) (w w' : W) : Prop :=
  host_xfree p w = Some w' /\ observe w' = obs_release p (observe w).

(** The runs of [timep_builtin have_clock ws] from [w]. *)
Inductive run_path (have_clock : bool) (ws : list string) (w : W) : outcome W ub Z -> Prop :=
| path_unknown w' :
    is_clock_gettime (this_command_name w) = false ->
    released (call_ptr w)
      (builtin_error (msg_unknown (this_command_name w)) (call_world ws w)) w' ->
    run_path have_clock ws w (Done EXECUTION_FAILURE w')
| path_too_many w' :
    is_clock_gettime (this_command_name w) = true -> (2 <= length ws)%nat ->
    released (call_ptr w) (builtin_error MSG_TOO_MANY (call_world ws w)) w' ->
    run_path have_clock ws w (Done EXECUTION_FAILURE w')
| path_unsupported w2 :
    is_clock_gettime (this_command_name w) = true -> ~ (2 <= length ws)%nat ->
    have_clock = false ->
    released (call_ptr w) (builtin_error MSG_UNSUPPORTED (call_world ws w)) w2 ->
    run_path have_clock ws w (Undef (DoubleFree (call_ptr w)) w2)
| path_clock_failed errno w2 :
    is_clock_gettime (this_command_name w) = true -> ~ (2 <= length ws)%nat ->
    have_clock = true -> next_clock w = ClockErr errno ->
    released (call_ptr w)
      (builtin_error (MSG_FAILED +:+ strerror errno) (sys_clock_gettime (call_world ws w)).2)
      w2 ->
    run_path have_clock ws w (Undef (DoubleFree (call_ptr w)) w2)
| path_emits ts micros w' :
    is_clock_gettime (this_command_name w) = true -> ~ (2 <= length ws)%nat ->
    have_clock = true -> next_clock w = ClockOk ts -> micros_of_timespec ts = Some micros ->
    released (call_ptr w)
      (world_of (emit_micros (target_of ws) micros (sys_clock_gettime (call_world ws w)).2))
      w' ->
    run_path have_clock ws w (Done EXECUTION_SUCCESS w')
| path_overflows ts :
    is_clock_gettime (this_command_name w) = true -> ~ (2 <= length ws)%nat ->
    have_clock = true -> next_clock w = ClockOk ts -> micros_of_timespec ts = None ->
    run_path have_clock ws w (Undef SignedOverflow (sys_clock_gettime (call_world ws w)).2).

(** ** Releasing a block *)

Lemma release_of_live (p : Z) (w : W) :
  p ≠ NULL -> o_heap (observe w) !! p = Some Live -> exists w', released p w w'.
Proof.
  intros Hp Hl. pose proof (observe_host_xfree p w) as Hx.
  unfold obs_xfree in Hx. rewrite (xfree_live _ _ Hp Hl) in Hx. unfold released.
  destruct (host_xfree p w) as [w'|]; [|discriminate].
  exists w'. split; [reflexivity|]. injection Hx as ->. reflexivity.
Qed.

Lemma released_freed (p : Z) (w w' : W) :
  released p w w' -> o_heap (observe w') !! p = Some Freed.
Proof. intros [_ ->]. apply lookup_insert_eq. Qed.

(** A block released is not released again. *)
Lemma released_again (p : Z) (w w' : W) :
  p ≠ NULL -> released p w w' -> host_xfree p w' = None.
Proof.
  intros Hp Hr. pose proof (observe_host_xfree p w') as Hx.
  unfold obs_xfree in Hx. rewrite (xfree_freed _ _ Hp (released_freed _ _ _ Hr)) in Hx.
  destruct (host_xfree p w'); [discriminate | reflexivity].
Qed.

Lemma released_run (p r : Z) (w w' : W) :
  released p w w' -> (do_xfree p ;; ret r) w = Done r w'.
Proof. intros [Hx _]. unfold bind. rewrite do_xfree_run, Hx. reflexivity. Qed.

Lemma released_fail_arm (msg : string) (argv : argv_t) (w w' : W) :
  released (argv_ptr argv) (builtin_error msg w) w' ->
  (do_builtin_error msg ;; do_xfree (argv_ptr argv) ;; ret EXECUTION_FAILURE) w
    = Done EXECUTION_FAILURE w'.
Proof. intros [Hx _]. rewrite fail_arm_run, Hx. reflexivity. Qed.

(** [argv] is live in a world that shows the heap [make_builtin_argv]
    left. *)
Lemma release_argv (ws : list string) (w w2 : W) :
  o_heap (observe w2) = o_heap (observe (call_world ws w)) ->
  exists w', released (call_ptr w) w2 w'.
Proof.
  intros Hh. apply release_of_live; [apply call_ptr_not_null|].
  rewrite Hh. apply call_world_live.
Qed.

(** ** From [dispatch] to the end of [timep_builtin] *)

Lemma dispatch_is_main (have_clock : bool) (sub : string) (argc : Z) (argv : argv_t) (w : W) :
  is_clock_gettime sub = true ->
  dispatch have_clock sub argc argv w = clock_gettime_main have_clock argc argv w.
Proof. unfold dispatch. intros ->. reflexivity. Qed.

(** With at most one argument lines 71-99 run. *)
Lemma dispatch_proceeds (have_clock : bool) (ws : list string) (w : W) :
  is_clock_gettime (this_command_name w) = true -> ~ (2 <= length ws)%nat ->
  dispatch have_clock (this_command_name w) (call_argc ws) (call_argv ws w) (call_world ws w) =
  if have_clock then read_and_emit (call_argv ws w) (target_of ws) (call_world ws w)
  else unsupported (call_argv ws w) (call_world ws w).
Proof.
  intros Hn Hle. rewrite (dispatch_is_main _ _ _ _ _ Hn), main_proceeds, call_varname;
    [reflexivity | unfold call_argc; lia | apply call_argv_ok].
Qed.

(** [dispatch] returned and line 130 releases [argv]. *)
Lemma finish_released (have_clock : bool) (ws : list string) (w w2 w' : W) (r : Z) :
  dispatch have_clock (this_command_name w) (call_argc ws) (call_argv ws w) (call_world ws w)
    = Done r w2 ->
  released (call_ptr w) w2 w' ->
  timep_builtin have_clock ws w = Done r w'.
Proof.
  intros Hd Hr. rewrite timep_builtin_run. unfold bind at 1. rewrite Hd.
  apply released_run, Hr.
Qed.

(** [dispatch] returned having released [argv]: line 130 is undefined. *)
Lemma finish_crash (have_clock : bool) (ws : list string) (w w1 w2 : W) (r : Z) :
  dispatch have_clock (this_command_name w) (call_argc ws) (call_argv ws w) (call_world ws w)
    = Done r w2 ->
  released (call_ptr w) w1 w2 ->
  timep_builtin have_clock ws w = Undef (DoubleFree (call_ptr w)) w2.
Proof.
  intros Hd Hr. apply (timep_builtin_freed _ _ _ _ _ Hd), (released_freed _ _ _ Hr).
Qed.

(** [dispatch] did not return. *)
Lemma finish_undef (have_clock : bool) (ws : list string) (w w2 : W) (u : ub) :
  dispatch have_clock (this_command_name w) (call_argc ws) (call_argv ws w) (call_world ws w)
    = Undef u w2 ->
  timep_builtin have_clock ws w = Undef u w2.
Proof. intros Hd. rewrite timep_builtin_run. unfold bind at 1. rewrite Hd. reflexivity. Qed.

(** ** Every run is one of the paths *)

Lemma path_of_unknown (have_clock : bool) (ws : list string) (w : W) :
  is_clock_gettime (this_command_name w) = false ->
  run_path have_clock ws w (timep_builtin have_clock ws w).
Proof.
  intros Hn.
  destruct (release_argv ws w
              (builtin_error (msg_unknown (this_command_name w)) (call_world ws w)))
    as [w' Hr]; [rewrite observe_builtin_error; reflexivity|].
  rewrite (finish_released _ _ _ _ _ _ (dispatch_unknown have_clock _ _ _ _ Hn) Hr).
  apply path_unknown; assumption.
Qed.

Lemma path_of_too_many (have_clock : bool) (ws : list string) (w : W) :
  is_clock_gettime (this_command_name w) = true -> (2 <= length ws)%nat ->
  run_path have_clock ws w (timep_builtin have_clock ws w).
Proof.
  intros Hn Hlen.
  destruct (release_argv ws w (builtin_error MSG_TOO_MANY (call_world ws w)))
    as [w' Hr]; [rewrite observe_builtin_error; reflexivity|].
  rewrite (finish_released have_clock ws w (builtin_error MSG_TOO_MANY (call_world ws w)) w'
             EXECUTION_FAILURE); [| |exact Hr].
  - apply path_too_many; assumption.
  - rewrite (dispatch_is_main _ _ _ _ _ Hn). apply main_too_many. unfold call_argc. lia.
Qed.

(** A failure arm entered in a world [w1] that shows the heap
    [make_builtin_argv] left. *)
Lemma path_of_fail_arm (have_clock : bool) (ws : list string) (w w1 : W) (msg : string) :
  o_heap (observe w1) = o_heap (observe (call_world ws w)) ->
  dispatch have_clock (this_command_name w) (call_argc ws) (call_argv ws w) (call_world ws w)
    = (do_builtin_error msg ;; do_xfree (argv_ptr (call_argv ws w)) ;; ret EXECUTION_FAILURE) w1 ->
  exists w2, released (call_ptr w) (builtin_error msg w1) w2 /\
    timep_builtin have_clock ws w = Undef (DoubleFree (call_ptr w)) w2.
Proof.
  intros Hh Hd.
  destruct (release_argv ws w (builtin_error msg w1)) as [w2 Hr];
    [rewrite observe_builtin_error; exact Hh|].
  exists w2. split; [exact Hr|]. apply (finish_crash _ _ _ (builtin_error msg w1) _ EXECUTION_FAILURE);
    [|exact Hr].
  rewrite Hd. apply released_fail_arm. rewrite call_argv_ptr. exact Hr.
Qed.

Lemma path_of_unsupported (ws : list string) (w : W) :
  is_clock_gettime (this_command_name w) = true -> ~ (2 <= length ws)%nat ->
  run_path false ws w (timep_builtin false ws w).
Proof.
  intros Hn Hlen.
  destruct (path_of_fail_arm false ws w (call_world ws w) MSG_UNSUPPORTED eq_refl)
    as (w2 & Hr & ->); [apply (dispatch_proceeds false _ _ Hn Hlen)|].
  apply path_unsupported; auto.
Qed.

Lemma path_of_clock_failed (ws : list string) (w : W) (errno : Z) :
  is_clock_gettime (this_command_name w) = true -> ~ (2 <= length ws)%nat ->
  next_clock w = ClockErr errno ->
  run_path true ws w (timep_builtin true ws w).
Proof.
  intros Hn Hlen Hclk.
  destruct (path_of_fail_arm true ws w (sys_clock_gettime (call_world ws w)).2
              (MSG_FAILED +:+ strerror errno)) as (w2 & Hr & ->).
  - rewrite observe_sys_clock_gettime. reflexivity.
  - rewrite (dispatch_proceeds _ _ _ Hn Hlen). apply read_and_emit_err.
    rewrite call_world_next_clock. exact Hclk.
  - apply (path_clock_failed _ _ _ errno); auto.
Qed.

Lemma path_of_emits (ws : list string) (w : W) (ts : timespec) (micros : Z) :
  is_clock_gettime (this_command_name w) = true -> ~ (2 <= length ws)%nat ->
  next_clock w = ClockOk ts -> micros_of_timespec ts = Some micros ->
  run_path true ws w (timep_builtin true ws w).
Proof.
  intros Hn Hlen Hclk Hm.
  destruct (release_argv ws w
              (world_of (emit_micros (target_of ws) micros (sys_clock_gettime (call_world ws w)).2)))
    as [w' Hr];
    [rewrite emit_micros_observe, obs_emit_heap, observe_sys_clock_gettime; reflexivity|].
  rewrite (finish_released true ws w
             (world_of (emit_micros (target_of ws) micros (sys_clock_gettime (call_world ws w)).2))
             w' EXECUTION_SUCCESS); [| |exact Hr].
  - apply (path_emits _ _ _ ts micros); auto.
  - rewrite (dispatch_proceeds _ _ _ Hn Hlen). apply (read_and_emit_ok _ _ _ ts); [|exact Hm].
    rewrite call_world_next_clock. exact Hclk.
Qed.

Lemma path_of_overflows (ws : list string) (w : W) (ts : timespec) :
  is_clock_gettime (this_command_name w) = true -> ~ (2 <= length ws)%nat ->
  next_clock w = ClockOk ts -> micros_of_timespec ts = None ->
  run_path true ws w (timep_builtin true ws w).
Proof.
  intros Hn Hlen Hclk Hm.
  rewrite (finish_undef true ws w (sys_clock_gettime (call_world ws w)).2 SignedOverflow).
  - apply (path_overflows _ _ _ ts); auto.
  - rewrite (dispatch_proceeds _ _ _ Hn Hlen). apply (read_and_emit_overflow _ _ _ ts); [|exact Hm].
    rewrite call_world_next_clock. exact Hclk.
Qed.

(** A run of [timep_builtin] is one of the six paths. *)
Lemma timep_builtin_path (have_clock : bool) (ws : list string) (w : W) :
  run_path have_clock ws w (timep_builtin have_clock ws w).
Proof.
  destruct (is_clock_gettime (this_command_name w)) eqn:Hn; [|apply (path_of_unknown _ _ _ Hn)].
  destruct (decide (2 <= length ws)%nat) as [Hlen|Hlen]; [apply (path_of_too_many _ _ _ Hn Hlen)|].
  destruct have_clock; [|apply (path_of_unsupported _ _ Hn Hlen)].
  destruct (next_clock w) as [ts|errno] eqn:Hclk; [|apply (path_of_clock_failed _ _ _ Hn Hlen Hclk)].
  destruct (micros_of_timespec ts) as [micros|] eqn:Hm.
  - apply (path_of_emits _ _ _ _ Hn Hlen Hclk Hm).
  - apply (path_of_overflows _ _ _ Hn Hlen Hclk Hm).
Qed.

(** ** What a path leaves *)

Lemma path_result (have_clock : bool) (ws : list string) (w : W) (o : outcome W ub Z) :
  run_path have_clock ws w o ->
  result_of o = expected_result have_clock (this_command_name w) ws (next_clock w) (call_ptr w).
Proof.
  unfold expected_result, main_result, main_releases.
  destruct 1; path_cases; reflexivity.
Qed.

Lemma released_observe (p : Z) (w w' : W) :
  released p w w' -> observe w' = obs_release p (observe w).
Proof. intros [_ Ho]. exact Ho. Qed.

Lemma path_observe (have_clock : bool) (ws : list string) (w : W) (o : outcome W ub Z) :
  run_path have_clock ws w o ->
  observe (world_of o) =
  expected_obs have_clock (this_command_name w) ws (next_clock w) strerror (observe w).
Proof.
  unfold expected_obs, expected_result, main_obs, main_result, main_releases.
  destruct 1; path_cases; cbn [world_of];
    rewrite ?(released_observe _ _ _ ltac:(eassumption)), ?emit_micros_observe,
      ?observe_builtin_error, ?observe_sys_clock_gettime, ?call_world_observe;
    reflexivity.
Qed.

(** The status and the observation of a run, on every path. *)
Lemma timep_builtin_total (have_clock : bool) (ws : list string) (w : W) :
  result_of (timep_builtin have_clock ws w) =
    expected_result have_clock (this_command_name w) ws (next_clock w) (call_ptr w) /\
  observe (world_of (timep_builtin have_clock ws w)) =
    expected_obs have_clock (this_command_name w) ws (next_clock w) strerror (observe w).
Proof.
  split; [apply path_result | apply path_observe]; apply timep_builtin_path.
Qed.

End Run.

(** Only the texts of the error numbers the clock can fail with matter. *)
Lemma expected_obs_ext (have_clock : bool) (name : string) (ws : list string)
  (c : clock_result) (errtext errtext' : Z -> string) (o : obs) :
  (forall errno, errtext errno = errtext' errno) ->
  expected_obs have_clock name ws c errtext o = expected_obs have_clock name ws c errtext' o.
Proof.
  intros He. unfold expected_obs, main_obs.
  destruct c as [ts|errno]; [reflexivity | rewrite (He errno); reflexivity].
Qed.

(** ** The channels of the observation *)

(** [case_run]: case analysis on everything a run branches on. *)
Ltac case_run :=
  repeat match goal with
         | |- context [is_clock_gettime ?n] => destruct (is_clock_gettime n)
         | |- context [decide ?P] => destruct (decide P)
         | |- context [micros_of_timespec ?ts] => destruct (micros_of_timespec ts)
         | |- context [target_of ?ws] => destruct (target_of ws)
         | |- context [is_readonly ?o ?v] => destruct (is_readonly o v) eqn:?
         | |- context [match ?c with ClockOk _ => _ | ClockErr _ => _ end] => destruct c
         | |- context [if ?b then _ else _] => is_var b; destruct b
         end.

(** The diagnostic channel after a run: what it held, and the
    diagnostics of the run. *)
Lemma expected_obs_stderr (have_clock : bool) (name : string) (ws : list string)
  (c : clock_result) (errtext : Z -> string) (o : obs) :
  o_stderr (expected_obs have_clock name ws c errtext o) =
  o_stderr o ++ diagnostics have_clock name ws c errtext o.
Proof.
  unfold expected_obs, expected_result, main_obs, main_result, main_releases, diagnostics,
    main_diagnostics, obs_emit, obs_bind_variable.
  case_run; cbn; rewrite ?app_nil_r; try reflexivity;
    unfold is_readonly in *; cbn in *; congruence.
Qed.

(** Standard output after a run. *)
Lemma expected_obs_stdout (have_clock : bool) (name : string) (ws : list string)
  (c : clock_result) (errtext : Z -> string) (o : obs) :
  o_stdout (expected_obs have_clock name ws c errtext o) =
  o_stdout o +:+ printed_text have_clock name ws c.
Proof.
  unfold expected_obs, expected_result, main_obs, main_result, main_releases, printed_text,
    main_printed, obs_emit, obs_bind_variable.
  case_run; cbn; rewrite ?append_nil_r; reflexivity.
Qed.

(** Two hosts that show the same are left showing the same. *)
Lemma timep_builtin_related {W1 W2 : Type} `{HostLaws W1} `{HostLaws W2}
  (have_clock : bool) (ws : list string) (w1 : W1) (w2 : W2) :
  observe w1 = observe w2 -> next_clock w1 = next_clock w2 ->
  this_command_name w1 = this_command_name w2 ->
  (forall errno, strerror (W:=W1) errno = strerror (W:=W2) errno) ->
  result_of (timep_builtin have_clock ws w1) = result_of (timep_builtin have_clock ws w2) /\
  observe (world_of (timep_builtin have_clock ws w1)) =
  observe (world_of (timep_builtin have_clock ws w2)).
Proof.
  intros Ho Hc Hn He.
  destruct (timep_builtin_total have_clock ws w1) as [-> ->].
  destruct (timep_builtin_total have_clock ws w2) as [-> ->].
  unfold call_ptr. rewrite Ho, Hc, Hn. split; [reflexivity|].
  apply expected_obs_ext, He.
Qed.

(** ** Properties *)

(** C12.  The whole of [timep_builtin], on every host and on every path:
    the status it returns, or the undefined behaviour it ends in, is
    [expected_result], and the variables, the two output channels, the
    heap and the number of clock reads it leaves are [expected_obs] of
    those it found; both are functions of the name the command was
    invoked by, its arguments, the state of the clock and the
    observation before, and of nothing else. *)
Theorem timep_builtin_observe {W : Type} `{HostLaws W}
  (have_clock : bool) (ws : list string) (w : W) :
  result_of (timep_builtin have_clock ws w) =
    expected_result have_clock (this_command_name w) ws (next_clock w) (call_ptr w) /\
  observe (world_of (timep_builtin have_clock ws w)) =
    expected_obs have_clock (this_command_name w) ws (next_clock w) strerror (observe w).
Proof. apply timep_builtin_total. Qed.

Lemma timep_builtin_observe_witness :
  result_of (timep_builtin true ["T0"] demo_shell) =
    expected_result true "clock_gettime" ["T0"] (ClockOk (mk_timespec 1 500000000))
      (call_ptr demo_shell) /\
  observe (world_of (timep_builtin true ["T0"] demo_shell)) =
    expected_obs true "clock_gettime" ["T0"] (ClockOk (mk_timespec 1 500000000))
      shell_strerror (observe demo_shell).
Proof. exact (timep_builtin_observe true ["T0"] demo_shell). Defined.

(** The builtin cannot tell two hosts apart that show the same:
    run with the same arguments in two worlds, of any two hosts that
    satisfy the interface, with the same observation, the same state of
    the clock, the same command name and the same error texts, it ends
    the same way and leaves the same observation. *)
Theorem timep_builtin_host_independent {W1 W2 : Type} `{HostLaws W1} `{HostLaws W2}
  (have_clock : bool) (ws : list string) (w1 : W1) (w2 : W2) :
  observe w1 = observe w2 -> next_clock w1 = next_clock w2 ->
  this_command_name w1 = this_command_name w2 ->
  (forall errno, strerror (W:=W1) errno = strerror (W:=W2) errno) ->
  result_of (timep_builtin have_clock ws w1) = result_of (timep_builtin have_clock ws w2) /\
  observe (world_of (timep_builtin have_clock ws w1)) =
  observe (world_of (timep_builtin have_clock ws w2)).
Proof. apply timep_builtin_related. Qed.

(** Two shells that differ in their table of builtins. *)
Lemma timep_builtin_host_independent_witness :
  result_of (timep_builtin true [] demo_shell) =
  result_of (timep_builtin true [] (set_builtins (cons clock_gettime_struct) demo_shell)) /\
  observe (world_of (timep_builtin true [] demo_shell)) =
  observe (world_of (timep_builtin true []
                       (set_builtins (cons clock_gettime_struct) demo_shell))).
Proof.
  apply (timep_builtin_host_independent true [] demo_shell
           (set_builtins (cons clock_gettime_struct) demo_shell)); reflexivity.
Defined.
