(* ===== verification/Ownership.v ===== *)
(** * Ownership: who releases [argv]

    [timep_builtin] allocates [argv] (line 118) and releases it after
    [clock_gettime_main] has returned (line 130).  [clock_gettime_main]
    releases it too on two of its three failing returns (lines 80 and
    98) and not on the third (line 69), and all three return
    [EXECUTION_FAILURE].

    This file asks whether a caller could be written that is right for
    [clock_gettime_main] as it stands.  [caller policy] is
    [timep_builtin] with line 130 made conditional on the status
    returned; [timep_builtin] is the caller that always releases
    ([timep_builtin_is_caller]).  The theorem shows that no policy is
    right: whatever a caller decides from the status, there are
    arguments with which [argv] is released twice or not at all.

    It then states what the two functions owe each other.  [entry_with]
    and [dispatch_to] are lines 116-132 with the function called at
    line 124 as a parameter ([timep_builtin_is_entry]); the class
    [Borrows good callee] is the obligation of that function: called
    with [argv] allocated, in a world of [good], it returns with the
    heap as it found it.  The entry point is proved against the class
    ([entry_with_releases_once]: [argv] is released once and the live
    blocks are restored); [clock_gettime_main] is an instance exactly
    where the clock exists and works ([main_borrows_iff]); the function
    without lines 80 and 98, [main_without_release], is an instance
    everywhere ([entry_without_release]).  Outcomes are stated with
    [post Q E]: a return that satisfies [Q] or an undefined behaviour
    of [E]. *)

From stdpp Require Import gmap strings list.
From S2P Require Import Prelude Int64 Micros Decimal CString Heap Host Shell ClockGettime Builtin.
From S2P Require Import Run.

#[local] Open Scope Z_scope.
#[local] Open Scope timep_scope.

Section Ownership.
Context {W : Type} `{HostLaws W}.

(** Lines 116-132 for the command's own name, with the release of line
    130 decided by [policy] from the status of line 124. *)
Definition caller (policy : Z -> bool) (have_clock : bool) (list : list string) : M W ub Z :=
  r <- do_make_builtin_argv list ;;
  let argc := r.1 in
  let argv := r.2 in
  ret_ <- clock_gettime_main have_clock argc argv ;;
  (if policy ret_ then do_xfree (argv_ptr argv) else ret tt) ;;
  ret ret_.

(** The policy of the source: always release. *)
Definition always_release (status : Z) : bool := true.

(** What goes wrong with the block at [p]: it is released twice, or the
    run returns and it is still allocated. *)
Definition mismanaged (p : Z) (o : outcome W ub Z) : Prop :=
  result_of o = inr (DoubleFree p) \/
  (is_done o = true /\ o_heap (observe (world_of o)) !! p = Some Live).

(** ** The obligation of the function called at line 124 *)

(** Lines 123-128 with the function called at line 124 as a parameter. *)
Definition dispatch_to (callee : Z -> argv_t -> M W ub Z)
  (sub : string) (argc : Z) (argv : argv_t) : M W ub Z :=
  if is_clock_gettime sub then callee argc argv
  else (do_builtin_error (msg_unknown sub) ;; ret EXECUTION_FAILURE).

(** Lines 116-132 with the function called at line 124 as a parameter. *)
Definition entry_with (callee : Z -> argv_t -> M W ub Z) (list : list string) : M W ub Z :=
  r <- do_make_builtin_argv list ;;
  let argc := r.1 in
  let argv := r.2 in
  sub <- argv_get argv 0 ;;
  ret_ <- dispatch_to callee sub argc argv ;;
  do_xfree (argv_ptr argv) ;;
  ret ret_.

(** [clock_gettime_main] without the releases of lines 80 and 98. *)
Definition main_without_release (have_clock : bool) (argc : Z) (argv : argv_t) : M W ub Z :=
  if 2 <? argc then
    do_builtin_error MSG_TOO_MANY ;;
    ret EXECUTION_FAILURE
  else
    varname <- select_varname argc argv ;;
    if have_clock then
      r <- do_clock_gettime ;;
      match r with
      | ClockErr errno =>
          do_builtin_error (MSG_FAILED +:+ strerror errno) ;;
          ret EXECUTION_FAILURE
      | ClockOk ts =>
          micros <- defined SignedOverflow (micros_of_timespec ts) ;;
          emit_micros varname micros ;;
          ret EXECUTION_SUCCESS
      end
    else
      do_builtin_error MSG_UNSUPPORTED ;;
      ret EXECUTION_FAILURE.

(** The worlds in which the next read of the clock succeeds. *)
Definition clock_works (w : W) : Prop := exists ts, next_clock w = ClockOk ts.

(** [post Q E o]: the outcome [o] is a return that satisfies [Q] or an
    undefined behaviour of [E]. *)
Definition post {A : Type} (Q : A -> W -> Prop) (E : ub -> Prop) (o : outcome W ub A) : Prop :=
  match o with
  | Done a w => Q a w
  | Undef u _ => E u
  end.

(** [argv] is an allocated block of [w]. *)
Definition argv_live (argv : argv_t) (w : W) : Prop :=
  argv_ptr argv ≠ NULL /\ o_heap (observe w) !! argv_ptr argv = Some Live.

(** What line 130 asks of the function called at line 124, in the worlds
    of [good]: called with [argv] allocated it returns with the heap as
    it found it, [argv] included, and the only undefined behaviour it
    may have is that of line 85. *)
Class Borrows (good : W -> Prop) (callee : Z -> argv_t -> M W ub Z) : Prop :=
  borrows : forall argc argv w, argv_ok argc argv -> argv_live argv w -> good w ->
    post (fun _ w' => o_heap (observe w') = o_heap (observe w)) (eq SignedOverflow)
      (callee argc argv w).

(** What the entry point then gives its own caller: [argv] is released,
    once, and the live blocks are those of before the call. *)
Definition released_once (w : W) (o : outcome W ub Z) : Prop :=
  post (fun _ w' => o_heap (observe w') !! call_ptr w = Some Freed /\
                    live_blocks (o_heap (observe w')) = live_blocks (o_heap (observe w)))
    (eq SignedOverflow) o.

(** ** Running a caller *)

Lemma caller_run (policy : Z -> bool) (have_clock : bool) (ws : list string) (w : W) :
  caller policy have_clock ws w =
  (ret_ <- clock_gettime_main have_clock (call_argc ws) (call_argv ws w) ;;
   (if policy ret_ then do_xfree (call_ptr w) else ret tt) ;; ret ret_) (call_world ws w).
Proof.
  unfold caller, do_make_builtin_argv. unfold bind at 1. cbn beta iota zeta.
  rewrite make_builtin_argv_argc. fold (call_argv ws w) (call_world ws w) (call_argc ws).
  rewrite call_argv_ptr. reflexivity.
Qed.

(** Invoked by its name, [timep_builtin] is the caller that always
    releases. *)
Lemma timep_builtin_is_caller (have_clock : bool) (ws : list string) (w : W) :
  is_clock_gettime (this_command_name w) = true ->
  timep_builtin have_clock ws w = caller always_release have_clock ws w.
Proof.
  intros Hn. rewrite timep_builtin_run, caller_run. unfold bind at 1 3.
  rewrite (dispatch_is_main _ _ _ _ _ Hn). reflexivity.
Qed.

(** A caller that releases after the clock has failed releases [argv] a
    second time. *)
Lemma caller_releases_twice (policy : Z -> bool) (w : W) (errno : Z) :
  policy EXECUTION_FAILURE = true -> next_clock w = ClockErr errno ->
  result_of (caller policy true [] w) = inr (DoubleFree (call_ptr w)).
Proof.
  intros Hp Hclk.
  destruct (release_argv [] w
              (builtin_error (MSG_FAILED +:+ strerror errno) (sys_clock_gettime (call_world [] w)).2))
    as [w2 Hr]; [rewrite observe_builtin_error, observe_sys_clock_gettime; reflexivity|].
  rewrite caller_run. unfold bind at 1.
  rewrite main_proceeds, (read_and_emit_err _ _ _ errno);
    [| rewrite call_world_next_clock; exact Hclk | unfold call_argc; simpl; lia
     | apply call_argv_ok].
  unfold clock_failed.
  rewrite (released_fail_arm _ _ _ w2) by (rewrite call_argv_ptr; exact Hr).
  rewrite Hp. unfold bind. rewrite do_xfree_run.
  rewrite (released_again _ _ _ (call_ptr_not_null w) Hr). reflexivity.
Qed.

(** A caller that does not release after a usage error leaves [argv]
    allocated. *)
Lemma caller_leaks (policy : Z -> bool) (have_clock : bool) (ws : list string) (w : W) :
  policy EXECUTION_FAILURE = false -> (2 <= length ws)%nat ->
  is_done (caller policy have_clock ws w) = true /\
  o_heap (observe (world_of (caller policy have_clock ws w))) !! call_ptr w = Some Live.
Proof.
  intros Hp Hlen.
  assert (caller policy have_clock ws w
          = Done EXECUTION_FAILURE (builtin_error MSG_TOO_MANY (call_world ws w))) as ->.
  { rewrite caller_run. unfold bind at 1.
    rewrite main_too_many by (unfold call_argc; lia). rewrite Hp. reflexivity. }
  split; [reflexivity|]. cbn [world_of]. rewrite observe_builtin_error.
  apply call_world_live.
Qed.

(** ** The entry point against the obligation *)

Lemma post_bind {A B : Type} (m : M W ub A) (k : A -> M W ub B)
  (Q : B -> W -> Prop) (E : ub -> Prop) (w : W) :
  post (fun a w' => post Q E (k a w')) E (m w) -> post Q E (bind m k w).
Proof. unfold bind. destruct (m w); exact id. Qed.

Lemma post_weaken {A : Type} (Q Q' : A -> W -> Prop) (E : ub -> Prop) (o : outcome W ub A) :
  (forall a w, Q a w -> Q' a w) -> post Q E o -> post Q' E o.
Proof. intros HQ. destruct o; [apply HQ | exact id]. Qed.

Lemma entry_with_run (callee : Z -> argv_t -> M W ub Z) (ws : list string) (w : W) :
  entry_with callee ws w =
  (ret_ <- dispatch_to callee (this_command_name w) (call_argc ws) (call_argv ws w) ;;
   do_xfree (call_ptr w) ;; ret ret_) (call_world ws w).
Proof.
  unfold entry_with, do_make_builtin_argv, argv_get.
  unfold bind at 1. cbn beta iota zeta.
  rewrite make_builtin_argv_argc. fold (call_argv ws w) (call_world ws w) (call_argc ws).
  rewrite call_argv_words, call_argv_ptr. reflexivity.
Qed.

(** The entry point of the source is [entry_with] at
    [clock_gettime_main]. *)
Lemma timep_builtin_is_entry (have_clock : bool) :
  timep_builtin have_clock = entry_with (clock_gettime_main have_clock).
Proof. reflexivity. Qed.

(** The branch of line 126 touches no block. *)
Lemma dispatch_to_borrows (good : W -> Prop) (callee : Z -> argv_t -> M W ub Z) (sub : string) :
  Borrows good callee -> Borrows good (dispatch_to callee sub).
Proof.
  intros Hb argc argv w Hok Hl Hg. unfold dispatch_to.
  destruct (is_clock_gettime sub); [apply Hb; assumption|].
  simpl. rewrite observe_builtin_error. reflexivity.
Qed.

(** Line 130 on a heap that the call has left as it found it. *)
Lemma release_once (r : Z) (ws : list string) (w w2 : W) :
  o_heap (observe w2) = o_heap (observe (call_world ws w)) ->
  released_once w ((do_xfree (call_ptr w) ;; ret r) w2).
Proof.
  intros Hh. destruct (release_live r (call_ptr w) w2) as (w' & -> & Ho);
    [apply call_ptr_not_null | rewrite Hh; apply call_world_live |].
  unfold released_once, post. rewrite Ho.
  split; [apply lookup_insert_eq|].
  apply live_blocks_release. rewrite Hh, call_world_observe. reflexivity.
Qed.

(** The array handed over by line 120 is allocated. *)
Lemma call_argv_live (ws : list string) (w : W) : argv_live (call_argv ws w) (call_world ws w).
Proof.
  unfold argv_live. rewrite call_argv_ptr.
  split; [apply call_ptr_not_null | apply call_world_live].
Qed.

(** ** Who meets the obligation *)

(** [clock_gettime_main] does while the clock works. *)
Lemma main_borrows : Borrows clock_works (clock_gettime_main true).
Proof.
  intros argc argv w Hok _ [ts Hc]. destruct (Z.lt_ge_cases 2 argc) as [Hgt|Hle].
  - rewrite main_too_many by assumption. simpl. rewrite observe_builtin_error. reflexivity.
  - rewrite main_proceeds by assumption.
    destruct (micros_of_timespec ts) as [m|] eqn:Hm.
    + rewrite (read_and_emit_ok _ _ _ ts m) by assumption. simpl.
      rewrite emit_micros_observe, observe_sys_clock_gettime, obs_emit_heap. reflexivity.
    + rewrite (read_and_emit_overflow _ _ _ ts) by assumption. reflexivity.
Qed.

(** A failure arm of lines 78-82 or 97-99 does not: it returns with
    [argv] released. *)
Lemma fail_arm_breaks (msg : string) (argv : argv_t) (w w1 : W) :
  argv_live argv w -> o_heap (observe w1) = o_heap (observe w) ->
  ~ post (fun _ w' => o_heap (observe w') = o_heap (observe w)) (eq SignedOverflow)
      ((do_builtin_error msg ;; do_xfree (argv_ptr argv) ;; ret EXECUTION_FAILURE) w1).
Proof.
  intros [Hp Hl] Hh.
  destruct (fail_arm_live msg argv w1 Hp) as (w' & -> & Ho); [rewrite Hh; exact Hl|].
  simpl. intros He. rewrite <- He, Ho in Hl. simpl in Hl.
  rewrite lookup_insert_eq in Hl. discriminate.
Qed.

(** Lines 116-132 around a callee that borrows. *)
Lemma entry_with_borrower (good : W -> Prop) (callee : Z -> argv_t -> M W ub Z)
  (ws : list string) (w : W) :
  Borrows good callee -> good (call_world ws w) ->
  released_once w (entry_with callee ws w).
Proof.
  intros Hb Hg. rewrite entry_with_run. unfold released_once. apply post_bind.
  eapply post_weaken;
    [|apply (dispatch_to_borrows good callee _ Hb _ _ _ (call_argv_ok ws w)
               (call_argv_live ws w) Hg)].
  intros r w2 Hh. apply (release_once _ ws). exact Hh.
Qed.

(** [clock_gettime_main] without lines 80 and 98 does, always. *)
Lemma main_without_release_borrows (have_clock : bool) :
  Borrows (fun _ => True) (main_without_release have_clock).
Proof.
  intros argc argv w Hok _ _. unfold main_without_release.
  destruct (2 <? argc); [simpl; rewrite observe_builtin_error; reflexivity|].
  apply post_bind. rewrite select_varname_run by assumption. simpl.
  destruct have_clock; [|simpl; rewrite observe_builtin_error; reflexivity].
  apply post_bind. unfold do_clock_gettime. simpl. rewrite sys_clock_gettime_result.
  destruct (next_clock w) as [ts|errno].
  - destruct (micros_of_timespec ts) as [m|]; [|reflexivity].
    apply post_bind. cbn [defined ret post]. apply post_bind.
    pose proof (emit_micros_observe (varname_of argc argv) m (sys_clock_gettime w).2) as Ho.
    rewrite emit_micros_run in Ho |- *. cbn [world_of post ret] in Ho |- *.
    rewrite Ho, obs_emit_heap, observe_sys_clock_gettime. reflexivity.
  - simpl. rewrite observe_builtin_error, observe_sys_clock_gettime. reflexivity.
Qed.

(** C13.  The status of [clock_gettime_main] does not tell who owns
    [argv].  Whatever a caller decides from the status about the release
    of line 130, it is wrong for some arguments once the clock fails:
    if it releases after [EXECUTION_FAILURE], [argv] is released twice
    when the command has no argument; if it does not, [argv] stays
    allocated when the command has two. *)
Theorem status_does_not_tell_ownership (policy : Z -> bool) (w : W) (errno : Z) :
  next_clock w = ClockErr errno ->
  exists ws, mismanaged (call_ptr w) (caller policy true ws w).
Proof.
  intros Hclk. destruct (policy EXECUTION_FAILURE) eqn:Hp.
  - exists []. left. apply (caller_releases_twice _ _ _ Hp Hclk).
  - exists ["a"; "b"]. right. apply (caller_leaks _ _ _ _ Hp). simpl. lia.
Qed.

(** C14.  The entry point against the obligation of its callee.
    Whatever function is called at line 124: if it borrows [argv] in the
    worlds of [good], a run of lines 116-132 that starts in such a world
    returns with [argv] released, once, and with the live blocks of
    before the call, or it stops on the overflow of line 85.  It does
    not release twice, leak, or read outside [argv]. *)
Theorem entry_with_releases_once (good : W -> Prop) (callee : Z -> argv_t -> M W ub Z)
  {Hb : Borrows good callee} (ws : list string) (w : W) :
  good (call_world ws w) -> released_once w (entry_with callee ws w).
Proof. apply entry_with_borrower. assumption. Qed.

(** C15.  [clock_gettime_main] meets the obligation exactly where the
    process clock exists and its read succeeds: in every other world
    with an allocated block it returns with [argv] released (lines 80
    and 98), which its caller does not expect. *)
Theorem main_borrows_iff (good : W -> Prop) (have_clock : bool) :
  Borrows good (clock_gettime_main have_clock) <->
  (forall w p, good w -> p ≠ NULL -> o_heap (observe w) !! p = Some Live ->
     have_clock = true /\ clock_works w).
Proof.
  split.
  - intros Hb w p Hg Hp Hl.
    assert (Hlive : argv_live (mk_argv p [CMD_NAME]) w) by (split; assumption).
    specialize (Hb 1 (mk_argv p [CMD_NAME]) w eq_refl Hlive Hg).
    rewrite main_proceeds in Hb by (reflexivity || lia).
    destruct have_clock; [split; [reflexivity|] | contradiction (fail_arm_breaks _ _ _ _ Hlive eq_refl Hb)].
    unfold clock_works. destruct (next_clock w) as [ts|errno] eqn:Hc; [exists ts; reflexivity|].
    rewrite (read_and_emit_err _ _ _ errno) in Hb by assumption.
    contradiction (fail_arm_breaks _ _ _ _ Hlive (f_equal o_heap (observe_sys_clock_gettime w)) Hb).
  - intros Hg argc argv w Hok Hl Hgw.
    destruct (Hg w (argv_ptr argv) Hgw) as [-> Hc]; [apply Hl..|].
    apply main_borrows; assumption.
Qed.

(** The entry point with the callee that keeps its hands off [argv]
    manages the block in every world. *)
Corollary entry_without_release (have_clock : bool) (ws : list string) (w : W) :
  released_once w (entry_with (main_without_release have_clock) ws w).
Proof.
  apply (entry_with_borrower (fun _ => True)); [apply main_without_release_borrows | exact I].
Qed.

End Ownership.

Lemma status_does_not_tell_ownership_witness :
  exists ws, mismanaged (call_ptr (set_clock_errno (Some EINVAL) demo_shell))
               (caller always_release true ws (set_clock_errno (Some EINVAL) demo_shell)).
Proof.
  apply (status_does_not_tell_ownership always_release
           (set_clock_errno (Some EINVAL) demo_shell) EINVAL).
  reflexivity.
Defined.

#[export] Existing Instance main_borrows.
#[export] Existing Instance main_without_release_borrows.

(** The entry point of the source on the demonstration shell, whose
    clock works: the obligation is found by instance resolution. *)
Lemma entry_with_releases_once_witness :
  clock_works (call_world ["T0"] demo_shell) /\
  released_once demo_shell (entry_with (clock_gettime_main true) ["T0"] demo_shell).
Proof.
  assert (Hg : clock_works (call_world ["T0"] demo_shell)) by (eexists; reflexivity).
  split; [exact Hg|].
  exact (entry_with_releases_once clock_works (clock_gettime_main true) ["T0"] demo_shell Hg).
Defined.

(** On the shell model, whose clock can fail, [clock_gettime_main] does
    not borrow [argv] in every world. *)
Lemma main_borrows_iff_witness :
  ~ Borrows (fun _ : shell => True) (clock_gettime_main true).
Proof.
  intros Hb.
  destruct (proj1 (main_borrows_iff _ true) Hb
              (set_clock_errno (Some EINVAL) (demo_world [])) (call_ptr demo_shell) I)
    as [_ [ts Hts]]; [vm_compute; discriminate | reflexivity | discriminate Hts].
Defined.

(** The repaired entry point after a failed read of the clock: a status
    of failure, the diagnostic, and [argv] released once. *)
Example entry_without_release_clock_failure :
  let w := set_clock_errno (Some EINVAL) demo_shell in
  result_of (entry_with (main_without_release true) [] w) = inl EXECUTION_FAILURE /\
  result_of (timep_builtin true [] w) = inr (DoubleFree (call_ptr w)).
Proof. split; reflexivity. Qed.
