(* ===== verification/Separation.v ===== *)
(** * Separation: who owns [argv], in separation logic

    [Ownership] states what the entry point asks of the function it calls
    at line 124 as an equation between heaps: the callee must leave the
    heap as it found it.  That is more than lines 116-132 need.  They need
    the block of [argv], and nothing else: a callee may allocate and
    release memory of its own, and every block the shell held before the
    call may be anything.  This file says so with the resources of Iris.

    - The heap of the model ([Heap.heap], a finite map from addresses to
      [Live] or [Freed]) is the heap of [gen_heap]: [p ↦ Live] is the
      ownership of an allocated block, [p ↦ Freed] the knowledge that a
      block has been released.
    - [wp m w Φ Ψ] is the weakest precondition of a computation of the
      outcome monad run in the world [w]: [Φ] holds of the value and the
      world it returns, [Ψ] of the undefined behaviour it ends in.
    - The operations of the host have their rules ([wp_xfree],
      [wp_make_builtin_argv], ...), and [borrows_sl] is the contract of
      the callee: given the block, it returns it.
    - [wp_adequacy] turns a weakest precondition proved from the
      ownership of the initial heap into a statement about the run. *)

From iris.proofmode Require Import proofmode.
From iris.base_logic.lib Require Import gen_heap.
From S2P Require Import Prelude Micros Heap Host Shell ClockGettime Builtin Ownership.

#[local] Open Scope Z_scope.
#[local] Set Warnings "-rewrite-rw".

(** [give_back]: the callee returns what its contract names, with the
    block it holds; the continuation is the hypothesis ["HΦ"]. *)
Ltac give_back := iIntros (?); by iApply "HΦ".

(** The ownership of the block at [p], in the state [b]. *)
Notation "p ↦ b" := (pointsto (L:=Z) (V:=block) p (DfracOwn 1) b)
  (at level 20, format "p  ↦  b") : bi_scope.

(** The blocks of a world. *)
Definition heap_of {W : Type} `{Host W} (w : W) : heap := o_heap (observe w).

(** The blocks a run leaves as they were. *)
Definition keeps_blocks {W : Type} `{Host W} (w w' : W) : Prop :=
  forall q b, heap_of w !! q = Some b -> heap_of w' !! q = Some b.

(** The next read of the clock gives a time that line 85 can convert. *)
Definition convertible {W : Type} `{Host W} (w : W) : Prop :=
  forall ts, next_clock w = ClockOk ts -> is_Some (micros_of_timespec ts).

Section logic.
Context {W : Type} `{HostLaws W} `{!gen_heapGS Z block Σ}.

(** The postcondition of an outcome. *)
Definition opost {A : Type} (Φ : A -> W -> iProp Σ) (Ψ : ub -> W -> iProp Σ)
  (o : outcome W ub A) : iProp Σ :=
  match o with
  | Done a w' => Φ a w'
  | Undef u w' => Ψ u w'
  end.

Definition wp {A : Type} (m : M W ub A) (w : W)
  (Φ : A -> W -> iProp Σ) (Ψ : ub -> W -> iProp Σ) : iProp Σ :=
  gen_heap_interp (heap_of w) ==∗
  gen_heap_interp (heap_of (world_of (m w))) ∗ opost Φ Ψ (m w).

(** No undefined behaviour. *)
Definition safe : ub -> W -> iProp Σ := fun _ _ => False%I.

(** What line 130 asks of the function called at line 124, in the worlds
    [P]: given the block of [argv] it returns, and returns the block. *)
Definition borrows_sl (P : W -> Prop) (callee : Z -> argv_t -> M W ub Z) : iProp Σ :=
  ∀ argc argv w Φ, ⌜argv_ok argc argv⌝ -∗ ⌜P w⌝ -∗ argv_ptr argv ↦ Live -∗
    (∀ r w', argv_ptr argv ↦ Live -∗ Φ r w') -∗ wp (callee argc argv) w Φ safe.

(** A fact that can be read off the blocks of a world. *)
Definition holds (w : W) (φ : Prop) : iProp Σ := gen_heap_interp (heap_of w) -∗ ⌜φ⌝.

(** A callee with memory of its own: a block is allocated before the
    work and released after it. *)
Definition with_scratch (callee : Z -> argv_t -> M W ub Z) (argc : Z) (argv : argv_t)
  : M W ub Z :=
  (r <- do_make_builtin_argv [] ;;
   ret_ <- callee argc argv ;;
   do_xfree (argv_ptr r.2) ;;
   ret ret_)%timep.

(** ** The rules of the monad *)

Lemma wp_ret {A : Type} (a : A) (w : W) Φ Ψ : Φ a w ⊢ wp (ret a) w Φ Ψ.
Proof. iIntros "HΦ Hσ !>". iFrame. Qed.

Lemma wp_bind {A B : Type} (m : M W ub A) (k : A -> M W ub B) (w : W) Φ Ψ :
  wp m w (fun a w' => wp (k a) w' Φ Ψ) Ψ ⊢ wp (bind m k) w Φ Ψ.
Proof.
  iIntros "Hm Hσ". iMod ("Hm" with "Hσ") as "[Hσ Hk]". unfold bind.
  destruct (m w) as [a w'|u w']; simpl; [iApply ("Hk" with "Hσ") | by iFrame].
Qed.

Lemma wp_wand {A : Type} (m : M W ub A) (w : W) Φ Φ' Ψ :
  wp m w Φ Ψ -∗ (∀ a w', Φ a w' -∗ Φ' a w') -∗ wp m w Φ' Ψ.
Proof.
  iIntros "Hm HΦ Hσ". iMod ("Hm" with "Hσ") as "[$ Hpost]".
  destruct (m w); simpl; [by iApply "HΦ" | done].
Qed.

(** The frame rule. *)
Lemma wp_frame {A : Type} (m : M W ub A) (w : W) (R : iProp Σ) Φ Ψ :
  R -∗ wp m w Φ (fun u w' => R -∗ Ψ u w') -∗ wp m w (fun a w' => R ∗ Φ a w') Ψ.
Proof.
  iIntros "HR Hm Hσ". iMod ("Hm" with "Hσ") as "[$ Hpost]".
  destruct (m w); simpl; [by iFrame | by iApply "Hpost"].
Qed.

Lemma wp_defined {A : Type} (u : ub) (a : A) (w : W) Φ Ψ :
  Φ a w ⊢ wp (defined u (Some a)) w Φ Ψ.
Proof. apply wp_ret. Qed.

(** An operation that changes no block. *)
Lemma wp_modify (f : W -> W) (w : W) Φ Ψ :
  heap_of (f w) = heap_of w -> Φ tt (f w) ⊢ wp (modify f) w Φ Ψ.
Proof. iIntros (Hh) "HΦ Hσ !>". simpl. rewrite Hh. iFrame. Qed.

(** ** The rules of the host *)

Lemma wp_builtin_error (msg : string) (w : W) Φ Ψ :
  Φ tt (builtin_error msg w) ⊢ wp (do_builtin_error msg) w Φ Ψ.
Proof. apply wp_modify. unfold heap_of. by rewrite observe_builtin_error. Qed.

Lemma wp_bind_variable (name value : string) (w : W) Φ Ψ :
  Φ tt (bind_variable name value w) ⊢ wp (do_bind_variable name value) w Φ Ψ.
Proof.
  apply wp_modify. unfold heap_of. rewrite observe_bind_variable.
  apply obs_bind_variable_frame.
Qed.

Lemma wp_write_stdout (s : string) (w : W) Φ Ψ :
  Φ tt (write_stdout s w) ⊢ wp (do_write_stdout s) w Φ Ψ.
Proof. apply wp_modify. unfold heap_of. by rewrite observe_write_stdout. Qed.

Lemma wp_clock_gettime (w : W) Φ Ψ :
  Φ (next_clock w) (sys_clock_gettime w).2 ⊢ wp do_clock_gettime w Φ Ψ.
Proof.
  iIntros "HΦ Hσ !>". unfold do_clock_gettime, heap_of. simpl.
  rewrite observe_sys_clock_gettime sys_clock_gettime_result. iFrame.
Qed.

Lemma wp_argv_get (argv : argv_t) (i : nat) (a : string) (w : W) Φ Ψ :
  argv_words argv !! i = Some a -> Φ a w ⊢ wp (argv_get argv i) w Φ Ψ.
Proof. intros Ha. unfold argv_get. rewrite Ha. apply wp_defined. Qed.

(** [xfree] takes a block that is allocated and leaves it released. *)
Lemma wp_xfree (p : Z) (w : W) Φ Ψ :
  p ≠ NULL ->
  p ↦ Live -∗ (∀ w', ⌜observe w' = obs_release p (observe w)⌝ -∗ p ↦ Freed -∗ Φ tt w') -∗
  wp (do_xfree p) w Φ Ψ.
Proof.
  iIntros (Hp) "Hp HΦ Hσ". iDestruct (gen_heap_valid with "Hσ Hp") as %Hl.
  destruct (do_xfree_some p w (obs_release p (observe w))) as (w' & Hrun & Ho).
  { unfold obs_xfree. by rewrite (xfree_live _ _ Hp Hl). }
  iMod (gen_heap_update _ _ _ Freed with "Hσ Hp") as "[Hσ Hp]". iModIntro.
  rewrite Hrun /= /heap_of Ho /=. iFrame "Hσ". by iApply ("HΦ" with "[//] Hp").
Qed.

(** [xfree] of a block that is released already is undefined. *)
Lemma wp_xfree_freed (p : Z) (w : W) Φ Ψ :
  p ≠ NULL -> p ↦ Freed -∗ (p ↦ Freed -∗ Ψ (DoubleFree p) w) -∗ wp (do_xfree p) w Φ Ψ.
Proof.
  iIntros (Hp) "Hp HΨ Hσ". iDestruct (gen_heap_valid with "Hσ Hp") as %Hf. iModIntro.
  rewrite do_xfree_undef /=; [iFrame "Hσ"; by iApply "HΨ"|].
  by apply obs_xfree_none, xfree_freed.
Qed.

(** [make_builtin_argv] hands over a block that no one held. *)
Lemma wp_make_builtin_argv (ws : list string) (w : W) Φ Ψ :
  (call_ptr w ↦ Live -∗ Φ (make_builtin_argv ws w).1 (call_world ws w)) ⊢
  wp (do_make_builtin_argv ws) w Φ Ψ.
Proof.
  iIntros "HΦ Hσ". unfold do_make_builtin_argv. simpl.
  iMod (gen_heap_alloc _ (call_ptr w) Live with "Hσ") as "(Hσ & Hp & _)";
    [apply next_addr_fresh|].
  iModIntro. fold (call_world ws w). rewrite /heap_of call_world_observe /=.
  iFrame "Hσ". by iApply "HΦ".
Qed.

(** A run proved safe satisfies any condition on undefined behaviour. *)
Lemma wp_safe {A : Type} (m : M W ub A) (w : W) Φ Ψ : wp m w Φ safe ⊢ wp m w Φ Ψ.
Proof.
  iIntros "Hm Hσ". iMod ("Hm" with "Hσ") as "[$ Hpost]". by destruct (m w).
Qed.

(** ** The pieces of [clock_gettime_main] *)

Lemma wp_select_varname (argc : Z) (argv : argv_t) (w : W) Φ Ψ :
  argv_ok argc argv -> Φ (varname_of argc argv) w ⊢ wp (select_varname argc argv) w Φ Ψ.
Proof. iIntros (Hok) "HΦ Hσ !>". rewrite select_varname_run //. iFrame. Qed.

Lemma wp_emit_micros (varname : option string) (micros : Z) (w : W) Φ Ψ :
  (∀ w', Φ tt w') ⊢ wp (emit_micros varname micros) w Φ Ψ.
Proof.
  iIntros "HΦ". destruct varname; [iApply wp_bind_variable | iApply wp_write_stdout];
    iApply "HΦ".
Qed.

(** Line 130 and lines 80 and 98: the release, then the return. *)
Lemma wp_release (r : Z) (p : Z) (w : W) Φ Ψ :
  p ≠ NULL -> p ↦ Live -∗ (∀ w', p ↦ Freed -∗ Φ r w') -∗ wp (do_xfree p ;; ret r)%timep w Φ Ψ.
Proof.
  iIntros (Hp) "Hp HΦ". iApply wp_bind. iApply (wp_xfree with "Hp"); [done|].
  iIntros (w' _) "Hp". iApply wp_ret. by iApply "HΦ".
Qed.

(** Line 130 when the block is released already. *)
Lemma wp_release_freed (r : Z) (p : Z) (w : W) Φ Ψ :
  p ≠ NULL -> p ↦ Freed -∗ (p ↦ Freed -∗ Ψ (DoubleFree p) w) -∗
  wp (do_xfree p ;; ret r)%timep w Φ Ψ.
Proof.
  iIntros (Hp) "Hp HΨ". iApply wp_bind. iApply (wp_xfree_freed with "Hp"); done.
Qed.

(** A diagnostic, then the return: lines 68-69, and lines 79-81 and 97-99
    without the release. *)
Lemma wp_report (msg : string) (r : Z) (w : W) Φ Ψ :
  (∀ w', Φ r w') ⊢ wp (do_builtin_error msg ;; ret r)%timep w Φ Ψ.
Proof.
  iIntros "HΦ". iApply wp_bind. iApply wp_builtin_error. iApply wp_ret. iApply "HΦ".
Qed.

(** A failure arm of the source: the diagnostic, the release, the
    return. *)
Lemma wp_fail_arm (msg : string) (p : Z) (w : W) Φ Ψ :
  p ≠ NULL -> p ↦ Live -∗ (∀ w', p ↦ Freed -∗ Φ EXECUTION_FAILURE w') -∗
  wp (do_builtin_error msg ;; do_xfree p ;; ret EXECUTION_FAILURE)%timep w Φ Ψ.
Proof.
  iIntros (Hp) "Hp HΦ". iApply wp_bind. iApply wp_builtin_error.
  by iApply (wp_release with "Hp").
Qed.

(** Lines 84-94. *)
Lemma wp_convert_emit (varname : option string) (ts : timespec) (w : W) Φ Ψ :
  is_Some (micros_of_timespec ts) ->
  (∀ w', Φ EXECUTION_SUCCESS w') ⊢
  wp (micros <- defined SignedOverflow (micros_of_timespec ts) ;;
      emit_micros varname micros ;; ret EXECUTION_SUCCESS)%timep w Φ Ψ.
Proof.
  iIntros ([m ->]) "HΦ". iApply wp_bind. iApply wp_defined. iApply wp_bind.
  iApply wp_emit_micros. iIntros (w'). iApply wp_ret. iApply "HΦ".
Qed.

(** ** Who meets the contract *)

(** [clock_gettime_main] without lines 80 and 98, wherever line 85 does
    not overflow. *)
Lemma main_without_release_borrows_sl (have_clock : bool) :
  ⊢ borrows_sl convertible (main_without_release have_clock).
Proof.
  iIntros (argc argv w Φ Hok Hconv) "Hp HΦ".
  unfold main_without_release. destruct (2 <? argc); [iApply wp_report; give_back|].
  iApply wp_bind. iApply wp_select_varname; [done|].
  destruct have_clock; [|iApply wp_report; give_back].
  iApply wp_bind. iApply wp_clock_gettime.
  destruct (next_clock w) as [ts|errno] eqn:Hc; [|iApply wp_report; give_back].
  iApply wp_convert_emit; [by apply Hconv | give_back].
Qed.

(** [clock_gettime_main] as it is, while the clock exists and works. *)
Lemma main_borrows_sl :
  ⊢ borrows_sl (fun w => clock_works w /\ convertible w) (clock_gettime_main true).
Proof.
  iIntros (argc argv w Φ Hok [[ts Hc] Hconv]) "Hp HΦ".
  unfold clock_gettime_main. destruct (2 <? argc); [iApply wp_report; give_back|].
  iApply wp_bind. iApply wp_select_varname; [done|].
  iApply wp_bind. iApply wp_clock_gettime. rewrite Hc.
  iApply wp_convert_emit; [by apply Hconv | give_back].
Qed.

(** Where the clock is missing or fails, [clock_gettime_main] returns
    with the block released: it does not give back what it was given. *)
Lemma main_releases_sl (have_clock : bool) (argc : Z) (argv : argv_t) (w : W) Φ Ψ :
  argv_ok argc argv -> argc <= 2 -> argv_ptr argv ≠ NULL ->
  (have_clock = true -> exists errno, next_clock w = ClockErr errno) ->
  argv_ptr argv ↦ Live -∗ (∀ w', argv_ptr argv ↦ Freed -∗ Φ EXECUTION_FAILURE w') -∗
  wp (clock_gettime_main have_clock argc argv) w Φ Ψ.
Proof.
  iIntros (Hok Hle Hp Hc) "Hp HΦ". unfold clock_gettime_main.
  rewrite (proj2 (Z.ltb_ge 2 argc) Hle).
  iApply wp_bind. iApply wp_select_varname; [done|].
  destruct have_clock; [|by iApply (wp_fail_arm with "Hp")].
  destruct Hc as [errno Hc]; [done|].
  iApply wp_bind. iApply wp_clock_gettime. rewrite Hc.
  by iApply (wp_fail_arm with "Hp").
Qed.

(** ** The entry point *)

(** Lines 116-122: the block is handed over, [argv[0]] is read. *)
Lemma wp_entry_with (callee : Z -> argv_t -> M W ub Z) (ws : list string) (w : W) Φ Ψ :
  (call_ptr w ↦ Live -∗
   wp (ret_ <- dispatch_to callee (this_command_name w) (call_argc ws) (call_argv ws w) ;;
       do_xfree (call_ptr w) ;; ret ret_)%timep (call_world ws w) Φ Ψ) ⊢
  wp (entry_with callee ws) w Φ Ψ.
Proof.
  iIntros "Hk". unfold entry_with. iApply wp_bind. iApply wp_make_builtin_argv.
  iIntros "Hp". cbn zeta. iApply wp_bind.
  iApply wp_argv_get; [by rewrite make_builtin_argv_words|].
  rewrite make_builtin_argv_argc. fold (call_argv ws w) (call_argc ws).
  rewrite call_argv_ptr. by iApply "Hk".
Qed.

(** Lines 116-132 around a callee that meets the contract: the run
    returns and the block is released. *)
Lemma entry_with_sl (P : W -> Prop) (callee : Z -> argv_t -> M W ub Z)
  (ws : list string) (w : W) Φ :
  P (call_world ws w) ->
  borrows_sl P callee -∗ (∀ r w', call_ptr w ↦ Freed -∗ Φ r w') -∗
  wp (entry_with callee ws) w Φ safe.
Proof.
  iIntros (HP) "Hc HΦ". iApply wp_entry_with. iIntros "Hp".
  iApply wp_bind. unfold dispatch_to. destruct (is_clock_gettime _).
  - iApply ("Hc" with "[%] [//] [Hp]");
      [apply call_argv_ok | by rewrite call_argv_ptr |].
    rewrite call_argv_ptr. iIntros (r w') "Hp".
    iApply (wp_release with "Hp"); [apply call_ptr_not_null | done].
  - iApply wp_report. iIntros (w').
    iApply (wp_release with "Hp"); [apply call_ptr_not_null | done].
Qed.

(** The entry point of the source where the clock is missing or fails:
    the block comes back released, and line 130 releases it again. *)
Lemma timep_builtin_double_free_sl (have_clock : bool) (ws : list string) (w : W) Φ :
  is_clock_gettime (this_command_name w) = true -> (length ws <= 1)%nat ->
  (have_clock = true -> exists errno, next_clock w = ClockErr errno) ->
  ⊢ wp (timep_builtin have_clock ws) w Φ
       (fun u _ => ⌜u = DoubleFree (call_ptr w)⌝ ∗ call_ptr w ↦ Freed).
Proof.
  iIntros (Hn Hlen Hc). rewrite timep_builtin_is_entry. iApply wp_entry_with.
  iIntros "Hp". iApply wp_bind. unfold dispatch_to. rewrite Hn.
  iApply (main_releases_sl with "[Hp]");
    [apply call_argv_ok | unfold call_argc; lia | rewrite call_argv_ptr; apply call_ptr_not_null
    | by rewrite call_world_next_clock | by rewrite call_argv_ptr |].
  rewrite call_argv_ptr. iIntros (w') "Hp".
  iApply (wp_release_freed with "Hp"); [apply call_ptr_not_null|].
  iIntros "Hp". by iFrame.
Qed.

(** ** A callee with memory of its own *)

(** It meets the contract when the callee inside does. *)
Lemma with_scratch_borrows_sl (P : W -> Prop) (callee : Z -> argv_t -> M W ub Z) :
  (forall w, P w -> P (call_world [] w)) ->
  borrows_sl P callee ⊢ borrows_sl P (with_scratch callee).
Proof.
  iIntros (HP) "Hc". iIntros (argc argv w Φ Hok HPw) "Hp HΦ".
  unfold with_scratch. iApply wp_bind. iApply wp_make_builtin_argv. iIntros "Hs".
  iApply wp_bind. iApply ("Hc" with "[//] [%] Hp"); [by apply HP|].
  iIntros (r w') "Hp". fold (call_argv [] w). rewrite call_argv_ptr.
  iApply (wp_release with "Hs"); [apply call_ptr_not_null|]. iIntros (w'') "_".
  by iApply "HΦ".
Qed.

End logic.

(** ** Adequacy *)

(** A weakest precondition proved from the ownership of every block of
    the world says how the run ends. *)
Theorem wp_adequacy {W : Type} `{HostLaws W} Σ `{!gen_heapGpreS Z block Σ} {A : Type}
  (m : M W ub A) (w : W) (φ : outcome W ub A -> Prop) :
  (∀ `{!gen_heapGS Z block Σ},
     ([∗ map] p ↦ b ∈ heap_of w, p ↦ b) ⊢
     wp m w (fun a w' => holds w' (φ (Done a w'))) (fun u w' => holds w' (φ (Undef u w')))) ->
  φ (m w).
Proof.
  intros Hwp. apply (pure_soundness (PROP:=iPropI Σ)). apply uPred.bupd_soundness; [apply _|].
  iMod (gen_heap_init (heap_of w)) as (Hg) "(Hσ & Hpts & _)".
  iMod (Hwp Hg with "Hpts Hσ") as "[Hσ Hpost]". iModIntro.
  destruct (m w); iApply ("Hpost" with "Hσ").
Qed.

(** The conversion of line 85 does not depend on the block handed
    over. *)
Lemma convertible_call_world {W : Type} `{HostLaws W} (ws : list string) (w : W) :
  convertible w -> convertible (call_world ws w).
Proof. intros Hc ts. rewrite call_world_next_clock. apply Hc. Qed.

(** ** Properties *)

(** C16.  The entry point needs of its callee the block of [argv] and
    nothing else.  Around any function that, given the ownership of the block,
    returns and gives it back, whatever memory of its own the function
    allocates, releases or keeps, lines 116-132 return, the block of
    [argv] is released, and every block that existed before the call is
    in the state it was in. *)
Theorem entry_with_local {W : Type} `{HostLaws W} (P : W -> Prop)
  (callee : Z -> argv_t -> M W ub Z) (ws : list string) (w : W) :
  (forall Σ (Hg : gen_heapGS Z block Σ), ⊢ borrows_sl P callee) ->
  P (call_world ws w) ->
  exists r w', entry_with callee ws w = Done r w' /\
    heap_of w' !! call_ptr w = Some Freed /\ keeps_blocks w w'.
Proof.
  intros Hc HP.
  apply (wp_adequacy (gen_heapΣ Z block) (entry_with callee ws) w
           (fun o => exists r w', o = Done r w' /\
              heap_of w' !! call_ptr w = Some Freed /\ keeps_blocks w w')).
  iIntros (Hg) "Hpts". iApply wp_safe.
  iApply (entry_with_sl P with "[] [Hpts]"); [done | iApply Hc |].
  iIntros (r w') "Hp Hσ". iDestruct (gen_heap_valid with "Hσ Hp") as %Hf.
  iAssert ⌜keeps_blocks w w'⌝%I as %Hk; [|iPureIntro; by eexists _, _].
  iIntros (q b Hq). iDestruct (big_sepM_lookup with "Hpts") as "Hq"; [exact Hq|].
  iApply (gen_heap_valid with "Hσ Hq").
Qed.

(** The double free of the source, read off the resources: the callee
    keeps the block it was given and returns it released. *)
Corollary double_free_from_ownership {W : Type} `{HostLaws W} (have_clock : bool)
  (ws : list string) (w : W) :
  is_clock_gettime (this_command_name w) = true -> (length ws <= 1)%nat ->
  (have_clock = true -> exists errno, next_clock w = ClockErr errno) ->
  exists w', timep_builtin have_clock ws w = Undef (DoubleFree (call_ptr w)) w' /\
    heap_of w' !! call_ptr w = Some Freed.
Proof.
  intros Hn Hlen Hc.
  apply (wp_adequacy (gen_heapΣ Z block) (timep_builtin have_clock ws) w
           (fun o => exists w', o = Undef (DoubleFree (call_ptr w)) w' /\
              heap_of w' !! call_ptr w = Some Freed)).
  iIntros (Hg) "_".
  iApply (wp_wand _ _ (fun _ _ => False%I)); [|by iIntros (??) "[]"].
  iPoseProof (timep_builtin_double_free_sl have_clock ws w (fun _ _ => False%I) Hn Hlen Hc)
    as "Hwp".
  iIntros "Hσ". iMod ("Hwp" with "Hσ") as "[$ Hpost]". iModIntro.
  destruct (timep_builtin have_clock ws w) as [r w'|u w']; [done|]. simpl.
  iDestruct "Hpost" as (->) "Hp". iIntros "Hσ".
  iDestruct (gen_heap_valid with "Hσ Hp") as %Hf. iPureIntro. by eexists.
Qed.

(** ** The theorems at work *)

(** The entry point around a callee that allocates and releases a block
    of its own. *)
Lemma entry_with_local_witness :
  exists r w', entry_with (with_scratch (main_without_release true)) [] demo_shell = Done r w' /\
    heap_of w' !! call_ptr demo_shell = Some Freed /\ keeps_blocks demo_shell w'.
Proof.
  apply (entry_with_local convertible).
  - intros Σ Hg. iApply with_scratch_borrows_sl; [apply convertible_call_world|].
    iApply main_without_release_borrows_sl.
  - apply convertible_call_world. intros ts [= <-]. by eexists.
Defined.

(** That callee does not leave the heap as it found it: the contract of
    [Ownership.Borrows] refuses it. *)
Example with_scratch_not_borrows :
  ~ Borrows (fun _ : shell => True) (with_scratch (main_without_release true)).
Proof.
  intros Hb.
  pose proof (Hb 1 (demo_argv []) (demo_world [])) as Hh.
  assert (Hrun : exists w', with_scratch (main_without_release true) 1 (demo_argv [])
                   (demo_world []) = Done EXECUTION_SUCCESS w' /\
                 heap_of w' !! 2 = Some Freed) by (eexists; split; vm_compute; reflexivity).
  destruct Hrun as (w' & Hrun & Hf). rewrite Hrun in Hh.
  assert (Hheap : o_heap (observe w') = o_heap (observe (demo_world []))).
  { apply Hh; [reflexivity | split; [discriminate | reflexivity] | exact I]. }
  unfold heap_of in Hf. rewrite Hheap in Hf. vm_compute in Hf. discriminate.
Qed.
