(* ===== verification/Usage.v ===== *)
(** * Usage: the synopsis of the command and what the code accepts

    The descriptor of lines 103-110 carries the synopsis
    ["clock_gettime [<VAR>]"] (line 108), which [help] prints, and the
    documentation repeats it (line 58).  The code decides on its own
    which argument lists it accepts, by the test of line 67.  This file
    reads the synopsis the way such lines are written (a name, then
    operands, one in brackets being optional) and shows that the two
    agree: the usage error is reported for exactly the argument lists the
    synopsis does not describe.

    The synopsis calls the operand a variable.  [legal_identifier] is
    the test the shell applies to the name of a variable in an
    assignment; the code does not apply it, and the last part of the
    file shows a name that fails the test and is assigned. *)

From Stdlib Require Import Ascii String.
From stdpp Require Import gmap strings list.
From S2P Require Import Prelude Int64 Micros Decimal CString Heap Host Shell ClockGettime Builtin.
From S2P Require Import Run.

#[local] Open Scope Z_scope.

(** An operand of a synopsis: [<NAME>] or [[<NAME>]]. *)
Inductive operand : Type :=
| Required (name : string)
| Optional (name : string).

#[export] Instance operand_eq_dec : EqDecision operand.
Proof. solve_decision. Defined.

(** [s] without the prefix [pre]. *)
Definition strip_prefix (pre s : string) : option string :=
  if String.prefix pre s
  then Some (substring (String.length pre) (String.length s - String.length pre) s)
  else None.

Definition parse_operand (tok : string) : option operand :=
  match strip_prefix "[<" tok ≫= strip_suffix ">]" with
  | Some v => Some (Optional v)
  | None => Required <$> (strip_prefix "<" tok ≫= strip_suffix ">")
  end.

(** The name of the command and its operands. *)
Definition parse_synopsis (s : string) : option (string * list operand) :=
  match String.words s with
  | name :: toks => pair name <$> mapM parse_operand toks
  | [] => None
  end.

Definition is_required (op : operand) : bool :=
  match op with
  | Required _ => true
  | Optional _ => false
  end.

(** Whether a command with [n] arguments is one the synopsis
    describes. *)
Definition accepts (synopsis : string) (n : nat) : bool :=
  match parse_synopsis synopsis with
  | Some (_, ops) => (length (filter is_required ops) <=? n)%nat && (n <=? length ops)%nat
  | None => false
  end.

(** The names the shell itself accepts for a variable: a letter or an
    underscore, then letters, digits and underscores. *)
Definition is_name_start (c : ascii) : bool :=
  let n := N_of_ascii c in
  ((65 <=? n) && (n <=? 90) || (97 <=? n) && (n <=? 122) || (n =? 95))%N.

Definition is_name_char (c : ascii) : bool := is_name_start c || is_digit c.

Definition legal_identifier (name : string) : bool :=
  match name with
  | EmptyString => false
  | String c rest => is_name_start c && forallb is_name_char (list_ascii_of_string rest)
  end.

(** ** The synopsis of the descriptor *)

Lemma short_doc_parses :
  parse_synopsis (b_short_doc clock_gettime_struct) = Some (CMD_NAME, [Optional "VAR"]).
Proof. vm_compute. reflexivity. Qed.

(** Line 58 is line 108 after ["USAGE: "]. *)
Lemma usage_line :
  clock_gettime_doc !! 1%nat = Some ("USAGE: " +:+ b_short_doc clock_gettime_struct).
Proof. reflexivity. Qed.

Lemma accepts_short_doc (n : nat) :
  accepts (b_short_doc clock_gettime_struct) n = (n <=? 1)%nat.
Proof. unfold accepts. rewrite short_doc_parses. reflexivity. Qed.

(** ** The usage error among the diagnostics *)

(** The shell's diagnostic for a readonly variable is not the usage
    error. *)
Lemma readonly_not_too_many (v : string) : v +:+ ": readonly variable" <> MSG_TOO_MANY.
Proof.
  intros E. apply (f_equal last_char) in E.
  rewrite last_char_append in E by discriminate. discriminate E.
Qed.

Lemma failed_not_too_many (text : string) : MSG_FAILED +:+ text <> MSG_TOO_MANY.
Proof. discriminate. Qed.

(** The usage error is the diagnostic of a run exactly when there are
    two arguments or more. *)
Lemma diagnostics_too_many (have_clock : bool) (name : string) (ws : list string)
  (c : clock_result) (errtext : Z -> string) (o : obs) :
  is_clock_gettime name = true ->
  diagnostics have_clock name ws c errtext o = [MSG_TOO_MANY] <-> (2 <= length ws)%nat.
Proof.
  intros Hn. unfold diagnostics, main_diagnostics. rewrite Hn.
  destruct (decide (2 <= length ws)%nat) as [Hlen|Hlen]; [tauto|].
  split; [|contradiction]. intros E. exfalso. revert E.
  destruct have_clock; [|discriminate].
  destruct c as [ts|errno]; [|intros [= E]; exact (failed_not_too_many _ E)].
  destruct (micros_of_timespec ts); [|discriminate].
  destruct (target_of ws) as [v|]; [|discriminate].
  destruct (is_readonly o v); [|discriminate].
  intros [= E]. exact (readonly_not_too_many _ E).
Qed.

(** C31.  The synopsis and the code agree.  The synopsis of line 108,
    which line 58 repeats, names the command and one optional operand;
    and for the command invoked by its name, on every host, with or
    without the process clock and whatever the clock returns, the
    diagnostic "clock_gettime: too many arguments" is what the run adds
    to the diagnostic channel if and only if the number of arguments is
    one the synopsis does not describe. *)
Theorem usage_error_iff {W : Type} `{HostLaws W} (have_clock : bool) (ws : list string) (w : W) :
  is_clock_gettime (this_command_name w) = true ->
  parse_synopsis (b_short_doc clock_gettime_struct) = Some (CMD_NAME, [Optional "VAR"]) /\
  (accepts (b_short_doc clock_gettime_struct) (length ws) = false <->
   o_stderr (observe (world_of (timep_builtin have_clock ws w)))
   = o_stderr (observe w) ++ [MSG_TOO_MANY]).
Proof.
  intros Hn. split; [exact short_doc_parses|].
  destruct (timep_builtin_total have_clock ws w) as [_ ->].
  rewrite expected_obs_stderr, accepts_short_doc, Nat.leb_gt.
  rewrite <- (diagnostics_too_many have_clock _ ws (next_clock w) strerror (observe w) Hn).
  split; [intros ->; reflexivity | apply app_inv_head].
Qed.

Lemma usage_error_iff_witness :
  parse_synopsis (b_short_doc clock_gettime_struct) = Some (CMD_NAME, [Optional "VAR"]) /\
  (accepts (b_short_doc clock_gettime_struct) (length ["a"; "b"]) = false <->
   o_stderr (observe (world_of (timep_builtin true ["a"; "b"] demo_shell)))
   = o_stderr (observe demo_shell) ++ [MSG_TOO_MANY]).
Proof. apply (usage_error_iff true ["a"; "b"] demo_shell). reflexivity. Defined.

(** ** The operand

    Line 72 asks of the operand only that it is not empty.  Every
    identifier passes that test, and so does every other non-empty
    string: the name goes to [bind_variable] as it is. *)

Lemma legal_identifier_nonempty (a : string) :
  legal_identifier a = true -> arg_nonempty a = true.
Proof.
  destruct a as [|c rest]; [discriminate|]. unfold arg_nonempty. simpl.
  destruct (Ascii.eqb_spec c NUL) as [->|]; [discriminate | reflexivity].
Qed.

(** A name the shell would not accept in an assignment is assigned. *)
Example illegal_name_assigned :
  legal_identifier "2nd try" = false /\
  exists w', timep_builtin true ["2nd try"] demo_shell = Done EXECUTION_SUCCESS w' /\
    var_lookup (observe w') "2nd try" = Some "1500000".
Proof. split; [reflexivity|]. eexists. split; [vm_compute; reflexivity | reflexivity]. Qed.
