(* ===== verification/Trace.v ===== *)
(** * Trace: the calls the builtin makes, in order

    [Host] records what the shell shows after a run: the variables, the
    two output channels, the heap.  It does not record in which order the
    builtin called the shell and the C library.  This file adds that: a
    host of its own, built over any other, that performs every operation
    on the host beneath and writes it down.  It satisfies the interface
    ([traced_laws]), so everything proved against the interface holds of
    it, and the list it keeps is the sequence of calls of a run.  A call
    is written down when it returns: a release that is undefined ends the
    run and does not appear.

    The theorem gives that sequence for [timep_builtin] on every path of
    [Run.run_path], by one function of the arguments, the name and the
    state of the clock: [make_builtin_argv] first, the clock read before
    anything is emitted and not at all on a usage error, the diagnostic
    before the release of [argv], and one release, at the end, on the
    paths that return.  Writing the calls down changes nothing of what
    the host beneath shows ([traced_erasure]). *)

From stdpp Require Import gmap strings list.
From S2P Require Import Prelude Int64 Micros Decimal CString Heap Host Shell ClockGettime Builtin.
From S2P Require Import Run.

#[local] Open Scope Z_scope.
#[local] Open Scope timep_scope.

(** A call of the builtin into the shell or the C library. *)
Inductive call : Type :=
| CallMakeArgv (ws : list string)
| CallClockGettime
| CallBuiltinError (msg : string)
| CallBindVariable (name value : string)
| CallPrintf (text : string)
| CallXfree (p : Z).

#[export] Instance call_eq_dec : EqDecision call.
Proof. solve_decision. Defined.

(** A world with the calls made so far, the first one first. *)
Record traced (W : Type) : Type := mk_traced { tr_world : W; tr_calls : list call }.

Arguments mk_traced {W} _ _.
Arguments tr_world {W} _.
Arguments tr_calls {W} _.

(** The world after a call. *)
Definition logged {W : Type} (c : call) (t : traced W) (w' : W) : traced W :=
  mk_traced w' (tr_calls t ++ [c]).

#[export] Instance traced_host {W : Type} `{Host W} : Host (traced W) := {|
  observe t := observe (tr_world t);
  next_clock t := next_clock (tr_world t);
  this_command_name t := this_command_name (tr_world t);
  strerror := strerror;
  bind_variable name value t :=
    logged (CallBindVariable name value) t (bind_variable name value (tr_world t));
  builtin_error msg t := logged (CallBuiltinError msg) t (builtin_error msg (tr_world t));
  write_stdout text t := logged (CallPrintf text) t (write_stdout text (tr_world t));
  sys_clock_gettime t :=
    ((sys_clock_gettime (tr_world t)).1,
     logged CallClockGettime t (sys_clock_gettime (tr_world t)).2);
  host_xfree p t := logged (CallXfree p) t <$> host_xfree p (tr_world t);
  make_builtin_argv ws t :=
    ((make_builtin_argv ws (tr_world t)).1,
     logged (CallMakeArgv ws) t (make_builtin_argv ws (tr_world t)).2)
|}.

(** Lines 87-93 as a call. *)
Definition emit_call (varname : option string) (micros : Z) : call :=
  match varname with
  | Some name => CallBindVariable name (buf_micros micros)
  | None => CallPrintf (printf_lld_nl micros)
  end.

(** The calls of [clock_gettime_main], lines 66-101, for the arguments
    [ws] of the command, the state [c] of the clock and the address [p]
    of [argv]. *)
Definition main_calls (have_clock : bool) (ws : list string) (c : clock_result)
  (errtext : Z -> string) (p : Z) : list call :=
  if decide (2 <= length ws)%nat then [CallBuiltinError MSG_TOO_MANY]
  else if have_clock then
    CallClockGettime ::
    match c with
    | ClockErr errno => [CallBuiltinError (MSG_FAILED +:+ errtext errno); CallXfree p]
    | ClockOk ts =>
        match micros_of_timespec ts with
        | Some micros => [emit_call (target_of ws) micros]
        | None => []
        end
    end
  else [CallBuiltinError MSG_UNSUPPORTED; CallXfree p].

(** The calls of [timep_builtin], lines 116-132, that complete: the
    allocation of line 116, those of [clock_gettime_main] or the
    diagnostic of line 126, and the release of line 130 when the run
    returns. *)
Definition expected_calls (have_clock : bool) (name : string) (ws : list string)
  (c : clock_result) (errtext : Z -> string) (p : Z) : list call :=
  CallMakeArgv ws ::
  (if is_clock_gettime name then main_calls have_clock ws c errtext p
   else [CallBuiltinError (msg_unknown name)]) ++
  match expected_result have_clock name ws c p with
  | inl _ => [CallXfree p]
  | inr _ => []
  end.

(** ** The traced host satisfies the interface *)

#[export] Instance traced_laws {W : Type} `{HostLaws W} : HostLaws (traced W).
Proof.
  split; intros; cbn [observe next_clock this_command_name bind_variable builtin_error
    write_stdout sys_clock_gettime host_xfree make_builtin_argv traced_host logged
    tr_world fst snd].
  - apply observe_bind_variable.
  - apply observe_builtin_error.
  - apply observe_write_stdout.
  - apply sys_clock_gettime_result.
  - apply observe_sys_clock_gettime.
  - rewrite <- observe_host_xfree. destruct (host_xfree p (tr_world w)); reflexivity.
  - apply make_builtin_argv_argc.
  - apply make_builtin_argv_words.
  - apply observe_make_builtin_argv.
  - apply next_clock_make_builtin_argv.
Qed.

Section Trace.
Context {W : Type} `{HostLaws W}.

Implicit Types t : traced W.

(** ** One call each *)

Lemma calls_make_argv (ws : list string) t :
  tr_calls (call_world ws t) = tr_calls t ++ [CallMakeArgv ws].
Proof. reflexivity. Qed.

Lemma calls_clock t :
  tr_calls (sys_clock_gettime t).2 = tr_calls t ++ [CallClockGettime].
Proof. reflexivity. Qed.

Lemma calls_error (msg : string) t :
  tr_calls (builtin_error msg t) = tr_calls t ++ [CallBuiltinError msg].
Proof. reflexivity. Qed.

Lemma calls_emit (varname : option string) (micros : Z) t :
  tr_calls (world_of (emit_micros varname micros t)) = tr_calls t ++ [emit_call varname micros].
Proof. rewrite emit_micros_run. destruct varname; reflexivity. Qed.

Lemma calls_released (p : Z) t t' :
  released p t t' -> tr_calls t' = tr_calls t ++ [CallXfree p].
Proof.
  intros [Hx _]. revert Hx. cbn [host_xfree traced_host].
  destruct (host_xfree p (tr_world t)); [|discriminate].
  intros [= <-]. reflexivity.
Qed.

(** ** The calls of a path *)

Lemma path_calls (have_clock : bool) (ws : list string) t (o : outcome (traced W) ub Z) :
  run_path have_clock ws t o ->
  tr_calls (world_of o) =
  tr_calls t ++
  expected_calls have_clock (this_command_name t) ws (next_clock t)
    (strerror (W:=traced W)) (call_ptr t).
Proof.
  unfold expected_calls, expected_result, main_calls, main_result, main_releases.
  destruct 1; path_cases; cbn [world_of];
    rewrite ?(calls_released _ _ _ ltac:(eassumption)), ?calls_emit, ?calls_error,
      ?calls_clock, ?calls_make_argv, <- ?app_assoc;
    reflexivity.
Qed.

(** Writing the calls down changes neither how a run ends nor what the
    host beneath shows. *)
Lemma traced_erasure (have_clock : bool) (ws : list string) t :
  result_of (timep_builtin have_clock ws t) =
  result_of (timep_builtin have_clock ws (tr_world t)) /\
  observe (world_of (timep_builtin have_clock ws t)) =
  observe (world_of (timep_builtin have_clock ws (tr_world t))).
Proof. apply timep_builtin_related; reflexivity. Qed.

(** C21. The calls of a run, in order.  On every path [timep_builtin]
    ends as [expected_result] says and has completed the calls
    [expected_calls] lists, in that order and no others:
    [make_builtin_argv] first; on a usage error or an unknown name the
    diagnostic and the release, the clock never read; otherwise the clock
    read once, before the value is assigned or printed; a diagnostic
    always before the release of [argv]; and the release of line 130 the
    last call of every run that returns. *)
Theorem timep_builtin_calls (have_clock : bool) (ws : list string) (t : traced W) :
  result_of (timep_builtin have_clock ws t) =
    expected_result have_clock (this_command_name t) ws (next_clock t) (call_ptr t) /\
  tr_calls (world_of (timep_builtin have_clock ws t)) =
    tr_calls t ++
    expected_calls have_clock (this_command_name t) ws (next_clock t)
      (strerror (W:=traced W)) (call_ptr t).
Proof.
  split; [apply path_result | apply path_calls]; apply timep_builtin_path.
Qed.

End Trace.

(** ** Runs on the shell of [Shell], traced *)

Lemma timep_builtin_calls_witness :
  result_of (timep_builtin true ["T0"] (mk_traced demo_shell [])) =
    expected_result true "clock_gettime" ["T0"] (ClockOk (mk_timespec 1 500000000))
      (call_ptr demo_shell) /\
  tr_calls (world_of (timep_builtin true ["T0"] (mk_traced demo_shell []))) =
    [] ++ expected_calls true "clock_gettime" ["T0"] (ClockOk (mk_timespec 1 500000000))
            shell_strerror (call_ptr demo_shell).
Proof. exact (timep_builtin_calls true ["T0"] (mk_traced demo_shell [])). Defined.

(** [clock_gettime T0] after 1.5 s of CPU time. *)
Example calls_assign :
  tr_calls (world_of (timep_builtin true ["T0"] (mk_traced demo_shell []))) =
  [CallMakeArgv ["T0"]; CallClockGettime; CallBindVariable "T0" "1500000";
   CallXfree (call_ptr demo_shell)].
Proof. vm_compute. reflexivity. Qed.

(** [clock_gettime] when the system call fails: the release inside
    [clock_gettime_main] is the last call made; the run ends at the next
    one. *)
Example calls_clock_failure :
  let t := mk_traced (set_clock_errno (Some EINVAL) demo_shell) [] in
  tr_calls (world_of (timep_builtin true [] t)) =
    [CallMakeArgv []; CallClockGettime;
     CallBuiltinError "clock_gettime failed: Invalid argument"; CallXfree (call_ptr t)] /\
  result_of (timep_builtin true [] t) = inr (DoubleFree (call_ptr t)).
Proof. vm_compute. split; reflexivity. Qed.
