(* ===== verification/TranslationUnit.v ===== *)
(** * TranslationUnit: [timep.c] as the compiler and the linker see it

    Lines 5-50 of [timep.c] and the first line of every definition after
    them: the feature macro, the headers included, the declarations at
    file scope with their linkage, and for every definition the functions
    and objects its body names.

    From these the file computes what the object file shows to the
    dynamic loader ([exported]), what it needs from the process it is
    loaded into ([imports]), and checks what the compiler checks: every
    name is declared before it is used, a name has one linkage, a static
    function that is declared is defined ([well_formed]).  What a header
    declares and when [<time.h>] provides [CLOCK_PROCESS_CPUTIME_ID] are
    the C library's and bash's and are modelled from their
    documentation. *)

From Stdlib Require Import Ascii String.
From stdpp Require Import gmap strings list.
From S2P Require Import Prelude.

(** ** Preprocessing: lines 5-42 *)

Definition GNU_SOURCE : string := "_GNU_SOURCE".
Definition HAVE_CONFIG_H : string := "HAVE_CONFIG_H".

(** Lines 6-8: [#ifndef _GNU_SOURCE], [#define _GNU_SOURCE], [#endif],
    on the macros the command line defined. *)
Definition define_gnu_source (macros : gset string) : gset string :=
  if decide (GNU_SOURCE ∈ macros) then macros else {[GNU_SOURCE]} ∪ macros.

(** Lines 11-30. *)
Definition system_headers : list string := [
  "sys/types.h"; "sys/stat.h"; "fcntl.h"; "unistd.h"; "stdio.h"; "stdlib.h"; "stdint.h";
  "string.h"; "errno.h"; "sys/eventfd.h"; "sys/time.h"; "sys/resource.h"; "dirent.h";
  "ctype.h"; "sys/sendfile.h"; "poll.h"; "limits.h"; "sys/mman.h"; "inttypes.h"; "time.h"
].

(** Lines 32-34: [#ifdef HAVE_CONFIG_H], [#include <config.h>], [#endif]. *)
Definition config_header (macros : gset string) : list string :=
  if decide (HAVE_CONFIG_H ∈ macros) then ["config.h"] else [].

(** Lines 37-42. *)
Definition bash_headers : list string := [
  "command.h"; "builtins.h"; "shell.h"; "common.h"; "xmalloc.h"; "variables.h"
].

(** The headers read, in the order of lines 11-42. *)
Definition included (macros : gset string) : list string :=
  system_headers ++ config_header macros ++ bash_headers.

(** The functions and objects of the C library and of bash that
    [timep.c] names, by the header that declares them. *)
Definition header_table : list (string * list string) := [
  ("stdio.h", ["printf"; "snprintf"]);
  ("string.h", ["strcmp"; "strerror"]);
  ("errno.h", ["errno"]);
  ("time.h", ["clock_gettime"]);
  ("common.h", ["builtin_error"; "make_builtin_argv"]);
  ("xmalloc.h", ["xfree"]);
  ("variables.h", ["bind_variable"])
].

(** Membership in a list of names, by comparison of strings. *)
Definition inb (x : string) (l : list string) : bool := existsb (String.eqb x) l.

(** The command of line 3, word by word. *)
Definition build_line : list string := [
  "gcc"; "-Wall"; "-fPIC"; "-flto"; "-O3"; "-v"; "-DSHELL"; "-DLOADABLE_BUILTIN";
  "-I/usr/include"; "-I/usr/include/bash"; "-I/usr/include/bash/builtins";
  "-I/usr/include/bash/include"; "-I."; "-shared"; "-c"; "timep.c"; "-o"; "timep.so"
].

(** The macro a word of the command line defines: [-DNAME]. *)
Definition macro_of (word : string) : option string :=
  match word with
  | String "-"%char (String "D"%char name) => Some name
  | _ => None
  end.

Definition command_line_macros (words : list string) : gset string :=
  list_to_set (omap macro_of words).

(** What the compiler driver writes: with [-c] it stops before the
    link, and [-shared] is an option of the link. *)
Inductive output_kind : Type := Relocatable | SharedObject | Executable.

Definition output_of (words : list string) : output_kind :=
  if inb "-c" words then Relocatable
  else if inb "-shared" words then SharedObject
  else Executable.

(** The names in scope after the headers have been read. *)
Definition scope_of (headers : list string) : list string :=
  concat (snd <$> filter (fun e : string * list string => inb e.1 headers) header_table).

(** Line 76, [#if defined(CLOCK_PROCESS_CPUTIME_ID)]: [<time.h>] defines
    the macro, on a system that has the clock, when the POSIX feature
    macros are on, and [_GNU_SOURCE] turns them on. *)
Definition have_clock_of (system_has_clock : bool) (macros : gset string) : bool :=
  system_has_clock && inb "time.h" (included macros)
  && bool_decide (GNU_SOURCE ∈ define_gnu_source macros).

(** ** Declarations at file scope *)

(** [static], or not. *)
Inductive linkage : Type := Internal | External.

Inductive entity : Type := Function | Object.

#[export] Instance linkage_eq_dec : EqDecision linkage.
Proof. solve_decision. Defined.

#[export] Instance entity_eq_dec : EqDecision entity.
Proof. solve_decision. Defined.

(** A declaration: the name, the linkage, and for a definition the
    functions and objects its body or initialiser names, in the order
    of the text. *)
Record decl : Type := mk_decl {
  d_name : string;
  d_linkage : linkage;
  d_entity : entity;
  d_body : option (list string)
}.

#[export] Instance decl_eq_dec : EqDecision decl.
Proof. solve_decision. Defined.

(** Line 45: [extern int add_builtin(struct builtin * bp, int keep);] *)
Definition decl_add_builtin : decl := mk_decl "add_builtin" External Function None.

(** Line 46: [extern char ** make_builtin_argv();] *)
Definition decl_make_builtin_argv : decl := mk_decl "make_builtin_argv" External Function None.

(** Line 49: [static int timep_builtin(WORD_LIST * list);] *)
Definition proto_timep_builtin : decl := mk_decl "timep_builtin" Internal Function None.

(** Line 50: [static int clock_gettime_main(int argc, char ** argv);] *)
Definition proto_clock_gettime_main : decl :=
  mk_decl "clock_gettime_main" Internal Function None.

(** Line 56: [static char * clock_gettime_doc[] = { ... }], string
    literals only. *)
Definition def_clock_gettime_doc : decl := mk_decl "clock_gettime_doc" Internal Object (Some []).

(** Lines 66-101: [static int clock_gettime_main], with the calls of
    line 68 and of the arm of [#if] that is compiled. *)
Definition def_clock_gettime_main (have_clock : bool) : decl :=
  mk_decl "clock_gettime_main" Internal Function
    (Some ("builtin_error" ::
           (if have_clock
            then ["clock_gettime"; "builtin_error"; "strerror"; "errno"; "xfree";
                  "snprintf"; "bind_variable"; "printf"]
            else ["builtin_error"; "xfree"]))).

(** Lines 103-110: [struct builtin clock_gettime_struct], initialised
    with the addresses of [timep_builtin] and [clock_gettime_doc]. *)
Definition def_clock_gettime_struct : decl :=
  mk_decl "clock_gettime_struct" External Object (Some ["timep_builtin"; "clock_gettime_doc"]).

(** Lines 116-132: [static int timep_builtin]. *)
Definition def_timep_builtin : decl :=
  mk_decl "timep_builtin" Internal Function
    (Some ["make_builtin_argv"; "strcmp"; "clock_gettime_main"; "builtin_error"; "xfree"]).

(** Lines 134-137: [int setup_builtin_timep(void)]. *)
Definition def_setup_builtin_timep : decl :=
  mk_decl "setup_builtin_timep" External Function (Some ["add_builtin"; "clock_gettime_struct"]).

(** The declarations of the file in the order of the text. *)
Definition timep_c (have_clock : bool) : list decl := [
  decl_add_builtin; decl_make_builtin_argv; proto_timep_builtin; proto_clock_gettime_main;
  def_clock_gettime_doc; def_clock_gettime_main have_clock; def_clock_gettime_struct;
  def_timep_builtin; def_setup_builtin_timep
].

(** ** What the compiler checks *)

Definition is_definition (d : decl) : bool := bool_decide (is_Some (d_body d)).

Definition definitions (u : list decl) : list string := d_name <$> filter is_definition u.

(** The names a definition uses are in scope where it stands: declared
    by a header, by an earlier line, or the definition itself. *)
Fixpoint declared_before_use (scope : list string) (u : list decl) : bool :=
  match u with
  | [] => true
  | d :: u' =>
      forallb (fun r => inb r (d_name d :: scope)) (default [] (d_body d))
      && declared_before_use (d_name d :: scope) u'
  end.

(** A name is declared with one linkage (C11 6.2.2p7). *)
Definition linkage_consistent (u : list decl) : bool :=
  forallb (fun d => forallb (fun d' =>
    negb (String.eqb (d_name d) (d_name d')) || bool_decide (d_linkage d = d_linkage d')) u) u.

(** A function declared [static] is defined in the file. *)
Definition statics_defined (u : list decl) : bool :=
  forallb (fun d => bool_decide (d_linkage d = External) || inb (d_name d) (definitions u)) u.

(** No name is defined twice. *)
Fixpoint distinct (l : list string) : bool :=
  match l with
  | [] => true
  | x :: l' => negb (inb x l') && distinct l'
  end.

Definition well_formed (scope : list string) (u : list decl) : bool :=
  declared_before_use scope u && linkage_consistent u && statics_defined u
  && distinct (definitions u).

(** ** What the object file shows and needs *)

(** The dynamic symbol table: the definitions with external linkage. *)
Definition exported (u : list decl) : list string :=
  d_name <$> filter (fun d => is_definition d && bool_decide (d_linkage d = External)) u.

(** The names the definition of [name] uses. *)
Definition body_of (u : list decl) (name : string) : list string :=
  default [] (find (fun d => String.eqb (d_name d) name && is_definition d) u ≫= d_body).

(** [names] and the names of [more] that are not among them. *)
Fixpoint add_new (names more : list string) : list string :=
  match more with
  | [] => names
  | x :: more' => add_new (if inb x names then names else names ++ [x]) more'
  end.

(** One more level of the names used. *)
Definition expand (u : list decl) (names : list string) : list string :=
  add_new names (concat (body_of u <$> names)).

Fixpoint expand_n (n : nat) (u : list decl) (names : list string) : list string :=
  match n with
  | O => names
  | S n' => expand_n n' u (expand u names)
  end.

(** Everything a use of [name] reaches; the depth of the references is
    at most the number of declarations. *)
Definition reach (u : list decl) (name : string) : list string :=
  expand_n (length u) u [name].

(** What a use of [name] needs from outside the file: the undefined
    symbols the dynamic linker binds when a function is first called. *)
Definition imports (u : list decl) (name : string) : list string :=
  filter (fun r => negb (inb r (definitions u))) (reach u name).

(** ** The preprocessor *)

Lemma inb_spec (x : string) (l : list string) : inb x l = true <-> x ∈ l.
Proof.
  unfold inb. rewrite existsb_exists. setoid_rewrite String.eqb_eq.
  setoid_rewrite <- list_elem_of_In. split; [intros (y & Hy & ->); exact Hy | eauto].
Qed.

Lemma define_gnu_source_union (macros : gset string) :
  define_gnu_source macros = {[GNU_SOURCE]} ∪ macros.
Proof. unfold define_gnu_source. case_decide; set_solver. Qed.

Lemma define_gnu_source_idem (macros : gset string) :
  define_gnu_source (define_gnu_source macros) = define_gnu_source macros.
Proof. rewrite !define_gnu_source_union. set_solver. Qed.

(** The command line can add [<config.h>] and nothing else. *)
Lemma included_cases (macros : gset string) :
  included macros = system_headers ++ bash_headers \/
  included macros = system_headers ++ "config.h" :: bash_headers.
Proof. unfold included, config_header. case_decide; auto. Qed.

(** Whatever the command line defines, the names in scope are the
    same. *)
Lemma scope_of_included (macros : gset string) :
  scope_of (included macros) = scope_of (system_headers ++ bash_headers).
Proof. destruct (included_cases macros) as [-> | ->]; reflexivity. Qed.

(** The arm of line 76 that is compiled is decided by the system alone:
    lines 6-8 and line 30 see to the rest. *)
Lemma have_clock_of_system (system_has_clock : bool) (macros : gset string) :
  have_clock_of system_has_clock macros = system_has_clock.
Proof.
  unfold have_clock_of. rewrite define_gnu_source_union, bool_decide_eq_true_2 by set_solver.
  destruct (included_cases macros) as [-> | ->]; destruct system_has_clock; reflexivity.
Qed.

(** The command line of line 3 defines [SHELL] and [LOADABLE_BUILTIN]
    and no other macro: [<config.h>] is not read. *)
Lemma build_line_macros (m : string) :
  m ∈ command_line_macros build_line <-> m = "SHELL" \/ m = "LOADABLE_BUILTIN".
Proof. unfold command_line_macros. cbn [build_line omap macro_of]. set_solver. Qed.

Lemma build_line_included :
  included (command_line_macros build_line) = system_headers ++ bash_headers.
Proof.
  unfold included, config_header. rewrite decide_False; [reflexivity|].
  intros [H|H]%build_line_macros; discriminate H.
Qed.

(** As written, line 3 stops after the compilation: the file it names
    [timep.so] is a relocatable object, which [dlopen] does not load.
    Without [-c] the same line links a shared object. *)
Lemma build_line_output :
  output_of build_line = Relocatable /\
  output_of (filter (fun w => w <> "-c") build_line) = SharedObject.
Proof. split; reflexivity. Qed.

(** ** The checks, as propositions *)

Lemma forallb_inb (l1 l2 : list string) :
  forallb (fun r => inb r l2) l1 = true <-> l1 ⊆ l2.
Proof.
  rewrite forallb_forall. setoid_rewrite inb_spec. setoid_rewrite <- list_elem_of_In.
  reflexivity.
Qed.

(** A definition that passes [declared_before_use] names only what the
    headers, the lines before it, or its own first line declare. *)
Lemma declared_before_use_sound (scope : list string) (u1 u2 : list decl) (d : decl)
  (refs : list string) (r : string) :
  declared_before_use scope (u1 ++ d :: u2) = true -> d_body d = Some refs -> r ∈ refs ->
  r ∈ scope \/ r ∈ d_name <$> u1 \/ r = d_name d.
Proof.
  revert scope. induction u1 as [|d1 u1 IH]; intros scope; cbn [app declared_before_use].
  - intros [Hd _]%andb_true_iff Hb Hr. rewrite Hb in Hd. cbn [default] in Hd.
    apply forallb_inb in Hd. apply Hd, elem_of_cons in Hr as [->|Hr]; auto.
  - intros [_ Hu]%andb_true_iff Hb Hr.
    destruct (IH _ Hu Hb Hr) as [[->|Hs]%elem_of_cons|[Hn|Hn]]; auto.
    + right. left. cbn. left.
    + right. left. cbn. right. exact Hn.
Qed.

Lemma linkage_consistent_sound (u : list decl) (d d' : decl) :
  linkage_consistent u = true -> d ∈ u -> d' ∈ u -> d_name d = d_name d' ->
  d_linkage d = d_linkage d'.
Proof.
  unfold linkage_consistent. rewrite forallb_forall.
  intros H Hd Hd' Hn. apply list_elem_of_In in Hd, Hd'.
  specialize (H d Hd). rewrite forallb_forall in H. specialize (H d' Hd').
  rewrite Hn, String.eqb_refl in H. apply bool_decide_eq_true in H. exact H.
Qed.

Lemma exported_spec (u : list decl) (name : string) :
  name ∈ exported u <->
  exists d, d ∈ u /\ d_name d = name /\ is_definition d = true /\ d_linkage d = External.
Proof.
  unfold exported. rewrite list_elem_of_fmap. setoid_rewrite list_elem_of_filter.
  split.
  - intros (d & -> & [Hd He%bool_decide_unpack]%andb_True & Hin).
    exists d. rewrite Is_true_true in Hd. auto.
  - intros (d & Hin & <- & Hd & He). exists d. split; [reflexivity|]. split; [|exact Hin].
    apply andb_True. split; [rewrite Hd; exact I | apply bool_decide_pack, He].
Qed.

(** What is [static] is not in the dynamic symbol table. *)
Lemma exported_not_internal (u : list decl) (d : decl) :
  linkage_consistent u = true -> d ∈ u -> d_linkage d = Internal -> d_name d ∉ exported u.
Proof.
  intros Hc Hd Hi (d' & Hd' & Hn & _ & He)%exported_spec.
  rewrite (linkage_consistent_sound u d' d Hc Hd' Hd Hn) in He. congruence.
Qed.

(** ** Reachability *)

(** Once a level adds nothing, no further level does. *)
Lemma expand_n_fixpoint (n : nat) (u : list decl) (names : list string) :
  expand u names = names -> expand_n n u names = names.
Proof. intros E. induction n as [|n IH]; cbn [expand_n]; [reflexivity | rewrite E; exact IH]. Qed.

Lemma expand_n_add (n k : nat) (u : list decl) (names : list string) :
  expand_n (n + k) u names = expand_n k u (expand_n n u names).
Proof. revert names. induction n as [|n IH]; intros names; cbn [expand_n Nat.add]; auto. Qed.

(** ** [timep.c] *)

Lemma timep_c_well_formed (have_clock : bool) (macros : gset string) :
  well_formed (scope_of (included macros)) (timep_c have_clock) = true.
Proof. rewrite scope_of_included. destruct have_clock; vm_compute; reflexivity. Qed.

(** The loader can see the descriptor and the registration function,
    and nothing else. *)
Lemma timep_c_exported (have_clock : bool) :
  exported (timep_c have_clock) = ["clock_gettime_struct"; "setup_builtin_timep"].
Proof. reflexivity. Qed.

(** The number of declarations is fuel enough for [reach]: at that depth
    the set of names is closed. *)
Lemma timep_c_reach_closed (have_clock : bool) (name : string) :
  name ∈ exported (timep_c have_clock) ->
  expand (timep_c have_clock) (reach (timep_c have_clock) name) = reach (timep_c have_clock) name.
Proof.
  rewrite timep_c_exported. intros H. repeat apply elem_of_cons in H as [->|H];
    [| |inversion H]; destruct have_clock; vm_compute; reflexivity.
Qed.

Lemma timep_c_reach_fuel (have_clock : bool) (name : string) (k : nat) :
  name ∈ exported (timep_c have_clock) ->
  expand_n (length (timep_c have_clock) + k) (timep_c have_clock) [name]
  = reach (timep_c have_clock) name.
Proof.
  intros H. rewrite expand_n_add. apply expand_n_fixpoint, timep_c_reach_closed, H.
Qed.

(** What the command needs from the process that loads it is declared
    by the headers of lines 11-42: the C library and bash provide it. *)
Lemma timep_c_imports_declared (have_clock : bool) (macros : gset string) :
  imports (timep_c have_clock) "clock_gettime_struct" ⊆ scope_of (included macros).
Proof.
  rewrite scope_of_included. apply forallb_inb. destruct have_clock; vm_compute; reflexivity.
Qed.

(** [add_builtin] is declared by line 45 only, and needed by
    [setup_builtin_timep] only. *)
Lemma timep_c_add_builtin (have_clock : bool) (macros : gset string) :
  ("add_builtin" ∉ scope_of (included macros)) /\
  ("add_builtin" ∉ imports (timep_c have_clock) "clock_gettime_struct") /\
  imports (timep_c have_clock) "setup_builtin_timep"
  = "add_builtin" :: imports (timep_c have_clock) "clock_gettime_struct".
Proof.
  rewrite scope_of_included, <- !inb_spec.
  destruct have_clock; vm_compute; repeat split; congruence.
Qed.

(** ** Properties *)

(** C37.  [timep.c] compiles without an implicit declaration: whatever
    the command line defines and whichever arm of line 76 is compiled,
    every function or object a definition names is declared by a header
    of lines 11-42, by an earlier line of the file, or is the
    definition itself.  The prototype of line 49 is what makes the
    initialiser of line 105 legal, the declaration of line 45 what makes
    the call of line 135 legal. *)
Theorem timep_c_declared_before_use (have_clock : bool) (macros : gset string)
  (u1 u2 : list decl) (d : decl) (refs : list string) (r : string) :
  timep_c have_clock = u1 ++ d :: u2 -> d_body d = Some refs -> r ∈ refs ->
  r ∈ scope_of (included macros) \/ r ∈ d_name <$> u1 \/ r = d_name d.
Proof.
  intros Hu. apply declared_before_use_sound with (u2 := u2). rewrite <- Hu.
  pose proof (timep_c_well_formed have_clock macros) as Hw. unfold well_formed in Hw.
  rewrite !andb_true_iff in Hw. tauto.
Qed.

Lemma timep_c_declared_before_use_witness :
  "timep_builtin" ∈ scope_of (included ∅) \/
  "timep_builtin" ∈ d_name <$> [decl_add_builtin; decl_make_builtin_argv; proto_timep_builtin;
                                proto_clock_gettime_main; def_clock_gettime_doc;
                                def_clock_gettime_main true] \/
  "timep_builtin" = d_name def_clock_gettime_struct.
Proof.
  apply (timep_c_declared_before_use true ∅ _ [def_timep_builtin; def_setup_builtin_timep]
           def_clock_gettime_struct ["timep_builtin"; "clock_gettime_doc"]);
    [reflexivity | reflexivity | apply list_elem_of_here].
Defined.
