(* ===== verification/Prototypes.v ===== *)
(** * Prototypes: the calls of [timep.c] against the declarations in scope

    [TranslationUnit] checks that every name is declared before it is
    used.  This file checks how it is used: for every call of the file,
    that the function called is declared with parameters that accept the
    number of arguments passed, and for every function declared more
    than once, that its declarations are compatible.

    The edition of the language matters at one place.  Line 46 reads
    [extern char ** make_builtin_argv();].  Up to C17 an empty list in
    a declarator that is not a definition says nothing about the
    parameters (C17 6.7.6.3p14), the declaration is compatible with the
    prototype of [common.h], and the call of line 118 is checked against
    that prototype.  In C23 the same text declares a function that takes
    no parameters (C23 6.7.6.3p13): it conflicts with the prototype, and
    a call with two arguments is refused.  The command of line 3 names
    no edition, so the compiler's default decides.

    The parameters of the functions of the C library and of bash are
    taken from their headers. *)

From Stdlib Require Import Ascii String.
From stdpp Require Import gmap strings list.
From S2P Require Import Prelude TranslationUnit.

(** The edition of the language the compiler translates. *)
Inductive c_standard : Type := C17 | C23.

#[export] Instance c_standard_eq_dec : EqDecision c_standard.
Proof. solve_decision. Defined.

(** The parameters a function declarator gives: none specified, a fixed
    number, or at least a number, followed by [...]. *)
Inductive params : Type :=
| Unspecified
| Fixed (n : nat)
| Variadic (n : nat).

#[export] Instance params_eq_dec : EqDecision params.
Proof. solve_decision. Defined.

(** [()] in a declarator that is not part of a definition. *)
Definition empty_list (std : c_standard) : params :=
  match std with
  | C17 => Unspecified
  | C23 => Fixed 0
  end.

(** The prototypes of the headers, for the functions the file calls. *)
Definition header_params : list (string * params) := [
  ("printf", Variadic 1);
  ("snprintf", Variadic 3);
  ("strcmp", Fixed 2);
  ("strerror", Fixed 1);
  ("clock_gettime", Fixed 2);
  ("builtin_error", Variadic 1);
  ("make_builtin_argv", Fixed 2);
  ("xfree", Fixed 1);
  ("bind_variable", Fixed 3)
].

(** Lines 45, 46, 49 and 50: the declarations that are not
    definitions. *)
Definition prototypes (std : c_standard) : list (string * params) := [
  ("add_builtin", Fixed 2);
  ("make_builtin_argv", empty_list std);
  ("timep_builtin", Fixed 1);
  ("clock_gettime_main", Fixed 2)
].

(** Line 66: [static int clock_gettime_main(int argc, char ** argv)]. *)
Definition declarator_main : string * params := ("clock_gettime_main", Fixed 2).

(** Line 116: [static int timep_builtin(WORD_LIST * list)]. *)
Definition declarator_entry : string * params := ("timep_builtin", Fixed 1).

(** Line 134: [int setup_builtin_timep(void)]. *)
Definition declarator_setup : string * params := ("setup_builtin_timep", Fixed 0).

(** The declarators of the file, in the order of the text. *)
Definition file_params (std : c_standard) : list (string * params) :=
  prototypes std ++ [declarator_main; declarator_entry; declarator_setup].

(** A call: its line, the function called and the number of
    arguments. *)
Record call_site : Type := mk_call { c_line : nat; c_callee : string; c_args : nat }.

(** The calls of [clock_gettime_main], lines 66-101, in the arm of
    line 76 that is compiled. *)
Definition calls_of_main (have_clock : bool) : list call_site :=
  mk_call 68 "builtin_error" 1 ::
  (if have_clock
   then [mk_call 78 "clock_gettime" 2; mk_call 79 "strerror" 1; mk_call 79 "builtin_error" 2;
         mk_call 80 "xfree" 1; mk_call 89 "snprintf" 4; mk_call 90 "bind_variable" 3;
         mk_call 92 "printf" 2]
   else [mk_call 97 "builtin_error" 1; mk_call 98 "xfree" 1]).

(** The calls of [timep_builtin], lines 116-132. *)
Definition calls_of_entry : list call_site := [
  mk_call 118 "make_builtin_argv" 2; mk_call 123 "strcmp" 2;
  mk_call 124 "clock_gettime_main" 2; mk_call 126 "builtin_error" 2; mk_call 130 "xfree" 1
].

(** The call of [setup_builtin_timep], line 135. *)
Definition calls_of_setup : list call_site := [mk_call 135 "add_builtin" 2].

Definition calls (have_clock : bool) : list call_site :=
  calls_of_main have_clock ++ calls_of_entry ++ calls_of_setup.

(** Whether a command line chooses the edition itself, with [-std=]. *)
Definition names_edition (words : list string) : bool :=
  existsb (String.prefix "-std=") words.

(** The edition a command line is translated with, [default] being the
    compiler's own. *)
Definition edition_of (default : c_standard) (words : list string) : option c_standard :=
  if names_edition words then None else Some default.

(** ** What the compiler checks *)

(** The composite of two declarations of a function, when they are
    compatible (C17 6.2.7, 6.7.6.3p15): an empty list is compatible
    with a prototype that has no ellipsis. *)
Definition composite (p q : params) : option params :=
  match p, q with
  | Unspecified, Unspecified => Some Unspecified
  | Unspecified, Fixed n | Fixed n, Unspecified => Some (Fixed n)
  | Fixed a, Fixed b => if decide (a = b) then Some (Fixed a) else None
  | Variadic a, Variadic b => if decide (a = b) then Some (Variadic a) else None
  | _, _ => None
  end.

(** The declarations of [name] in scope, in the order of the text: the
    headers first. *)
Definition declarations_of (std : c_standard) (name : string) : list params :=
  snd <$> filter (fun d => bool_decide (d.1 = name)) (header_params ++ file_params std).

(** Their composite. *)
Fixpoint composite_all (p : params) (ps : list params) : option params :=
  match ps with
  | [] => Some p
  | q :: ps' => composite p q ≫= fun r => composite_all r ps'
  end.

(** How a function is declared where the file calls it: [None] when it
    is not declared, or declared in two ways that conflict. *)
Definition type_of (std : c_standard) (name : string) : option params :=
  match declarations_of std name with
  | [] => None
  | p :: ps => composite_all p ps
  end.

(** The number of arguments of a call fits the parameters (C17
    6.5.2.2p2); a function without a prototype is called with any
    number. *)
Definition accepts_args (p : params) (n : nat) : bool :=
  match p with
  | Unspecified => true
  | Fixed k => bool_decide (n = k)
  | Variadic k => bool_decide (k <= n)
  end.

Definition call_ok (std : c_standard) (c : call_site) : bool :=
  match type_of std (c_callee c) with
  | Some p => accepts_args p (c_args c)
  | None => false
  end.

(** The names the file declares. *)
Definition declared_names (std : c_standard) : list string := fst <$> file_params std.

(** The file translates: no declaration conflicts with an earlier one,
    and every call fits the function it calls. *)
Definition translates (std : c_standard) (have_clock : bool) : bool :=
  forallb (fun name => bool_decide (is_Some (type_of std name))) (declared_names std)
  && forallb (call_ok std) (calls have_clock).

(** ** The checker *)

(** A composite accepts what both declarations accept. *)
Lemma composite_accepts (p q r : params) (n : nat) :
  composite p q = Some r -> accepts_args r n = true ->
  accepts_args p n = true /\ accepts_args q n = true.
Proof.
  destruct p as [|a|a], q as [|b|b]; simpl; try discriminate;
    try (destruct (decide (a = b)) as [->|]; [|discriminate]); intros [= <-]; auto.
Qed.

Lemma composite_all_accepts (p : params) (ps : list params) (r : params) (n : nat) :
  composite_all p ps = Some r -> accepts_args r n = true ->
  Forall (fun q => accepts_args q n = true) (p :: ps).
Proof.
  revert p. induction ps as [|q ps IH]; intros p; simpl.
  - intros [= ->] Hn. repeat constructor. exact Hn.
  - destruct (composite p q) as [c|] eqn:Hc; [|discriminate]. simpl. intros Hr Hn.
    specialize (IH c Hr Hn). apply Forall_cons in IH as [Hcn Hps].
    destruct (composite_accepts p q c n Hc Hcn) as [Hp Hq].
    repeat constructor; assumption.
Qed.

(** What [translates] promises of every call: the call fits every
    declaration of the function that is in scope. *)
Lemma translates_sound (std : c_standard) (have_clock : bool) (c : call_site) :
  translates std have_clock = true -> c ∈ calls have_clock ->
  declarations_of std (c_callee c) <> [] /\
  Forall (fun q => accepts_args q (c_args c) = true) (declarations_of std (c_callee c)).
Proof.
  unfold translates. rewrite andb_true_iff, !forallb_forall.
  intros [_ Hc] Hin. apply list_elem_of_In, Hc in Hin. unfold call_ok, type_of in Hin.
  destruct (declarations_of std (c_callee c)) as [|p ps]; [discriminate|].
  split; [discriminate|].
  destruct (composite_all p ps) as [r|] eqn:Hr; [|discriminate].
  apply (composite_all_accepts p ps r _ Hr Hin).
Qed.

(** The calls are the uses that [TranslationUnit] records for the
    three functions. *)
Lemma calls_in_bodies (have_clock : bool) (c : call_site) :
  c ∈ calls have_clock ->
  c_callee c ∈ body_of (timep_c have_clock) "clock_gettime_main"
               ++ body_of (timep_c have_clock) "timep_builtin"
               ++ body_of (timep_c have_clock) "setup_builtin_timep".
Proof.
  rewrite <- !inb_spec. intros Hin. apply list_elem_of_In in Hin.
  revert c Hin. apply forallb_forall. destruct have_clock; reflexivity.
Qed.

(** Line 46 against the prototype of [common.h]. *)
Lemma make_builtin_argv_c17 : type_of C17 "make_builtin_argv" = Some (Fixed 2).
Proof. reflexivity. Qed.

Lemma make_builtin_argv_c23 : type_of C23 "make_builtin_argv" = None.
Proof. reflexivity. Qed.

(** Line 118 against line 46 alone. *)
Lemma line_118_against_line_46 (std : c_standard) :
  accepts_args (empty_list std) 2 = true <-> std = C17.
Proof. destruct std; simpl; split; (reflexivity || discriminate). Qed.

(** ** Properties *)

(** The command of line 3 leaves the edition to the compiler. *)
Lemma build_line_edition (default : c_standard) : edition_of default build_line = Some default.
Proof. reflexivity. Qed.

(** C24.  The command of line 3 translates the file exactly when the
    compiler's own edition of the language reads the empty parameter
    list of line 46 as C17 reads it.  Under C17 every function is
    declared compatibly wherever it is declared twice, and every call of
    the file, in both arms of line 76, passes a number of arguments that
    the declaration in scope accepts.  Under C23 the declaration of
    line 46 conflicts with the prototype of [common.h], so the file is
    refused, whichever arm is compiled. *)
Theorem timep_c_translates_iff (default : c_standard) (have_clock : bool) :
  (exists std, edition_of default build_line = Some std /\ translates std have_clock = true)
  <-> default = C17.
Proof.
  rewrite build_line_edition. split.
  - intros (std & [= <-] & Ht). destruct default; [reflexivity|].
    unfold translates in Ht. rewrite andb_true_iff in Ht.
    destruct Ht as [Hd _]. rewrite forallb_forall in Hd.
    specialize (Hd "make_builtin_argv" ltac:(simpl; auto)).
    rewrite make_builtin_argv_c23 in Hd. discriminate.
  - intros ->. exists C17. split; [reflexivity | destruct have_clock; reflexivity].
Qed.

(** Every call of the file, as C17 checks it. *)
Example calls_c17 :
  (fun c => (c_line c, type_of C17 (c_callee c), c_args c)) <$> calls_of_entry =
  [(118, Some (Fixed 2), 2); (123, Some (Fixed 2), 2); (124, Some (Fixed 2), 2);
   (126, Some (Variadic 1), 2); (130, Some (Fixed 1), 1)].
Proof. reflexivity. Qed.
