(* ===== verification/Loader.v ===== *)
(** * Loader: how the command of [timep.so] becomes callable

    [enable -f timep.so NAME] makes bash open the shared object, look up
    the symbol [NAME_struct], run [NAME_builtin_load] when the object has
    one, and enter the descriptor found in its table of builtins.  The
    symbols it can find are the definitions of [timep.c] with external
    linkage ([TranslationUnit.exported]); the descriptor behind
    [clock_gettime_struct] is [Builtin.clock_gettime_struct] (lines
    103-110) and the function behind [setup_builtin_timep] is
    [Builtin.setup_builtin_timep] (lines 134-137).

    The theorems say which names can be loaded (one: [clock_gettime]),
    what the table holds afterwards, and that loading neither runs
    [setup_builtin_timep] nor needs [add_builtin].  The loader is bash's
    and is modelled from its documented behaviour. *)

From stdpp Require Import gmap strings list.
From S2P Require Import Prelude CString Heap Host Shell ClockGettime Builtin TranslationUnit.

#[local] Open Scope Z_scope.
#[local] Open Scope timep_scope.

(** [STATIC_BUILTIN] of bash's [builtins.h]: the flag of the builtins
    compiled into the shell. *)
Definition STATIC_BUILTIN : Z := 4.

(** What [dlsym] returns: the object or the function at the address. *)
Inductive symbol_value : Type :=
| SymObject (b : builtin)
| SymFunction (f : M shell ub Z).

(** The object defined under a name: line 103. *)
Definition object_value (name : string) : option builtin :=
  if String.eqb name "clock_gettime_struct" then Some clock_gettime_struct else None.

(** The function with external linkage defined under a name: line 134. *)
Definition function_value (name : string) : option (M shell ub Z) :=
  if String.eqb name "setup_builtin_timep" then Some setup_builtin_timep else None.

(** [dlsym(handle, name)] on the object file of the declarations [u]:
    only what is exported is found. *)
Definition dlsym (u : list decl) (name : string) : option symbol_value :=
  if inb name (exported u) then
    match d_entity <$> find (fun d => String.eqb (d_name d) name && is_definition d) u with
    | Some Object => SymObject <$> object_value name
    | Some Function => SymFunction <$> function_value name
    | None => None
    end
  else None.

(** The two symbols bash derives from the name of a command. *)
Definition struct_symbol (name : string) : string := name +:+ "_struct".
Definition load_symbol (name : string) : string := name +:+ "_builtin_load".

Definition msg_cannot_find (name : string) : string :=
  "cannot find " +:+ struct_symbol name +:+ " in shared object".

Definition msg_load_failed (name : string) : string :=
  "load function for " +:+ name +:+ " returns failure: not loaded".

(** The descriptor as the loader leaves it: not static, and with the
    handle of the shared object. *)
Definition loaded (handle : Z) (b : builtin) : builtin :=
  mk_builtin (b_name b) (b_function b) (Z.land (b_flags b) (Z.lnot STATIC_BUILTIN))
    (b_long_doc b) (b_short_doc b) handle.

(** The descriptor replaces the builtin the shell finds under [name],
    or is added to the table. *)
Fixpoint install (name : string) (b : builtin) (bs : list builtin) : list builtin :=
  match bs with
  | [] => [b]
  | b' :: bs' => if bool_decide (b_name b' = name) then b :: bs' else b' :: install name b bs'
  end.

(** The shell calls the function of an enabled builtin; the only function
    this library defines is [timep_builtin]. *)
Definition callable (b : builtin) : bool :=
  bool_decide (b_function b = "timep_builtin") && negb (Z.land (b_flags b) BUILTIN_ENABLED =? 0).

(** The load function of a command, when the object has one, decides
    whether the command is loaded: 0 refuses. *)
Definition run_load_function (u : list decl) (name : string) : M shell ub bool :=
  match dlsym u (load_symbol name) with
  | Some (SymFunction f) => r <- f ;; ret (negb (r =? 0))
  | _ => ret true
  end.

(** [enable -f FILE NAME], after [dlopen] has returned [handle].  (A
    function found under [NAME_struct] would be read as a descriptor;
    [dlsym_struct] shows that the object has none.) *)
Definition enable_f (u : list decl) (handle : Z) (name : string) : M shell ub Z :=
  match dlsym u (struct_symbol name) with
  | Some (SymObject b) =>
      ok <- run_load_function u name ;;
      if ok : bool then
        modify (set_builtins (install name (loaded handle b))) ;; ret EXECUTION_SUCCESS
      else
        do_builtin_error (msg_load_failed name) ;; ret EXECUTION_FAILURE
  | _ => do_builtin_error (msg_cannot_find name) ;; ret EXECUTION_FAILURE
  end.

(** [dlopen(file, RTLD_LAZY)]: a shared object is mapped and its handle
    returned; any other kind of file is refused. *)
Definition dlopen (kind : output_kind) (handle : Z) : option Z :=
  match kind with
  | SharedObject => Some handle
  | Relocatable | Executable => None
  end.

Definition msg_cannot_open : string := "cannot open shared object".

(** [enable -f FILE NAME] from the start, on the file the compiler
    wrote. *)
Definition enable_file (kind : output_kind) (u : list decl) (handle : Z) (name : string)
  : M shell ub Z :=
  match dlopen kind handle with
  | Some h => enable_f u h name
  | None => do_builtin_error msg_cannot_open ;; ret EXECUTION_FAILURE
  end.

(** ** Symbols *)

(** The symbols of [timep.so]. *)
Lemma dlsym_timep_c (have_clock : bool) (name : string) :
  dlsym (timep_c have_clock) name =
  if String.eqb name "clock_gettime_struct" then Some (SymObject clock_gettime_struct)
  else if String.eqb name "setup_builtin_timep" then Some (SymFunction setup_builtin_timep)
  else None.
Proof.
  unfold dlsym. rewrite timep_c_exported. cbn [inb existsb].
  destruct (String.eqb_spec name "clock_gettime_struct") as [->|H1]; [reflexivity|].
  destruct (String.eqb_spec name "setup_builtin_timep") as [->|H2]; reflexivity.
Qed.

(** A symbol is derived from one name only. *)
Lemma struct_symbol_inj (name name' : string) :
  struct_symbol name = struct_symbol name' -> name = name'.
Proof. apply append_inv_tail. Qed.

(** If [name] with a suffix is [sym], then [name] is what is left of
    [sym] without the suffix. *)
Lemma symbol_name (suf name sym : string) :
  name +:+ suf = sym -> strip_suffix suf sym = Some name.
Proof. intros <-. apply strip_suffix_append. Qed.

(** [NAME_struct] is found for one name. *)
Lemma dlsym_struct (have_clock : bool) (name : string) :
  dlsym (timep_c have_clock) (struct_symbol name) =
  if decide (name = CMD_NAME) then Some (SymObject clock_gettime_struct) else None.
Proof.
  rewrite dlsym_timep_c. case_decide as Hn; [subst; reflexivity|].
  destruct (String.eqb_spec (struct_symbol name) "clock_gettime_struct") as [E|_].
  { contradiction Hn. apply struct_symbol_inj. exact E. }
  destruct (String.eqb_spec (struct_symbol name) "setup_builtin_timep") as [E|_]; [|reflexivity].
  apply symbol_name in E. discriminate.
Qed.

(** No name has a load function: [setup_builtin_timep] is not one. *)
Lemma dlsym_load (have_clock : bool) (name : string) :
  dlsym (timep_c have_clock) (load_symbol name) = None.
Proof.
  rewrite dlsym_timep_c.
  destruct (String.eqb_spec (load_symbol name) "clock_gettime_struct") as [E|_];
    [apply symbol_name in E; discriminate|].
  destruct (String.eqb_spec (load_symbol name) "setup_builtin_timep") as [E|_];
    [apply symbol_name in E; discriminate | reflexivity].
Qed.

(** ** The table *)

Lemma find_install_same (name : string) (b : builtin) (bs : list builtin) :
  b_name b = name -> find (fun b' => bool_decide (b_name b' = name)) (install name b bs) = Some b.
Proof.
  intros Hb. induction bs as [|b' bs IH]; cbn [install find].
  - rewrite bool_decide_eq_true_2 by exact Hb. reflexivity.
  - case_bool_decide as Hn; cbn [find].
    + rewrite bool_decide_eq_true_2 by exact Hb. reflexivity.
    + rewrite bool_decide_eq_false_2 by exact Hn. exact IH.
Qed.

Lemma find_install_other (name other : string) (b : builtin) (bs : list builtin) :
  b_name b = name -> other <> name ->
  find (fun b' => bool_decide (b_name b' = other)) (install name b bs)
  = find (fun b' => bool_decide (b_name b' = other)) bs.
Proof.
  intros Hb Hne. induction bs as [|b' bs IH]; cbn [install find].
  - rewrite bool_decide_eq_false_2 by congruence. reflexivity.
  - case_bool_decide as Hn; cbn [find].
    + rewrite !bool_decide_eq_false_2 by congruence. reflexivity.
    + rewrite IH. reflexivity.
Qed.

(** Installing keeps a property that holds of the table and of the
    descriptor. *)
Lemma Forall_install (P : builtin -> Prop) (name : string) (b : builtin) (bs : list builtin) :
  P b -> Forall P bs -> Forall P (install name b bs).
Proof.
  intros Hb. induction 1 as [|b' bs Hb' Hbs IH]; cbn [install]; [repeat constructor; exact Hb|].
  case_bool_decide; constructor; assumption.
Qed.

(** The static functions are not symbols of the object: the entry point
    is reached through the descriptor only. *)
Lemma dlsym_static (have_clock : bool) (d : decl) :
  d ∈ timep_c have_clock -> d_linkage d = Internal -> dlsym (timep_c have_clock) (d_name d) = None.
Proof.
  intros Hd Hi. unfold dlsym.
  destruct (inb (d_name d) (exported (timep_c have_clock))) eqn:E; [|reflexivity].
  apply inb_spec in E. contradict E. apply exported_not_internal; [|exact Hd | exact Hi].
  pose proof (timep_c_well_formed have_clock ∅) as Hw. unfold well_formed in Hw.
  rewrite !andb_true_iff in Hw. tauto.
Qed.

(** ** [enable -f] *)

Lemma run_load_function_none (have_clock : bool) (name : string) (sh : shell) :
  run_load_function (timep_c have_clock) name sh = Done true sh.
Proof. unfold run_load_function. rewrite dlsym_load. reflexivity. Qed.

Lemma enable_f_known (have_clock : bool) (handle : Z) (sh : shell) :
  enable_f (timep_c have_clock) handle CMD_NAME sh
  = Done EXECUTION_SUCCESS
      (set_builtins (install CMD_NAME (loaded handle clock_gettime_struct)) sh).
Proof.
  unfold enable_f. rewrite dlsym_struct, decide_True by reflexivity.
  unfold bind at 1. rewrite run_load_function_none. reflexivity.
Qed.

Lemma enable_f_unknown (have_clock : bool) (handle : Z) (name : string) (sh : shell) :
  name <> CMD_NAME ->
  enable_f (timep_c have_clock) handle name sh
  = Done EXECUTION_FAILURE (builtin_error (msg_cannot_find name) sh).
Proof. intros Hn. unfold enable_f. rewrite dlsym_struct, decide_False by exact Hn. reflexivity. Qed.

(** The file line 3 writes cannot be loaded, whatever the name; linked
    as a shared object it is loaded as [enable_f] says. *)
Lemma enable_file_build_line (have_clock : bool) (handle : Z) (name : string) (sh : shell) :
  enable_file (output_of build_line) (timep_c have_clock) handle name sh
  = Done EXECUTION_FAILURE (builtin_error msg_cannot_open sh) /\
  enable_file (output_of (filter (fun w => w <> "-c") build_line)) (timep_c have_clock)
    handle name sh
  = enable_f (timep_c have_clock) handle name sh.
Proof. destruct build_line_output as [-> ->]. split; reflexivity. Qed.

(** ** Properties *)

(** C25.  [enable -f timep.so NAME] always returns, and loads a command
    exactly when [NAME] is [clock_gettime]: then the shell finds under
    that name the descriptor of lines 103-110 with the handle of the
    object, which is callable, every other name is found as before and
    nothing the shell shows has changed; for any other name the table is
    left as it was and the shell reports that [NAME_struct] cannot be
    found.  [setup_builtin_timep] takes no part in it. *)
Theorem enable_f_loads (have_clock : bool) (handle : Z) (name : string) (sh : shell) :
  exists r sh', enable_f (timep_c have_clock) handle name sh = Done r sh' /\
    (r = EXECUTION_SUCCESS <-> name = CMD_NAME) /\
    (name = CMD_NAME ->
       find_builtin CMD_NAME sh' = Some (loaded handle clock_gettime_struct) /\
       callable (loaded handle clock_gettime_struct) = true /\
       (forall other, other <> CMD_NAME -> find_builtin other sh' = find_builtin other sh) /\
       observe sh' = observe sh) /\
    (name <> CMD_NAME ->
       sh_builtins sh' = sh_builtins sh /\
       sh_stderr sh' = sh_stderr sh ++ [msg_cannot_find name]).
Proof.
  destruct (decide (name = CMD_NAME)) as [->|Hn].
  - eexists _, _. split; [apply enable_f_known|].
    split; [tauto|]. split; [intros _|contradiction].
    split; [apply find_install_same; reflexivity|]. split; [reflexivity|].
    split; [|reflexivity]. intros other Ho. apply find_install_other; [reflexivity | exact Ho].
  - eexists _, _. split; [apply enable_f_unknown, Hn|].
    split; [split; [discriminate | contradiction]|]. split; [contradiction|].
    intros _. split; reflexivity.
Qed.
