(* ===== verification/Contract.v ===== *)
(** * Contract: what the command promises, and the refinement

    The specification describes the command without the shell's
    machinery: a reader of the process CPU time that returns microseconds
    or an error, and an output dispatch that prints the value, assigns it
    to a variable, or reports a usage error.  This file states that
    contract on an abstract state (variables as strings, the text printed,
    the diagnostics) and proves that [timep_builtin] implements it: the
    abstraction of the shell after the run is the contract's effect on the
    abstraction of the shell before it, and the status is the contract's.

    For the responses [Printed], [Assigned] and [UsageError] the run
    returns the contract's status.  For [ClockFailure] the state the
    contract asks for is reached as well, the diagnostic written and
    nothing else changed, but the run does not return: the code releases
    [argv] a second time ([Builtin.timep_builtin_double_free]).  The
    theorem says both. *)

From stdpp Require Import gmap strings list.
From S2P Require Import Prelude Int64 Micros Decimal CString Heap Host Shell.
From S2P Require Import ClockGettime Builtin Run.

#[local] Open Scope Z_scope.

(** [ClockError] of the specification. *)
Inductive clock_error : Type :=
| Unsupported
| SystemCallFailed (text : string).

(** [read_cpu_time_micros() -> Result<i64, ClockError>]: the reading of
    the clock converted to microseconds.  [None] where the specification
    is silent: a time that does not fit 64 bits. *)
Definition read_cpu_time_micros (have_clock : bool) (errtext : Z -> string)
  (c : clock_result) : option (clock_error + Z) :=
  if have_clock then
    match c with
    | ClockErr errno => Some (inl (SystemCallFailed (errtext errno)))
    | ClockOk ts => inr <$> micros_of_timespec ts
    end
  else Some (inl Unsupported).

(** What one invocation does. *)
Inductive response : Type :=
| Printed (line : string)
| Assigned (var value : string)
| UsageError
| ClockFailure (e : clock_error).

(** The output dispatch: more than one argument is a usage error and the
    clock is not consulted; one non-empty argument names the variable to
    assign; otherwise the value is printed on a line of its own. *)
Definition contract (have_clock : bool) (errtext : Z -> string)
  (args : list string) (c : clock_result) : option response :=
  if decide (2 <= length args)%nat then Some UsageError
  else
    match read_cpu_time_micros have_clock errtext c with
    | None => None
    | Some (inl e) => Some (ClockFailure e)
    | Some (inr micros) =>
        match target_of args with
        | Some var => Some (Assigned var (fmt_lld micros))
        | None => Some (Printed (fmt_lld micros +:+ NEWLINE))
        end
    end.

(** The exit status of a response. *)
Definition status_of (r : response) : Z :=
  match r with
  | Printed _ | Assigned _ _ => EXECUTION_SUCCESS
  | UsageError | ClockFailure _ => EXECUTION_FAILURE
  end.

Definition diagnostic_of (e : clock_error) : string :=
  match e with
  | Unsupported => MSG_UNSUPPORTED
  | SystemCallFailed text => MSG_FAILED +:+ text
  end.

(** The abstract state: the variables and the two output channels. *)
Record abs_state : Type := mk_abs {
  a_vars : gmap string string;
  a_stdout : string;
  a_diag : list string
}.

(** The effect of a response on the abstract state. *)
Definition apply_response (r : response) (a : abs_state) : abs_state :=
  match r with
  | Printed line => mk_abs (a_vars a) (a_stdout a +:+ line) (a_diag a)
  | Assigned var value => mk_abs (<[var := value]> (a_vars a)) (a_stdout a) (a_diag a)
  | UsageError => mk_abs (a_vars a) (a_stdout a) (a_diag a ++ [MSG_TOO_MANY])
  | ClockFailure e => mk_abs (a_vars a) (a_stdout a) (a_diag a ++ [diagnostic_of e])
  end.

(** The abstraction function: what the contract sees of an observation. *)
Definition abstract (o : obs) : abs_state :=
  mk_abs (var_value <$> o_vars o) (o_stdout o) (o_stderr o).

(** The response is one the code implements. *)
Definition implemented (r : response) : bool :=
  match r with ClockFailure _ => false | _ => true end.

(** The variable a response writes is writable. *)
Definition writable (o : obs) (r : response) : bool :=
  match r with
  | Assigned var _ => negb (is_readonly o var)
  | _ => true
  end.

(** ** The contract *)

Lemma contract_usage (have_clock : bool) (errtext : Z -> string) (args : list string)
  (c : clock_result) :
  (2 <= length args)%nat -> contract have_clock errtext args c = Some UsageError.
Proof. intros H. unfold contract. rewrite decide_True by exact H. reflexivity. Qed.

Lemma contract_inv (have_clock : bool) (errtext : Z -> string) (args : list string)
  (c : clock_result) (r : response) :
  contract have_clock errtext args c = Some r ->
  ((2 <= length args)%nat /\ r = UsageError) \/
  ((length args <= 1)%nat /\
   ((have_clock = false /\ r = ClockFailure Unsupported) \/
    (have_clock = true /\ exists errno, c = ClockErr errno /\
       r = ClockFailure (SystemCallFailed (errtext errno))) \/
    (have_clock = true /\ exists ts micros, c = ClockOk ts /\
       micros_of_timespec ts = Some micros /\
       r = match target_of args with
           | Some var => Assigned var (fmt_lld micros)
           | None => Printed (fmt_lld micros +:+ NEWLINE)
           end))).
Proof.
  unfold contract, read_cpu_time_micros.
  destruct (decide (2 <= length args)%nat) as [Hge|Hlt]; [intros [= <-]; auto|].
  intros Hr. right. split; [lia|].
  destruct have_clock; [|injection Hr as <-; auto].
  destruct c as [ts|errno]; [|injection Hr as <-; right; left; eauto].
  destruct (micros_of_timespec ts) as [m|] eqn:Hm; [|discriminate].
  right. right. split; [reflexivity|]. exists ts, m. simpl in Hr.
  destruct (target_of args); injection Hr as <-; auto.
Qed.

Lemma abstract_release (p : Z) (o : obs) : abstract (obs_release p o) = abstract o.
Proof. reflexivity. Qed.

Lemma abstract_clock_read (o : obs) : abstract (obs_clock_read o) = abstract o.
Proof. reflexivity. Qed.

Lemma abstract_alloc (o : obs) : abstract (obs_alloc o).2 = abstract o.
Proof. reflexivity. Qed.

Lemma abstract_write_stdout (s : string) (o : obs) :
  abstract (obs_write_stdout s o) = apply_response (Printed s) (abstract o).
Proof. reflexivity. Qed.

Lemma abstract_builtin_error (msg : string) (o : obs) :
  abstract (obs_builtin_error msg o)
  = mk_abs (a_vars (abstract o)) (a_stdout (abstract o)) (a_diag (abstract o) ++ [msg]).
Proof. reflexivity. Qed.

Lemma abstract_bind_variable (var value : string) (o : obs) :
  is_readonly o var = false ->
  abstract (obs_bind_variable var value o) = apply_response (Assigned var value) (abstract o).
Proof.
  intros Hr. rewrite obs_bind_variable_writable by exact Hr.
  unfold abstract. simpl. rewrite fmap_insert. reflexivity.
Qed.

Lemma writable_vars (o o' : obs) (r : response) :
  o_vars o = o_vars o' -> writable o r = writable o' r.
Proof. intros Hv. destruct r; simpl; unfold is_readonly, var_lookup; rewrite ?Hv; reflexivity. Qed.

(** The emission of lines 87-93 is the contract's response. *)
Lemma abstract_emit (args : list string) (micros : Z) (o : obs) :
  I64.in_range micros ->
  writable o (match target_of args with
              | Some var => Assigned var (fmt_lld micros)
              | None => Printed (fmt_lld micros +:+ NEWLINE)
              end) = true ->
  abstract (obs_emit (target_of args) micros o)
  = apply_response (match target_of args with
                    | Some var => Assigned var (fmt_lld micros)
                    | None => Printed (fmt_lld micros +:+ NEWLINE)
                    end) (abstract o).
Proof.
  intros Hin Hw. destruct (target_of args) as [var|]; simpl in *.
  - rewrite buf_micros_full by exact Hin.
    apply abstract_bind_variable, negb_true_iff, Hw.
  - reflexivity.
Qed.

(** The contract answers with success exactly when the clock is read and
    converted. *)
Lemma contract_success_iff (have_clock : bool) (errtext : Z -> string) (args : list string)
  (c : clock_result) :
  (exists r, contract have_clock errtext args c = Some r /\ status_of r = EXECUTION_SUCCESS) <->
  (length args <= 1)%nat /\ have_clock = true /\
  exists ts micros, c = ClockOk ts /\ micros_of_timespec ts = Some micros.
Proof.
  split.
  - intros (r & Hc & Hs). apply contract_inv in Hc
      as [[_ ->]|[Hlen [[_ ->]|[(_ & e & _ & ->)|(-> & ts & m & -> & Hm & _)]]]];
      try discriminate Hs. eauto 6.
  - intros (Hlen & -> & ts & m & -> & Hm). unfold contract, read_cpu_time_micros.
    rewrite decide_False by lia. rewrite Hm. simpl.
    destruct (target_of args); eauto.
Qed.

(** With a clock that works and a time that converts, the contract
    answers with a response the code implements. *)
Lemma contract_clock_ok (errtext : Z -> string) (args : list string) (ts : timespec) (m : Z) :
  micros_of_timespec ts = Some m ->
  exists r, contract true errtext args (ClockOk ts) = Some r /\ implemented r = true /\
    (forall var value, r = Assigned var value -> target_of args = Some var).
Proof.
  intros Hm. unfold contract, read_cpu_time_micros. rewrite Hm. cbn [fmap option_fmap option_map].
  destruct (decide (2 <= length args)%nat); [eexists; split; [reflexivity|]; split; [reflexivity|];
    discriminate|].
  destruct (target_of args) as [var|]; eexists; (split; [reflexivity|]); (split; [reflexivity|]);
    intros var' value' [=]; subst; reflexivity.
Qed.

(** ** The contract and the functions of [Run] *)

(** [contract_cases]: one goal per answer of the contract. *)
Ltac contract_cases H :=
  apply contract_inv in H
    as [[? ->]|[? [[-> ->]|[(-> & ? & -> & ->)|(-> & ? & ? & -> & ? & ->)]]]];
  repeat match goal with
         | |- context [decide ?P] => destruct (decide P); [|]; try lia
         | H : micros_of_timespec _ = _ |- _ => rewrite H
         end.

(** The status of a run is the contract's, except that a clock failure
    ends in the second release of [argv]. *)
Lemma contract_result (have_clock : bool) (errtext : Z -> string) (name : string)
  (args : list string) (c : clock_result) (p : Z) (r : response) :
  is_clock_gettime name = true -> contract have_clock errtext args c = Some r ->
  expected_result have_clock name args c p
  = if implemented r then inl (status_of r) else inr (DoubleFree p).
Proof.
  intros Hn Hc. unfold expected_result, main_result, main_releases. rewrite Hn.
  contract_cases Hc; try reflexivity. destruct (target_of args); reflexivity.
Qed.

(** The observation of a run, seen through the abstraction, is the
    contract's effect, on every path. *)
Lemma contract_obs (have_clock : bool) (errtext : Z -> string) (name : string)
  (args : list string) (c : clock_result) (o : obs) (r : response) :
  is_clock_gettime name = true -> contract have_clock errtext args c = Some r ->
  writable o r = true ->
  abstract (expected_obs have_clock name args c errtext o) = apply_response r (abstract o).
Proof.
  intros Hn Hc Hw. unfold expected_obs, expected_result, main_obs, main_result, main_releases.
  rewrite Hn. contract_cases Hc; try reflexivity.
  rewrite abstract_release, abstract_emit; [reflexivity | | exact Hw].
  eapply micros_of_timespec_in_range. eassumption.
Qed.

Section Refinement.
Context {W : Type} `{HostLaws W}.

(** The run of the entry point along the abstraction: the shared core
    of the refinement of one call and of the simulation of a session. *)
Lemma timep_builtin_implements (have_clock : bool) (args : list string)
  (w : W) (r : response) :
  this_command_name w = CMD_NAME ->
  contract have_clock strerror args (next_clock w) = Some r ->
  implemented r = true -> writable (observe w) r = true ->
  exists w', timep_builtin have_clock args w = Done (status_of r) w' /\
    abstract (observe w') = apply_response r (abstract (observe w)).
Proof.
  intros Hn Hc Himpl Hw.
  apply contract_inv in Hc
    as [[Hlen ->]|[Hlen [[_ ->]|[(_ & e & _ & ->)|(-> & ts & m & Hck & Hm & ->)]]]];
    try discriminate Himpl.
  - destruct (timep_builtin_usage_observe have_clock args w Hn Hlen) as (w' & Hrun & Ho & _).
    exists w'. split; [exact Hrun|]. rewrite Ho. reflexivity.
  - destruct (timep_builtin_success_observe args w ts m Hn Hlen Hck Hm) as (w' & Hrun & Ho & _).
    exists w'. split; [destruct (target_of args); exact Hrun|].
    rewrite Ho, abstract_release, abstract_emit.
    + rewrite abstract_clock_read, abstract_alloc. reflexivity.
    + apply (micros_of_timespec_in_range ts), Hm.
    + rewrite <- Hw. apply writable_vars. reflexivity.
Qed.

(** ** Properties *)

(** C6.  Refinement: when the command is called by its name,
    [timep_builtin] implements the contract, up to the return from a
    clock failure.  If the contract answers [r] for the arguments and the
    state of the clock, and the variable to assign is not readonly, then
    on every path the abstraction of the shell at the end of the run is
    the effect of [r] on the abstraction of the shell it started from;
    and the run returns the status of [r] for every response but a clock
    failure, where it ends, the diagnostic written, in the second release
    of [argv]. *)
Theorem timep_builtin_refines_contract (have_clock : bool) (args : list string)
  (w : W) (r : response) :
  is_clock_gettime (this_command_name w) = true ->
  contract have_clock strerror args (next_clock w) = Some r ->
  writable (observe w) r = true ->
  result_of (timep_builtin have_clock args w)
  = (if implemented r then inl (status_of r) else inr (DoubleFree (call_ptr w))) /\
  abstract (observe (world_of (timep_builtin have_clock args w)))
  = apply_response r (abstract (observe w)).
Proof.
  intros Hn Hc Hw. destruct (timep_builtin_total have_clock args w) as [-> ->].
  split; [apply (contract_result _ _ _ _ _ _ _ Hn Hc) | apply (contract_obs _ _ _ _ _ _ _ Hn Hc Hw)].
Qed.

(** When the code succeeds. *)
Lemma timep_builtin_success_cases (have_clock : bool) (args : list string) (w : W) :
  this_command_name w = CMD_NAME ->
  ((exists w', timep_builtin have_clock args w = Done EXECUTION_SUCCESS w') <->
   (length args <= 1)%nat /\ have_clock = true /\
   exists ts micros, next_clock w = ClockOk ts /\ micros_of_timespec ts = Some micros).
Proof.
  intros Hn. split.
  - intros [w' Hrun].
    destruct (le_lt_dec 2 (length args)) as [Hge|Hlt].
    { destruct (timep_builtin_usage_observe have_clock args w Hn Hge) as (w2 & Hrun2 & _).
      rewrite Hrun in Hrun2. discriminate. }
    assert (Hlen : (length args <= 1)%nat) by lia. split; [exact Hlen|].
    assert (Hno : ~ (have_clock = false \/ exists errno, next_clock w = ClockErr errno)).
    { intros Hcase.
      destruct (timep_builtin_fail_run have_clock args w Hn Hlen Hcase) as (w2 & o & Hrun2 & _).
      rewrite Hrun in Hrun2. discriminate. }
    destruct have_clock; [split; [reflexivity|] | tauto].
    destruct (next_clock w) as [ts|errno] eqn:Hc; [|exfalso; eauto].
    destruct (micros_of_timespec ts) as [m|] eqn:Hm; [eauto|].
    destruct (timep_builtin_overflow_run args w ts Hn Hlen Hc Hm) as [w2 Hrun2].
    rewrite Hrun in Hrun2. discriminate.
  - intros (Hlen & -> & ts & m & Hc & Hm).
    destruct (timep_builtin_success_observe args w ts m Hn Hlen Hc Hm) as (w' & Hrun & _).
    eauto.
Qed.

(** The status is the contract's: called by its name,
    [timep_builtin] returns [EXECUTION_SUCCESS] exactly when the contract
    answers with a response whose status is success, that is, when there
    is at most one argument, the process clock exists, the system call
    succeeds and the time converts within 64 bits. *)
Theorem timep_builtin_success_iff (have_clock : bool) (args : list string) (w : W) :
  this_command_name w = CMD_NAME ->
  ((exists w', timep_builtin have_clock args w = Done EXECUTION_SUCCESS w') <->
   exists r, contract have_clock strerror args (next_clock w) = Some r /\
     status_of r = EXECUTION_SUCCESS).
Proof.
  intros Hn. rewrite (timep_builtin_success_cases have_clock args w Hn).
  symmetry. apply contract_success_iff.
Qed.

End Refinement.

(** ** The theorems at work on the concrete shell *)

Lemma timep_builtin_refines_contract_witness :
  result_of (timep_builtin true ["T0"] demo_shell)
  = (if implemented (Assigned "T0" (fmt_lld 1500000))
     then inl (status_of (Assigned "T0" (fmt_lld 1500000)))
     else inr (DoubleFree (call_ptr demo_shell))) /\
  abstract (observe (world_of (timep_builtin true ["T0"] demo_shell)))
  = apply_response (Assigned "T0" (fmt_lld 1500000)) (abstract (observe demo_shell)).
Proof.
  apply (timep_builtin_refines_contract true ["T0"] demo_shell
           (Assigned "T0" (fmt_lld 1500000))); reflexivity.
Defined.

(** The clock fails: the contract's diagnostic is written and nothing
    else has changed, and the run does not return. *)
Example clock_failure_against_contract :
  let w := set_clock_errno (Some EINVAL) demo_shell in
  contract true strerror [] (next_clock w)
  = Some (ClockFailure (SystemCallFailed "Invalid argument")) /\
  result_of (timep_builtin true [] w) = inr (DoubleFree (call_ptr w)) /\
  abstract (observe (world_of (timep_builtin true [] w)))
  = apply_response (ClockFailure (SystemCallFailed "Invalid argument")) (abstract (observe w)).
Proof. vm_compute. repeat split. Qed.

Lemma timep_builtin_success_iff_witness :
  (exists w', timep_builtin true [] demo_shell = Done EXECUTION_SUCCESS w') <->
  exists r, contract true strerror [] (next_clock demo_shell) = Some r /\
    status_of r = EXECUTION_SUCCESS.
Proof. apply (timep_builtin_success_iff true [] demo_shell). reflexivity. Defined.
