(* ===== verification/Repair.v ===== *)
(** * Repair: the entry point without lines 80 and 98

    [Ownership] shows what goes wrong between [timep_builtin] and
    [clock_gettime_main]: the callee releases [argv] on two of its
    returns and the caller releases it on all.  This file takes the
    smallest change that settles it, deleting the two calls [xfree(argv)]
    of lines 80 and 98 ([Ownership.main_without_release]), and compares
    the entry point that results with the one of the source, run for
    run.

    The two runs go through the same calls until the source's second
    release.  So they end in the same world, and with the same result
    except that where the source ends in the release of a block that is
    not live the other returns [EXECUTION_FAILURE].  It follows that the
    changed entry point implements the contract of [Contract] for every
    response, the clock failures included. *)

From stdpp Require Import gmap strings list.
From S2P Require Import Prelude Int64 Micros Decimal CString Heap Host Shell.
From S2P Require Import ClockGettime Builtin Run Ownership Contract.

#[local] Open Scope Z_scope.
#[local] Open Scope timep_scope.

(** What the change makes of a result. *)
Definition repaired_result (r : Z + ub) : Z + ub :=
  match r with
  | inr (DoubleFree _) => inl EXECUTION_FAILURE
  | _ => r
  end.

Section Repair.
Context {W : Type} `{HostLaws W}.

(** Lines 116-132 around [clock_gettime_main] without lines 80 and
    98. *)
Definition timep_builtin_repaired (have_clock : bool) : list string -> M W ub Z :=
  entry_with (main_without_release have_clock).

(** ** The two callees *)

(** Two runs that are alike, or of which the second returns
    [EXECUTION_FAILURE] where the first has the release of [p] left to
    do. *)
Definition release_left (p : Z) (o o' : outcome W ub Z) : Prop :=
  o = o' \/ exists w1, o' = Done EXECUTION_FAILURE w1 /\
                       o = (do_xfree p ;; ret EXECUTION_FAILURE) w1.

Lemma release_left_bind {A : Type} (p : Z) (m : M W ub A) (k k' : A -> M W ub Z) (w : W) :
  (forall a w', release_left p (k a w') (k' a w')) ->
  release_left p (bind m k w) (bind m k' w).
Proof. intros Hk. unfold bind. destruct (m w); [apply Hk | left; reflexivity]. Qed.

(** A failure arm, with and without its release. *)
Lemma release_left_fail (p : Z) (msg : string) (w : W) :
  release_left p ((do_builtin_error msg ;; do_xfree p ;; ret EXECUTION_FAILURE) w)
                 ((do_builtin_error msg ;; ret EXECUTION_FAILURE) w).
Proof. right. eexists. split; reflexivity. Qed.

Lemma main_compare (have_clock : bool) (argc : Z) (argv : argv_t) (w : W) :
  release_left (argv_ptr argv) (clock_gettime_main have_clock argc argv w)
                               (main_without_release have_clock argc argv w).
Proof.
  unfold clock_gettime_main, main_without_release.
  destruct (2 <? argc); [left; reflexivity|].
  apply release_left_bind. intros v w0.
  destruct have_clock; [|apply release_left_fail].
  apply release_left_bind. intros [ts|errno] w1; [left; reflexivity | apply release_left_fail].
Qed.

Lemma dispatch_compare (have_clock : bool) (sub : string) (argc : Z) (argv : argv_t) (w : W) :
  release_left (argv_ptr argv)
    (dispatch_to (clock_gettime_main have_clock) sub argc argv w)
    (dispatch_to (main_without_release have_clock) sub argc argv w).
Proof.
  unfold dispatch_to. destruct (is_clock_gettime sub); [apply main_compare | left; reflexivity].
Qed.

(** The changed callee returns with [argv] allocated. *)
Lemma repaired_callee_live (have_clock : bool) (ws : list string) (w w1 : W) (r : Z) :
  dispatch_to (main_without_release have_clock) (this_command_name w) (call_argc ws)
    (call_argv ws w) (call_world ws w) = Done r w1 ->
  o_heap (observe w1) !! call_ptr w = Some Live.
Proof.
  intros Hrun.
  pose proof (dispatch_to_borrows (fun _ => True) _ (this_command_name w)
                (main_without_release_borrows have_clock) _ _ _
                (call_argv_ok ws w) (call_argv_live ws w) I) as Hb.
  rewrite Hrun in Hb. simpl in Hb. rewrite Hb. apply call_world_live.
Qed.

(** The changed entry point never releases a block that is not live. *)
Lemma repaired_not_double_free (have_clock : bool) (ws : list string) (w : W) :
  repaired_result (result_of (timep_builtin_repaired have_clock ws w))
  = result_of (timep_builtin_repaired have_clock ws w).
Proof.
  pose proof (entry_without_release have_clock ws w) as Hr.
  unfold timep_builtin_repaired, released_once, post in *.
  destruct (entry_with _ ws w) as [r w'|u w']; [reflexivity|]. subst u. reflexivity.
Qed.

(** ** The two entry points *)

(** The entry point depends on the callee through the run of line 124
    only. *)
Lemma entry_with_ext (callee callee' : Z -> argv_t -> M W ub Z) (ws : list string) (w : W) :
  dispatch_to callee (this_command_name w) (call_argc ws) (call_argv ws w) (call_world ws w)
  = dispatch_to callee' (this_command_name w) (call_argc ws) (call_argv ws w) (call_world ws w) ->
  entry_with callee ws w = entry_with callee' ws w.
Proof. intros Heq. rewrite !entry_with_run. unfold bind at 1. rewrite Heq. reflexivity. Qed.

(** Run for run. *)
Lemma repair_run (have_clock : bool) (ws : list string) (w : W) :
  world_of (timep_builtin_repaired have_clock ws w) = world_of (timep_builtin have_clock ws w) /\
  result_of (timep_builtin_repaired have_clock ws w)
  = repaired_result (result_of (timep_builtin have_clock ws w)).
Proof.
  unfold timep_builtin_repaired. rewrite timep_builtin_is_entry.
  destruct (dispatch_compare have_clock (this_command_name w) (call_argc ws) (call_argv ws w)
              (call_world ws w)) as [Heq|(w1 & Hrep & Horig)].
  - rewrite (entry_with_ext _ _ ws w Heq). split; [reflexivity|].
    symmetry. apply repaired_not_double_free.
  - destruct (release_live EXECUTION_FAILURE (call_ptr w) w1) as (w2 & Hrun & Ho);
      [apply call_ptr_not_null | apply (repaired_callee_live have_clock ws _ _ _ Hrep) |].
    rewrite call_argv_ptr, Hrun in Horig.
    rewrite !entry_with_run, (bind_done _ _ _ _ _ Hrep), (bind_done _ _ _ _ _ Horig).
    rewrite Hrun, release_freed; [split; reflexivity | apply call_ptr_not_null |].
    rewrite Ho. apply lookup_insert_eq.
Qed.

(** ** Properties *)

(** C18.  The change is conservative, and it is enough.  Wherever the entry
    point of the source returns, the changed one runs exactly as it
    does: the same status and the same world.  Wherever the source
    releases [argv] a second time, the changed one returns
    [EXECUTION_FAILURE] in the world the source had reached.  And an
    overflow of line 85 remains one. *)
Theorem repair_conservative (have_clock : bool) (ws : list string) (w : W) :
  (is_done (timep_builtin have_clock ws w) = true ->
   timep_builtin_repaired have_clock ws w = timep_builtin have_clock ws w) /\
  (result_of (timep_builtin have_clock ws w) = inr (DoubleFree (call_ptr w)) ->
   timep_builtin_repaired have_clock ws w
   = Done EXECUTION_FAILURE (world_of (timep_builtin have_clock ws w))) /\
  (result_of (timep_builtin have_clock ws w) = inr SignedOverflow ->
   timep_builtin_repaired have_clock ws w = timep_builtin have_clock ws w).
Proof.
  destruct (repair_run have_clock ws w) as [Hw Hr].
  destruct (timep_builtin have_clock ws w) as [r w'|u w'],
           (timep_builtin_repaired have_clock ws w) as [r2 w2|u2 w2];
    simpl in *; subst; split_conj; intros Hd; try discriminate Hd;
    try (destruct u; discriminate Hr); try (destruct u; simplify_eq; reflexivity);
    simplify_eq; reflexivity.
Qed.

(** C17.  The changed entry point implements the contract, the clock
    failures included: whatever the contract answers, the run returns
    the status of the answer and leaves the state the answer
    describes. *)
Theorem repaired_refines_contract (have_clock : bool) (args : list string)
  (w : W) (r : response) :
  is_clock_gettime (this_command_name w) = true ->
  contract have_clock strerror args (next_clock w) = Some r ->
  writable (observe w) r = true ->
  result_of (timep_builtin_repaired have_clock args w) = inl (status_of r) /\
  abstract (observe (world_of (timep_builtin_repaired have_clock args w)))
  = apply_response r (abstract (observe w)).
Proof.
  intros Hn Hc Hw. destruct (repair_run have_clock args w) as [-> ->].
  destruct (timep_builtin_total have_clock args w) as [-> ->].
  rewrite (contract_result _ _ _ _ _ _ _ Hn Hc), (contract_obs _ _ _ _ _ _ _ Hn Hc Hw).
  split; [destruct r; reflexivity | reflexivity].
Qed.

End Repair.

(** ** The theorems at work *)

Lemma repaired_refines_contract_witness :
  result_of (timep_builtin_repaired true [] (set_clock_errno (Some EINVAL) demo_shell))
  = inl (status_of (ClockFailure (SystemCallFailed (strerror (W:=shell) EINVAL)))) /\
  abstract (observe (world_of
    (timep_builtin_repaired true [] (set_clock_errno (Some EINVAL) demo_shell))))
  = apply_response (ClockFailure (SystemCallFailed (strerror (W:=shell) EINVAL)))
      (abstract (observe (set_clock_errno (Some EINVAL) demo_shell))).
Proof.
  apply (repaired_refines_contract true [] (set_clock_errno (Some EINVAL) demo_shell));
    reflexivity.
Defined.

Lemma repair_conservative_witness :
  (is_done (timep_builtin true ["T0"] demo_shell) = true ->
   timep_builtin_repaired true ["T0"] demo_shell = timep_builtin true ["T0"] demo_shell) /\
  (result_of (timep_builtin true ["T0"] demo_shell) = inr (DoubleFree (call_ptr demo_shell)) ->
   timep_builtin_repaired true ["T0"] demo_shell
   = Done EXECUTION_FAILURE (world_of (timep_builtin true ["T0"] demo_shell))) /\
  (result_of (timep_builtin true ["T0"] demo_shell) = inr SignedOverflow ->
   timep_builtin_repaired true ["T0"] demo_shell = timep_builtin true ["T0"] demo_shell).
Proof. exact (repair_conservative true ["T0"] demo_shell). Defined.

(** The clock fails: the source ends in the second release, the changed
    entry point returns 1 with the diagnostic written. *)
Example repaired_clock_failure :
  result_of (timep_builtin true [] (set_clock_errno (Some EINVAL) demo_shell))
  = inr (DoubleFree (call_ptr (set_clock_errno (Some EINVAL) demo_shell))) /\
  result_of (timep_builtin_repaired true [] (set_clock_errno (Some EINVAL) demo_shell))
  = inl EXECUTION_FAILURE.
Proof. split; vm_compute; reflexivity. Qed.
