(* ===== verification/Tree.v ===== *)
(** * Tree: [timep.c] as a tree of its calls

    The other files write the functions of [timep.c] as functions of the
    world.  Here they are written once more with nothing of the world
    in them: every call that acts on the shell or on the process is an
    event the function raises, with the type of the answer it waits
    for, and the function is the interaction tree of these events,
    lines 66-101 and 116-132 call by call.  What a call does is said
    apart, by a handler.  [strcmp] and [snprintf] act on memory of the
    function's own and stay functions ([is_clock_gettime],
    [buf_micros]); [setup_builtin_timep] has one call and no branch and
    is not written again.

    - [hostE] lists the calls: [make_builtin_argv], [builtin_error],
      [bind_variable], [printf], [clock_gettime], [strerror], [xfree],
      and the points where the function itself leaves defined
      behaviour.
    - [clock_gettime_main_tree] and [timep_builtin_tree] are the two
      functions.
    - [handle_with] answers the events in a world of a [Host];
      [handle_host] is the handler in which [printf] writes its text and
      returns its length, and [handle_closed] the one in which [printf]
      fails: nothing is written and the result is negative.
    - [simulates] relates a tree to a computation of the outcome monad:
      run by [handle_host], the tree ends as the computation ends.

    The trees are finite; they are compared up to the silent steps of
    the interpretation ([≈]). *)

From Stdlib Require Import ZArith String List Lia.
From stdpp Require Import base list strings.
From ITree Require Import ITree ITreeFacts Events.State Events.StateFacts Events.Exception.
From S2P Require Import Prelude Micros Decimal Heap Host Shell ClockGettime Builtin.

Import ListNotations.
#[local] Open Scope Z_scope.

Declare Scope tree_scope.
Delimit Scope tree_scope with tree.
Notation "x <- m ;; k" := (ITree.bind m (fun x => k))
  (at level 100, m at next level, k at level 200, right associativity) : tree_scope.
Notation "m ;; k" := (ITree.bind m (fun _ => k))
  (at level 100, k at level 200, right associativity) : tree_scope.

(** The calls of the file, each with the type of its result, and
    [Undefined]: the function itself leaves defined behaviour. *)
Variant hostE : Type -> Type :=
| MakeBuiltinArgv (ws : list string) : hostE (Z * argv_t)
| BuiltinError (msg : string) : hostE unit
| BindVariable (name value : string) : hostE unit
| Printf (text : string) : hostE Z
| ClockGettime : hostE clock_result
| StrError (errno : Z) : hostE string
| Xfree (p : Z) : hostE unit
| Undefined (u : ub) : hostE void.

#[local] Open Scope tree_scope.

Definition undefined_tree {A : Type} (u : ub) : itree hostE A :=
  v <- ITree.trigger (Undefined u) ;; match v : void with end.

Definition defined_tree {A : Type} (u : ub) (o : option A) : itree hostE A :=
  match o with
  | Some a => Ret a
  | None => undefined_tree u
  end.

(** [argv[i]]. *)
Definition argv_get_tree (argv : argv_t) (i : nat) : itree hostE string :=
  defined_tree (ReadOutOfBounds i) (argv_words argv !! i).

(** Lines 71-74. *)
Definition select_varname_tree (argc : Z) (argv : argv_t) : itree hostE (option string) :=
  if argc =? 2 then
    a <- argv_get_tree argv 1 ;;
    if arg_nonempty a then Ret (Some a) else Ret None
  else Ret None.

(** Lines 87-93; the results of [bind_variable] and [printf] are not
    looked at. *)
Definition emit_micros_tree (varname : option string) (micros : Z) : itree hostE unit :=
  match varname with
  | Some name => ITree.trigger (BindVariable name (buf_micros micros))
  | None => ITree.trigger (Printf (printf_lld_nl micros)) ;; Ret tt
  end.

(** Lines 78-82. *)
Definition clock_failed_tree (argv : argv_t) (errno : Z) : itree hostE Z :=
  text <- ITree.trigger (StrError errno) ;;
  ITree.trigger (BuiltinError (MSG_FAILED +:+ text)) ;;
  ITree.trigger (Xfree (argv_ptr argv)) ;;
  Ret EXECUTION_FAILURE.

(** Lines 77-94. *)
Definition read_and_emit_tree (argv : argv_t) (varname : option string) : itree hostE Z :=
  r <- ITree.trigger ClockGettime ;;
  match r with
  | ClockErr errno => clock_failed_tree argv errno
  | ClockOk ts =>
      micros <- defined_tree SignedOverflow (micros_of_timespec ts) ;;
      emit_micros_tree varname micros ;;
      Ret EXECUTION_SUCCESS
  end.

(** Lines 97-99. *)
Definition unsupported_tree (argv : argv_t) : itree hostE Z :=
  ITree.trigger (BuiltinError MSG_UNSUPPORTED) ;;
  ITree.trigger (Xfree (argv_ptr argv)) ;;
  Ret EXECUTION_FAILURE.

(** Lines 66-101. *)
Definition clock_gettime_main_tree (have_clock : bool) (argc : Z) (argv : argv_t)
  : itree hostE Z :=
  if 2 <? argc then
    ITree.trigger (BuiltinError MSG_TOO_MANY) ;;
    Ret EXECUTION_FAILURE
  else
    varname <- select_varname_tree argc argv ;;
    if have_clock then read_and_emit_tree argv varname else unsupported_tree argv.

(** Lines 123-128. *)
Definition dispatch_tree (have_clock : bool) (sub : string) (argc : Z) (argv : argv_t)
  : itree hostE Z :=
  if is_clock_gettime sub then clock_gettime_main_tree have_clock argc argv
  else (ITree.trigger (BuiltinError (msg_unknown sub)) ;; Ret EXECUTION_FAILURE).

(** Lines 116-132. *)
Definition timep_builtin_tree (have_clock : bool) (list : list string) : itree hostE Z :=
  r <- ITree.trigger (MakeBuiltinArgv list) ;;
  sub <- argv_get_tree r.2 0 ;;
  ret_ <- dispatch_tree have_clock sub r.1 r.2 ;;
  ITree.trigger (Xfree (argv_ptr r.2)) ;;
  Ret ret_.

(** The calls a tree makes along the answers [answer] gives, in order;
    [fuel] bounds the silent steps. *)
Fixpoint calls_of {A : Type} (fuel : nat) (answer : forall X, hostE X -> option X)
  (t : itree hostE A) : list {X : Type & hostE X} :=
  match fuel with
  | O => []
  | S fuel =>
      match ITreeDefinition.observe t with
      | RetF _ => []
      | TauF t => calls_of fuel answer t
      | VisF e k =>
          existT _ e :: match answer _ e with
                          | Some x => calls_of fuel answer (k x)
                          | None => []
                          end
      end
  end.

(** Answers for [calls_of]: the command is called by its name, the
    array is at [p], every call returns, and the clock answers
    [clock]. *)
Definition answer_at (p : Z) (clock : clock_result) (X : Type) (e : hostE X) : option X :=
  match e in hostE X return option X with
  | MakeBuiltinArgv ws => Some (1 + Z.of_nat (length ws), mk_argv p (CMD_NAME :: ws))
  | BuiltinError _ => Some tt
  | BindVariable _ _ => Some tt
  | Printf text => Some (Z.of_nat (String.length text))
  | ClockGettime => Some clock
  | StrError errno => Some (if errno =? EINVAL then "Invalid argument" else "Unknown error")
  | Xfree _ => Some tt
  | Undefined _ => None
  end.

Section Handlers.
Context {W : Type} `{Host W}.

(** What the calls do in a world of the host.  [out] is [printf]: the
    world after it and its result. *)
Definition handle_with (out : string -> W -> W * Z)
  : hostE ~> Monads.stateT W (itree (exceptE ub)) :=
  fun _ e w =>
    match e with
    | MakeBuiltinArgv ws => Ret ((make_builtin_argv ws w).2, (make_builtin_argv ws w).1)
    | BuiltinError msg => Ret (builtin_error msg w, tt)
    | BindVariable name value => Ret (bind_variable name value w, tt)
    | Printf text => Ret ((out text w).1, (out text w).2)
    | ClockGettime => Ret ((sys_clock_gettime w).2, (sys_clock_gettime w).1)
    | StrError errno => Ret (w, strerror errno)
    | Xfree p =>
        match host_xfree p w with
        | Some w' => Ret (w', tt)
        | None => throw (DoubleFree p)
        end
    | Undefined u => throw u
    end.

(** [printf] writes its text and returns the number of bytes. *)
Definition printf_writes (text : string) (w : W) : W * Z :=
  (write_stdout text w, Z.of_nat (String.length text)).

(** [printf] fails: nothing is written, the result is negative. *)
Definition printf_fails (text : string) (w : W) : W * Z := (w, -1).

Definition handle_host : hostE ~> Monads.stateT W (itree (exceptE ub)) :=
  handle_with printf_writes.
Definition handle_closed : hostE ~> Monads.stateT W (itree (exceptE ub)) :=
  handle_with printf_fails.

(** A tree run in a world. *)
Definition run_with {A : Type} (h : hostE ~> Monads.stateT W (itree (exceptE ub)))
  (t : itree hostE A) (w : W) : itree (exceptE ub) (W * A) :=
  interp_state h t w.

(** An outcome of the monad as the end of a run. *)
Definition of_outcome {A : Type} (o : outcome W ub A) : itree (exceptE ub) (W * A) :=
  match o with
  | Done a w => Ret (w, a)
  | Undef u _ => throw u
  end.

(** Run by [handle_host], the tree ends as the computation does. *)
Definition simulates {A : Type} (t : itree hostE A) (m : M W ub A) : Prop :=
  forall w, run_with handle_host t w ≈ of_outcome (m w).

End Handlers.

(** ** The simulation, call by call *)

#[local] Ltac run_call :=
  intros w; unfold run_with, handle_host; rewrite interp_state_trigger; reflexivity.

Section Simulation.
Context {W : Type} `{Host W}.

Lemma throw_bind {A B : Type} (u : ub) (k : A -> itree (exceptE ub) B) :
  ITree.bind (throw u) k ≈ throw u.
Proof. unfold throw. rewrite bind_vis. apply eqit_Vis. intros []. Qed.

Lemma simulates_ret {A : Type} (a : A) : simulates (W:=W) (Ret a) (ret a).
Proof. intros w. unfold run_with. rewrite interp_state_ret. reflexivity. Qed.

Lemma simulates_bind {A B : Type} (t : itree hostE A) (k : A -> itree hostE B)
  (m : M W ub A) (f : A -> M W ub B) :
  simulates t m -> (forall a, simulates (k a) (f a)) ->
  simulates (ITree.bind t k) (bind m f).
Proof.
  intros Ht Hk w. unfold run_with. rewrite interp_state_bind.
  specialize (Ht w). unfold run_with in Ht. rewrite Ht.
  unfold bind. destruct (m w) as [a w'|u w']; cbn.
  - rewrite Eqit.bind_ret_l. apply Hk.
  - apply throw_bind.
Qed.

Lemma simulates_make_builtin_argv (ws : list string) :
  simulates (W:=W) (ITree.trigger (MakeBuiltinArgv ws)) (do_make_builtin_argv ws).
Proof. run_call. Qed.

Lemma simulates_builtin_error (msg : string) :
  simulates (W:=W) (ITree.trigger (BuiltinError msg)) (do_builtin_error msg).
Proof. run_call. Qed.

Lemma simulates_bind_variable (name value : string) :
  simulates (W:=W) (ITree.trigger (BindVariable name value)) (do_bind_variable name value).
Proof. run_call. Qed.

Lemma simulates_clock_gettime :
  simulates (W:=W) (ITree.trigger ClockGettime) do_clock_gettime.
Proof. run_call. Qed.

Lemma simulates_xfree (p : Z) :
  simulates (W:=W) (ITree.trigger (Xfree p)) (do_xfree p).
Proof.
  intros w. unfold run_with. rewrite interp_state_trigger. cbn.
  unfold do_xfree, try_modify. destruct (host_xfree p w); reflexivity.
Qed.

(** The result of [printf] is dropped. *)
Lemma simulates_printf (text : string) :
  simulates (W:=W) (ITree.trigger (Printf text) ;; Ret tt) (do_write_stdout text).
Proof.
  intros w. unfold run_with. rewrite interp_state_bind, interp_state_trigger. cbn.
  rewrite Eqit.bind_ret_l, interp_state_ret. reflexivity.
Qed.

(** [strerror] changes nothing of the world. *)
Lemma simulates_strerror {A : Type} (errno : Z) (k : string -> itree hostE A) (m : M W ub A) :
  simulates (k (strerror errno)) m ->
  simulates (text <- ITree.trigger (StrError errno) ;; k text) m.
Proof.
  intros Hk w. unfold run_with. rewrite interp_state_bind, interp_state_trigger. cbn.
  rewrite Eqit.bind_ret_l. apply Hk.
Qed.

Lemma simulates_defined {A : Type} (u : ub) (o : option A) :
  simulates (W:=W) (defined_tree u o) (defined u o).
Proof.
  destruct o as [a|]; [apply simulates_ret|].
  intros w. unfold run_with, defined_tree, undefined_tree.
  rewrite interp_state_bind, interp_state_trigger. apply throw_bind.
Qed.

End Simulation.

Create HintDb sim discriminated.
#[export] Hint Resolve simulates_ret simulates_bind simulates_make_builtin_argv
  simulates_builtin_error simulates_bind_variable simulates_clock_gettime
  simulates_xfree simulates_printf simulates_strerror simulates_defined : sim.

(** A tree built from [bind] and the calls simulates the computation
    built the same way; the branches are taken apart first. *)
Ltac simulate :=
  repeat first
    [ progress intros
    | match goal with
      | |- simulates (if ?b then _ else _) _ => destruct b
      | |- simulates (match ?x with _ => _ end) _ => destruct x
      end
    | simple apply simulates_bind ];
  eauto with sim.

(** ** The functions of the file *)

Section Functions.
Context {W : Type} `{Host W}.

Lemma argv_get_simulates (argv : argv_t) (i : nat) :
  simulates (W:=W) (argv_get_tree argv i) (argv_get argv i).
Proof. apply simulates_defined. Qed.
#[local] Hint Resolve argv_get_simulates : sim.

Lemma select_varname_simulates (argc : Z) (argv : argv_t) :
  simulates (W:=W) (select_varname_tree argc argv) (select_varname argc argv).
Proof.
  unfold select_varname_tree, select_varname.
  simulate.
Qed.
#[local] Hint Resolve select_varname_simulates : sim.

Lemma emit_micros_simulates (varname : option string) (micros : Z) :
  simulates (W:=W) (emit_micros_tree varname micros) (emit_micros varname micros).
Proof. destruct varname; cbn; auto with sim. Qed.
#[local] Hint Resolve emit_micros_simulates : sim.

Lemma clock_failed_simulates (argv : argv_t) (errno : Z) :
  simulates (W:=W) (clock_failed_tree argv errno) (clock_failed argv errno).
Proof. apply simulates_strerror. unfold clock_failed. simulate. Qed.
#[local] Hint Resolve clock_failed_simulates : sim.

Lemma read_and_emit_simulates (argv : argv_t) (varname : option string) :
  simulates (W:=W) (read_and_emit_tree argv varname) (read_and_emit argv varname).
Proof.
  unfold read_and_emit_tree, read_and_emit.
  simulate.
Qed.
#[local] Hint Resolve read_and_emit_simulates : sim.

Lemma unsupported_simulates (argv : argv_t) :
  simulates (W:=W) (unsupported_tree argv) (unsupported argv).
Proof. unfold unsupported_tree, unsupported. simulate. Qed.
#[local] Hint Resolve unsupported_simulates : sim.

Lemma clock_gettime_main_simulates (have_clock : bool) (argc : Z) (argv : argv_t) :
  simulates (W:=W) (clock_gettime_main_tree have_clock argc argv)
    (clock_gettime_main have_clock argc argv).
Proof.
  unfold clock_gettime_main_tree, clock_gettime_main.
  simulate.
Qed.
#[local] Hint Resolve clock_gettime_main_simulates : sim.

Lemma dispatch_simulates (have_clock : bool) (sub : string) (argc : Z) (argv : argv_t) :
  simulates (W:=W) (dispatch_tree have_clock sub argc argv)
    (dispatch have_clock sub argc argv).
Proof.
  unfold dispatch_tree, dispatch. simulate.
Qed.
#[local] Hint Resolve dispatch_simulates : sim.

(** The two presentations agree.  This says nothing of the C file: it
    ties the trees of this file to the functions the other files
    reason about, so that a run of the tree under [handle_host] may be
    read off [Builtin.timep_builtin]. *)
Lemma timep_builtin_simulates (have_clock : bool) (ws : list string) :
  simulates (W:=W) (timep_builtin_tree have_clock ws) (timep_builtin have_clock ws).
Proof.
  unfold timep_builtin_tree, timep_builtin.
  simulate.
Qed.

End Functions.

(** ** Runs under any [printf] *)

Section Runs.
Context {W : Type} `{HostLaws W}.
Variable out : string -> W -> W * Z.

Lemma run_ret {A : Type} (a : A) (w : W) :
  run_with (handle_with out) (Ret a) w ≈ Ret (w, a).
Proof. unfold run_with. rewrite interp_state_ret. reflexivity. Qed.

Lemma run_call {X : Type} (e : hostE X) (w w' : W) (x : X) :
  handle_with out _ e w = Ret (w', x) ->
  run_with (handle_with out) (ITree.trigger e) w ≈ Ret (w', x).
Proof. intros <-. apply interp_state_trigger. Qed.

(** A run that returns goes on with the rest of the function. *)
Lemma run_step {X A : Type} (t : itree hostE X) (k : X -> itree hostE A) (w w' : W) (x : X) :
  run_with (handle_with out) t w ≈ Ret (w', x) ->
  run_with (handle_with out) (ITree.bind t k) w ≈ run_with (handle_with out) (k x) w'.
Proof.
  unfold run_with. intros Ht. rewrite interp_state_bind, Ht, Eqit.bind_ret_l. reflexivity.
Qed.

Lemma run_xfree_live (p : Z) (w : W) :
  p ≠ NULL -> o_heap (observe w) !! p = Some Live ->
  exists w', run_with (handle_with out) (ITree.trigger (Xfree p)) w ≈ Ret (w', tt) /\
    observe w' = obs_release p (observe w).
Proof.
  intros Hp Hl.
  destruct (do_xfree_some p w (obs_release p (observe w))) as (w' & Hrun & Ho).
  - unfold obs_xfree. rewrite (xfree_live _ _ Hp Hl). reflexivity.
  - exists w'. split; [|exact Ho]. apply run_call. cbn.
    rewrite do_xfree_run in Hrun. destruct (host_xfree p w); inversion Hrun. reflexivity.
Qed.

(** Lines 77-94 when the clock is read and nothing overflows: [printf]
    is called, and whatever it returns the status is
    [EXECUTION_SUCCESS]. *)
Lemma run_print (argv : argv_t) (w : W) (ts : timespec) (micros : Z) :
  next_clock w = ClockOk ts -> micros_of_timespec ts = Some micros ->
  run_with (handle_with out) (read_and_emit_tree argv None) w
  ≈ Ret ((out (printf_lld_nl micros) (sys_clock_gettime w).2).1, EXECUTION_SUCCESS).
Proof.
  intros Hc Hm. unfold read_and_emit_tree.
  rewrite run_step by (apply run_call; reflexivity). cbn [fst snd].
  rewrite sys_clock_gettime_result, Hc, Hm. cbn [defined_tree emit_micros_tree].
  rewrite run_step by apply run_ret.
  rewrite run_step; [apply run_ret|].
  rewrite run_step by (apply run_call; reflexivity). apply run_ret.
Qed.

Lemma run_main_print (argv : argv_t) (w : W) (ts : timespec) (micros : Z) :
  next_clock w = ClockOk ts -> micros_of_timespec ts = Some micros ->
  run_with (handle_with out) (clock_gettime_main_tree true 1 argv) w
  ≈ Ret ((out (printf_lld_nl micros) (sys_clock_gettime w).2).1, EXECUTION_SUCCESS).
Proof.
  intros Hc Hm.
  change (clock_gettime_main_tree true 1 argv)
    with (varname <- Ret None ;; read_and_emit_tree argv varname).
  rewrite run_step by apply run_ret. now apply (run_print _ _ ts).
Qed.

(** The command without an argument, under a [printf] that leaves the
    heap alone: the status is [EXECUTION_SUCCESS] and [argv] is
    released once. *)
Lemma run_builtin_print (w : W) (ts : timespec) (micros : Z) :
  this_command_name w = CMD_NAME ->
  next_clock w = ClockOk ts -> micros_of_timespec ts = Some micros ->
  (forall text w, o_heap (observe (out text w).1) = o_heap (observe w)) ->
  exists w',
    run_with (handle_with out) (timep_builtin_tree true []) w ≈ Ret (w', EXECUTION_SUCCESS) /\
    observe w' = obs_release (call_ptr w)
      (observe (out (printf_lld_nl micros) (sys_clock_gettime (call_world [] w)).2).1).
Proof.
  intros Hn Hc Hm Hout.
  destruct (run_xfree_live (call_ptr w)
              (out (printf_lld_nl micros) (sys_clock_gettime (call_world [] w)).2).1)
    as (w' & Hx & Ho);
    [apply call_ptr_not_null
    |rewrite Hout, observe_sys_clock_gettime; apply call_world_live|].
  exists w'. split; [|exact Ho]. unfold timep_builtin_tree.
  rewrite run_step by (apply run_call; reflexivity). cbn [fst snd].
  fold (call_argv [] w) (call_world [] w).
  unfold argv_get_tree. rewrite call_argv_words, Hn. cbn [lookup list_lookup defined_tree].
  rewrite run_step by apply run_ret.
  rewrite make_builtin_argv_argc.
  change (dispatch_tree true CMD_NAME (1 + Z.of_nat (length [])) (call_argv [] w))
    with (clock_gettime_main_tree true 1 (call_argv [] w)).
  rewrite run_step
    by (apply (run_main_print _ _ ts micros); rewrite ?call_world_next_clock; assumption).
  rewrite call_argv_ptr, run_step by exact Hx. apply run_ret.
Qed.

End Runs.

(** C19.  A failure of [printf] is not reported.  The command is called
    by its name without an argument, the clock is read and the
    conversion does not overflow; [printf] fails: it writes nothing and
    returns a negative value.  Line 92 does not look at the value: the
    function returns [EXECUTION_SUCCESS], nothing has reached standard
    output and nothing is written to the diagnostic channel. *)
Theorem printf_failure_unreported {W : Type} `{HostLaws W} (w : W)
  (ts : timespec) (micros : Z) :
  this_command_name w = CMD_NAME ->
  next_clock w = ClockOk ts -> micros_of_timespec ts = Some micros ->
  exists w',
    run_with handle_closed (timep_builtin_tree true []) w ≈ Ret (w', EXECUTION_SUCCESS) /\
    o_stdout (observe w') = o_stdout (observe w) /\
    o_stderr (observe w') = o_stderr (observe w).
Proof.
  intros Hn Hc Hm.
  destruct (run_builtin_print printf_fails w ts micros Hn Hc Hm) as (w' & Hrun & Ho);
    [reflexivity|].
  exists w'. split; [exact Hrun|]. rewrite Ho. cbn [printf_fails fst].
  rewrite observe_sys_clock_gettime.
  destruct (call_world_frame [] w) as (Hout & Herr & _). split; assumption.
Qed.

Lemma printf_failure_unreported_witness :
  exists w',
    run_with handle_closed (timep_builtin_tree true []) demo_shell
    ≈ Ret (w', EXECUTION_SUCCESS) /\
    o_stdout (observe w') = o_stdout (observe demo_shell) /\
    o_stderr (observe w') = o_stderr (observe demo_shell).
Proof.
  apply (printf_failure_unreported demo_shell (mk_timespec 1 500000000) 1500000);
    reflexivity.
Defined.

(** The calls of the command when the system call fails with [EINVAL],
    in order: the array at address 16 is released on line 81 and again
    on line 130. *)
Example calls_on_clock_failure :
  calls_of 32 (answer_at 16 (ClockErr EINVAL)) (timep_builtin_tree true []) =
  [ existT _ (MakeBuiltinArgv []); existT _ ClockGettime; existT _ (StrError EINVAL);
    existT _ (BuiltinError "clock_gettime failed: Invalid argument");
    existT _ (Xfree 16); existT _ (Xfree 16) ].
Proof. vm_compute. reflexivity. Qed.

(** The calls of the command with one argument when the clock is read:
    one [bind_variable], one [xfree]. *)
Example calls_on_assignment :
  calls_of 32 (answer_at 16 (ClockOk (mk_timespec 1 500000000)))
    (timep_builtin_tree true ["T0"]) =
  [ existT _ (MakeBuiltinArgv ["T0"]); existT _ ClockGettime;
    existT _ (BindVariable "T0" "1500000"); existT _ (Xfree 16) ].
Proof. vm_compute. reflexivity. Qed.
