(* ===== verification/Session.v ===== *)
(** * Session: the command in a running shell

    A shell session as a state machine: the builtin is registered
    ([setup_builtin_timep]) or loaded by name ([Loader.enable_f] on the
    symbols of [TranslationUnit.timep_c]), the process uses CPU time, and
    simple commands are invoked, each running [timep_builtin] under the
    name it was found by.  A run that leaves defined behaviour ends the
    session in [Crashed].  The step relation [step] is given by rules and,
    for evaluation, as the function [exec]; [step_exec] shows that they
    agree.

    The session carries a log of the values the command has emitted.  The
    invariant [inv] says that the shell's variables and standard output
    are exactly what the log describes, that the logged values are
    non-negative and non-decreasing, that every array [make_builtin_argv]
    allocated has been released, that one read of the clock was made per
    emitted value, and that the only diagnostics are the usage error and
    the shell's own for a name it cannot find or load.  It holds in every
    reachable state of a shell whose process clock exists, as long as the
    CPU time stays within the bound of
    [Micros.micros_of_timespec_defined], and no such session crashes.
    Without the process clock the first invocation with at most one
    argument crashes.

    No event of a session makes the system call fail or a variable
    readonly: the sessions are closed, and lines 78-81 are not run in
    them.  [clock_fails] is the failure of the system call as the
    environment may impose it on any state, and [session_clock_failure]
    says what the next invocation does then.

    The dispatch of a simple command to the function of a builtin is the
    shell's and is modelled from bash's behaviour, not from the source. *)

From stdpp Require Import gmap strings list sorting.
From S2P Require Import Prelude Int64 Micros Decimal CString Heap Host Shell.
From S2P Require Import ClockGettime Builtin TranslationUnit Loader.

#[local] Open Scope Z_scope.

Inductive event : Type :=
| Enable                                      (* the builtin is registered *)
| Load (handle : Z) (name : string)           (* [enable -f timep.so name] *)
| Tick (ts : timespec)                        (* the CPU time used is now [ts] *)
| Invoke (name : string) (args : list string) (* a simple command *).

(** An emitted value: where it went (the variable, or standard output)
    and the microseconds. *)
Definition entry : Type := option string * Z.

Record session : Type := mk_session {
  ss_shell : shell;
  (** the status of the last command *)
  ss_status : Z;
  (** the values emitted so far, the latest first *)
  ss_log : list entry
}.

Inductive state : Type :=
| Running (s : session)
| Crashed (u : ub) (sh : shell).

Definition initial_session : session := mk_session initial_shell 0 [].

Definition COMMAND_NOT_FOUND : Z := 127.

Definition msg_not_found (name : string) : string := name +:+ ": command not found".

(** What the table of builtins holds: callable descriptors of the
    command. *)
Definition registered (b : builtin) : Prop := b_name b = CMD_NAME /\ callable b = true.

(** The log after a call that returned [r]: a successful call emitted the
    time of the clock at that moment. *)
Definition log_read (sh : shell) (args : list string) (r : Z) (log : list entry) : list entry :=
  if decide (r = EXECUTION_SUCCESS) then
    match micros_of_timespec (sh_cputime sh) with
    | Some m => (target_of args, m) :: log
    | None => log
    end
  else log.

(** The variables and the output a log describes. *)
Definition vars_of (log : list entry) : gmap string shell_var :=
  foldr (fun (e : entry) vs =>
           match e.1 with
           | Some name => <[name := mk_var (fmt_lld e.2) false]> vs
           | None => vs
           end) ∅ log.

Definition stdout_of (log : list entry) : string :=
  foldr (fun (e : entry) out =>
           match e.1 with
           | Some _ => out
           | None => out +:+ printf_lld_nl e.2
           end) "" log.

(** The logged values are non-negative, non-decreasing in time, and at
    most [hi]. *)
Fixpoint log_bounded (hi : Z) (log : list entry) : Prop :=
  match log with
  | [] => True
  | e :: log' => 0 <= e.2 <= hi /\ log_bounded e.2 log'
  end.

(** The values printed, the oldest first, and the text of their lines. *)
Definition printed (log : list entry) : list Z :=
  rev (snd <$> filter (fun e : entry => e.1 = None) log).

Definition lines (ms : list Z) : string :=
  foldr (fun m out => printf_lld_nl m +:+ out) "" ms.

(** The diagnostics of a session whose clock works: the usage error of
    the command, and the shell's own for a name it does not know or
    cannot load. *)
Definition diag_ok (msg : string) : Prop :=
  msg = MSG_TOO_MANY \/ (exists name, msg = msg_not_found name)
  \/ (exists name, msg = msg_cannot_find name).

Section Session.
Variable have_clock : bool.
(** The largest [tv_sec] the session's clock reaches. *)
Variable limit : Z.

Definition tick_ok (sh : shell) (ts : timespec) : bool :=
  normalizedb ts && ts_leb (sh_cputime sh) ts && (tv_sec ts <=? limit).

Definition enabled (s : session) (sh' : shell) : session := mk_session sh' 0 (ss_log s).

Definition loaded_from (s : session) (r : Z) (sh' : shell) : session :=
  mk_session sh' r (ss_log s).

Definition ticked (s : session) (ts : timespec) : session :=
  mk_session (set_cputime ts (ss_shell s)) (ss_status s) (ss_log s).

(** From now on the system call of line 78 fails with [errno].  This is
    no event of the session: it is what the environment may do to one. *)
Definition clock_fails (errno : Z) (s : session) : session :=
  mk_session (set_clock_errno (Some errno) (ss_shell s)) (ss_status s) (ss_log s).

Definition not_found (s : session) (name : string) : session :=
  mk_session (builtin_error (msg_not_found name) (ss_shell s)) COMMAND_NOT_FOUND (ss_log s).

Definition returned (s : session) (args : list string) (r : Z) (sh' : shell) : session :=
  mk_session sh' r (log_read (ss_shell s) args r (ss_log s)).

Inductive step : session -> event -> state -> Prop :=
| step_enable s r sh' :
    setup_builtin_timep (ss_shell s) = Done r sh' ->
    step s Enable (Running (enabled s sh'))
| step_load s handle name r sh' :
    enable_f (timep_c have_clock) handle name (ss_shell s) = Done r sh' ->
    step s (Load handle name) (Running (loaded_from s r sh'))
| step_tick s ts :
    normalized ts -> ts_le (sh_cputime (ss_shell s)) ts -> tv_sec ts <= limit ->
    step s (Tick ts) (Running (ticked s ts))
| step_not_found s name args :
    find_builtin name (ss_shell s) = None ->
    step s (Invoke name args) (Running (not_found s name))
| step_return s name args b r sh' :
    find_builtin name (ss_shell s) = Some b -> callable b = true ->
    timep_builtin have_clock args (set_command name (ss_shell s)) = Done r sh' ->
    step s (Invoke name args) (Running (returned s args r sh'))
| step_crash s name args b u sh' :
    find_builtin name (ss_shell s) = Some b -> callable b = true ->
    timep_builtin have_clock args (set_command name (ss_shell s)) = Undef u sh' ->
    step s (Invoke name args) (Crashed u sh').

(** The step relation as a function; [None] when the event cannot
    happen. *)
Definition exec (s : session) (e : event) : option state :=
  match e with
  | Enable =>
      match setup_builtin_timep (ss_shell s) with
      | Done _ sh' => Some (Running (enabled s sh'))
      | Undef _ _ => None
      end
  | Load handle name =>
      match enable_f (timep_c have_clock) handle name (ss_shell s) with
      | Done r sh' => Some (Running (loaded_from s r sh'))
      | Undef _ _ => None
      end
  | Tick ts => if tick_ok (ss_shell s) ts then Some (Running (ticked s ts)) else None
  | Invoke name args =>
      match find_builtin name (ss_shell s) with
      | None => Some (Running (not_found s name))
      | Some b =>
          if callable b then
            match timep_builtin have_clock args (set_command name (ss_shell s)) with
            | Done r sh' => Some (Running (returned s args r sh'))
            | Undef u sh' => Some (Crashed u sh')
            end
          else None
      end
  end.

(** A sequence of events; a crash ends the session. *)
Fixpoint run (s : session) (es : list event) : option state :=
  match es with
  | [] => Some (Running s)
  | e :: es' =>
      match exec s e with
      | Some (Running s') => run s' es'
      | other => other
      end
  end.

Inductive reachable : state -> Prop :=
| reach_init : reachable (Running initial_session)
| reach_step s e st : reachable (Running s) -> step s e st -> reachable st.

(** The invariant of a running session. *)
Record inv (s : session) : Prop := mk_inv {
  inv_heap : live_blocks (sh_heap (ss_shell s)) = ∅;
  inv_time : normalized (sh_cputime (ss_shell s)) /\ 0 <= tv_sec (sh_cputime (ss_shell s)) <= limit;
  inv_errno : sh_clock_errno (ss_shell s) = None;
  inv_table : Forall registered (sh_builtins (ss_shell s));
  inv_vars : sh_vars (ss_shell s) = vars_of (ss_log s);
  inv_stdout : sh_stdout (ss_shell s) = stdout_of (ss_log s);
  inv_reads : sh_clock_reads (ss_shell s) = length (ss_log s);
  inv_log : log_bounded (micros_exact (sh_cputime (ss_shell s))) (ss_log s);
  inv_status : ss_status s ∈ [EXECUTION_SUCCESS; EXECUTION_FAILURE; COMMAND_NOT_FOUND];
  inv_stderr : Forall diag_ok (sh_stderr (ss_shell s))
}.

End Session.

(** ** The two presentations of a step *)

Lemma tick_ok_spec (limit : Z) (sh : shell) (ts : timespec) :
  tick_ok limit sh ts = true <->
  normalized ts /\ ts_le (sh_cputime sh) ts /\ tv_sec ts <= limit.
Proof.
  unfold tick_ok. rewrite !andb_true_iff, normalizedb_spec, ts_leb_spec, Z.leb_le. tauto.
Qed.

Lemma step_to_exec (have_clock : bool) (limit : Z) (s : session) (e : event) (st : state) :
  step have_clock limit s e st -> exec have_clock limit s e = Some st.
Proof.
  intros Hs. destruct Hs as [s r sh' He|s h name r sh' He|s ts Hn Hle Hl|s name args Hf
                            |s name args b r sh' Hf Hc Hr|s name args b u sh' Hf Hc Hr];
    cbn [exec].
  - rewrite He. reflexivity.
  - rewrite He. reflexivity.
  - rewrite (proj2 (tick_ok_spec limit _ ts)) by auto. reflexivity.
  - rewrite Hf. reflexivity.
  - rewrite Hf, Hc, Hr. reflexivity.
  - rewrite Hf, Hc, Hr. reflexivity.
Qed.

Lemma exec_to_step (have_clock : bool) (limit : Z) (s : session) (e : event) (st : state) :
  exec have_clock limit s e = Some st -> step have_clock limit s e st.
Proof.
  destruct e as [|h lname|ts|name args]; cbn [exec].
  - destruct (setup_builtin_timep (ss_shell s)) as [r sh'|u sh'] eqn:He; [|discriminate].
    intros [= <-]. apply (step_enable _ _ s r sh' He).
  - destruct (enable_f (timep_c have_clock) h lname (ss_shell s)) as [r sh'|u sh'] eqn:He;
      [|discriminate].
    intros [= <-]. apply (step_load _ _ s h lname r sh' He).
  - destruct (tick_ok limit (ss_shell s) ts) eqn:Ht; [|discriminate].
    apply tick_ok_spec in Ht as (Hn & Hle & Hl). intros [= <-]. apply step_tick; assumption.
  - destruct (find_builtin name (ss_shell s)) as [b|] eqn:Hf.
    + destruct (callable b) eqn:Hc; [|discriminate].
      destruct (timep_builtin have_clock args (set_command name (ss_shell s)))
        as [r sh'|u sh'] eqn:Hr; intros [= <-].
      * apply (step_return _ _ s name args b r sh' Hf Hc Hr).
      * apply (step_crash _ _ s name args b u sh' Hf Hc Hr).
    + intros [= <-]. apply step_not_found, Hf.
Qed.

(** ** The log *)

Lemma vars_of_cons (e : entry) (log : list entry) :
  vars_of (e :: log) =
  match e.1 with
  | Some name => <[name := mk_var (fmt_lld e.2) false]> (vars_of log)
  | None => vars_of log
  end.
Proof. reflexivity. Qed.

Lemma stdout_of_cons (e : entry) (log : list entry) :
  stdout_of (e :: log) =
  match e.1 with
  | Some _ => stdout_of log
  | None => stdout_of log +:+ printf_lld_nl e.2
  end.
Proof. reflexivity. Qed.

(** The command never makes a variable readonly. *)
Lemma vars_of_writable (log : list entry) (name : string) (v : shell_var) :
  vars_of log !! name = Some v -> var_readonly v = false.
Proof.
  induction log as [|[[n|] m] log IH]; simpl; [rewrite lookup_empty; discriminate | | exact IH].
  destruct (decide (n = name)) as [->|Hne].
  - rewrite lookup_insert_eq. intros [= <-]. reflexivity.
  - rewrite lookup_insert_ne by exact Hne. exact IH.
Qed.

Lemma log_bounded_weaken (hi hi' : Z) (log : list entry) :
  hi <= hi' -> log_bounded hi log -> log_bounded hi' log.
Proof. destruct log as [|e log]; simpl; [tauto | intros Hle [Hb Hl]; split; [lia | exact Hl]]. Qed.

(** The values of a bounded log, the oldest first, are sorted. *)
Lemma log_bounded_sorted (hi : Z) (log : list entry) :
  log_bounded hi log -> Sorted Z.le (rev (snd <$> log)).
Proof.
  revert hi. induction log as [|e log IH]; intros hi; simpl; [constructor|].
  intros [_ Hl]. apply Sorted_snoc; [exact (IH _ Hl)|].
  destruct log as [|e' log]; simpl in *; [constructor | apply TlRel_cons; lia].
Qed.

Lemma log_bounded_nonneg (hi : Z) (log : list entry) :
  log_bounded hi log -> Forall (fun m => 0 <= m) (snd <$> log).
Proof.
  revert hi. induction log as [|e log IH]; intros hi; simpl; [constructor|].
  intros [Hb Hl]. constructor; [lia | exact (IH _ Hl)].
Qed.

(** ** The table of builtins *)

Lemma find_in_table (bs : list builtin) (name : string) (b : builtin) :
  Forall registered bs ->
  find (fun b => bool_decide (b_name b = name)) bs = Some b ->
  callable b = true /\ name = CMD_NAME.
Proof.
  intros Hall Hf. apply find_some in Hf as [Hin Hn].
  apply bool_decide_eq_true in Hn. rewrite Forall_forall in Hall.
  apply list_elem_of_In, Hall in Hin as [Hb Hc]. subst. auto.
Qed.

Lemma registered_struct : registered clock_gettime_struct.
Proof. split; reflexivity. Qed.

Lemma registered_loaded (handle : Z) : registered (loaded handle clock_gettime_struct).
Proof. split; reflexivity. Qed.

(** ** What a call leaves of the shell *)

(** The shell after a call is the shell before it with a new
    observation. *)
Lemma call_shell (have_clock : bool) (args : list string) (w sh' : shell) (r : Z) :
  timep_builtin have_clock args w = Done r sh' -> sh' = shell_with w (observe sh').
Proof.
  intros Hrun. apply shell_eq; [rewrite shell_observe_with; reflexivity|].
  rewrite shell_env_with.
  apply (preserves_done shell_env _ _ _ _ (timep_builtin_preserves shell_env have_clock args) Hrun).
Qed.

Lemma call_result (have_clock : bool) (args : list string) (w sh' : shell) (r : Z) (o : obs) :
  timep_builtin have_clock args w = Done r sh' -> observe sh' = o -> sh' = shell_with w o.
Proof. intros Hrun <-. apply (call_shell _ _ _ _ _ Hrun). Qed.

Lemma log_read_failure (sh : shell) (args : list string) (log : list entry) :
  log_read sh args EXECUTION_FAILURE log = log.
Proof. reflexivity. Qed.

Lemma log_read_success (sh : shell) (args : list string) (log : list entry) (m : Z) :
  micros_of_timespec (sh_cputime sh) = Some m ->
  log_read sh args EXECUTION_SUCCESS log = (target_of args, m) :: log.
Proof. unfold log_read. intros ->. reflexivity. Qed.

Lemma vars_of_readonly (log : list entry) (o : obs) (name : string) :
  o_vars o = vars_of log -> is_readonly o name = false.
Proof.
  intros Hv. unfold is_readonly. rewrite Hv.
  destruct (vars_of log !! name) as [v|] eqn:E; [apply (vars_of_writable _ _ _ E) | reflexivity].
Qed.

(** Lines 87-93 add one entry to what the log describes. *)
Lemma emit_log (t : option string) (m : Z) (o : obs) (log : list entry) :
  I64.in_range m -> o_vars o = vars_of log -> o_stdout o = stdout_of log ->
  o_vars (obs_emit t m o) = vars_of ((t, m) :: log) /\
  o_stdout (obs_emit t m o) = stdout_of ((t, m) :: log) /\
  o_clock_reads (obs_emit t m o) = o_clock_reads o /\
  o_stderr (obs_emit t m o) = o_stderr o.
Proof.
  intros Hm Hv Ho. rewrite vars_of_cons, stdout_of_cons.
  destruct t as [name|]; cbn [obs_emit fst snd].
  - rewrite buf_micros_full, obs_bind_variable_writable
      by (assumption || apply (vars_of_readonly log), Hv).
    simpl. rewrite Hv, Ho. auto.
  - simpl. rewrite Hv, Ho. auto.
Qed.

(** ** Preservation of the invariant *)

Section Invariant.
Variable limit : Z.
Hypothesis limit_safe : 0 <= limit <= MAX_SAFE_SEC.

Lemma inv_initial : inv limit initial_session.
Proof.
  constructor; simpl; try reflexivity; try constructor.
  - unfold normalized, NSEC_PER_SEC. simpl. lia.
  - simpl. lia.
Qed.

Lemma inv_enabled (s : session) (r : Z) (sh' : shell) :
  inv limit s -> setup_builtin_timep (ss_shell s) = Done r sh' -> inv limit (enabled s sh').
Proof.
  intros [] [= _ <-]. constructor; simpl; try assumption.
  - constructor; [apply registered_struct | assumption].
  - apply list_elem_of_here.
Qed.

(** [enable -f] returns and keeps the invariant, whatever the name. *)
Lemma inv_loaded (have_clock : bool) (s : session) (handle : Z) (name : string) :
  inv limit s ->
  exists r sh', enable_f (timep_c have_clock) handle name (ss_shell s) = Done r sh' /\
    inv limit (loaded_from s r sh').
Proof.
  intros []. destruct (decide (name = CMD_NAME)) as [->|Hn].
  - eexists _, _. split; [apply enable_f_known|].
    constructor; simpl; try assumption.
    + apply Forall_install; [apply registered_loaded | assumption].
    + apply list_elem_of_here.
  - eexists _, _. split; [apply enable_f_unknown, Hn|].
    constructor; simpl; try assumption.
    + apply list_elem_of_further, list_elem_of_here.
    + apply Forall_app. split; [assumption|].
      constructor; [right; right; eexists; reflexivity | constructor].
Qed.

Lemma inv_ticked (s : session) (ts : timespec) :
  inv limit s -> normalized ts -> ts_le (sh_cputime (ss_shell s)) ts -> tv_sec ts <= limit ->
  inv limit (ticked s ts).
Proof.
  intros [Hh [Hn Hs] He Ht Hv Ho Hr Hl Hst Herr] Hnts Hle Hlim.
  constructor; simpl; try assumption.
  - split; [exact Hnts|]. unfold ts_le in Hle. lia.
  - eapply log_bounded_weaken; [|exact Hl]. apply micros_exact_monotone; assumption.
Qed.

Lemma inv_not_found (s : session) (name : string) : inv limit s -> inv limit (not_found s name).
Proof.
  intros []. constructor; simpl; try assumption.
  - apply list_elem_of_further, list_elem_of_further, list_elem_of_here.
  - apply Forall_app. split; [assumption|].
    constructor; [right; left; eexists; reflexivity | constructor].
Qed.

(** The shell after a call, from its observation. *)
Lemma inv_returned (s : session) (name : string) (o : obs) (r : Z) (log' : list entry) :
  inv limit s ->
  live_blocks (o_heap o) = live_blocks (sh_heap (ss_shell s)) ->
  o_vars o = vars_of log' -> o_stdout o = stdout_of log' ->
  o_clock_reads o = length log' ->
  log_bounded (micros_exact (sh_cputime (ss_shell s))) log' ->
  r ∈ [EXECUTION_SUCCESS; EXECUTION_FAILURE; COMMAND_NOT_FOUND] ->
  Forall diag_ok (o_stderr o) ->
  inv limit (mk_session (shell_with (set_command name (ss_shell s)) o) r log').
Proof.
  intros [Hh Ht He Htab _ _ _ _ _ _] Hlive Hv Ho Hr Hl Hst Herr.
  constructor; simpl; try assumption. rewrite Hlive. exact Hh.
Qed.

Lemma inv_usage (s : session) (args : list string) :
  inv limit s -> (2 <= length args)%nat ->
  exists sh', timep_builtin true args (set_command CMD_NAME (ss_shell s))
              = Done EXECUTION_FAILURE sh' /\
    inv limit (returned s args EXECUTION_FAILURE sh').
Proof.
  intros Hinv Hge.
  assert (Hn : this_command_name (set_command CMD_NAME (ss_shell s)) = CMD_NAME) by reflexivity.
  destruct (timep_builtin_usage_observe true args _ Hn Hge) as (sh' & Hrun & Hobs & Hlive).
  exists sh'. split; [exact Hrun|].
  rewrite Hobs in Hlive. rewrite (call_result _ _ _ _ _ _ Hrun Hobs).
  unfold returned. rewrite log_read_failure.
  pose proof Hinv as [Hh Ht He Htab Hv Ho Hr Hl Hst Herr].
  apply inv_returned; try assumption.
  - apply list_elem_of_further, list_elem_of_here.
  - apply Forall_app. split; [exact Herr|].
    constructor; [left; reflexivity | constructor].
Qed.

Lemma inv_success (s : session) (args : list string) :
  inv limit s -> (length args <= 1)%nat ->
  exists sh', timep_builtin true args (set_command CMD_NAME (ss_shell s))
              = Done EXECUTION_SUCCESS sh' /\
    inv limit (returned s args EXECUTION_SUCCESS sh').
Proof.
  intros Hinv Hle.
  assert (Hn : this_command_name (set_command CMD_NAME (ss_shell s)) = CMD_NAME) by reflexivity.
  pose proof Hinv as [Hh [Hnorm Hsec] He Htab Hv Ho Hr Hl Hst Herr].
  assert (Hm : micros_of_timespec (sh_cputime (ss_shell s))
               = Some (micros_exact (sh_cputime (ss_shell s))))
    by (apply micros_defined; [assumption | lia]).
  assert (Hc : next_clock (set_command CMD_NAME (ss_shell s)) = ClockOk (sh_cputime (ss_shell s))).
  { cbn. unfold shell_next_clock. simpl. rewrite He. reflexivity. }
  destruct (timep_builtin_success_observe args _ _ _ Hn Hle Hc Hm) as (sh' & Hrun & Hobs & Hlive).
  exists sh'. split; [exact Hrun|].
  rewrite Hobs in Hlive. rewrite (call_result _ _ _ _ _ _ Hrun Hobs).
  unfold returned. rewrite (log_read_success _ _ _ _ Hm).
  destruct (emit_log (target_of args) (micros_exact (sh_cputime (ss_shell s)))
              (obs_clock_read (obs_alloc (observe (set_command CMD_NAME (ss_shell s)))).2)
              (ss_log s)) as (Hv' & Ho' & Hk' & He');
    [apply (micros_of_timespec_in_range _ _ Hm) | exact Hv | exact Ho |].
  apply inv_returned; try assumption.
  - cbn [length]. rewrite <- Hr. exact Hk'.
  - simpl. split; [|exact Hl]. split; [apply micros_exact_nonneg; [assumption | lia] | lia].
  - apply list_elem_of_here.
  - cbn [obs_release set_heap o_stderr]. rewrite He'. exact Herr.
Qed.

(** A call of the command returns and keeps the invariant. *)
Lemma inv_invoke (s : session) (args : list string) :
  inv limit s ->
  exists r sh', timep_builtin true args (set_command CMD_NAME (ss_shell s)) = Done r sh' /\
    inv limit (returned s args r sh').
Proof.
  intros Hinv. destruct (le_lt_dec 2 (length args)) as [Hge|Hlt].
  - destruct (inv_usage s args Hinv Hge) as (sh' & Hrun & Hi). eauto.
  - destruct (inv_success s args Hinv) as (sh' & Hrun & Hi); [lia | eauto].
Qed.

Lemma inv_found (s : session) (name : string) (b : builtin) :
  inv limit s -> find_builtin name (ss_shell s) = Some b ->
  callable b = true /\ name = CMD_NAME.
Proof. intros Hinv Hf. apply (find_in_table _ _ _ (inv_table _ _ Hinv) Hf). Qed.

Lemma step_inv (s : session) (e : event) (st : state) :
  inv limit s -> step true limit s e st -> exists s', st = Running s' /\ inv limit s'.
Proof.
  intros Hinv Hs.
  destruct Hs as [s r sh' He|s h lname r sh' He|s ts Hn Hle Hl|s name args Hf
                 |s name args b r sh' Hf Hc Hr|s name args b u sh' Hf Hc Hr].
  - eauto using inv_enabled.
  - destruct (inv_loaded true s h lname Hinv) as (r0 & sh0 & Hrun & Hi).
    rewrite Hrun in He. injection He as <- <-. eauto.
  - eauto using inv_ticked.
  - eauto using inv_not_found.
  - destruct (inv_found s name b Hinv Hf) as [_ ->].
    destruct (inv_invoke s args Hinv) as (r0 & sh0 & Hrun & Hi).
    rewrite Hrun in Hr. injection Hr as <- <-. eauto.
  - destruct (inv_found s name b Hinv Hf) as [_ ->].
    destruct (inv_invoke s args Hinv) as (r0 & sh0 & Hrun & Hi).
    rewrite Hrun in Hr. discriminate.
Qed.

Lemma reachable_inv (st : state) :
  reachable true limit st -> exists s, st = Running s /\ inv limit s.
Proof.
  induction 1 as [|s e st Hreach IH Hstep]; [eauto using inv_initial|].
  destruct IH as (s0 & [= <-] & Hinv). eapply step_inv; eauto.
Qed.

End Invariant.

(** ** What the log says of the output *)

Lemma lines_snoc (ms : list Z) (m : Z) : lines (ms ++ [m]) = lines ms +:+ printf_lld_nl m.
Proof.
  induction ms as [|m' ms IH]; simpl.
  - apply append_nil_r.
  - rewrite IH. symmetry. apply append_assoc.
Qed.

Lemma stdout_of_lines (log : list entry) : stdout_of log = lines (printed log).
Proof.
  unfold printed. induction log as [|[[n|] m] log IH]; [reflexivity | exact IH |].
  rewrite stdout_of_cons, filter_cons_True by reflexivity. cbn [fst snd fmap list_fmap rev].
  rewrite lines_snoc, <- IH. reflexivity.
Qed.

Lemma log_bounded_filter (P : entry -> Prop) `{!forall e, Decision (P e)} (hi : Z)
  (log : list entry) :
  log_bounded hi log -> log_bounded hi (filter P log).
Proof.
  revert hi. induction log as [|e log IH]; intros hi; [trivial|].
  intros [Hb Hl]. destruct (decide (P e)) as [Hp|Hp].
  - rewrite filter_cons_True by exact Hp. split; [exact Hb | apply IH, Hl].
  - rewrite filter_cons_False by exact Hp.
    apply (log_bounded_weaken (e.2)); [lia | apply IH, Hl].
Qed.

(** A variable of the log holds the text of one of its values. *)
Lemma vars_of_lookup (log : list entry) (name : string) (v : shell_var) :
  vars_of log !! name = Some v ->
  exists m, (Some name, m) ∈ log /\ v = mk_var (fmt_lld m) false.
Proof.
  induction log as [|[[n|] m] log IH]; simpl; [rewrite lookup_empty; discriminate | |].
  - destruct (decide (n = name)) as [->|Hne].
    + rewrite lookup_insert_eq. intros [= <-]. exists m. split; [left | reflexivity].
    + rewrite lookup_insert_ne by exact Hne. intros (m' & Hin & ->)%IH.
      exists m'. split; [right; exact Hin | reflexivity].
  - intros (m' & Hin & ->)%IH. exists m'. split; [right; exact Hin | reflexivity].
Qed.

Lemma log_bounded_elem (hi : Z) (log : list entry) (e : entry) :
  log_bounded hi log -> e ∈ log -> 0 <= e.2 <= hi.
Proof.
  revert hi. induction log as [|e' log IH]; intros hi Hl Hin; [inversion Hin|].
  destruct Hl as [Hb Hl]. apply elem_of_cons in Hin as [->|Hin]; [exact Hb|].
  specialize (IH _ Hl Hin). lia.
Qed.

Lemma elem_of_rev_values (log : list entry) (m : Z) :
  m ∈ rev (snd <$> log) -> exists e, m = e.2 /\ e ∈ log.
Proof. rewrite list_elem_of_In, <- in_rev, <- list_elem_of_In. apply list_elem_of_fmap_1. Qed.

(** ** The diagnostics *)

Lemma append_nonempty (s t : string) : t <> "" -> s +:+ t <> "".
Proof. destruct s; [auto | discriminate]. Qed.

(** How a diagnostic of a session ends. *)
Lemma diag_ok_end (msg : string) :
  diag_ok msg ->
  msg = MSG_TOO_MANY \/ last_char msg = last_char ": command not found"
  \/ last_char msg = last_char " in shared object".
Proof.
  intros [->|[[name ->]|[name ->]]]; [auto | right; left | right; right].
  - apply last_char_append. discriminate.
  - unfold msg_cannot_find.
    rewrite last_char_append by (apply append_nonempty; discriminate).
    apply last_char_append. discriminate.
Qed.

(** The diagnostic of line 126 is none of them. *)
Lemma diag_ok_not_unknown (sub : string) : ~ diag_ok (msg_unknown sub).
Proof.
  intros H. assert (He : last_char (msg_unknown sub) = last_char "'").
  { unfold msg_unknown. rewrite last_char_append by (apply append_nonempty; discriminate).
    apply last_char_append. discriminate. }
  apply diag_ok_end in H as [H|[H|H]]; [discriminate H | |];
    rewrite He in H; cbv in H; discriminate H.
Qed.

(** Nor is the diagnostic of line 97. *)
Lemma diag_ok_not_unsupported : ~ diag_ok MSG_UNSUPPORTED.
Proof. intros H. apply diag_ok_end in H as [H|[H|H]]; cbv in H; discriminate H. Qed.

(** ** Runs *)

Lemma run_reachable (have_clock : bool) (limit : Z) (es : list event) (s : session) (st : state) :
  reachable have_clock limit (Running s) -> run have_clock limit s es = Some st ->
  reachable have_clock limit st.
Proof.
  revert s. induction es as [|e es IH]; intros s Hr; simpl.
  - intros [= <-]. exact Hr.
  - destruct (exec have_clock limit s e) as [[s'|u sh]|] eqn:He; [| |discriminate].
    + apply IH. eapply reach_step; [exact Hr | apply exec_to_step, He].
    + intros [= <-]. eapply reach_step; [exact Hr | apply exec_to_step, He].
Qed.

(** ** Properties *)

(** C7.  The invariant of a session: in a shell whose process clock
    exists and whose CPU time stays within [limit] seconds, with [limit] at
    most [MAX_SAFE_SEC], every reachable state is running and satisfies
    [inv]: no array of [make_builtin_argv] is left allocated, the variables
    and standard output are those the log of emitted values describes, the
    clock was read once per emitted value, the values are non-negative,
    non-decreasing and at most the CPU time, and the status of the last
    command is 0, 1 or 127. *)
Theorem session_invariant (limit : Z) (st : state) :
  0 <= limit <= MAX_SAFE_SEC -> reachable true limit st ->
  exists s, st = Running s /\ inv limit s.
Proof. intros Hl Hr. exact (reachable_inv limit Hl st Hr). Qed.

(** C22.  No session of such a shell crashes.  Compiled on a system that
    has the process clock, with whatever macros the command line defines
    (lines 6-8 and 30 make [CLOCK_PROCESS_CPUTIME_ID] visible at line 76),
    no sequence of registrations, loads by [enable -f], ticks of the
    clock and invocations, with any names and any arguments, reaches a
    state in which [timep_builtin] has left defined behaviour. *)
Theorem session_never_crashes (limit : Z) (macros : gset string) (u : ub) (sh : shell) :
  0 <= limit <= MAX_SAFE_SEC -> ~ reachable (have_clock_of true macros) limit (Crashed u sh).
Proof.
  rewrite have_clock_of_system. intros Hl Hr.
  destruct (reachable_inv limit Hl _ Hr) as (s & [=] & _).
Qed.

(** Standard output of a session is a sequence of decimal lines,
    one per value printed, and the values are non-negative, non-decreasing
    in the order printed, and at most the CPU time used: a later call
    never prints less than an earlier one. *)
Theorem session_output_sorted (limit : Z) (s : session) :
  0 <= limit <= MAX_SAFE_SEC -> reachable true limit (Running s) ->
  exists ms, sh_stdout (ss_shell s) = lines ms /\ Sorted Z.le ms /\
    Forall (fun m => 0 <= m) ms /\
    Forall (fun m => m <= micros_exact (sh_cputime (ss_shell s))) ms.
Proof.
  intros Hl Hr. destruct (reachable_inv limit Hl _ Hr) as (s0 & [= <-] & Hinv).
  pose proof (log_bounded_filter (fun e : entry => e.1 = None) _ _ (inv_log _ _ Hinv)) as Hb.
  exists (printed (ss_log s)).
  split; [rewrite (inv_stdout _ _ Hinv); apply stdout_of_lines|].
  split; [apply (log_bounded_sorted _ _ Hb)|]. unfold printed.
  split; apply Forall_forall; intros m Hm; apply elem_of_rev_values in Hm as (e & -> & He);
    apply (log_bounded_elem _ _ _ Hb He).
Qed.

(** Every variable of a session holds the decimal text of a
    non-negative value the command emitted, and is not readonly. *)
Theorem session_variables_decimal (limit : Z) (s : session) (name : string) (v : shell_var) :
  0 <= limit <= MAX_SAFE_SEC -> reachable true limit (Running s) ->
  sh_vars (ss_shell s) !! name = Some v ->
  exists m, 0 <= m <= micros_exact (sh_cputime (ss_shell s)) /\
    v = mk_var (fmt_lld m) false /\ all_digits (var_value v) = true.
Proof.
  intros Hl Hr Hv. destruct (reachable_inv limit Hl _ Hr) as (s0 & [= <-] & Hinv).
  rewrite (inv_vars _ _ Hinv) in Hv. apply vars_of_lookup in Hv as (m & Hin & ->).
  pose proof (log_bounded_elem _ _ _ (inv_log _ _ Hinv) Hin) as Hm. simpl in Hm.
  exists m. split; [exact Hm|]. split; [reflexivity|].
  apply fmt_lld_nonneg_digits. lia.
Qed.

(** C23.  The sessions above are closed: no event makes the system call
    fail, and the invariant keeps it so.  This is what the safety of a
    session rests on.  Take any state a session reaches and let the
    system call fail from then on with [errno]: the next invocation of
    the command, under the name the shell finds it by, with at most one
    argument takes the shell to [Crashed] with the second release of
    [argv] (lines 80 and 130), after the diagnostic of line 79 has been
    written and with nothing printed or assigned; with two arguments or
    more the clock is not read and the command returns
    [EXECUTION_FAILURE]. *)
Theorem session_clock_failure (limit : Z) (s : session) (name : string) (b : builtin)
  (args : list string) (errno : Z) :
  0 <= limit <= MAX_SAFE_SEC -> reachable true limit (Running s) ->
  find_builtin name (ss_shell s) = Some b ->
  ((length args <= 1)%nat ->
   exists sh',
     step true limit (clock_fails errno s) (Invoke name args)
       (Crashed (DoubleFree (call_ptr (set_command name (ss_shell (clock_fails errno s))))) sh') /\
     sh_stdout sh' = sh_stdout (ss_shell s) /\ sh_vars sh' = sh_vars (ss_shell s) /\
     sh_stderr sh' = sh_stderr (ss_shell s) ++ [MSG_FAILED +:+ shell_strerror errno]) /\
  ((2 <= length args)%nat ->
   exists s', step true limit (clock_fails errno s) (Invoke name args) (Running s') /\
     ss_status s' = EXECUTION_FAILURE).
Proof.
  intros Hl Hr Hf. destruct (reachable_inv limit Hl _ Hr) as (s0 & [= <-] & Hinv).
  destruct (inv_found limit s name b Hinv Hf) as [Hc ->].
  assert (Hn : this_command_name (set_command CMD_NAME (ss_shell (clock_fails errno s)))
               = CMD_NAME) by reflexivity.
  split; intros Hlen.
  - destruct (timep_builtin_fail_run true args _ Hn Hlen)
      as (sh' & o & Hrun & Ho & Hout & Hvars & msg & Herr & _ & Hmsg);
      [right; exists errno; reflexivity|].
    exists sh'.
    split; [apply (step_crash _ _ (clock_fails errno s) CMD_NAME args b _ sh' Hf Hc Hrun)|].
    change (o_stdout (observe sh') = sh_stdout (ss_shell s) /\
            o_vars (observe sh') = sh_vars (ss_shell s) /\
            o_stderr (observe sh') = sh_stderr (ss_shell s) ++ [MSG_FAILED +:+ strerror errno]).
    rewrite Ho, <- (Hmsg errno eq_refl eq_refl). simpl. auto.
  - destruct (timep_builtin_usage_observe true args _ Hn Hlen) as (sh' & Hrun & _).
    eexists.
    split; [apply (step_return _ _ (clock_fails errno s) CMD_NAME args b _ sh' Hf Hc Hrun)|].
    reflexivity.
Qed.

(** Without the process clock (the [#else] arm of line 96) a
    registered command cannot be used: compiled on a system without the
    clock, whatever the command line defines, once the shell finds a
    callable descriptor under [clock_gettime], however it was entered,
    the invocation with at most one argument takes the session to
    [Crashed] with the double release of [argv]. *)
Theorem session_no_clock_crashes (limit : Z) (macros : gset string) (s : session)
  (b : builtin) (args : list string) :
  find_builtin CMD_NAME (ss_shell s) = Some b -> callable b = true -> (length args <= 1)%nat ->
  exists sh', step (have_clock_of false macros) limit s (Invoke CMD_NAME args)
    (Crashed (DoubleFree (call_ptr (set_command CMD_NAME (ss_shell s)))) sh').
Proof.
  rewrite have_clock_of_system. intros Hf Hc Hlen.
  assert (Hn : this_command_name (set_command CMD_NAME (ss_shell s)) = CMD_NAME) by reflexivity.
  destruct (timep_builtin_fail_run false args _ Hn Hlen) as (sh' & o & Hrun & _); [auto|].
  exists sh'. apply (step_crash _ _ s CMD_NAME args b _ sh' Hf Hc Hrun).
Qed.

(** The rules of [step] and the function [exec] define the same
    transitions: the session can be run by evaluation. *)
Lemma step_exec (have_clock : bool) (limit : Z) (s : session) (e : event) (st : state) :
  step have_clock limit s e st <-> exec have_clock limit s e = Some st.
Proof. split; [apply step_to_exec | apply exec_to_step]. Qed.

(** C38.  In a session whose clock works the command reports nothing but
    the usage error: every diagnostic written is "clock_gettime: too many
    arguments" or the shell's own, "command not found" for a name that is
    not in the table and "cannot find NAME_struct" for a name that cannot
    be loaded.  The branches of the code that report an unsupported
    platform (line 97) or an unknown command name (line 126) are never
    taken, whatever the names invoked: the command is only ever found
    under its own name. *)
Theorem session_diagnostics (limit : Z) (s : session) (msg : string) :
  0 <= limit <= MAX_SAFE_SEC -> reachable true limit (Running s) ->
  msg ∈ sh_stderr (ss_shell s) ->
  (msg = MSG_TOO_MANY \/ (exists name, msg = msg_not_found name)
   \/ (exists name, msg = msg_cannot_find name)) /\
  msg <> MSG_UNSUPPORTED /\ forall sub, msg <> msg_unknown sub.
Proof.
  intros Hl Hr Hin. destruct (reachable_inv limit Hl _ Hr) as (s0 & [= <-] & Hinv).
  pose proof (inv_stderr _ _ Hinv) as Herr. rewrite Forall_forall in Herr.
  specialize (Herr msg Hin). split; [exact Herr|].
  split; [intros -> | intros sub ->];
    [exact (diag_ok_not_unsupported Herr) | exact (diag_ok_not_unknown sub Herr)].
Qed.

(** ** The theorems at work on a concrete session *)

Definition demo_events : list event :=
  [Load 4096 "clock_gettime"; Tick (mk_timespec 1 500000000); Invoke "clock_gettime" [];
   Tick (mk_timespec 2 250); Invoke "clock_gettime" ["T0"];
   Invoke "clock_gettime" ["a"; "b"]; Invoke "date" []; Invoke "clock_gettime" [""];
   Load 4096 "timep"; Enable; Invoke "clock_gettime" []].

Definition state_of (o : option state) : state :=
  match o with Some st => st | None => Running initial_session end.

Definition session_of (st : state) : session :=
  match st with Running s => s | Crashed _ _ => initial_session end.

Definition demo_state : state := state_of (run true 100 initial_session demo_events).

Definition demo_session : session := session_of demo_state.

Lemma demo_limit : 0 <= 100 <= MAX_SAFE_SEC.
Proof. unfold MAX_SAFE_SEC. lia. Qed.

Lemma demo_reachable : reachable true 100 demo_state.
Proof.
  apply (run_reachable true 100 demo_events initial_session);
    [constructor | vm_compute; reflexivity].
Qed.

Lemma demo_state_running : demo_state = Running demo_session.
Proof. vm_compute. reflexivity. Qed.

Lemma demo_session_reachable : reachable true 100 (Running demo_session).
Proof. rewrite <- demo_state_running. exact demo_reachable. Qed.

Lemma session_invariant_witness : exists s, demo_state = Running s /\ inv 100 s.
Proof. apply (session_invariant 100 demo_state demo_limit demo_reachable). Defined.

Lemma session_never_crashes_witness :
  ~ reachable (have_clock_of true {[ "SHELL" ]}) 100 (Crashed SignedOverflow initial_shell).
Proof.
  apply (session_never_crashes 100 {[ "SHELL" ]} SignedOverflow initial_shell demo_limit).
Defined.

Lemma session_output_sorted_witness :
  exists ms, sh_stdout (ss_shell demo_session) = lines ms /\ Sorted Z.le ms /\
    Forall (fun m => 0 <= m) ms /\
    Forall (fun m => m <= micros_exact (sh_cputime (ss_shell demo_session))) ms.
Proof. apply (session_output_sorted 100 demo_session demo_limit demo_session_reachable). Defined.

Lemma session_variables_decimal_witness :
  exists m, 0 <= m <= micros_exact (sh_cputime (ss_shell demo_session)) /\
    mk_var "2000000" false = mk_var (fmt_lld m) false /\
    all_digits (var_value (mk_var "2000000" false)) = true.
Proof.
  apply (session_variables_decimal 100 demo_session "T0" (mk_var "2000000" false)
           demo_limit demo_session_reachable).
  vm_compute. reflexivity.
Defined.

Lemma session_diagnostics_witness :
  (MSG_TOO_MANY = MSG_TOO_MANY \/ (exists name, MSG_TOO_MANY = msg_not_found name)
   \/ (exists name, MSG_TOO_MANY = msg_cannot_find name)) /\
  MSG_TOO_MANY <> MSG_UNSUPPORTED /\ forall sub, MSG_TOO_MANY <> msg_unknown sub.
Proof.
  apply (session_diagnostics 100 demo_session MSG_TOO_MANY demo_limit demo_session_reachable).
  vm_compute. apply list_elem_of_here.
Defined.

Lemma session_clock_failure_witness :
  ((length ["T1"] <= 1)%nat ->
   exists sh',
     step true 100 (clock_fails EINVAL demo_session) (Invoke "clock_gettime" ["T1"])
       (Crashed (DoubleFree (call_ptr (set_command "clock_gettime"
                                          (ss_shell (clock_fails EINVAL demo_session))))) sh') /\
     sh_stdout sh' = sh_stdout (ss_shell demo_session) /\
     sh_vars sh' = sh_vars (ss_shell demo_session) /\
     sh_stderr sh' = sh_stderr (ss_shell demo_session)
                     ++ [MSG_FAILED +:+ shell_strerror EINVAL]) /\
  ((2 <= length ["T1"])%nat ->
   exists s', step true 100 (clock_fails EINVAL demo_session) (Invoke "clock_gettime" ["T1"])
                (Running s') /\
     ss_status s' = EXECUTION_FAILURE).
Proof.
  apply (session_clock_failure 100 demo_session "clock_gettime" clock_gettime_struct ["T1"]
           EINVAL demo_limit demo_session_reachable).
  vm_compute. reflexivity.
Defined.

Lemma session_no_clock_crashes_witness :
  exists sh', step (have_clock_of false {[ "SHELL" ]}) 100 demo_session (Invoke CMD_NAME [])
    (Crashed (DoubleFree (call_ptr (set_command CMD_NAME (ss_shell demo_session)))) sh').
Proof.
  apply (session_no_clock_crashes 100 {[ "SHELL" ]} demo_session clock_gettime_struct []);
    [vm_compute; reflexivity | reflexivity | simpl; lia].
Defined.
