(* ===== verification/Stopwatch.v ===== *)
(** * Stopwatch: two readings and their difference

    The command exists to time a piece of shell code: read the clock
    into one variable, run the code, read the clock into another, and
    subtract.  This file follows that use through all the parts of the
    model: the session of [Session], the entry point of [Builtin], the
    conversion of [Micros], the text of [Decimal] and the variables of
    the shell.

    [stopwatch a b ts] is the sequence of events; the theorem shows that
    in every session it runs to the end, that the two variables then hold
    decimal texts that read back as numbers, and that the difference of
    the two numbers is the CPU time used in between, in microseconds, to
    within one microsecond. *)

From stdpp Require Import gmap strings list.
From S2P Require Import Prelude Int64 Micros Decimal CString Heap Host Shell ClockGettime Builtin.
From S2P Require Import TranslationUnit Loader Session.

#[local] Open Scope Z_scope.

(** [clock_gettime a; ...; clock_gettime b], the process having used the
    CPU time [ts] when the second command runs. *)
Definition stopwatch (a b : string) (ts : timespec) : list event :=
  [Invoke CMD_NAME [a]; Tick ts; Invoke CMD_NAME [b]].

(** The number a variable holds, as [$((name))] reads it. *)
Definition read_var (sh : shell) (name : string) : option Z :=
  match sh_vars sh !! name with
  | Some v => parse_lld (var_value v)
  | None => None
  end.

Section Stopwatch.
Variable limit : Z.
Hypothesis limit_ok : 0 <= limit <= MAX_SAFE_SEC.

(** One reading into a variable: the session goes on, the log has the
    microseconds of the clock at its head, and the clock and the table
    of builtins are as before. *)
Lemma invoke_assigns (s : session) (b0 : builtin) (a : string) :
  inv limit s -> find_builtin CMD_NAME (ss_shell s) = Some b0 -> arg_nonempty a = true ->
  exists s1, exec true limit s (Invoke CMD_NAME [a]) = Some (Running s1) /\
    inv limit s1 /\
    ss_log s1 = (Some a, micros_exact (sh_cputime (ss_shell s))) :: ss_log s /\
    sh_cputime (ss_shell s1) = sh_cputime (ss_shell s) /\
    sh_builtins (ss_shell s1) = sh_builtins (ss_shell s).
Proof.
  intros Hinv Hf Ha.
  destruct (inv_found limit s CMD_NAME b0 Hinv Hf) as [Hc _].
  destruct (inv_success limit limit_ok s [a] Hinv) as (sh' & Hrun & Hi); [simpl; lia|].
  exists (returned s [a] EXECUTION_SUCCESS sh'). cbn [exec]. rewrite Hf, Hc, Hrun.
  split; [reflexivity|]. split; [exact Hi|].
  pose proof (inv_time _ _ Hinv) as [Hn Hs].
  pose proof (call_shell _ _ _ _ _ Hrun) as Hsh.
  split; [|split; [rewrite Hsh | rewrite Hsh]; reflexivity].
  unfold returned. cbn [ss_log].
  rewrite (log_read_success _ _ _ (micros_exact (sh_cputime (ss_shell s))))
    by (apply micros_defined; [exact Hn | lia]).
  unfold target_of. rewrite Ha. reflexivity.
Qed.

(** A reading of the session's clock converts to a 64-bit value. *)
Lemma reading_in_range (t : timespec) :
  normalized t -> 0 <= tv_sec t <= limit -> I64.in_range (micros_exact t).
Proof.
  intros Hn Hs. apply (micros_of_timespec_in_range t), micros_defined; [exact Hn | lia].
Qed.

(** The variables of a session whose log starts with two assignments. *)
Lemma vars_of_two (a b : string) (m0 m1 : Z) (log : list entry) :
  a <> b ->
  vars_of ((Some b, m1) :: (Some a, m0) :: log) !! a = Some (mk_var (fmt_lld m0) false) /\
  vars_of ((Some b, m1) :: (Some a, m0) :: log) !! b = Some (mk_var (fmt_lld m1) false).
Proof.
  intros Hne. rewrite !vars_of_cons. cbn [fst snd]. split.
  - rewrite lookup_insert_ne by congruence. apply lookup_insert_eq.
  - apply lookup_insert_eq.
Qed.

(** Two readings in order differ by the time between them, to within one
    microsecond. *)
Lemma micros_exact_elapsed (t0 t1 : timespec) :
  normalized t0 -> normalized t1 -> ts_le t0 t1 ->
  0 <= micros_exact t1 - micros_exact t0 /\
  -1000 < 1000 * (micros_exact t1 - micros_exact t0) - (ts_nanos t1 - ts_nanos t0) < 1000.
Proof.
  intros H0 H1 Hle.
  pose proof (micros_exact_monotone t0 t1 H0 H1 Hle).
  pose proof (micros_exact_floor t0 H0). pose proof (micros_exact_floor t1 H1). lia.
Qed.

(** The whole sequence, in a session that satisfies the invariant. *)
Lemma stopwatch_run (s : session) (b0 : builtin) (a b : string) (ts : timespec) :
  inv limit s -> find_builtin CMD_NAME (ss_shell s) = Some b0 ->
  arg_nonempty a = true -> arg_nonempty b = true ->
  tick_ok limit (ss_shell s) ts = true ->
  exists s', run true limit s (stopwatch a b ts) = Some (Running s') /\ inv limit s' /\
    ss_log s' = (Some b, micros_exact ts)
                :: (Some a, micros_exact (sh_cputime (ss_shell s))) :: ss_log s.
Proof.
  intros Hinv Hf Ha Hb Ht.
  destruct (invoke_assigns s b0 a Hinv Hf Ha) as (s1 & E1 & Hi1 & Hl1 & Hc1 & Hb1).
  assert (Ht1 : tick_ok limit (ss_shell s1) ts = true) by (unfold tick_ok; rewrite Hc1; exact Ht).
  pose proof Ht1 as (Hn & Hle & Hlim)%tick_ok_spec.
  pose proof (inv_ticked limit s1 ts Hi1 Hn Hle Hlim) as Hi2.
  destruct (invoke_assigns (ticked s1 ts) b0 b Hi2) as (s' & E3 & Hi3 & Hl3 & _ & _);
    [cbn; unfold shell_find_builtin in *; cbn; rewrite Hb1; exact Hf | exact Hb |].
  assert (E2 : exec true limit s1 (Tick ts) = Some (Running (ticked s1 ts)))
    by (cbn [exec]; rewrite Ht1; reflexivity).
  exists s'. unfold stopwatch. cbn [run]. rewrite E1. cbn [run]. rewrite E2. cbn [run].
  rewrite E3. split; [reflexivity|]. split; [exact Hi3|]. rewrite Hl3.
  cbn [ticked ss_log ss_shell].
  rewrite Hl1. reflexivity.
Qed.

End Stopwatch.

(** C30.  The stopwatch.  In every session of a shell with a working
    clock in which the command is found, reading the clock into [a],
    using CPU time up to [ts] and reading the clock into [b] runs to the
    end and leaves the session running; afterwards both variables hold
    decimal texts that read back as numbers, the
    second is not less than the first, and a thousand times their
    difference is within 1000 of the nanoseconds of CPU time used in
    between: the difference is the time, in microseconds, to within
    one. *)
Theorem session_stopwatch (limit : Z) (s : session) (b0 : builtin) (a b : string)
  (ts : timespec) :
  0 <= limit <= MAX_SAFE_SEC -> reachable true limit (Running s) ->
  find_builtin CMD_NAME (ss_shell s) = Some b0 ->
  arg_nonempty a = true -> arg_nonempty b = true -> a <> b ->
  tick_ok limit (ss_shell s) ts = true ->
  exists s' m0 m1,
    run true limit s (stopwatch a b ts) = Some (Running s') /\
    read_var (ss_shell s') a = Some m0 /\ read_var (ss_shell s') b = Some m1 /\
    0 <= m1 - m0 /\
    -1000 < 1000 * (m1 - m0) - (ts_nanos ts - ts_nanos (sh_cputime (ss_shell s))) < 1000.
Proof.
  intros Hl Hr Hf Ha Hb Hne Ht.
  destruct (reachable_inv limit Hl _ Hr) as (s0 & [= <-] & Hinv).
  destruct (stopwatch_run limit Hl s b0 a b ts Hinv Hf Ha Hb Ht) as (s' & Hrun & Hi & Hlog).
  pose proof Ht as (Hn & Hle & Hlim)%tick_ok_spec.
  pose proof (inv_time _ _ Hinv) as [Hn0 Hs0].
  destruct (vars_of_two a b (micros_exact (sh_cputime (ss_shell s))) (micros_exact ts)
              (ss_log s) Hne) as [Va Vb].
  exists s', (micros_exact (sh_cputime (ss_shell s))), (micros_exact ts).
  split; [exact Hrun|]. unfold read_var. rewrite (inv_vars _ _ Hi), Hlog, Va, Vb. cbn [var_value].
  split; [|split; [|apply micros_exact_elapsed; assumption]];
    apply fmt_lld_parse, (reading_in_range limit Hl); try assumption.
  unfold ts_le in Hle. lia.
Qed.

Lemma session_stopwatch_witness :
  exists s' m0 m1,
    run true 100 demo_session (stopwatch "T0" "T1" (mk_timespec 3 999)) = Some (Running s') /\
    read_var (ss_shell s') "T0" = Some m0 /\ read_var (ss_shell s') "T1" = Some m1 /\
    0 <= m1 - m0 /\
    -1000 < 1000 * (m1 - m0)
            - (ts_nanos (mk_timespec 3 999) - ts_nanos (sh_cputime (ss_shell demo_session)))
          < 1000.
Proof.
  eapply (session_stopwatch 100 demo_session _ "T0" "T1" (mk_timespec 3 999)).
  - exact demo_limit.
  - exact demo_session_reachable.
  - vm_compute. reflexivity.
  - reflexivity.
  - reflexivity.
  - discriminate.
  - vm_compute. reflexivity.
Defined.

(** The same sequence by computation: 2.00000025 s before, 3.000000999 s
    after, a difference of 1000000 microseconds. *)
Example stopwatch_demo :
  (fun st => (read_var (ss_shell (session_of st)) "T0", read_var (ss_shell (session_of st)) "T1"))
    (state_of (run true 100 demo_session (stopwatch "T0" "T1" (mk_timespec 3 999))))
  = (Some 2000000, Some 3000000).
Proof. vm_compute. reflexivity. Qed.
