(* ===== verification/Visible.v ===== *)
(** * Visible: the command does not depend on addresses

    The heap of the model keeps the address of every block that was
    ever allocated, and the observation counts the reads of the clock:
    two shells that have run a different number of commands are
    different states, although no script can tell them apart.  This file
    defines what can be told apart, as an equivalence [≡] on
    observations, shells and outcomes: the variables, the two output
    channels and the set of allocated blocks; not the addresses of
    released blocks, not the address [make_builtin_argv] returns next,
    not the number of clock reads.

    The operations of lines 66-101 respect the equivalence ([Proper]
    instances, on observations), and so does the whole entry point
    ([timep_builtin_visible]): run in equivalent worlds it returns the
    same status and leaves equivalent worlds, or ends in the same kind
    of undefined behaviour.  No address reaches a variable, the output
    or a diagnostic.  The allocation of line 118 and the release of
    line 130 do not respect the equivalence one by one, since each
    names an address; the run as a whole does, and is proved from
    [Run.expected_obs].

    On the shell of [Shell] this makes [timep_builtin] a morphism of
    [≡] ([timep_builtin_proper]), and with the morphisms of the
    monad's combinators so are [setup_builtin_timep], [enable -f], the
    step function of a session and a whole run ([exec_proper],
    [run_proper]): rewriting with [≡] under them is sound
    ([timep_builtin_litter], [run_litter]).  Assigning a reading to a
    variable twice leaves what assigning it once leaves
    ([assign_twice]). *)

From stdpp Require Import gmap strings list.
From S2P Require Import Prelude Int64 Micros Decimal CString Heap Host Shell ClockGettime Builtin.
From S2P Require Import Run TranslationUnit Loader Session.

#[local] Open Scope Z_scope.
#[local] Open Scope timep_scope.

(** The kind of an undefined behaviour: [ub] without the address. *)
Inductive ub_kind : Type :=
| KDoubleFree
| KReadOutOfBounds (i : nat)
| KSignedOverflow.

Definition kind_of (u : ub) : ub_kind :=
  match u with
  | DoubleFree _ => KDoubleFree
  | ReadOutOfBounds i => KReadOutOfBounds i
  | SignedOverflow => KSignedOverflow
  end.

(** The texts of an observation: what lines 66-101 read and write. *)
Definition texts (o : obs) : gmap string shell_var * string * list string :=
  (o_vars o, o_stdout o, o_stderr o).

(** Two observations show the same: the same texts and the same
    allocated blocks. *)
#[export] Instance obs_visible : Equiv obs := fun o1 o2 =>
  texts o1 = texts o2 /\ live_blocks (o_heap o1) = live_blocks (o_heap o2).

(** Two results are the same: the same status, or the same kind of
    undefined behaviour. *)
Definition same_result (r1 r2 : Z + ub) : Prop :=
  match r1, r2 with
  | inl a, inl b => a = b
  | inr u1, inr u2 => kind_of u1 = kind_of u2
  | _, _ => False
  end.

(** Shells: the same observation, and the same clock, command name and
    table of builtins. *)
#[export] Instance shell_visible : Equiv shell := fun s1 s2 =>
  shell_observe s1 ≡ shell_observe s2 /\ shell_env s1 = shell_env s2.

(** Outcomes: the same result, and equivalent shells when the run
    returns. *)
#[export] Instance outcome_visible {A : Type} : Equiv (outcome shell ub A) := fun o1 o2 =>
  match o1, o2 with
  | Done a s1, Done b s2 => a = b /\ s1 ≡ s2
  | Undef u1 _, Undef u2 _ => kind_of u1 = kind_of u2
  | _, _ => False
  end.

(** Sessions: equivalent shells, the same status and the same log. *)
#[export] Instance session_visible : Equiv session := fun s1 s2 =>
  ss_shell s1 ≡ ss_shell s2 /\ ss_status s1 = ss_status s2 /\ ss_log s1 = ss_log s2.

(** States of a session: both running and equivalent, or both crashed
    by the same kind of undefined behaviour. *)
#[export] Instance state_visible : Equiv state := fun st1 st2 =>
  match st1, st2 with
  | Running s1, Running s2 => s1 ≡ s2
  | Crashed u1 _, Crashed u2 _ => kind_of u1 = kind_of u2
  | _, _ => False
  end.

(** ** The equivalences *)

#[export] Instance obs_visible_equivalence : Equivalence (≡@{obs}).
Proof.
  split.
  - intros o. split; reflexivity.
  - intros o1 o2 [Ht Hl]. split; symmetry; assumption.
  - intros o1 o2 o3 [Ht Hl] [Ht' Hl']. split; etrans; eassumption.
Qed.

#[export] Instance shell_visible_equivalence : Equivalence (≡@{shell}).
Proof.
  split.
  - intros s. split; reflexivity.
  - intros s1 s2 [Ho He]. split; symmetry; assumption.
  - intros s1 s2 s3 [Ho He] [Ho' He']. split; etrans; eassumption.
Qed.

#[export] Instance same_result_equivalence : Equivalence same_result.
Proof.
  split.
  - intros [a|u]; reflexivity.
  - intros [a|u] [b|v]; simpl; intros Hr; (contradiction || symmetry; exact Hr).
  - intros [a|u] [b|v] [c|x]; simpl; intros H1 H2; (contradiction || etrans; eassumption).
Qed.

#[export] Instance outcome_visible_equivalence {A : Type} :
  Equivalence (≡@{outcome shell ub A}).
Proof.
  split.
  - intros [a s|u s]; [split|]; reflexivity.
  - intros [a s|u s] [b s'|v s']; try contradiction;
      [intros [-> Hs]; split; [reflexivity | symmetry; exact Hs] | intros Hk; symmetry; exact Hk].
  - intros [a s|u s] [b s'|v s'] [c s''|x s'']; try contradiction;
      [intros [-> H1] [-> H2]; split; [reflexivity | etrans; eassumption]
      | intros H1 H2; etrans; eassumption].
Qed.

#[export] Instance session_visible_equivalence : Equivalence (≡@{session}).
Proof.
  split.
  - intros s. split; [|split]; reflexivity.
  - intros s1 s2 (Hs & Hr & Hl). split; [|split]; symmetry; assumption.
  - intros s1 s2 s3 (Hs & Hr & Hl) (Hs' & Hr' & Hl'). split; [|split]; etrans; eassumption.
Qed.

#[export] Instance state_visible_equivalence : Equivalence (≡@{state}).
Proof.
  split.
  - intros [s|u sh]; [change (s ≡ s)|]; reflexivity.
  - intros [s|u sh] [s'|v sh']; try contradiction; intros Hs;
      [change (s' ≡ s) | change (kind_of v = kind_of u)]; symmetry; exact Hs.
  - intros [s|u sh] [s'|v sh'] [s''|x sh'']; try contradiction; intros H1 H2;
      [change (s ≡ s'') | change (kind_of u = kind_of x)]; etrans; eassumption.
Qed.

(** ** The operations on observations respect the equivalence *)

(** An operation that computes new texts from the old ones and leaves
    the heap alone respects the equivalence. *)
Lemma textual_proper (f : obs -> obs) :
  (forall o o', texts o = texts o' -> texts (f o) = texts (f o')) ->
  (forall o, o_heap (f o) = o_heap o) ->
  Proper ((≡) ==> (≡)) f.
Proof.
  intros Ht Hh o1 o2 [Hto Hl]. split; [apply Ht, Hto | rewrite !Hh; exact Hl].
Qed.

#[export] Instance obs_builtin_error_proper (msg : string) :
  Proper ((≡) ==> (≡)) (obs_builtin_error msg).
Proof. apply textual_proper; [intros [] [] [= -> -> ->] | intros []]; reflexivity. Qed.

#[export] Instance obs_write_stdout_proper (s : string) :
  Proper ((≡) ==> (≡)) (obs_write_stdout s).
Proof. apply textual_proper; [intros [] [] [= -> -> ->] | intros []]; reflexivity. Qed.

#[export] Instance obs_clock_read_proper : Proper ((≡) ==> (≡)) obs_clock_read.
Proof. apply textual_proper; [intros [] [] [= -> -> ->] | intros []]; reflexivity. Qed.

#[export] Instance obs_bind_variable_proper (name value : string) :
  Proper ((≡) ==> (≡)) (obs_bind_variable name value).
Proof.
  apply textual_proper; [|intros o; apply obs_bind_variable_frame].
  intros [] [] [= -> -> ->]. unfold obs_bind_variable, is_readonly. simpl.
  destruct (_ !! name) as [[? []]|]; reflexivity.
Qed.

#[export] Instance obs_emit_proper (v : option string) (m : Z) :
  Proper ((≡) ==> (≡)) (obs_emit v m).
Proof. destruct v; simpl; apply _. Qed.

(** ** A whole run *)

(** The array allocated for a call and released at its end leaves the
    blocks that were allocated before. *)
Lemma live_blocks_bracket (o o' : obs) :
  o_heap o' = o_heap (obs_alloc o).2 ->
  live_blocks (o_heap (obs_release (obs_alloc o).1 o')) = live_blocks (o_heap o).
Proof.
  intros Ho. pose proof (live_blocks_release (shell_with initial_shell o) o') as Hl.
  unfold call_ptr in Hl. cbn [observe shell_host] in Hl.
  rewrite shell_observe_with in Hl. exact (Hl Ho).
Qed.

(** The result of a run does not depend on the address of [argv],
    except that a double release names it. *)
Lemma expected_result_address (have_clock : bool) (name : string) (ws : list string)
  (c : clock_result) (p q : Z) :
  same_result (expected_result have_clock name ws c p) (expected_result have_clock name ws c q).
Proof.
  unfold expected_result, main_result, main_releases. case_run; reflexivity.
Qed.

(** The texts a run leaves are computed from the texts it found. *)
Lemma expected_obs_texts (have_clock : bool) (name : string) (ws : list string)
  (c : clock_result) (errtext : Z -> string) (o o' : obs) :
  texts o = texts o' ->
  texts (expected_obs have_clock name ws c errtext o) =
  texts (expected_obs have_clock name ws c errtext o').
Proof.
  destruct o, o'. intros [= -> -> ->].
  unfold expected_obs, expected_result, main_obs, main_result, main_releases, obs_emit,
    obs_bind_variable, is_readonly.
  case_run; cbn; try reflexivity; destruct (_ !! _) as [[? []]|]; reflexivity.
Qed.

(** A run that returns leaves the blocks that were allocated before. *)
Lemma expected_obs_live (have_clock : bool) (name : string) (ws : list string)
  (c : clock_result) (errtext : Z -> string) (o : obs) (r : Z) :
  expected_result have_clock name ws c (obs_alloc o).1 = inl r ->
  live_blocks (o_heap (expected_obs have_clock name ws c errtext o)) = live_blocks (o_heap o).
Proof.
  unfold expected_obs, expected_result, main_obs, main_result, main_releases.
  case_run; intros [=]; apply live_blocks_bracket; rewrite ?obs_emit_heap; reflexivity.
Qed.

(** Run on observations that show the same, a run that returns leaves
    observations that show the same. *)
Lemma expected_obs_visible (have_clock : bool) (name : string) (ws : list string)
  (c : clock_result) (errtext : Z -> string) (o1 o2 : obs) (r : Z) :
  expected_result have_clock name ws c (obs_alloc o1).1 = inl r -> o1 ≡ o2 ->
  expected_obs have_clock name ws c errtext o1 ≡ expected_obs have_clock name ws c errtext o2.
Proof.
  intros Hr [Ht Hl]. split; [apply expected_obs_texts, Ht|].
  pose proof (expected_result_address have_clock name ws c (obs_alloc o1).1 (obs_alloc o2).1)
    as Hs.
  rewrite Hr in Hs. destruct (expected_result _ _ _ _ (obs_alloc o2).1) as [r'|] eqn:Hr';
    [|contradiction].
  rewrite (expected_obs_live _ _ _ _ _ _ _ Hr), (expected_obs_live _ _ _ _ _ _ _ Hr').
  exact Hl.
Qed.

(** C20.  The address of [argv] does not reach what a script can see.  Run in
    two worlds, of any two hosts, that show the same up to the addresses
    of their blocks, [timep_builtin] ends with the same status or in the
    same kind of undefined behaviour, and when it returns the worlds it
    leaves show the same. *)
Theorem timep_builtin_visible {W1 W2 : Type} `{HostLaws W1} `{HostLaws W2}
  (have_clock : bool) (ws : list string) (w1 : W1) (w2 : W2) :
  observe w1 ≡ observe w2 -> next_clock w1 = next_clock w2 ->
  this_command_name w1 = this_command_name w2 ->
  (forall errno, strerror (W:=W1) errno = strerror (W:=W2) errno) ->
  same_result (result_of (timep_builtin have_clock ws w1))
              (result_of (timep_builtin have_clock ws w2)) /\
  (is_done (timep_builtin have_clock ws w1) = true ->
   observe (world_of (timep_builtin have_clock ws w1)) ≡
   observe (world_of (timep_builtin have_clock ws w2))).
Proof.
  intros Ho Hc Hn He.
  destruct (timep_builtin_total have_clock ws w1) as [Hr1 ->].
  destruct (timep_builtin_total have_clock ws w2) as [Hr2 ->].
  rewrite Hr1, Hr2, <- Hc, <- Hn. split; [apply expected_result_address|].
  intros Hd. rewrite <- (expected_obs_ext _ _ _ _ _ _ _ He).
  destruct (timep_builtin have_clock ws w1) as [r w|u w]; [|discriminate].
  apply (expected_obs_visible _ _ _ _ _ _ _ r); [symmetry; exact Hr1 | exact Ho].
Qed.

(** ** The shell *)

Lemma shell_with_proper (s1 s2 : shell) (o1 o2 : obs) :
  shell_env s1 = shell_env s2 -> o1 ≡ o2 -> shell_with s1 o1 ≡ shell_with s2 o2.
Proof. intros He Ho. split; [rewrite !shell_observe_with; exact Ho | exact He]. Qed.

(** A change of the observation by an operation that respects the
    equivalence. *)
Lemma observed_proper (f : obs -> obs) :
  Proper ((≡) ==> (≡)) f ->
  Proper ((≡) ==> (≡)) (fun s : shell => shell_with s (f (shell_observe s))).
Proof. intros Hf s1 s2 [Ho He]. apply shell_with_proper; [exact He | apply Hf, Ho]. Qed.

(** A change of the shell's own state. *)
Lemma env_proper (g : shell -> shell) :
  (forall s, shell_observe (g s) = shell_observe s) ->
  (forall s s', shell_env s = shell_env s' -> shell_env (g s) = shell_env (g s')) ->
  Proper ((≡) ==> (≡)) g.
Proof. intros Ho Hg s1 s2 [Hs He]. split; [rewrite !Ho; exact Hs | apply Hg, He]. Qed.

#[export] Instance builtin_error_proper (msg : string) :
  Proper ((≡) ==> (≡)) (builtin_error (W:=shell) msg).
Proof. apply (observed_proper (obs_builtin_error msg)), _. Qed.

#[export] Instance set_command_proper (name : string) : Proper ((≡) ==> (≡)) (set_command name).
Proof.
  apply env_proper; [reflexivity|].
  intros [] [] [= -> -> _ ->]. reflexivity.
Qed.

#[export] Instance set_cputime_proper (ts : timespec) : Proper ((≡) ==> (≡)) (set_cputime ts).
Proof.
  apply env_proper; [reflexivity|].
  intros [] [] [= _ -> -> ->]. reflexivity.
Qed.

#[export] Instance set_builtins_proper (f : list builtin -> list builtin) :
  Proper ((≡) ==> (≡)) (set_builtins f).
Proof.
  apply env_proper; [reflexivity|].
  intros [] [] [= -> -> -> ->]. reflexivity.
Qed.

(** ** Computations on the shell *)

#[export] Instance ret_proper {A : Type} (a : A) : Proper ((≡) ==> (≡)) (ret (W:=shell) (U:=ub) a).
Proof. intros s1 s2 Hs. split; [reflexivity | exact Hs]. Qed.

#[export] Instance modify_proper (g : shell -> shell) :
  Proper ((≡) ==> (≡)) g -> Proper ((≡) ==> (≡)) (modify (U:=ub) g).
Proof. intros Hg s1 s2 Hs. split; [reflexivity | apply Hg, Hs]. Qed.

#[export] Instance bind_proper {A B : Type} (m : M shell ub A) (k : A -> M shell ub B) :
  Proper ((≡) ==> (≡)) m -> (forall a, Proper ((≡) ==> (≡)) (k a)) ->
  Proper ((≡) ==> (≡)) (bind m k).
Proof.
  intros Hm Hk s1 s2 Hs. unfold bind. specialize (Hm s1 s2 Hs).
  destruct (m s1) as [a w1|u w1], (m s2) as [b w2|v w2]; try contradiction; [|exact Hm].
  destruct Hm as [<- Hw]. apply Hk, Hw.
Qed.

(** The entry point is a morphism of the equivalence of shells. *)
#[export] Instance timep_builtin_proper (have_clock : bool) (ws : list string) :
  Proper ((≡) ==> (≡)) (timep_builtin (W:=shell) have_clock ws).
Proof.
  intros s1 s2 [Ho He].
  pose proof (timep_builtin_preserves shell_env have_clock ws s1) as E1.
  pose proof (timep_builtin_preserves shell_env have_clock ws s2) as E2.
  destruct (timep_builtin_visible have_clock ws s1 s2) as [Hr Hw];
    [exact Ho
    | injection He as Ht Hn _ _; cbn; unfold shell_next_clock; rewrite Ht, Hn; reflexivity
    | injection He as _ _ Hc _; exact Hc | reflexivity |].
  destruct (timep_builtin have_clock ws s1) as [a w1|u w1],
           (timep_builtin have_clock ws s2) as [b w2|v w2]; try contradiction; [|exact Hr].
  split; [exact Hr|]. split; [apply Hw; reflexivity|].
  cbn [world_of] in E1, E2. rewrite E1, E2. exact He.
Qed.

#[export] Instance setup_builtin_timep_proper :
  Proper ((≡) ==> (≡)) (setup_builtin_timep (W:=shell)).
Proof.
  unfold setup_builtin_timep. apply bind_proper; [|intros _; apply _].
  apply modify_proper, set_builtins_proper.
Qed.

(** The only function the object file exports is the registration. *)
Lemma dlsym_function (u : list decl) (name : string) (f : M shell ub Z) :
  dlsym u name = Some (SymFunction f) -> f = setup_builtin_timep.
Proof.
  unfold dlsym, object_value, function_value. intros Hd.
  repeat case_match; simplify_eq/=; reflexivity.
Qed.

#[export] Instance run_load_function_proper (u : list decl) (name : string) :
  Proper ((≡) ==> (≡)) (run_load_function u name).
Proof.
  unfold run_load_function.
  destruct (dlsym u (load_symbol name)) as [[b|f]|] eqn:Hd; try apply _.
  rewrite (dlsym_function _ _ _ Hd). apply bind_proper; [|intros r]; apply _.
Qed.

#[export] Instance enable_f_proper (u : list decl) (handle : Z) (name : string) :
  Proper ((≡) ==> (≡)) (enable_f u handle name).
Proof.
  unfold enable_f, do_builtin_error.
  destruct (dlsym u (struct_symbol name)) as [[b|f]|];
    [apply bind_proper; [apply _ | intros []] |..]; apply _.
Qed.

(** ** Sessions *)

Lemma visible_env (s1 s2 : session) : s1 ≡ s2 -> shell_env (ss_shell s1) = shell_env (ss_shell s2).
Proof. intros [[_ He] _]. exact He. Qed.

(** The step function takes equivalent sessions to equivalent
    states. *)
#[export] Instance exec_proper (have_clock : bool) (limit : Z) :
  Proper ((≡) ==> (=) ==> (≡)) (exec have_clock limit).
Proof.
  intros s1 s2 Hs e _ <-. pose proof Hs as (Hsh & Hst & Hlog).
  pose proof (visible_env _ _ Hs) as He. injection He as Ht Hn Hc Hb.
  destruct e as [|handle name|ts|name args]; cbn [exec].
  - pose proof (setup_builtin_timep_proper _ _ Hsh) as Hr.
    destruct (setup_builtin_timep (ss_shell s1)), (setup_builtin_timep (ss_shell s2));
      try contradiction; constructor.
    destruct Hr as [_ Hw]. split; [exact Hw | split; [reflexivity | exact Hlog]].
  - pose proof (enable_f_proper (timep_c have_clock) handle name _ _ Hsh) as Hr.
    destruct (enable_f _ _ _ (ss_shell s1)), (enable_f _ _ _ (ss_shell s2));
      try contradiction; constructor.
    destruct Hr as [-> Hw]. split; [exact Hw | split; [reflexivity | exact Hlog]].
  - unfold tick_ok. rewrite Ht. destruct (_ && _); constructor.
    split; [apply set_cputime_proper, Hsh | split; assumption].
  - unfold find_builtin, shell_registry, shell_find_builtin. rewrite Hb.
    destruct (find _ _) as [b|]; [destruct (callable b); [|constructor]|].
    + pose proof (timep_builtin_proper have_clock args _ _ (set_command_proper name _ _ Hsh))
        as Hr.
      destruct (timep_builtin _ _ (set_command name (ss_shell s1))),
               (timep_builtin _ _ (set_command name (ss_shell s2)));
        try contradiction; constructor; [|exact Hr].
      destruct Hr as [-> Hw]. split; [exact Hw | split; [reflexivity|]].
      unfold returned, log_read. cbn [ss_log]. rewrite Ht, Hlog. reflexivity.
    + constructor. split; [apply builtin_error_proper, Hsh | split; [reflexivity | exact Hlog]].
Qed.

(** So does a whole run. *)
#[export] Instance run_proper (have_clock : bool) (limit : Z) :
  Proper ((≡) ==> (=) ==> (≡)) (run have_clock limit).
Proof.
  intros s1 s2 Hs es _ <-. revert s1 s2 Hs.
  induction es as [|e es IH]; intros s1 s2 Hs; cbn [run]; [constructor; exact Hs|].
  pose proof (exec_proper have_clock limit _ _ Hs e e eq_refl) as He.
  destruct He as [[s1'|u1 sh1] [s2'|u2 sh2] Hst|]; try contradiction;
    [apply IH, Hst | constructor; exact Hst | constructor].
Qed.

(** ** Assigning twice *)

(** The texts after an assignment to a writable variable. *)
Lemma texts_assign (a : string) (m p : Z) (o : obs) :
  is_readonly o a = false ->
  texts (obs_release p (obs_emit (Some a) m (obs_clock_read (obs_alloc o).2))) =
  (<[a := mk_var (buf_micros m) false]> (o_vars o), o_stdout o, o_stderr o).
Proof.
  intros Hr. cbn [obs_emit]. rewrite obs_bind_variable_writable; [reflexivity | exact Hr].
Qed.

(** A variable the command has assigned is writable. *)
Lemma assigned_writable (a : string) (v : shell_var) (o : obs) (vs : gmap string shell_var) :
  o_vars o = <[a := v]> vs -> var_readonly v = false -> is_readonly o a = false.
Proof. unfold is_readonly. intros -> Hv. rewrite lookup_insert_eq. exact Hv. Qed.

(** C32.  Assigning twice.  On the shell, with the clock at the same reading,
    [clock_gettime a] run a second time returns success again and
    leaves a shell that shows what the first run left: the same
    variables, output and diagnostics, and no block allocated that was
    not before. *)
Theorem assign_twice (s : shell) (a : string) (ts : timespec) (m : Z) :
  sh_command s = CMD_NAME -> next_clock s = ClockOk ts -> micros_of_timespec ts = Some m ->
  arg_nonempty a = true -> is_readonly (observe s) a = false ->
  exists s1 s2, timep_builtin true [a] s = Done EXECUTION_SUCCESS s1 /\
    timep_builtin true [a] s1 = Done EXECUTION_SUCCESS s2 /\ s2 ≡ s1.
Proof.
  intros Hn Hc Hm Ha Hr.
  destruct (timep_builtin_success_observe [a] s ts m) as (s1 & Hrun1 & Ho1 & Hl1);
    [exact Hn | simpl; lia | exact Hc | exact Hm |].
  pose proof (call_shell _ _ _ _ _ Hrun1) as Hs1.
  destruct (timep_builtin_success_observe [a] s1 ts m) as (s2 & Hrun2 & Ho2 & Hl2);
    [rewrite Hs1; exact Hn | simpl; lia | rewrite Hs1; exact Hc | exact Hm |].
  pose proof (call_shell _ _ _ _ _ Hrun2) as Hs2.
  exists s1, s2. split; [exact Hrun1|]. split; [exact Hrun2|].
  unfold target_of in Ho1, Ho2. rewrite Ha in Ho1, Ho2.
  pose proof (texts_assign a m (call_ptr s) _ Hr) as Ht1. rewrite <- Ho1 in Ht1.
  injection Ht1 as Hv1 Hout1 Herr1.
  pose proof (texts_assign a m (call_ptr s1) (observe s1)
                (assigned_writable a _ (observe s1) _ Hv1 eq_refl)) as Ht2.
  rewrite <- Ho2 in Ht2.
  split; [split; [|exact Hl2] | rewrite Hs2, shell_env_with; reflexivity].
  change (texts (observe s2) = texts (observe s1)). rewrite Ht2.
  unfold texts. cbn [observe shell_host shell_observe o_vars o_stdout o_stderr].
  rewrite Hv1, insert_insert_eq. reflexivity.
Qed.

(** ** Released blocks *)

(** A released block at an address that was never used cannot be
    seen. *)
Lemma litter_visible (o : obs) (p : Z) :
  o_heap o !! p = None -> set_heap (insert p Freed) o ≡ o.
Proof.
  intros Hp. split; [reflexivity|]. simpl. rewrite live_blocks_insert_freed.
  apply set_eq. intros q. rewrite elem_of_difference, elem_of_singleton, elem_of_live_blocks.
  split; [tauto | intros Hq; split; [exact Hq | intros ->; congruence]].
Qed.

Lemma litter_shell (s : shell) (p : Z) :
  sh_heap s !! p = None -> shell_with s (set_heap (insert p Freed) (shell_observe s)) ≡ s.
Proof.
  intros Hp. split; [|reflexivity]. rewrite shell_observe_with. apply litter_visible, Hp.
Qed.

(** The command runs alike whatever released blocks litter the heap. *)
Corollary timep_builtin_litter (have_clock : bool) (ws : list string) (s : shell) (p : Z) :
  sh_heap s !! p = None ->
  timep_builtin have_clock ws (shell_with s (set_heap (insert p Freed) (shell_observe s)))
  ≡ timep_builtin have_clock ws s.
Proof. intros Hp. rewrite (litter_shell s p Hp). reflexivity. Qed.

(** So does a session. *)
Corollary run_litter (have_clock : bool) (limit : Z) (s : session) (p : Z) (es : list event) :
  sh_heap (ss_shell s) !! p = None ->
  run have_clock limit
    (mk_session (shell_with (ss_shell s) (set_heap (insert p Freed) (shell_observe (ss_shell s))))
       (ss_status s) (ss_log s)) es
  ≡ run have_clock limit s es.
Proof.
  intros Hp. apply run_proper; [|reflexivity].
  split; [apply litter_shell, Hp | split; reflexivity].
Qed.

(** ** The theorems at work *)

Lemma timep_builtin_visible_witness :
  let littered := shell_with demo_shell (set_heap (insert 99 Freed) (shell_observe demo_shell)) in
  same_result (result_of (timep_builtin true ["T0"] littered))
              (result_of (timep_builtin true ["T0"] demo_shell)) /\
  (is_done (timep_builtin true ["T0"] littered) = true ->
   observe (world_of (timep_builtin true ["T0"] littered)) ≡
   observe (world_of (timep_builtin true ["T0"] demo_shell))).
Proof.
  apply (timep_builtin_visible (W1:=shell) (W2:=shell) true ["T0"]);
    [apply (litter_shell demo_shell 99 eq_refl) | reflexivity | reflexivity | reflexivity].
Defined.

Lemma assign_twice_witness :
  exists s1 s2, timep_builtin true ["T0"] demo_shell = Done EXECUTION_SUCCESS s1 /\
    timep_builtin true ["T0"] s1 = Done EXECUTION_SUCCESS s2 /\ s2 ≡ s1.
Proof.
  apply (assign_twice demo_shell "T0" (sh_cputime demo_shell) (micros_exact (sh_cputime demo_shell)));
    reflexivity.
Defined.

(** The addresses differ, and nothing else, between a first and a second
    assignment. *)
Example assign_twice_addresses :
  let s1 := world_of (timep_builtin true ["T0"] demo_shell) in
  let s2 := world_of (timep_builtin true ["T0"] s1) in
  sh_vars s2 = sh_vars s1 /\ sh_heap s1 = {[1 := Freed]} /\
  sh_heap s2 = {[1 := Freed; 2 := Freed]}.
Proof. vm_compute. repeat split. Qed.
