(* ===== verification/SessionSpec.v ===== *)
(** * SessionSpec: the session the specification describes

    The specification speaks of variables, of the text printed and of
    diagnostics, not of heaps, tables and argument vectors.  This file
    gives the session at that level: a state with the abstract state of
    [Contract], the CPU time used, whether the command has been made
    available, and the last status; and one function, [spec_exec], that
    answers every event with [Contract.contract].

    The theorems relate it to the session of [Session], which runs the
    code: along the abstraction [spec_of] every step of the
    implementation is the step of the specification, and the two accept
    the same sequences of events and end in corresponding states.  This
    holds for a shell whose process clock exists and stays within the
    bound of the conversion; it is the refinement of [Contract] for one
    call, carried through registration, loading, the passing of time and
    any number of calls. *)

From stdpp Require Import gmap strings list.
From S2P Require Import Prelude Int64 Micros Decimal CString Heap Host Shell.
From S2P Require Import ClockGettime Builtin TranslationUnit Loader Contract Session.

#[local] Open Scope Z_scope.

Record spec_state : Type := mk_spec {
  sp_abs : abs_state;
  (** the CPU time the process has used *)
  sp_time : timespec;
  (** whether the command is available *)
  sp_loaded : bool;
  (** the status of the last command *)
  sp_status : Z
}.

Definition spec_initial : spec_state :=
  mk_spec (mk_abs ∅ "" []) (mk_timespec 0 0) false 0.

(** A diagnostic of the shell. *)
Definition report (msg : string) (a : abs_state) : abs_state :=
  mk_abs (a_vars a) (a_stdout a) (a_diag a ++ [msg]).

(** What the specification sees of a session. *)
Definition spec_of (s : session) : spec_state :=
  mk_spec (abstract (observe (ss_shell s))) (sh_cputime (ss_shell s))
    (bool_decide (is_Some (find_builtin CMD_NAME (ss_shell s)))) (ss_status s).

Section Spec.
Variable limit : Z.

(** One event at the level of the specification.  The command answers
    as [contract] says; any other name is not found; only the name of
    the command can be loaded. *)
Definition spec_exec (a : spec_state) (e : event) : option spec_state :=
  match e with
  | Enable => Some (mk_spec (sp_abs a) (sp_time a) true 0)
  | Load _ name =>
      if decide (name = CMD_NAME)
      then Some (mk_spec (sp_abs a) (sp_time a) true EXECUTION_SUCCESS)
      else Some (mk_spec (report (msg_cannot_find name) (sp_abs a)) (sp_time a) (sp_loaded a)
                   EXECUTION_FAILURE)
  | Tick ts =>
      if normalizedb ts && ts_leb (sp_time a) ts && (tv_sec ts <=? limit)
      then Some (mk_spec (sp_abs a) ts (sp_loaded a) (sp_status a))
      else None
  | Invoke name args =>
      if sp_loaded a && bool_decide (name = CMD_NAME) then
        r ← contract true strerror args (ClockOk (sp_time a));
        Some (mk_spec (apply_response r (sp_abs a)) (sp_time a) true (status_of r))
      else Some (mk_spec (report (msg_not_found name) (sp_abs a)) (sp_time a) (sp_loaded a)
                   COMMAND_NOT_FOUND)
  end.

Fixpoint spec_run (a : spec_state) (es : list event) : option spec_state :=
  match es with
  | [] => Some a
  | e :: es' => spec_exec a e ≫= fun a' => spec_run a' es'
  end.

(** The state of the specification that stands for a state of the
    implementation; a crash stands for nothing. *)
Definition matches (a : option spec_state) (st : option state) : Prop :=
  match st with
  | Some (Running s) => a = Some (spec_of s)
  | Some (Crashed _ _) => False
  | None => a = None
  end.

End Spec.

(** Two sessions the specification cannot tell apart: they may differ in
    the addresses of the heap, in the number of clock reads, in the log,
    in the handles and the number of the descriptors of the table. *)
Definition spec_equiv (s1 s2 : session) : Prop := spec_of s1 = spec_of s2.

(** The same for the results of a run; a crash is like nothing. *)
Definition result_equiv (st1 st2 : option state) : Prop :=
  match st1, st2 with
  | Some (Running s1), Some (Running s2) => spec_equiv s1 s2
  | None, None => True
  | _, _ => False
  end.

#[export] Instance spec_equiv_equivalence : Equivalence spec_equiv.
Proof.
  unfold spec_equiv. split; [intros s | intros s1 s2 H | intros s1 s2 s3 H1 H2]; congruence.
Qed.

#[export] Instance spec_of_proper : Proper (spec_equiv ==> eq) spec_of.
Proof. intros s1 s2 H. exact H. Qed.

(** ** The abstraction *)

Lemma spec_of_initial : spec_of initial_session = spec_initial.
Proof. reflexivity. Qed.

(** Two results that match the same state of the specification are
    equivalent. *)
Lemma matches_equiv (a : option spec_state) (st1 st2 : option state) :
  matches a st1 -> matches a st2 -> result_equiv st1 st2.
Proof.
  destruct st1 as [[s1|u1 sh1]|], st2 as [[s2|u2 sh2]|]; cbn [matches result_equiv];
    unfold spec_equiv; try tauto; congruence.
Qed.

Lemma abstract_report (msg : string) (sh : shell) :
  abstract (observe (builtin_error msg sh)) = report msg (abstract (observe sh)).
Proof. rewrite observe_builtin_error. apply abstract_builtin_error. Qed.

(** What a call leaves of the shell's own state. *)
Lemma call_env (have_clock : bool) (args : list string) (w sh' : shell) (r : Z) :
  timep_builtin have_clock args w = Done r sh' ->
  sh_cputime sh' = sh_cputime w /\ sh_builtins sh' = sh_builtins w.
Proof. intros Hrun. rewrite (call_shell _ _ _ _ _ Hrun). split; reflexivity. Qed.

Lemma spec_of_returned (s : session) (args : list string) (r : Z) (sh' : shell) (a : abs_state) :
  timep_builtin true args (set_command CMD_NAME (ss_shell s)) = Done r sh' ->
  abstract (observe sh') = a ->
  is_Some (find_builtin CMD_NAME (ss_shell s)) ->
  spec_of (returned s args r sh') = mk_spec a (sh_cputime (ss_shell s)) true r.
Proof.
  intros Hrun <- Hf. destruct (call_env _ _ _ _ _ Hrun) as [Ht Hb].
  unfold spec_of, returned. cbn [ss_shell ss_status]. rewrite Ht.
  f_equal. apply bool_decide_eq_true.
  change (find_builtin CMD_NAME sh') with (shell_find_builtin CMD_NAME sh').
  unfold shell_find_builtin. rewrite Hb. exact Hf.
Qed.

(** ** One step *)

Section Simulation.
Variable limit : Z.
Hypothesis limit_safe : 0 <= limit <= MAX_SAFE_SEC.

(** In a session that satisfies the invariant the contract answers
    every call, with a response the code implements and can write. *)
Lemma contract_answers (s : session) (args : list string) :
  inv limit s ->
  exists r, contract true strerror args (ClockOk (sh_cputime (ss_shell s))) = Some r /\
    implemented r = true /\
    writable (observe (set_command CMD_NAME (ss_shell s))) r = true.
Proof.
  intros Hinv. destruct (inv_time _ _ Hinv) as [Hn Hs].
  destruct (contract_clock_ok strerror args (sh_cputime (ss_shell s))
              (micros_exact (sh_cputime (ss_shell s)))) as (r & Hc & Hi & _);
    [apply micros_defined; [assumption | lia]|].
  exists r. split; [exact Hc|]. split; [exact Hi|].
  destruct r as [line|var value| |e]; try reflexivity. cbn [writable].
  rewrite (vars_of_readonly (ss_log s)); [reflexivity | apply (inv_vars _ _ Hinv)].
Qed.

(** A call of the command, seen from the specification. *)
Lemma invoke_matches (s : session) (args : list string) :
  inv limit s -> is_Some (find_builtin CMD_NAME (ss_shell s)) ->
  exists r sh' resp,
    timep_builtin true args (set_command CMD_NAME (ss_shell s)) = Done r sh' /\
    contract true strerror args (ClockOk (sh_cputime (ss_shell s))) = Some resp /\
    spec_of (returned s args r sh')
    = mk_spec (apply_response resp (abstract (observe (ss_shell s))))
        (sh_cputime (ss_shell s)) true (status_of resp).
Proof.
  intros Hinv Hf. destruct (contract_answers s args Hinv) as (resp & Hc & Hi & Hw).
  assert (Hn : this_command_name (set_command CMD_NAME (ss_shell s)) = CMD_NAME) by reflexivity.
  destruct (timep_builtin_implements true args (set_command CMD_NAME (ss_shell s)) resp Hn)
    as (sh' & Hrun & Ha); [|exact Hi | exact Hw|].
  { cbn. unfold shell_next_clock. cbn. rewrite (inv_errno _ _ Hinv). exact Hc. }
  exists (status_of resp), sh', resp. split; [exact Hrun|]. split; [exact Hc|].
  apply (spec_of_returned s args _ sh' _ Hrun Ha Hf).
Qed.

(** Every event: the implementation and the specification take the
    same step, refuse together, and the implementation does not crash. *)
Lemma exec_matches (s : session) (e : event) :
  inv limit s -> matches (spec_exec limit (spec_of s) e) (exec true limit s e).
Proof.
  intros Hinv. destruct e as [|h lname|ts|name args]; cbn [exec spec_exec matches].
  - reflexivity.
  - destruct (decide (lname = CMD_NAME)) as [->|Hn].
    + rewrite enable_f_known. cbn [matches]. unfold spec_of, loaded_from. cbn [ss_shell ss_status].
      f_equal. f_equal. symmetry. apply bool_decide_eq_true.
      eexists. apply find_install_same. reflexivity.
    + rewrite (enable_f_unknown true h lname _ Hn). cbn [matches].
      unfold spec_of, loaded_from. cbn [ss_shell ss_status sp_abs sp_time sp_loaded].
      rewrite abstract_report. reflexivity.
  - unfold tick_ok. cbn [spec_of sp_time].
    destruct (normalizedb ts && ts_leb (sh_cputime (ss_shell s)) ts && (tv_sec ts <=? limit));
      reflexivity.
  - destruct (find_builtin name (ss_shell s)) as [b|] eqn:Hf.
    + destruct (inv_found limit s name b Hinv Hf) as [Hc ->]. rewrite Hc.
      destruct (invoke_matches s args Hinv) as (r & sh' & resp & Hrun & Hct & Hsp);
        [rewrite Hf; eauto|].
      rewrite Hrun. cbn [matches spec_of sp_loaded sp_time sp_abs].
      rewrite Hf, bool_decide_eq_true_2 by eauto.
      rewrite bool_decide_eq_true_2 by reflexivity. cbn [andb].
      rewrite Hct. cbn [mbind option_bind]. rewrite Hsp. reflexivity.
    + cbn [matches]. unfold spec_of at 1. cbn [sp_loaded sp_abs sp_time].
      assert (Hno : bool_decide (is_Some (find_builtin CMD_NAME (ss_shell s)))
                    && bool_decide (name = CMD_NAME) = false).
      { destruct (decide (name = CMD_NAME)) as [->|Hn].
        - rewrite Hf, bool_decide_eq_false_2; [reflexivity | intros [? [=]]].
        - rewrite (bool_decide_eq_false_2 _ Hn). apply andb_false_r. }
      rewrite Hno. unfold spec_of, not_found. cbn [ss_shell ss_status].
      rewrite abstract_report. reflexivity.
Qed.

(** ** Runs *)

Lemma run_matches (es : list event) (s : session) :
  inv limit s -> matches (spec_run limit (spec_of s) es) (run true limit s es).
Proof.
  revert s. induction es as [|e es IH]; intros s Hinv; cbn [run spec_run]; [reflexivity|].
  pose proof (exec_matches s e Hinv) as He.
  destruct (exec true limit s e) as [[s'|u sh]|] eqn:Hx; cbn [matches] in He.
  - rewrite He. cbn [mbind option_bind]. apply IH.
    destruct (step_inv limit limit_safe s e _ Hinv (exec_to_step _ _ _ _ _ Hx)) as (s0 & [= <-] & Hi).
    exact Hi.
  - contradiction.
  - rewrite He. reflexivity.
Qed.

End Simulation.

(** ** Properties *)

(** C8.  The session refines its specification.  For every sequence of
    registrations, loads, ticks of the clock and invocations, in a shell
    whose process clock exists and stays within [limit] seconds, the
    session that runs the code and the session of the specification
    either both refuse the sequence or both accept it, and then the
    variables, the text printed, the diagnostics, the status and the
    availability of the command that the code leaves are those the
    specification computes; the code never crashes. *)
Theorem session_refines_spec (limit : Z) (es : list event) :
  0 <= limit <= MAX_SAFE_SEC ->
  matches (spec_run limit spec_initial es) (run true limit initial_session es).
Proof.
  intros Hl. rewrite <- spec_of_initial. apply (run_matches limit Hl), inv_initial, Hl.
Qed.

(** What a session does depends only on what the specification
    sees of it.  Two sessions with the same variables, output,
    diagnostics, CPU time, status and availability of the command, both
    satisfying the invariant, answer every sequence of events alike:
    they refuse it together or end in sessions that are again
    indistinguishable.  The addresses of the heap, the number of clock
    reads, and whether the command was entered by [setup_builtin_timep]
    or by [enable -f], once or many times, have no influence. *)
Theorem run_spec_equiv (limit : Z) (s1 s2 : session) (es : list event) :
  0 <= limit <= MAX_SAFE_SEC -> inv limit s1 -> inv limit s2 -> spec_equiv s1 s2 ->
  result_equiv (run true limit s1 es) (run true limit s2 es).
Proof.
  intros Hl H1 H2 He.
  apply (matches_equiv (spec_run limit (spec_of s1) es));
    [apply (run_matches limit Hl), H1|].
  rewrite He. apply (run_matches limit Hl), H2.
Qed.

(** ** The theorems at work on concrete sessions *)

Lemma session_refines_spec_witness :
  matches (spec_run 100 spec_initial demo_events) (run true 100 initial_session demo_events).
Proof. apply (session_refines_spec 100 demo_events demo_limit). Defined.

(** The command registered by [setup_builtin_timep], and loaded by
    [enable -f] under the handle 4096. *)
Definition enabled_session : session :=
  enabled initial_session (add_builtin clock_gettime_struct 1 initial_shell).

Definition loaded_session : session :=
  loaded_from initial_session EXECUTION_SUCCESS
    (set_builtins (install CMD_NAME (loaded 4096 clock_gettime_struct)) initial_shell).

Lemma enabled_session_inv : inv 100 enabled_session.
Proof. apply (inv_enabled 100 initial_session 0); [apply inv_initial, demo_limit | reflexivity]. Qed.

Lemma loaded_session_inv : inv 100 loaded_session.
Proof.
  destruct (inv_loaded 100 true initial_session 4096 CMD_NAME (inv_initial 100 demo_limit))
    as (r & sh' & Hrun & Hi).
  rewrite enable_f_known in Hrun. injection Hrun as <- <-. exact Hi.
Qed.

Lemma run_spec_equiv_witness :
  result_equiv (run true 100 enabled_session demo_events)
    (run true 100 loaded_session demo_events).
Proof.
  apply (run_spec_equiv 100 enabled_session loaded_session demo_events demo_limit
           enabled_session_inv loaded_session_inv).
  reflexivity.
Defined.
